(** * CareFlow analytics engine: a shallow embedding and its verified properties

    The development embeds the analytics services of the CareFlow repository
    (patientFlowService, bottleneckDetectionService, predictiveAnalyticsService,
    dataService and simulationService) as Rocq functions and proves the
    properties the specification states about them.

    Conventions of the embedding.
    - A JavaScript [number] is a value of [JSNum.num]: an exact rational, or one
      of the three special values +Infinity, -Infinity and NaN.  Arithmetic on
      finite values is exact (binary64 rounding, overflow and the sign of zero
      are abstracted away); division by zero, comparisons with NaN and the
      other special cases follow IEEE 754 as JavaScript does.
    - A JavaScript string is the list of its UTF-16 code units.
    - A timestamp string is represented by the value of
      [new Date(s).getTime()], an integer number of milliseconds.  The day of
      the week that [Date.prototype.getDay] gives for it depends on the time
      zone of the host and is a parameter [getDay] of the functions that use
      it.
    - A JavaScript [Map] is an association list in insertion order.
    - [Array.prototype.sort(comparefn)] is a stable sort.
    - [Math.sqrt] is a parameter [sqrtQ] of the functions that use it; where a
      property needs them, the facts that the square root of 0 is 0 and that
      a square root is never negative are hypotheses.
    - The rows that the services fetch from the database are arguments of the
      embedded functions; the texts they compose for display are left out. *)

From Stdlib Require Import String Ascii.
From Stdlib Require Import ZArith NArith QArith Qround Qreduction Qabs.
From Stdlib Require Qcanon.
From Stdlib Require Import List Bool Lia Lqa Sorted Permutation.
Import ListNotations.

(* ------------------------------------------------------------------ *)
(** * JavaScript numbers *)

Module JSNum.

Inductive num : Type :=
| Fin (q : Q)
| PInf
| NInf
| NaN.

(** Finite results are kept in lowest terms, so that equal numbers are
    equal terms. *)
Definition fin (q : Q) : num := Fin (Qred q).

Definition of_Z (z : Z) : num := Fin (inject_Z z).
Definition of_nat (n : nat) : num := of_Z (Z.of_nat n).
Definition zero : num := of_Z 0.

Definition Qltb (a b : Q) : bool := negb (Qle_bool b a).

Definition neg (x : num) : num :=
  match x with
  | Fin q => fin (- q)
  | PInf => NInf
  | NInf => PInf
  | NaN => NaN
  end.

Definition add (x y : num) : num :=
  match x, y with
  | NaN, _ | _, NaN => NaN
  | Fin a, Fin b => fin (a + b)
  | PInf, NInf | NInf, PInf => NaN
  | PInf, _ | _, PInf => PInf
  | NInf, _ | _, NInf => NInf
  end.

Definition sub (x y : num) : num := add x (neg y).

Definition mul (x y : num) : num :=
  match x, y with
  | NaN, _ | _, NaN => NaN
  | Fin a, Fin b => fin (a * b)
  | Fin a, PInf | PInf, Fin a =>
      match a ?= 0 with Eq => NaN | Gt => PInf | Lt => NInf end
  | Fin a, NInf | NInf, Fin a =>
      match a ?= 0 with Eq => NaN | Gt => NInf | Lt => PInf end
  | PInf, PInf | NInf, NInf => PInf
  | PInf, NInf | NInf, PInf => NInf
  end.

(** Division never fails in JavaScript: a zero divisor gives an infinity,
    or NaN for 0/0. *)
Definition div (x y : num) : num :=
  match x, y with
  | NaN, _ | _, NaN => NaN
  | Fin a, Fin b =>
      if Qeq_bool b 0
      then match a ?= 0 with Eq => NaN | Gt => PInf | Lt => NInf end
      else fin (a / b)
  | Fin _, PInf | Fin _, NInf => zero
  | PInf, Fin b => if Qltb b 0 then NInf else PInf
  | NInf, Fin b => if Qltb b 0 then PInf else NInf
  | PInf, PInf | PInf, NInf | NInf, PInf | NInf, NInf => NaN
  end.

(** [x < y], [x <= y], [x > y], [x >= y] and [x === y]; every comparison
    with NaN is false. *)
Definition ltb (x y : num) : bool :=
  match x, y with
  | NaN, _ | _, NaN => false
  | Fin a, Fin b => Qltb a b
  | NInf, Fin _ | NInf, PInf | Fin _, PInf => true
  | _, _ => false
  end.

Definition leb (x y : num) : bool :=
  match x, y with
  | NaN, _ | _, NaN => false
  | Fin a, Fin b => Qle_bool a b
  | NInf, _ | _, PInf => true
  | _, _ => false
  end.

Definition gtb (x y : num) : bool := ltb y x.
Definition geb (x y : num) : bool := leb y x.

Definition num_eqb (x y : num) : bool :=
  match x, y with
  | Fin a, Fin b => Qeq_bool a b
  | PInf, PInf | NInf, NInf => true
  | _, _ => false
  end.

(** Truthiness of a number: 0 and NaN are falsy. *)
Definition truthy (x : num) : bool :=
  match x with
  | Fin q => negb (Qeq_bool q 0)
  | PInf | NInf => true
  | NaN => false
  end.

(** [x || d] on numbers. *)
Definition or_default (x d : num) : num := if truthy x then x else d.

Definition Math_min (x y : num) : num :=
  match x, y with
  | NaN, _ | _, NaN => NaN
  | _, _ => if ltb y x then y else x
  end.

Definition Math_max (x y : num) : num :=
  match x, y with
  | NaN, _ | _, NaN => NaN
  | _, _ => if ltb x y then y else x
  end.

Definition Math_abs (x : num) : num :=
  match x with
  | Fin q => fin (Qabs q)
  | PInf | NInf => PInf
  | NaN => NaN
  end.

Definition Math_floor (x : num) : num :=
  match x with
  | Fin q => of_Z (Qfloor q)
  | _ => x
  end.

(** [Math.round] rounds to the nearest integer, halves upwards. *)
Definition Math_round (x : num) : num :=
  match x with
  | Fin q => of_Z (Qfloor (q + (1 # 2)))
  | _ => x
  end.

(** [Math.pow(x, n)] for the natural exponents the services use. *)
Fixpoint Math_pow (x : num) (n : nat) : num :=
  match n with
  | O => of_Z 1
  | S O => x
  | S n' => mul x (Math_pow x n')
  end.

(** [Math.sqrt], given the host's square root on the non-negative finite
    numbers. *)
Definition Math_sqrt (sqrtQ : Q -> Q) (x : num) : num :=
  match x with
  | Fin q => if Qltb q 0 then NaN else fin (sqrtQ q)
  | PInf => PInf
  | NInf | NaN => NaN
  end.

(** A computable square root, correct to twelve decimal places; it stands for
    the host's [Math.sqrt] when the services are run on concrete data. *)
Definition sqrt_approx (q : Q) : Q :=
  Z.sqrt (Qfloor (q * inject_Z (10 ^ 24))) # (10 ^ 12).

Definition is_fin (x : num) : Prop :=
  match x with Fin _ => True | _ => False end.

Definition sum (l : list num) : num := fold_left add l zero.

End JSNum.

Import JSNum.

Declare Scope num_scope.
Delimit Scope num_scope with num.
Bind Scope num_scope with num.
Infix "+" := add : num_scope.
Infix "-" := sub : num_scope.
Infix "*" := mul : num_scope.
Infix "/" := div : num_scope.
Infix "<?" := ltb : num_scope.
Infix "<=?" := leb : num_scope.
Infix ">?" := gtb : num_scope.
Infix ">=?" := geb : num_scope.
Infix "===" := num_eqb (at level 70) : num_scope.

(** Decimal literals of the source, as exact rationals. *)
Definition lit (n : Z) (d : positive) : num := fin (n # d).
Coercion of_Z : Z >-> num.

(* ------------------------------------------------------------------ *)
(** * JavaScript strings, arrays and maps *)

Module JSString.

Definition jsstring : Type := list N.

(** The code units of an ASCII literal. *)
Definition str (s : string) : jsstring :=
  map N_of_ascii (list_ascii_of_string s).

Fixpoint streq (a b : jsstring) : bool :=
  match a, b with
  | [], [] => true
  | x :: a', y :: b' => N.eqb x y && streq a' b'
  | _, _ => false
  end.

(** A string is truthy when it is not empty. *)
Definition nonempty (s : jsstring) : bool :=
  match s with [] => false | _ => true end.

(** [s.split(sep)] for a separator of one code unit. *)
Fixpoint split (sep : N) (s : jsstring) : list jsstring :=
  match s with
  | [] => [[]]
  | c :: s' =>
      if N.eqb c sep then [] :: split sep s'
      else match split sep s' with
           | [] => [[c]]
           | w :: ws => (c :: w) :: ws
           end
  end.

(** The code unit of the arrow U+2192, which joins the two unit names of a
    propagation key. *)
Definition arrow : N := 8594%N.

End JSString.

Import JSString.

Module JSArray.

Section Sort.
Context {A : Type}.
Variable comparefn : A -> A -> num.

(** [x] is placed after [y] when [comparefn x y > 0]. *)
Definition after (x y : A) : bool := (comparefn x y >? zero)%num.

Fixpoint insert (x : A) (l : list A) : list A :=
  match l with
  | [] => [x]
  | y :: l' => if after x y then y :: insert x l' else x :: l
  end.

(** Stable sort: an element stays before the later elements it compares
    equal to. *)
Fixpoint sort (l : list A) : list A :=
  match l with
  | [] => []
  | x :: l' => insert x (sort l')
  end.
End Sort.

(** [l[i]] for a numeric index; a missing element reads as [undefined],
    which arithmetic turns into NaN. *)
Definition at_index (l : list num) (i : num) : num :=
  match i with
  | Fin q => if Qltb q 0 then NaN else nth (Z.to_nat (Qfloor q)) l NaN
  | _ => NaN
  end.

(** [l.forEach((b, idx) => ...)] building a new element from each index. *)
Fixpoint mapi_from {A B : Type} (f : nat -> A -> B) (i : nat) (l : list A)
  : list B :=
  match l with
  | [] => []
  | x :: l' => f i x :: mapi_from f (S i) l'
  end.

Definition mapi {A B : Type} (f : nat -> A -> B) (l : list A) : list B :=
  mapi_from f 0 l.

End JSArray.

(** A [Map] with string keys, in insertion order. *)
Module JSMap.

Section Map.
Context {V : Type}.

Definition t : Type := list (jsstring * V).

Fixpoint get (k : jsstring) (m : t) : option V :=
  match m with
  | [] => None
  | (k', v) :: m' => if streq k k' then Some v else get k m'
  end.

Definition has (k : jsstring) (m : t) : bool :=
  match get k m with Some _ => true | None => false end.

(** [m.set(k, v)]: an existing key keeps its position, a new one goes last. *)
Fixpoint set (k : jsstring) (v : V) (m : t) : t :=
  match m with
  | [] => [(k, v)]
  | (k', v') :: m' =>
      if streq k k' then (k', v) :: m' else (k', v') :: set k v m'
  end.

Definition keys (m : t) : list jsstring := map fst m.
Definition values (m : t) : list V := map snd m.
Definition size (m : t) : nat := List.length m.
End Map.

Arguments t : clear implicits.

End JSMap.

(* ------------------------------------------------------------------ *)
(** * patientFlowService: the journey reconstructor *)

Module PatientFlow.

Inductive Category : Type :=
| Emergency | Diagnostics | Treatment | Recovery | Discharge.

Definition DEPARTMENT_CATEGORIES : JSMap.t Category :=
  [ (str "Emergency", Emergency); (str "ER", Emergency);
    (str "Trauma", Emergency); (str "ICU", Treatment);
    (str "Surgery", Treatment); (str "Operating Room", Treatment);
    (str "Cardiology", Treatment); (str "Neurology", Treatment);
    (str "Oncology", Treatment); (str "Orthopedics", Treatment);
    (str "Orthopedic Surgery", Treatment); (str "Pediatrics", Treatment);
    (str "Internal Medicine", Treatment); (str "Pulmonology", Treatment);
    (str "Rheumatology", Treatment); (str "Nephrology", Treatment);
    (str "Psychiatry", Treatment); (str "Urology", Treatment);
    (str "Gastroenterology", Treatment); (str "Dermatology", Treatment);
    (str "Cardiothoracic Surgery", Treatment); (str "Neurosurgery", Treatment);
    (str "Ent", Treatment); (str "Gynecology", Treatment);
    (str "Obstetrics", Treatment); (str "Ophthalmology", Treatment);
    (str "Burn Unit", Treatment); (str "Infectious Diseases", Treatment);
    (str "Dialysis", Treatment); (str "Radiology", Diagnostics);
    (str "Laboratory", Diagnostics); (str "Imaging", Diagnostics);
    (str "Pathology", Diagnostics); (str "Recovery", Recovery);
    (str "Post-Op", Recovery); (str "Rehabilitation", Recovery);
    (str "Discharge", Discharge); (str "Discharge Planning", Discharge);
    (str "Pharmacy", Discharge); (str "General", Treatment);
    (str "Inpatient", Treatment); (str "Outpatient", Treatment) ].

Definition categorizeDepartment (deptName : jsstring) : Category :=
  match JSMap.get deptName DEPARTMENT_CATEGORIES with
  | Some c => c
  | None => Treatment
  end.

Record Stage : Type := mkStage {
  department : jsstring;
  category : Category;
  entryTime : Z;
  exitTime : Z;
  duration : num
}.

Record PatientJourney : Type := mkJourney {
  patientId : jsstring;
  totalDuration : num;
  stages : list Stage
}.

(** A row of [department_flow_logs] joined with its patient and its
    department; a field is [None] when the row has [null] there. *)
Record FlowLog : Type := mkLog {
  log_patient_id : option jsstring;
  log_department : option jsstring;
  entry_time : option Z;
  exit_time : option Z
}.

Definition minutes (ms : num) : num := (ms / (of_Z 1000 * of_Z 60))%num.

(** The body of the loop over the fetched rows. *)
Definition collectLog (department : option jsstring)
  (journeyMap : JSMap.t PatientJourney) (log : FlowLog)
  : JSMap.t PatientJourney :=
  let deptName :=
    match log_department log with
    | Some n => if nonempty n then n else str "Unknown"
    | None => str "Unknown"
    end in
  match log_patient_id log, entry_time log, exit_time log with
  | Some patientId, Some entry, Some exit =>
      if negb (nonempty patientId) then journeyMap
      else if match department with
              | Some d => nonempty d && negb (streq deptName d)
              | None => false
              end then journeyMap
      else
        let duration := minutes (of_Z exit - of_Z entry)%num in
        if (duration <? zero)%num then journeyMap
        else
          let journey :=
            match JSMap.get patientId journeyMap with
            | Some j => j
            | None => mkJourney patientId zero []
            end in
          JSMap.set patientId
            (mkJourney (PatientFlow.patientId journey) (totalDuration journey)
               (stages journey ++
                [mkStage deptName (categorizeDepartment deptName)
                   entry exit duration]))
            journeyMap
  | _, _, _ => journeyMap
  end.

Definition byEntryTime (a b : Stage) : num :=
  (of_Z (entryTime a) - of_Z (entryTime b))%num.

Definition sumDurations (l : list Stage) : num :=
  fold_left (fun sum stage => (sum + duration stage)%num) l zero.

(** The second loop: sort the stages and total their durations. *)
Definition finishJourney (journey : PatientJourney) : PatientJourney :=
  let sorted := JSArray.sort byEntryTime (stages journey) in
  mkJourney (patientId journey) (sumDurations sorted) sorted.

(** [getPatientJourneys(filters)], given the rows the query returned;
    [department] is [filters.department]. *)
Definition getPatientJourneys (department : option jsstring)
  (flowLogs : list FlowLog) : list PatientJourney :=
  map finishJourney
    (JSMap.values (fold_left (collectLog department) flowLogs [])).

End PatientFlow.

(* ------------------------------------------------------------------ *)
(** * bottleneckDetectionService *)

Module BottleneckDetection.

Import PatientFlow.

Inductive BottleneckType : Type := invisible | obvious | emerging.
Inductive LoadLevel : Type := low | moderate | high.

Record Statistics : Type := mkStats {
  mean : num;
  median : num;
  q1 : num;
  q3 : num;
  iqr : num;
  stdDev : num
}.

Record DepartmentAnalysis : Type := mkAnalysis {
  name : jsstring;
  times : list num;
  patientVolume : num;
  downstreamDelays : JSMap.t num;
  processingVariance : num;
  expectedTime : num;
  actualTime : num
}.

(** The explanation texts of a detection are presentation only and are not
    part of the embedding. *)
Record BottleneckDetection : Type := mkDetection {
  departmentName : jsstring;
  rank : num;
  bottleneckType : BottleneckType;
  b_expectedTime : num;
  b_actualTime : num;
  timeDeviation : num;
  zScore : num;
  iqrPosition : num;
  varianceRatio : num;
  patientImpactScore : num;
  delayPropagationScore : num;
  resourceStrainScore : num;
  overallImpactScore : num;
  patientsAffected : num;
  downstreamDepartments : list jsstring;
  loadLevel : LoadLevel;
  congestionIndicator : num
}.

Record DelayPropagation : Type := mkPropagation {
  sourceDepartment : jsstring;
  targetDepartment : jsstring;
  avgDelayTransferred : num;
  patientsAffected_p : num;
  propagationStrength : num
}.

Definition ascending (a b : num) : num := (a - b)%num.

(** [Math.round(x * 10) / 10] and [Math.round(x * 100) / 100]. *)
Definition round1 (x : num) : num := (Math_round (x * of_Z 10) / of_Z 10)%num.
Definition round2 (x : num) : num := (Math_round (x * of_Z 100) / of_Z 100)%num.

Definition calculateZScore (value mean stdDev : num) : num :=
  if (stdDev === zero)%num then zero
  else ((value - mean) / stdDev)%num.

Definition calculateIQRPosition (value q1 q3 iqr : num) : num :=
  if (iqr === zero)%num then zero
  else if (value <? q1)%num then ((q1 - value) / iqr)%num
  else if (value >? q3)%num then ((value - q3) / iqr)%num
  else zero.

Section WithSqrt.

(** The host's square root on non-negative finite numbers. *)
Variable sqrtQ : Q -> Q.

Definition variance_of (values : list num) (mean : num) : num :=
  (fold_left (fun sum val => (sum + Math_pow (val - mean) 2)%num) values zero
   / of_nat (List.length values))%num.

Definition calculateStatistics (values : list num) : Statistics :=
  match values with
  | [] => mkStats zero zero zero zero zero zero
  | _ =>
      let sorted := JSArray.sort ascending values in
      let len := of_nat (List.length sorted) in
      let mean :=
        (fold_left (fun a b => (a + b)%num) values zero
         / of_nat (List.length values))%num in
      let median := JSArray.at_index sorted (Math_floor (len / of_Z 2)%num) in
      let q1 := JSArray.at_index sorted (Math_floor (len * lit 25 100)%num) in
      let q3 := JSArray.at_index sorted (Math_floor (len * lit 75 100)%num) in
      let iqr := (q3 - q1)%num in
      let variance := variance_of values mean in
      let stdDev := Math_sqrt sqrtQ variance in
      mkStats mean median q1 q3 iqr stdDev
  end.

Definition newAnalysis (dept : jsstring) : DepartmentAnalysis :=
  mkAnalysis dept [] zero [] zero zero zero.

(** The loop over [journey.stages]: the stage at hand and the stages after
    it. *)
Fixpoint analyzeStages (stages : list Stage)
  (deptAnalysis : JSMap.t DepartmentAnalysis) : JSMap.t DepartmentAnalysis :=
  match stages with
  | [] => deptAnalysis
  | stage :: rest =>
      let analysis :=
        match JSMap.get (department stage) deptAnalysis with
        | Some a => a
        | None => newAnalysis (department stage)
        end in
      let downstream :=
        match rest with
        | nextStage :: _ =>
            let waitTime :=
              minutes (of_Z (entryTime nextStage) - of_Z (exitTime stage))%num in
            if (waitTime >? zero)%num then
              let currentDelay :=
                match JSMap.get (department nextStage)
                        (downstreamDelays analysis) with
                | Some d => or_default d zero
                | None => zero
                end in
              JSMap.set (department nextStage) (currentDelay + waitTime)%num
                (downstreamDelays analysis)
            else downstreamDelays analysis
        | [] => downstreamDelays analysis
        end in
      analyzeStages rest
        (JSMap.set (department stage)
           (mkAnalysis (name analysis)
              (times analysis ++ [duration stage])
              (patientVolume analysis + of_Z 1)%num
              downstream
              (processingVariance analysis)
              (expectedTime analysis)
              (actualTime analysis))
           deptAnalysis)
  end.

Definition withStatistics (analysis : DepartmentAnalysis)
  : DepartmentAnalysis :=
  let stats := calculateStatistics (times analysis) in
  mkAnalysis (name analysis) (times analysis) (patientVolume analysis)
    (downstreamDelays analysis)
    (Math_pow (stdDev stats) 2) (median stats) (mean stats).

Definition analyzeDepartmentFlows (journeys : list PatientJourney)
  : JSMap.t DepartmentAnalysis :=
  map (fun entry => (fst entry, withStatistics (snd entry)))
    (fold_left (fun deptAnalysis journey =>
                  analyzeStages (stages journey) deptAnalysis)
       journeys []).

(** The metrics of one unit, as the body of the loop of [detectBottlenecks]
    computes them before rounding. *)
Definition varianceRatioOf (globalStats deptStats : Statistics) : num :=
  if (stdDev globalStats >? zero)%num
  then (stdDev deptStats / stdDev globalStats)%num
  else of_Z 1.

Definition timeDeviationOf (analysis : DepartmentAnalysis) : num :=
  if (expectedTime analysis >? zero)%num
  then ((actualTime analysis - expectedTime analysis)
        / expectedTime analysis * of_Z 100)%num
  else zero.

Definition totalDownstreamDelayOf (analysis : DepartmentAnalysis) : num :=
  fold_left (fun total entry => (total + snd entry)%num)
    (downstreamDelays analysis) zero.

Definition downstreamDeptsOf (analysis : DepartmentAnalysis)
  (deptStats : Statistics) : list jsstring :=
  map fst
    (filter (fun entry => (snd entry >? mean deptStats * lit 2 10)%num)
       (downstreamDelays analysis)).

Definition avgDownstreamDelayOf (analysis : DepartmentAnalysis) : num :=
  if (0 <? JSMap.size (downstreamDelays analysis))%nat
  then (totalDownstreamDelayOf analysis
        / of_nat (JSMap.size (downstreamDelays analysis)))%num
  else zero.

Definition delayPropagationScoreOf (analysis : DepartmentAnalysis) : num :=
  Math_min
    (avgDownstreamDelayOf analysis / actualTime analysis * of_Z 100)%num
    (of_Z 100).

Definition volumePercentileOf (volumeStats : Statistics)
  (analysis : DepartmentAnalysis) : num :=
  if (mean volumeStats >? zero)%num
  then (patientVolume analysis / mean volumeStats * of_Z 100)%num
  else zero.

Definition patientImpactScoreOf (volumePercentile timeDeviation : num) : num :=
  (volumePercentile * lit 4 10 + Math_abs timeDeviation * lit 6 10)%num.

Definition congestionIndicatorOf (deptStats : Statistics) : num :=
  if (stdDev deptStats >? mean deptStats * lit 5 10)%num
  then (stdDev deptStats / mean deptStats)%num
  else zero.

Definition resourceStrainScoreOf (congestionIndicator varianceRatio zScore : num)
  : num :=
  Math_min
    (congestionIndicator * of_Z 30 + varianceRatio * of_Z 40
     + Math_abs zScore * of_Z 30)%num
    (of_Z 100).

Definition overallImpactScoreOf
  (patientImpactScore delayPropagationScore resourceStrainScore : num) : num :=
  (patientImpactScore * lit 35 100 + delayPropagationScore * lit 35 100
   + resourceStrainScore * lit 3 10)%num.

Definition loadLevelOf (volumePercentile : num) : LoadLevel :=
  if (volumePercentile <? of_Z 60)%num then low
  else if (volumePercentile <? of_Z 100)%num then moderate
  else high.

Definition isModerate (l : LoadLevel) : bool :=
  match l with moderate => true | _ => false end.

Definition isHigh (l : LoadLevel) : bool :=
  match l with high => true | _ => false end.

(** The ordered decision of the bottleneck type; [None] is the [continue]
    of the last branch. *)
Definition bottleneckTypeOf (loadLevel : LoadLevel)
  (delayPropagationScore timeDeviation varianceRatio congestionIndicator : num)
  : option BottleneckType :=
  if isModerate loadLevel && (delayPropagationScore >? of_Z 30)%num
  then Some invisible
  else if isHigh loadLevel && (timeDeviation >? of_Z 50)%num
  then Some obvious
  else if (varianceRatio >? lit 13 10)%num
          && (congestionIndicator >? lit 8 10)%num
  then Some emerging
  else None.

(** One iteration of the loop over the units: [None] when the unit is
    skipped. *)
Definition detectUnit (globalStats volumeStats : Statistics)
  (deptName : jsstring) (analysis : DepartmentAnalysis)
  : option BottleneckDetection :=
  if (List.length (times analysis) <? 3)%nat then None
  else
    let deptStats := calculateStatistics (times analysis) in
    let zScore :=
      calculateZScore (actualTime analysis) (mean globalStats)
        (stdDev globalStats) in
    let iqrPosition :=
      calculateIQRPosition (actualTime analysis) (q1 globalStats)
        (q3 globalStats) (iqr globalStats) in
    let varianceRatio := varianceRatioOf globalStats deptStats in
    let timeDeviation := timeDeviationOf analysis in
    let downstreamDepts := downstreamDeptsOf analysis deptStats in
    let delayPropagationScore := delayPropagationScoreOf analysis in
    let volumePercentile := volumePercentileOf volumeStats analysis in
    let patientImpactScore :=
      patientImpactScoreOf volumePercentile timeDeviation in
    let congestionIndicator := congestionIndicatorOf deptStats in
    let resourceStrainScore :=
      resourceStrainScoreOf congestionIndicator varianceRatio zScore in
    let overallImpactScore :=
      overallImpactScoreOf patientImpactScore delayPropagationScore
        resourceStrainScore in
    let loadLevel := loadLevelOf volumePercentile in
    match bottleneckTypeOf loadLevel delayPropagationScore timeDeviation
            varianceRatio congestionIndicator with
    | None => None
    | Some bottleneckType =>
        Some (mkDetection deptName zero bottleneckType
                (Math_round (expectedTime analysis))
                (Math_round (actualTime analysis))
                (round1 timeDeviation)
                (round2 zScore)
                (round2 iqrPosition)
                (round2 varianceRatio)
                (round1 patientImpactScore)
                (round1 delayPropagationScore)
                (round1 resourceStrainScore)
                (round1 overallImpactScore)
                (patientVolume analysis)
                downstreamDepts
                loadLevel
                (round2 congestionIndicator))
    end.

Definition byImpactDescending (a b : BottleneckDetection) : num :=
  (overallImpactScore b - overallImpactScore a)%num.

Definition withRank (idx : nat) (b : BottleneckDetection)
  : BottleneckDetection :=
  mkDetection (departmentName b) (of_nat idx + of_Z 1)%num (bottleneckType b)
    (b_expectedTime b) (b_actualTime b) (timeDeviation b) (zScore b)
    (iqrPosition b) (varianceRatio b) (patientImpactScore b)
    (delayPropagationScore b) (resourceStrainScore b) (overallImpactScore b)
    (patientsAffected b) (downstreamDepartments b) (loadLevel b)
    (congestionIndicator b).

Definition globalStatsOf (deptAnalysis : JSMap.t DepartmentAnalysis)
  : Statistics :=
  calculateStatistics (flat_map times (JSMap.values deptAnalysis)).

Definition volumeStatsOf (deptAnalysis : JSMap.t DepartmentAnalysis)
  : Statistics :=
  calculateStatistics (map patientVolume (JSMap.values deptAnalysis)).

Fixpoint collectSome {A : Type} (l : list (option A)) : list A :=
  match l with
  | [] => []
  | Some x :: l' => x :: collectSome l'
  | None :: l' => collectSome l'
  end.

(** The detections pushed by the loop, before sorting. *)
Definition detectedUnits (deptAnalysis : JSMap.t DepartmentAnalysis)
  : list BottleneckDetection :=
  collectSome
    (map (fun entry =>
            detectUnit (globalStatsOf deptAnalysis) (volumeStatsOf deptAnalysis)
              (fst entry) (snd entry))
       deptAnalysis).

(** [detectBottlenecks(filters)], given the journeys
    [getPatientJourneys(filters)] returned. *)
Definition detectBottlenecks (journeys : list PatientJourney)
  : list BottleneckDetection :=
  let deptAnalysis := analyzeDepartmentFlows journeys in
  match deptAnalysis with
  | [] => []
  | _ =>
      JSArray.mapi withRank
        (JSArray.sort byImpactDescending (detectedUnits deptAnalysis))
  end.

End WithSqrt.

(** ** The delay propagation map *)

Record Accumulated : Type := mkAcc { totalDelay : num; count : num }.

Definition propagationKey (source target : jsstring) : jsstring :=
  source ++ [arrow] ++ target.

(** The loop over the consecutive stages of one journey. *)
Fixpoint propagateStages (stages : list Stage)
  (propagationMap : JSMap.t Accumulated) : JSMap.t Accumulated :=
  match stages with
  | current :: ((next :: _) as rest) =>
      let waitTime :=
        minutes (of_Z (entryTime next) - of_Z (exitTime current))%num in
      propagateStages rest
        (if (waitTime >? of_Z 5)%num then
           let key := propagationKey (department current) (department next) in
           let prop :=
             match JSMap.get key propagationMap with
             | Some p => p
             | None => mkAcc zero zero
             end in
           JSMap.set key
             (mkAcc (totalDelay prop + waitTime) (count prop + of_Z 1))%num
             propagationMap
         else propagationMap)
  | _ => propagationMap
  end.

Definition propagationOf (entry : jsstring * Accumulated) : DelayPropagation :=
  let parts := split arrow (fst entry) in
  let source := nth 0 parts [] in
  let target := nth 1 parts [] in
  let avgDelay := (totalDelay (snd entry) / count (snd entry))%num in
  let propagationStrength :=
    Math_min (avgDelay / of_Z 60 * of_Z 100)%num (of_Z 100) in
  mkPropagation source target (Math_round avgDelay) (count (snd entry))
    (round1 propagationStrength).

Definition byStrengthDescending (a b : DelayPropagation) : num :=
  (propagationStrength b - propagationStrength a)%num.

Definition propagationMapOf (journeys : list PatientJourney)
  : JSMap.t Accumulated :=
  fold_left (fun propagationMap journey =>
               propagateStages (stages journey) propagationMap)
    journeys [].

(** [getDelayPropagationMap(filters)], given the journeys. *)
Definition getDelayPropagationMap (journeys : list PatientJourney)
  : list DelayPropagation :=
  JSArray.sort byStrengthDescending
    (map propagationOf (propagationMapOf journeys)).

End BottleneckDetection.

(* ------------------------------------------------------------------ *)
(** * Patient records, shared by the predictive services *)

Module Records.

Record JourneyStep : Type := mkStep {
  departmentId : jsstring;
  waitTimeMinutes : num
}.

(** [admissionDate] and [dischargeDate] are [None] for [null] (or an empty
    string); [journeySteps] is [None] when the property is absent. *)
Record PatientRecord : Type := mkRecord {
  id : jsstring;
  patientId : jsstring;
  admissionDate : option Z;
  dischargeDate : option Z;
  currentDepartment : option jsstring;
  journeySteps : option (list JourneyStep)
}.

Inductive RiskLevel : Type := low | medium | high | critical.

Definition msPerDay : num := (of_Z 1000 * of_Z 60 * of_Z 60 * of_Z 24)%num.

End Records.

(* ------------------------------------------------------------------ *)
(** * predictiveAnalyticsService: per-unit bottleneck prediction *)

Module Predictive.

Import Records.

(** The [peakHours] of the source's metrics feed the two texts of a
    prediction only and are left out with them. *)
Record DepartmentMetrics : Type := mkMetrics {
  avgWaitTime : num;
  totalPatients : num;
  delays : list num
}.

(** The predicted date (today plus [daysUntilOf] the risk level), the
    identifier (the name in lower case) and the two texts of a prediction are
    display fields; the embedding keeps the fields the thresholds decide. *)
Record BottleneckPrediction : Type := mkPrediction {
  departmentName : jsstring;
  riskLevel : RiskLevel;
  probability : num;
  expectedImpact : num
}.

(** The callback of [records.forEach]. *)
Definition collectRecord (departmentMetrics : JSMap.t DepartmentMetrics)
  (record : PatientRecord) : JSMap.t DepartmentMetrics :=
  match currentDepartment record with
  | Some dept =>
      if nonempty dept then
        let metrics :=
          match JSMap.get dept departmentMetrics with
          | Some m => m
          | None => mkMetrics zero zero []
          end in
        let steps :=
          match journeySteps record with Some s => s | None => [] end in
        JSMap.set dept
          (mkMetrics (avgWaitTime metrics)
             (totalPatients metrics + of_Z 1)%num
             (delays metrics ++
              filter (fun w => (w >? of_Z 60)%num)
                (map waitTimeMinutes steps)))
          departmentMetrics
      else departmentMetrics
  | None => departmentMetrics
  end.

Definition avgDelayOf (metrics : DepartmentMetrics) : num :=
  if (0 <? List.length (delays metrics))%nat
  then (fold_left (fun sum d => (sum + d)%num) (delays metrics) zero
        / of_nat (List.length (delays metrics)))%num
  else zero.

Definition delayFrequencyOf (metrics : DepartmentMetrics) : num :=
  (of_nat (List.length (delays metrics)) / totalPatients metrics)%num.

(** The threshold chain of the callback of [departmentMetrics.forEach]. *)
Definition riskOf (delayFrequency avgDelay : num) : RiskLevel * num :=
  if (delayFrequency >? lit 3 10)%num && (avgDelay >? of_Z 120)%num
  then (critical, lit 85 100)
  else if (delayFrequency >? lit 2 10)%num || (avgDelay >? of_Z 90)%num
  then (high, lit 65 100)
  else if (delayFrequency >? lit 1 10)%num || (avgDelay >? of_Z 60)%num
  then (medium, lit 40 100)
  else (low, lit 15 100).

Definition daysUntilOf (riskLevel : RiskLevel) : num :=
  match riskLevel with
  | critical => of_Z 3
  | high => of_Z 7
  | medium => of_Z 14
  | low => of_Z 30
  end.

Definition predictionOf (entry : jsstring * DepartmentMetrics)
  : BottleneckPrediction :=
  let metrics := snd entry in
  let avgDelay := avgDelayOf metrics in
  let delayFrequency := delayFrequencyOf metrics in
  let risk := riskOf delayFrequency avgDelay in
  mkPrediction (fst entry) (fst risk) (snd risk)
    (Math_round (avgDelay * delayFrequency)%num).

Definition byProbabilityDescending (a b : BottleneckPrediction) : num :=
  (probability b - probability a)%num.

Definition departmentMetricsOf (records : list PatientRecord)
  : JSMap.t DepartmentMetrics :=
  fold_left collectRecord records [].

Definition predictBottlenecks (records : list PatientRecord)
  : list BottleneckPrediction :=
  JSArray.sort byProbabilityDescending
    (map predictionOf (departmentMetricsOf records)).

End Predictive.

(* ------------------------------------------------------------------ *)
(** * dataService: readmission risk *)

Module Readmission.

Import Records.

Record ReadmissionFactor : Type := mkFactor {
  factor : jsstring;
  impact : num
}.

(** The estimated date and the recommendation texts are display fields and
    are left out. *)
Record ReadmissionRisk : Type := mkRisk {
  r_patientId : jsstring;
  riskScore : num;
  riskLevel : RiskLevel;
  contributingFactors : list ReadmissionFactor;
  delayInfluence : num;
  departmentRisk : list jsstring
}.

Definition calculateLengthOfStay (admissionDate dischargeDate : Z) : num :=
  ((of_Z dischargeDate - of_Z admissionDate) / msPerDay)%num.

Definition calculateOperationalDelayScore (record : PatientRecord) : num :=
  match journeySteps record with
  | None | Some [] => zero
  | Some steps =>
      let totalWaitTime :=
        fold_left
          (fun sum step => (sum + or_default (waitTimeMinutes step) zero)%num)
          steps zero in
      let avgWaitPerStep :=
        (totalWaitTime / of_nat (List.length steps))%num in
      if (avgWaitPerStep >? of_Z 120)%num then of_Z 30
      else if (avgWaitPerStep >? of_Z 90)%num then of_Z 20
      else if (avgWaitPerStep >? of_Z 60)%num then of_Z 10
      else zero
  end.

Definition includes (l : list jsstring) (s : jsstring) : bool :=
  existsb (streq s) l.

Definition identifyHighRiskDepartments (record : PatientRecord)
  : list jsstring :=
  match journeySteps record with
  | None => []
  | Some steps =>
      fold_left
        (fun highRiskDepts step =>
           if (waitTimeMinutes step >? of_Z 120)%num
              && negb (includes highRiskDepts (departmentId step))
           then highRiskDepts ++ [departmentId step]
           else highRiskDepts)
        steps []
  end.

(** The running state of [predictReadmissionRisk]: the factors pushed so far
    and [totalRiskScore]. *)
Definition Progress : Type := (list ReadmissionFactor * num)%type.

Definition push (name : string) (impact : num) (p : Progress) : Progress :=
  (fst p ++ [mkFactor (str name) impact], (snd p + impact)%num).

Definition lengthOfStayOf (record : PatientRecord) : num :=
  match admissionDate record, dischargeDate record with
  | Some a, Some d => calculateLengthOfStay a d
  | _, _ => zero
  end.

Definition stepLengthOfStay (record : PatientRecord) (p : Progress)
  : Progress :=
  let lengthOfStay := lengthOfStayOf record in
  if (lengthOfStay >? zero)%num then
    if (lengthOfStay <? of_Z 2)%num
    then push "Short Length of Stay" (of_Z 25) p
    else if (lengthOfStay >? of_Z 14)%num
    then push "Extended Length of Stay" (of_Z 20) p
    else p
  else p.

Definition stepOperationalDelay (record : PatientRecord) (p : Progress)
  : Progress :=
  let operationalDelayScore := calculateOperationalDelayScore record in
  if (operationalDelayScore >? zero)%num
  then push "Operational Delays" operationalDelayScore p
  else p.

Definition stepTransfers (record : PatientRecord) (p : Progress) : Progress :=
  match journeySteps record with
  | Some steps =>
      if (5 <? List.length steps)%nat
      then push "Multiple Department Transfers" (of_Z 15) p
      else p
  | None => p
  end.

Definition patientHistoryOf (record : PatientRecord)
  (historicalRecords : list PatientRecord) : list PatientRecord :=
  filter (fun r => streq (patientId r) (patientId record)
                   && negb (streq (id r) (id record)))
    historicalRecords.

Definition recentVisitsOf (record : PatientRecord)
  (patientHistory : list PatientRecord) : list PatientRecord :=
  filter (fun r =>
            match admissionDate r, admissionDate record with
            | Some ra, Some a =>
                let daysDiff := ((of_Z a - of_Z ra) / msPerDay)%num in
                (daysDiff >? zero)%num && (daysDiff <? of_Z 90)%num
            | _, _ => false
            end)
    patientHistory.

Definition stepHistory (record : PatientRecord)
  (historicalRecords : list PatientRecord) (p : Progress) : Progress :=
  let patientHistory := patientHistoryOf record historicalRecords in
  if (0 <? List.length patientHistory)%nat then
    let recentVisits := recentVisitsOf record patientHistory in
    if (0 <? List.length recentVisits)%nat
    then push "Recent Hospital Visits"
           (Math_min (of_Z 30) (of_nat (List.length recentVisits) * of_Z 15)%num)
           p
    else p
  else p.

Definition riskLevelOf (totalRiskScore : num) : RiskLevel :=
  if (totalRiskScore >=? of_Z 70)%num then critical
  else if (totalRiskScore >=? of_Z 50)%num then high
  else if (totalRiskScore >=? of_Z 30)%num then medium
  else low.

Definition byImpactDescending (a b : ReadmissionFactor) : num :=
  (impact b - impact a)%num.

Section Host.

(** [new Date(t).getDay()] for the date whose time value is [t]: the day of
    the week in the time zone of the host, 0 for Sunday to 6 for Saturday.
    A date without a time of day is read as midnight UTC, so on a host west
    of Greenwich this is the day before the date. *)
Variable getDay : Z -> Z.

(** The last factor is named after the discharge; the day tested is the day
    of [record.admissionDate], as in the source. *)
Definition stepWeekend (record : PatientRecord) (p : Progress) : Progress :=
  match admissionDate record with
  | Some a =>
      let dayOfWeek := getDay a in
      if (dayOfWeek =? 5)%Z || (dayOfWeek =? 6)%Z
      then push "Weekend Discharge" (of_Z 10) p
      else p
  | None => p
  end.

Definition predictReadmissionRisk (record : PatientRecord)
  (historicalRecords : list PatientRecord) : ReadmissionRisk :=
  let p :=
    stepWeekend record
      (stepHistory record historicalRecords
         (stepTransfers record
            (stepOperationalDelay record
               (stepLengthOfStay record ([], zero))))) in
  let factors := fst p in
  let totalRiskScore := snd p in
  mkRisk (patientId record) totalRiskScore (riskLevelOf totalRiskScore)
    (JSArray.sort byImpactDescending factors)
    (calculateOperationalDelayScore record)
    (identifyHighRiskDepartments record).

End Host.

End Readmission.

(* ------------------------------------------------------------------ *)
(** * simulationService: the intervention simulator *)

Module Simulation.

(** The [type] of an intervention is declared as one of three string
    literals; at run time it is a string. *)
Record SimulationIntervention : Type := mkIntervention {
  type : jsstring;
  departmentName : jsstring;
  value : num
}.

Record SimulationMetrics : Type := mkSimMetrics {
  averageLOS : num;
  bedUtilization : num;
  avgProcessingTime : num;
  readmissionRisk : num;
  throughput : num
}.

Record Improvements : Type := mkImprovements {
  losReduction : num;
  losReductionPercent : num;
  bedUtilizationChange : num;
  readmissionRiskReduction : num;
  patientsImpacted : num
}.

Record CostBenefit : Type := mkCostBenefit {
  estimatedCost : num;
  impactScore : num;
  roi : num
}.

Record SimulationResult : Type := mkResult {
  intervention : SimulationIntervention;
  baseline : SimulationMetrics;
  projected : SimulationMetrics;
  improvements : Improvements;
  costBenefit : CostBenefit
}.

(** How a call completes: with a value, or with an error raised to the
    caller. *)
Inductive Completion (A : Type) : Type :=
| Returned (a : A)
| Thrown (message : jsstring).

Arguments Returned {A} a.
Arguments Thrown {A} message.

Definition round1 (x : num) : num := (Math_round (x * of_Z 10) / of_Z 10)%num.
Definition round2 (x : num) : num := (Math_round (x * of_Z 100) / of_Z 100)%num.

Definition projectStaffIntervention (baseline : SimulationMetrics)
  (staffIncrease currentStaff : num) : SimulationMetrics :=
  let staffMultiplier := (currentStaff / (currentStaff + staffIncrease))%num in
  let newProcessingTime := (avgProcessingTime baseline * staffMultiplier)%num in
  let processingReduction :=
    (avgProcessingTime baseline - newProcessingTime)%num in
  let losReduction := (processingReduction / of_Z 60 * lit 8 10)%num in
  let newLOS := Math_max (lit 1 10) (averageLOS baseline - losReduction)%num in
  let bedUtilizationImprovement := (losReduction * of_Z 5)%num in
  let newBedUtilization :=
    Math_max zero (bedUtilization baseline - bedUtilizationImprovement)%num in
  let readmissionReduction :=
    (processingReduction / avgProcessingTime baseline
     * readmissionRisk baseline * lit 3 10)%num in
  let newReadmissionRisk :=
    Math_max zero (readmissionRisk baseline - readmissionReduction)%num in
  let throughputIncrease :=
    Math_floor
      (throughput baseline
       * (of_Z 1 + staffIncrease / currentStaff * lit 5 10))%num in
  mkSimMetrics (round1 newLOS) (round1 newBedUtilization)
    (Math_round newProcessingTime) (round1 newReadmissionRisk)
    throughputIncrease.

Definition projectBedsIntervention (baseline : SimulationMetrics)
  (bedIncrease currentBeds : num) : SimulationMetrics :=
  let newBedCapacity := (currentBeds + bedIncrease)%num in
  let capacityIncrease := (bedIncrease / currentBeds)%num in
  let newBedUtilization :=
    (bedUtilization baseline * (currentBeds / newBedCapacity))%num in
  let waitTimeReduction :=
    Math_min (capacityIncrease * lit 3 10)%num (lit 5 10) in
  let losReduction :=
    (averageLOS baseline * waitTimeReduction * lit 4 10)%num in
  let newLOS := Math_max (lit 1 10) (averageLOS baseline - losReduction)%num in
  let newProcessingTime :=
    (avgProcessingTime baseline
     * (of_Z 1 - waitTimeReduction * lit 2 10))%num in
  let readmissionReduction :=
    (waitTimeReduction * readmissionRisk baseline * lit 2 10)%num in
  let newReadmissionRisk :=
    Math_max zero (readmissionRisk baseline - readmissionReduction)%num in
  let throughputIncrease :=
    Math_floor
      (throughput baseline * (of_Z 1 + capacityIncrease * lit 3 10))%num in
  mkSimMetrics (round1 newLOS) (round1 newBedUtilization)
    (Math_round newProcessingTime) (round1 newReadmissionRisk)
    throughputIncrease.

Definition projectProcessingTimeIntervention (baseline : SimulationMetrics)
  (timeReduction : num) : SimulationMetrics :=
  let newProcessingTime :=
    Math_max (of_Z 5) (avgProcessingTime baseline - timeReduction)%num in
  let reductionRatio := (timeReduction / avgProcessingTime baseline)%num in
  let losReduction :=
    (averageLOS baseline * reductionRatio * lit 6 10)%num in
  let newLOS := Math_max (lit 1 10) (averageLOS baseline - losReduction)%num in
  let bedUtilizationImprovement :=
    (reductionRatio * bedUtilization baseline * lit 4 10)%num in
  let newBedUtilization :=
    Math_max zero (bedUtilization baseline - bedUtilizationImprovement)%num in
  let readmissionReduction :=
    (reductionRatio * readmissionRisk baseline * lit 4 10)%num in
  let newReadmissionRisk :=
    Math_max zero (readmissionRisk baseline - readmissionReduction)%num in
  let throughputIncrease :=
    Math_floor
      (throughput baseline * (of_Z 1 + reductionRatio * lit 7 10))%num in
  mkSimMetrics (round1 newLOS) (round1 newBedUtilization)
    (Math_round newProcessingTime) (round1 newReadmissionRisk)
    throughputIncrease.

Definition calculateCostBenefit (intervention : SimulationIntervention)
  (improvements : Improvements) : CostBenefit :=
  let estimatedCost :=
    if streq (type intervention) (str "staff")
    then (value intervention * of_Z 75000)%num
    else if streq (type intervention) (str "beds")
    then (value intervention * of_Z 50000)%num
    else if streq (type intervention) (str "processing_time")
    then (value intervention * of_Z 10000)%num
    else zero in
  let impactScore :=
    (losReductionPercent improvements * lit 4 10
     + Math_abs (bedUtilizationChange improvements) * lit 3 10
     + readmissionRiskReduction improvements * lit 3 10)%num in
  let roi :=
    if (estimatedCost >? zero)%num
    then (impactScore * patientsImpacted improvements * of_Z 1000
          / estimatedCost)%num
    else zero in
  mkCostBenefit estimatedCost (round1 impactScore) (round2 roi).

(** [dept?.staff_count || 10] and [dept?.bed_capacity || 20]; the argument is
    [None] when the unit has no row. *)
Definition orElse (field : option num) (d : num) : num :=
  match field with
  | Some x => or_default x d
  | None => d
  end.

(** [simulateIntervention(intervention, filters)], given the baseline that
    [calculateBaselineMetrics] computed and the row of the unit.  The source
    has no [throw]; every path ends in the [return]. *)
Definition simulateIntervention (intervention : SimulationIntervention)
  (baseline : SimulationMetrics) (staff_count bed_capacity : option num)
  : Completion SimulationResult :=
  let currentStaff := orElse staff_count (of_Z 10) in
  let currentBeds := orElse bed_capacity (of_Z 20) in
  let projected :=
    if streq (type intervention) (str "staff")
    then projectStaffIntervention baseline (value intervention) currentStaff
    else if streq (type intervention) (str "beds")
    then projectBedsIntervention baseline (value intervention) currentBeds
    else if streq (type intervention) (str "processing_time")
    then projectProcessingTimeIntervention baseline (value intervention)
    else baseline in
  let losReduction := (averageLOS baseline - averageLOS projected)%num in
  let losReductionPercent :=
    if (averageLOS baseline >? zero)%num
    then (losReduction / averageLOS baseline * of_Z 100)%num
    else zero in
  let bedUtilizationChange :=
    (bedUtilization baseline - bedUtilization projected)%num in
  let readmissionRiskReduction :=
    (readmissionRisk baseline - readmissionRisk projected)%num in
  let improvements :=
    mkImprovements (round1 losReduction) (round1 losReductionPercent)
      (round1 bedUtilizationChange) (round1 readmissionRiskReduction)
      (throughput projected) in
  let costBenefit := calculateCostBenefit intervention improvements in
  Returned (mkResult intervention baseline projected improvements costBenefit).

End Simulation.

(* ------------------------------------------------------------------ *)
(** * patientFlowService: delays, paths and time contributions *)

Module FlowAnalysis.

Import PatientFlow.

Record DepartmentDelay : Type := mkDelay {
  departmentName : jsstring;
  d_category : Category;
  medianTime : num;
  actualAvgTime : num;
  delayRatio : num;
  variance : num;
  queueBuildup : num;
  impactOnLOS : num;
  patientCount : num
}.

(** An entry of [deptStats]. *)
Record DeptStats : Type := mkDeptStats {
  s_times : list num;
  s_category : Category;
  totalImpact : num;
  s_patientCount : num
}.

(** The body of the loop over [journey.stages]. *)
Definition collectStage (deptStats : JSMap.t DeptStats) (stage : Stage)
  : JSMap.t DeptStats :=
  let stats :=
    match JSMap.get (department stage) deptStats with
    | Some s => s
    | None => mkDeptStats [] (category stage) zero zero
    end in
  JSMap.set (department stage)
    (mkDeptStats (s_times stats ++ [duration stage]) (s_category stats)
       (totalImpact stats + duration stage)%num
       (s_patientCount stats + of_Z 1)%num)
    deptStats.

Definition deptStatsOf (journeys : list PatientJourney) : JSMap.t DeptStats :=
  fold_left (fun deptStats journey =>
               fold_left collectStage (stages journey) deptStats)
    journeys [].

Definition totalFlowTimeOf (journeys : list PatientJourney) : num :=
  fold_left (fun sum j => (sum + totalDuration j)%num) journeys zero.

(** The body of the loop over the entries of [deptStats]. *)
Definition delayOf (journeys : list PatientJourney)
  (entry : jsstring * DeptStats) : DepartmentDelay :=
  let stats := snd entry in
  let sortedTimes := JSArray.sort BottleneckDetection.ascending (s_times stats) in
  let medianTime :=
    or_default
      (JSArray.at_index sortedTimes
         (Math_floor (of_nat (List.length sortedTimes) / of_Z 2)%num))
      zero in
  let actualAvgTime :=
    (fold_left (fun a b => (a + b)%num) (s_times stats) zero
     / of_nat (List.length (s_times stats)))%num in
  let variance :=
    (fold_left (fun sum t => (sum + Math_pow (t - actualAvgTime) 2)%num)
       (s_times stats) zero
     / of_nat (List.length (s_times stats)))%num in
  let delayRatio :=
    if (medianTime >? zero)%num then (actualAvgTime / medianTime)%num
    else of_Z 1 in
  let totalFlowTime := totalFlowTimeOf journeys in
  let impactOnLOS :=
    if (totalFlowTime >? zero)%num
    then (totalImpact stats / totalFlowTime * of_Z 100)%num
    else zero in
  let queueBuildup :=
    if (variance >? actualAvgTime * lit 5 10)%num
    then (variance / actualAvgTime)%num
    else zero in
  mkDelay (fst entry) (s_category stats) (Math_round medianTime)
    (Math_round actualAvgTime) (BottleneckDetection.round2 delayRatio)
    (Math_round variance) (BottleneckDetection.round2 queueBuildup)
    (BottleneckDetection.round1 impactOnLOS) (s_patientCount stats).

Definition byDelayRatioDescending (a b : DepartmentDelay) : num :=
  (delayRatio b - delayRatio a)%num.

(** [getDepartmentDelays(filters)], given the journeys
    [getPatientJourneys(filters)] returned. *)
Definition getDepartmentDelays (journeys : list PatientJourney)
  : list DepartmentDelay :=
  match journeys with
  | [] => []
  | _ =>
      JSArray.sort byDelayRatioDescending
        (map (delayOf journeys) (deptStatsOf journeys))
  end.

(** ** Flow paths *)

Record PathData : Type := mkPathData {
  p_count : num;
  p_totalDuration : num
}.

Record PatientFlowPath : Type := mkPath {
  from : jsstring;
  to : jsstring;
  count : num;
  avgDuration : num
}.

(** [filters?.department && from !== filters.department
    && to !== filters.department]: the pair is skipped. *)
Definition skipped (department : option jsstring) (from to : jsstring) : bool :=
  match department with
  | Some d => nonempty d && negb (streq from d) && negb (streq to d)
  | None => false
  end.

(** The loop over the consecutive stages of one journey. *)
Fixpoint collectPaths (department : option jsstring) (stages : list Stage)
  (pathMap : JSMap.t PathData) : JSMap.t PathData :=
  match stages with
  | current :: ((next :: _) as rest) =>
      collectPaths department rest
        (if skipped department (PatientFlow.department current)
              (PatientFlow.department next)
         then pathMap
         else
           let key :=
             BottleneckDetection.propagationKey
               (PatientFlow.department current) (PatientFlow.department next) in
           let path :=
             match JSMap.get key pathMap with
             | Some p => p
             | None => mkPathData zero zero
             end in
           JSMap.set key
             (mkPathData (p_count path + of_Z 1)
                (p_totalDuration path + duration next))%num
             pathMap)
  | _ => pathMap
  end.

Definition pathMapOf (department : option jsstring)
  (journeys : list PatientJourney) : JSMap.t PathData :=
  fold_left (fun pathMap journey =>
               collectPaths department (stages journey) pathMap)
    journeys [].

Definition pathOf (entry : jsstring * PathData) : PatientFlowPath :=
  let parts := split arrow (fst entry) in
  mkPath (nth 0 parts []) (nth 1 parts []) (p_count (snd entry))
    (Math_round (p_totalDuration (snd entry) / p_count (snd entry))%num).

Definition byCountDescending (a b : PatientFlowPath) : num :=
  (count b - count a)%num.

(** [getPatientFlowPaths(filters)], given the rows the query returned: the
    journeys are reconstructed without the unit filter, which is applied to
    the pairs. *)
Definition getPatientFlowPaths (department : option jsstring)
  (flowLogs : list FlowLog) : list PatientFlowPath :=
  let journeys := getPatientJourneys None flowLogs in
  JSArray.sort byCountDescending
    (map pathOf (pathMapOf department journeys)).

(** ** Time contributions *)

Record DeptTime : Type := mkDeptTime {
  totalTime : num;
  t_patientCount : num
}.

Record DepartmentTimeContribution : Type := mkContribution {
  c_department : jsstring;
  avgTime : num;
  percentage : num;
  c_patientCount : num
}.

(** The body of the loop over [journey.stages]: the map of the units and
    [grandTotal]. *)
Definition collectTime (state : JSMap.t DeptTime * num) (stage : Stage)
  : JSMap.t DeptTime * num :=
  let stats :=
    match JSMap.get (department stage) (fst state) with
    | Some s => s
    | None => mkDeptTime zero zero
    end in
  (JSMap.set (department stage)
     (mkDeptTime (totalTime stats + duration stage)
        (t_patientCount stats + of_Z 1))%num
     (fst state),
   (snd state + duration stage)%num).

Definition deptTimesOf (journeys : list PatientJourney)
  : JSMap.t DeptTime * num :=
  fold_left (fun state journey => fold_left collectTime (stages journey) state)
    journeys ([], zero).

Definition contributionOf (grandTotal : num) (entry : jsstring * DeptTime)
  : DepartmentTimeContribution :=
  let stats := snd entry in
  mkContribution (fst entry)
    (Math_round (totalTime stats / t_patientCount stats)%num)
    (Math_round (totalTime stats / grandTotal * of_Z 1000) / of_Z 10)%num
    (t_patientCount stats).

Definition byPercentageDescending (a b : DepartmentTimeContribution) : num :=
  (percentage b - percentage a)%num.

(** [getDepartmentTimeContributions(filters)], given the journeys. *)
Definition getDepartmentTimeContributions (journeys : list PatientJourney)
  : list DepartmentTimeContribution :=
  match journeys with
  | [] => []
  | _ =>
      let state := deptTimesOf journeys in
      JSArray.sort byPercentageDescending
        (map (contributionOf (snd state)) (fst state))
  end.

End FlowAnalysis.

(* ------------------------------------------------------------------ *)
(** * dataService: recommendations, trends and the high-risk cohort *)

Module ReadmissionCohort.

Import Records Readmission.

(** The two recommendations that the [switch] pushes for a factor. *)
Definition recommendationsFor (name : jsstring) : list jsstring :=
  if streq name (str "Short Length of Stay") then
    [ str "Ensure comprehensive discharge planning and patient education";
      str "Verify patient understanding of medications and care instructions" ]
  else if streq name (str "Extended Length of Stay") then
    [ str "Coordinate with specialist for complex care management";
      str "Establish clear post-discharge care plan with primary care provider" ]
  else if streq name (str "Operational Delays") then
    [ str "Review care coordination to reduce treatment gaps";
      str "Ensure all pending test results are reviewed before discharge" ]
  else if streq name (str "Multiple Department Transfers") then
    [ str "Assign care coordinator for transition management";
      str "Conduct comprehensive medication reconciliation" ]
  else if streq name (str "Recent Hospital Visits") then
    [ str "Evaluate for chronic disease management program enrollment";
      str "Consider palliative care consultation if appropriate" ]
  else if streq name (str "Weekend Discharge") then
    [ str "Ensure 24/7 contact information provided to patient";
      str "Schedule next-day follow-up call to assess patient status" ]
  else [].

(** [Array.from(new Set(l))]: the first occurrence of each string, in
    order. *)
Fixpoint distinct (seen l : list jsstring) : list jsstring :=
  match l with
  | [] => []
  | s :: l' =>
      if includes seen s then distinct seen l'
      else s :: distinct (seen ++ [s]) l'
  end.

Definition isHighOrCritical (riskLevel : RiskLevel) : bool :=
  match riskLevel with
  | high | critical => true
  | _ => false
  end.

Definition generateRecommendations (factors : list ReadmissionFactor)
  (riskLevel : RiskLevel) : list jsstring :=
  let urgent :=
    if isHighOrCritical riskLevel then
      [ str "Schedule follow-up appointment within 48-72 hours of discharge";
        str "Arrange home health care visit within first week" ]
    else [] in
  let recommendations :=
    fold_left (fun recommendations f =>
                 recommendations ++ recommendationsFor (factor f))
      factors urgent in
  firstn 5 (distinct [] recommendations).

Section Host.

(** [Date.prototype.getDay] of the host, as in [Readmission]. *)
Variable getDay : Z -> Z.

(** The [preventionRecommendations] of [predictReadmissionRisk]: the factors
    are passed in the order in which they were pushed, before the sort. *)
Definition preventionRecommendationsOf (record : PatientRecord)
  (historicalRecords : list PatientRecord) : list jsstring :=
  let p :=
    stepWeekend getDay record
      (stepHistory record historicalRecords
         (stepTransfers record
            (stepOperationalDelay record
               (stepLengthOfStay record ([], zero))))) in
  generateRecommendations (fst p) (riskLevelOf (snd p)).

Definition discharged (record : PatientRecord) : bool :=
  match dischargeDate record with
  | Some _ => true
  | None => false
  end.

Definition byRiskScoreDescending (a b : ReadmissionRisk) : num :=
  (riskScore b - riskScore a)%num.

Definition identifyHighRiskPatients (records : list PatientRecord)
  (historicalRecords : list PatientRecord) : list ReadmissionRisk :=
  JSArray.sort byRiskScoreDescending
    (filter (fun risk => isHighOrCritical (riskLevel risk))
       (map (fun record =>
               predictReadmissionRisk getDay record historicalRecords)
          (filter discharged records))).

(** ** Trends by month *)

Record MonthlyData : Type := mkMonthly {
  readmissions : list ReadmissionRisk;
  total : num
}.

Record RiskDistribution : Type := mkDistribution {
  d_low : num;
  d_medium : num;
  d_high : num;
  d_critical : num
}.

Record ReadmissionTrend : Type := mkTrend {
  period : jsstring;
  totalReadmissions : num;
  riskDistribution : RiskDistribution;
  preventableReadmissions : num
}.

Section Trends.

(** [dischargeDate.substring(0, 7)], the year and the month of the date
    string whose time value is given, and [a.localeCompare(b)] of the host. *)
Variable monthOf : Z -> jsstring.
Variable localeCompare : jsstring -> jsstring -> num.

(** The callback of [records.forEach]. *)
Definition collectMonth (historicalRecords : list PatientRecord)
  (monthlyData : JSMap.t MonthlyData) (record : PatientRecord)
  : JSMap.t MonthlyData :=
  match dischargeDate record with
  | None => monthlyData
  | Some d =>
      let month := monthOf d in
      let risk := predictReadmissionRisk getDay record historicalRecords in
      let data :=
        match JSMap.get month monthlyData with
        | Some data => data
        | None => mkMonthly [] zero
        end in
      JSMap.set month
        (mkMonthly (readmissions data ++ [risk]) (total data + of_Z 1)%num)
        monthlyData
  end.

(** [distribution[risk.riskLevel]++]. *)
Definition countLevel (distribution : RiskDistribution)
  (risk : ReadmissionRisk) : RiskDistribution :=
  match riskLevel risk with
  | low =>
      mkDistribution (d_low distribution + of_Z 1)%num (d_medium distribution)
        (d_high distribution) (d_critical distribution)
  | medium =>
      mkDistribution (d_low distribution) (d_medium distribution + of_Z 1)%num
        (d_high distribution) (d_critical distribution)
  | high =>
      mkDistribution (d_low distribution) (d_medium distribution)
        (d_high distribution + of_Z 1)%num (d_critical distribution)
  | critical =>
      mkDistribution (d_low distribution) (d_medium distribution)
        (d_high distribution) (d_critical distribution + of_Z 1)%num
  end.

(** The callback of [monthlyData.forEach]. *)
Definition trendOf (entry : jsstring * MonthlyData) : ReadmissionTrend :=
  let data := snd entry in
  let distribution :=
    fold_left countLevel (readmissions data)
      (mkDistribution zero zero zero zero) in
  let preventable :=
    of_nat
      (List.length
         (filter (fun risk => (delayInfluence risk >? of_Z 10)%num)
            (readmissions data))) in
  mkTrend (fst entry) (total data) distribution preventable.

Definition byPeriod (a b : ReadmissionTrend) : num :=
  localeCompare (period a) (period b).

Definition analyzeReadmissionTrends (records : list PatientRecord)
  (historicalRecords : list PatientRecord) : list ReadmissionTrend :=
  JSArray.sort byPeriod
    (map trendOf (fold_left (collectMonth historicalRecords) records [])).

End Trends.

End Host.

End ReadmissionCohort.

(* ------------------------------------------------------------------ *)
(** * simulationService: the baseline and the comparison *)

Module SimulationPipeline.

Import PatientFlow Simulation.

Definition calculateReadmissionRisk (processingTime delayCount : num) : num :=
  let baseRisk := of_Z 15 in
  let timeImpact := (processingTime / of_Z 60 * lit 5 10)%num in
  let delayImpact := (delayCount * lit 3 10)%num in
  Math_min (of_Z 100) (baseRisk + timeImpact + delayImpact)%num.

(** The reads [j.admissionDate], [j.dischargeDate] and [d.department]: the
    objects that [getPatientJourneys] and [getDepartmentDelays] build have no
    such property (a journey has [patientId], [totalDuration] and [stages], a
    delay record has [departmentName]), so each read gives [undefined]. *)
Definition admissionDateOf (j : PatientJourney) : option Z := None.
Definition dischargeDateOf (j : PatientJourney) : option Z := None.
Definition departmentOf (d : FlowAnalysis.DepartmentDelay) : option jsstring :=
  None.

(** A row of [departments]; a field is [None] when the row has [null]
    there. *)
Record Department : Type := mkDepartment {
  staff_count : option num;
  bed_capacity : option num
}.

(** [dept?.staff_count] and [dept?.bed_capacity]. *)
Definition staffOf (dept : option Department) : option num :=
  match dept with Some d => staff_count d | None => None end.

Definition bedsOf (dept : option Department) : option num :=
  match dept with Some d => bed_capacity d | None => None end.

(** [calculateBaselineMetrics(departmentName, filters)], given the journeys
    and the delays that the two queries returned and the row of the unit. *)
Definition calculateBaselineMetrics (departmentName : jsstring)
  (journeys : list PatientJourney)
  (delays : list FlowAnalysis.DepartmentDelay) (dept : option Department)
  : SimulationMetrics :=
  let departmentDelays :=
    filter (fun d =>
              match departmentOf d with
              | Some n => streq n departmentName
              | None => false
              end)
      delays in
  let deptJourneys :=
    filter (fun j =>
              existsb (fun s => streq (department s) departmentName)
                (stages j))
      journeys in
  let departmentStages :=
    filter (fun s => streq (department s) departmentName)
      (flat_map stages deptJourneys) in
  let avgProcessingTime :=
    if (0 <? List.length departmentStages)%nat
    then (fold_left (fun sum s => (sum + duration s)%num) departmentStages zero
          / of_nat (List.length departmentStages))%num
    else zero in
  let totalLOS :=
    fold_left
      (fun sum j =>
         match admissionDateOf j, dischargeDateOf j with
         | Some a, Some d =>
             (sum + (of_Z d - of_Z a) / Records.msPerDay)%num
         | _, _ => sum
         end)
      deptJourneys zero in
  let averageLOS :=
    if (0 <? List.length deptJourneys)%nat
    then (totalLOS / of_nat (List.length deptJourneys))%num
    else zero in
  let bedCapacity := orElse (bedsOf dept) (of_Z 1) in
  let currentPatients := of_nat (List.length departmentStages) in
  let bedUtilization := (currentPatients / bedCapacity * of_Z 100)%num in
  let readmissionRisk :=
    calculateReadmissionRisk avgProcessingTime
      (of_nat (List.length departmentDelays)) in
  let throughput := of_nat (List.length departmentStages) in
  mkSimMetrics (round1 averageLOS)
    (Math_min (of_Z 100) (round1 bedUtilization))
    (Math_round avgProcessingTime) (round1 readmissionRisk) throughput.

(** [simulateIntervention(intervention, filters)] from the rows: the
    baseline is computed for the unit of the intervention. *)
Definition simulate (department : option jsstring) (flowLogs : list FlowLog)
  (departments : jsstring -> option Department)
  (intervention : SimulationIntervention) : Completion SimulationResult :=
  let journeys := getPatientJourneys department flowLogs in
  let delays := FlowAnalysis.getDepartmentDelays journeys in
  let dept := departments (departmentName intervention) in
  let baseline :=
    calculateBaselineMetrics (departmentName intervention) journeys delays
      dept in
  simulateIntervention intervention baseline (staffOf dept) (bedsOf dept).

(** [Promise.all]: the values in order, or the first error. *)
Fixpoint all {A : Type} (l : list (Completion A)) : Completion (list A) :=
  match l with
  | [] => Returned []
  | Returned a :: l' =>
      match all l' with
      | Returned rest => Returned (a :: rest)
      | Thrown message => Thrown message
      end
  | Thrown message :: _ => Thrown message
  end.

(** The recommendations of a comparison, by the template of the text and
    the values it shows. *)
Inductive Recommendation : Type :=
| BestROI (type departmentName : jsstring)
| HighImpact (losReductionPercent : num)
| ExcellentReturn (roi : num)
| ReducesReadmissionRisk (readmissionRiskReduction : num)
| LowCostHighImpact (options : nat).

Record MultiSimulationComparison : Type := mkComparison {
  simulations : list SimulationResult;
  recommendations : list Recommendation;
  optimalIntervention : option SimulationResult
}.

Definition byRoiDescending (a b : SimulationResult) : num :=
  (roi (costBenefit b) - roi (costBenefit a))%num.

(** The part of [compareInterventions] that follows the simulations. *)
Definition compare (results : list SimulationResult)
  : MultiSimulationComparison :=
  let simulations := JSArray.sort byRoiDescending results in
  let optimalIntervention := hd_error simulations in
  let forOptimal :=
    match optimalIntervention with
    | Some optimal =>
        [BestROI (type (intervention optimal))
           (departmentName (intervention optimal))]
        ++ (if (losReductionPercent (improvements optimal) >? of_Z 20)%num
            then [HighImpact (losReductionPercent (improvements optimal))]
            else [])
        ++ (if (roi (costBenefit optimal) >? of_Z 2)%num
            then [ExcellentReturn (roi (costBenefit optimal))]
            else [])
        ++ (if (readmissionRiskReduction (improvements optimal) >? of_Z 5)%num
            then [ReducesReadmissionRisk
                    (readmissionRiskReduction (improvements optimal))]
            else [])
    | None => []
    end in
  let lowCostHighImpact :=
    filter (fun s =>
              (estimatedCost (costBenefit s) <? of_Z 200000)%num
              && (impactScore (costBenefit s) >? of_Z 20)%num)
      simulations in
  let recommendations :=
    forOptimal
    ++ (if (0 <? List.length lowCostHighImpact)%nat
        then [LowCostHighImpact (List.length lowCostHighImpact)]
        else []) in
  mkComparison simulations recommendations optimalIntervention.

Definition compareInterventions (department : option jsstring)
  (flowLogs : list FlowLog) (departments : jsstring -> option Department)
  (interventions : list SimulationIntervention)
  : Completion MultiSimulationComparison :=
  match all (map (simulate department flowLogs departments) interventions) with
  | Returned results => Returned (compare results)
  | Thrown message => Thrown message
  end.

End SimulationPipeline.

(* ------------------------------------------------------------------ *)
(** * optimizationService *)

Module Optimization.

(** An entry of the list that [getDepartmentUtilization] returns: the columns
    of the unit that are read later and the figures computed for it.  A
    [null] column reads as 0 in the comparisons and the arithmetic below. *)
Record Utilization : Type := mkUtilization {
  name : jsstring;
  staff_count : num;
  bed_capacity : num;
  patientVolume : num;
  avgProcessingTime : num;
  bedUtilization : num;
  staffUtilization : num;
  flowLogsCount : num
}.

(** ** Utilization *)

(** A row of [departments]; the other columns are copied to the result and
    not read. *)
Record DepartmentRow : Type := mkDepartmentRow {
  d_id : jsstring;
  d_name : jsstring;
  d_staff_count : num;
  d_bed_capacity : num
}.

(** A row of [department_flow_logs]; a field is [None] when the row has
    [null] there, and a time is given in milliseconds. *)
Record UtilizationLog : Type := mkUtilizationLog {
  department_id : option jsstring;
  patient_id : option jsstring;
  entry_time : option Z;
  exit_time : option Z
}.

Definition sameValue (a b : option jsstring) : bool :=
  match a, b with
  | Some x, Some y => streq x y
  | None, None => true
  | _, _ => false
  end.

(** [new Set(l)]: the first occurrence of each value, in order. *)
Fixpoint setOf (l : list (option jsstring)) : list (option jsstring) :=
  match l with
  | [] => []
  | x :: l' => x :: filter (fun y => negb (sameValue x y)) (setOf l')
  end.

Definition logsOf (dept : DepartmentRow) (flowLogs : list UtilizationLog)
  : list UtilizationLog :=
  filter (fun log => sameValue (department_id log) (Some (d_id dept)))
    flowLogs.

Definition addProcessingTime (sum : num) (log : UtilizationLog) : num :=
  match entry_time log, exit_time log with
  | Some entry, Some exit =>
      (sum + PatientFlow.minutes (of_Z exit - of_Z entry))%num
  | _, _ => sum
  end.

(** The body of the [map] over the rows of [departments]. *)
Definition utilizationOf (flowLogs : list UtilizationLog)
  (dept : DepartmentRow) : Utilization :=
  let deptLogs := logsOf dept flowLogs in
  let uniquePatients :=
    of_nat (List.length (setOf (map patient_id deptLogs))) in
  let totalProcessingTime := fold_left addProcessingTime deptLogs zero in
  let avgProcessingTime :=
    if (0 <? List.length deptLogs)%nat
    then (totalProcessingTime / of_nat (List.length deptLogs))%num
    else zero in
  let bedUtilization :=
    if (d_bed_capacity dept >? zero)%num
    then (uniquePatients / d_bed_capacity dept * of_Z 100)%num
    else zero in
  let staffUtilization :=
    if (d_staff_count dept >? zero)%num
    then (uniquePatients / d_staff_count dept)%num
    else zero in
  mkUtilization (d_name dept) (d_staff_count dept) (d_bed_capacity dept)
    uniquePatients avgProcessingTime (Math_min (of_Z 100) bedUtilization)
    staffUtilization (of_nat (List.length deptLogs)).

(** [getDepartmentUtilization(filters)], given the rows of the two queries;
    a query without rows gives the empty list. *)
Definition getDepartmentUtilization (departments : list DepartmentRow)
  (flowLogs : list UtilizationLog) : list Utilization :=
  map (utilizationOf flowLogs) departments.

(** ** Staff reallocation *)

(** The two texts of an opportunity are left out. *)
Record StaffReallocationOpportunity : Type := mkOpportunity {
  fromDepartment : jsstring;
  toDepartment : jsstring;
  staffCount : num;
  feasibilityScore : num
}.

Definition isBottleneck
  (bottlenecks : list BottleneckDetection.BottleneckDetection)
  (unit : jsstring) : bool :=
  existsb (fun b => streq (BottleneckDetection.departmentName b) unit)
    bottlenecks.

Definition isUnderutilized
  (bottlenecks : list BottleneckDetection.BottleneckDetection)
  (u : Utilization) : bool :=
  (staffUtilization u <? of_Z 4)%num && (staff_count u >? of_Z 5)%num
  && negb (isBottleneck bottlenecks (name u)).

Definition isOverutilized
  (bottlenecks : list BottleneckDetection.BottleneckDetection)
  (u : Utilization) : bool :=
  (staffUtilization u >? of_Z 8)%num
  || existsb
       (fun b =>
          streq (BottleneckDetection.departmentName b) (name u)
          && (BottleneckDetection.overallImpactScore b >? of_Z 40)%num)
       bottlenecks.

Definition staffToReallocateOf (source : Utilization) : num :=
  Math_min (of_Z 2) (Math_floor (staff_count source * lit 2 10)%num).

Definition newSourceUtilOf (source : Utilization) : num :=
  (patientVolume source / (staff_count source - staffToReallocateOf source))%num.

Definition newTargetUtilOf (source target : Utilization) : num :=
  (patientVolume target / (staff_count target + staffToReallocateOf source))%num.

Definition feasibilityScoreOf (source target : Utilization) : num :=
  Math_min (of_Z 100)
    ((if (newSourceUtilOf source <? of_Z 7)%num then of_Z 50 else zero)
     + (if (newTargetUtilOf source target >? of_Z 5)%num
        then of_Z 50 else zero))%num.

(** The body of the inner loop: [None] when nothing is pushed. *)
Definition opportunityOf (source target : Utilization)
  : option StaffReallocationOpportunity :=
  if (feasibilityScoreOf source target >? of_Z 50)%num
  then Some (mkOpportunity (name source) (name target)
               (staffToReallocateOf source)
               (Math_round (feasibilityScoreOf source target)))
  else None.

Definition byFeasibilityDescending (a b : StaffReallocationOpportunity)
  : num :=
  (feasibilityScore b - feasibilityScore a)%num.

(** [getStaffReallocationOpportunities(filters)], given the utilization and
    the bottlenecks that the two calls returned. *)
Definition getStaffReallocationOpportunities (utilization : list Utilization)
  (bottlenecks : list BottleneckDetection.BottleneckDetection)
  : list StaffReallocationOpportunity :=
  let underutilized := filter (isUnderutilized bottlenecks) utilization in
  let overutilized := filter (isOverutilized bottlenecks) utilization in
  JSArray.sort byFeasibilityDescending
    (flat_map
       (fun source =>
          BottleneckDetection.collectSome
            (map (opportunityOf source) overutilized))
       underutilized).

(** ** Prioritized recommendations *)

Inductive Urgency : Type := critical | high | medium | low.

Inductive RecommendationType : Type := process_improvement | staff | beds.

Record ExpectedImpact : Type := mkImpact {
  losReduction : num;
  costSavings : num;
  patientThroughputIncrease : num
}.

(** The rationale and the action items of a recommendation are texts and
    are left out. *)
Record OptimizationRecommendation : Type := mkRecommendation {
  priority : num;
  departmentName : jsstring;
  recommendationType : RecommendationType;
  expectedImpact : ExpectedImpact;
  urgency : Urgency
}.

Definition urgencyOf (overallImpactScore : num) : Urgency :=
  if (overallImpactScore >? of_Z 75)%num then critical
  else if (overallImpactScore >? of_Z 50)%num then high
  else if (overallImpactScore >? of_Z 30)%num then medium
  else low.

Definition isInvisible (t : BottleneckDetection.BottleneckType) : bool :=
  match t with
  | BottleneckDetection.invisible => true
  | _ => false
  end.

(** The body of the loop over the bottlenecks. *)
Definition recommendationsOf (utilization : list Utilization)
  (bottleneck : BottleneckDetection.BottleneckDetection)
  : list OptimizationRecommendation :=
  match find
          (fun u => streq (name u)
                      (BottleneckDetection.departmentName bottleneck))
          utilization with
  | None => []
  | Some deptUtil =>
      let urgency :=
        urgencyOf (BottleneckDetection.overallImpactScore bottleneck) in
      let losReduction :=
        (Math_abs (BottleneckDetection.timeDeviation bottleneck / of_Z 100)
         * (avgProcessingTime deptUtil / of_Z 60 / of_Z 24))%num in
      let costSavings :=
        (losReduction * BottleneckDetection.patientsAffected bottleneck
         * of_Z 2000)%num in
      let throughputIncrease :=
        Math_floor
          (BottleneckDetection.patientsAffected bottleneck * lit 15 100)%num in
      (if isInvisible (BottleneckDetection.bottleneckType bottleneck)
          || (BottleneckDetection.delayPropagationScore bottleneck
              >? of_Z 40)%num
       then [mkRecommendation (BottleneckDetection.rank bottleneck)
               (BottleneckDetection.departmentName bottleneck)
               process_improvement
               (mkImpact (BottleneckDetection.round1 losReduction)
                  (Math_round costSavings) throughputIncrease)
               urgency]
       else [])
      ++ (if (staffUtilization deptUtil >? of_Z 8)%num
          then [mkRecommendation (BottleneckDetection.rank bottleneck)
                  (BottleneckDetection.departmentName bottleneck)
                  staff
                  (mkImpact
                     (Math_round (losReduction * lit 12 10 * of_Z 10)
                      / of_Z 10)%num
                     (Math_round (costSavings * lit 12 10)%num)
                     (Math_floor (throughputIncrease * lit 13 10)%num))
                  urgency]
          else [])
      ++ (if (bedUtilization deptUtil >? of_Z 85)%num
          then [mkRecommendation (BottleneckDetection.rank bottleneck)
                  (BottleneckDetection.departmentName bottleneck)
                  beds
                  (mkImpact
                     (Math_round (losReduction * lit 8 10 * of_Z 10)
                      / of_Z 10)%num
                     (Math_round (costSavings * lit 8 10)%num)
                     (Math_floor (throughputIncrease * lit 15 10)%num))
                  urgency]
          else [])
  end.

Definition urgencyScore (u : Urgency) : Z :=
  match u with
  | critical => 4
  | high => 3
  | medium => 2
  | low => 1
  end.

Definition byUrgencyThenPriority (a b : OptimizationRecommendation) : num :=
  let urgencyDiff :=
    (of_Z (urgencyScore (urgency b)) - of_Z (urgencyScore (urgency a)))%num in
  if negb (urgencyDiff === zero)%num then urgencyDiff
  else (priority a - priority b)%num.

(** [getPrioritizedOptimizations(filters)], given the bottlenecks and the
    utilization. *)
Definition getPrioritizedOptimizations (utilization : list Utilization)
  (bottlenecks : list BottleneckDetection.BottleneckDetection)
  : list OptimizationRecommendation :=
  JSArray.sort byUrgencyThenPriority
    (flat_map (recommendationsOf utilization) bottlenecks).

(** ** Cost against impact *)

(** The description of an intervention is a text and is left out. *)
Record CostToImpactIntervention : Type := mkCostToImpact {
  c_departmentName : jsstring;
  interventionType : jsstring;
  interventionValue : num;
  estimatedCost : num;
  impactScore : num;
  roi : num;
  quickWins : bool
}.

Definition candidatesFor (unit : jsstring)
  : list Simulation.SimulationIntervention :=
  [ Simulation.mkIntervention (str "staff") unit (of_Z 2);
    Simulation.mkIntervention (str "beds") unit (of_Z 5);
    Simulation.mkIntervention (str "processing_time") unit (of_Z 30) ].

Definition costToImpactOf (sim : Simulation.SimulationResult)
  : CostToImpactIntervention :=
  let isQuickWin :=
    (Simulation.estimatedCost (Simulation.costBenefit sim) <? of_Z 150000)%num
    && (Simulation.impactScore (Simulation.costBenefit sim) >? of_Z 25)%num in
  mkCostToImpact
    (Simulation.departmentName (Simulation.intervention sim))
    (Simulation.type (Simulation.intervention sim))
    (Simulation.value (Simulation.intervention sim))
    (Simulation.estimatedCost (Simulation.costBenefit sim))
    (Simulation.impactScore (Simulation.costBenefit sim))
    (Simulation.roi (Simulation.costBenefit sim))
    isQuickWin.

(** The loop over the first five bottlenecks; an error of a comparison ends
    the call. *)
Fixpoint analyzeBottlenecks (department : option jsstring)
  (flowLogs : list PatientFlow.FlowLog)
  (departments : jsstring -> option SimulationPipeline.Department)
  (bottlenecks : list BottleneckDetection.BottleneckDetection)
  (interventions : list CostToImpactIntervention)
  : Simulation.Completion (list CostToImpactIntervention) :=
  match bottlenecks with
  | [] => Simulation.Returned interventions
  | bottleneck :: rest =>
      match departments (BottleneckDetection.departmentName bottleneck) with
      | None =>
          analyzeBottlenecks department flowLogs departments rest interventions
      | Some _ =>
          match SimulationPipeline.compareInterventions department flowLogs
                  departments
                  (candidatesFor
                     (BottleneckDetection.departmentName bottleneck)) with
          | Simulation.Returned results =>
              analyzeBottlenecks department flowLogs departments rest
                (interventions
                 ++ map costToImpactOf
                      (SimulationPipeline.simulations results))
          | Simulation.Thrown message => Simulation.Thrown message
          end
      end
  end.

Definition byRoi (a b : CostToImpactIntervention) : num :=
  (roi b - roi a)%num.

(** [getCostToImpactAnalysis(filters)], given the bottlenecks that
    [detectBottlenecks] returned and the rows. *)
Definition getCostToImpactAnalysis (department : option jsstring)
  (flowLogs : list PatientFlow.FlowLog)
  (departments : jsstring -> option SimulationPipeline.Department)
  (bottlenecks : list BottleneckDetection.BottleneckDetection)
  : Simulation.Completion (list CostToImpactIntervention) :=
  match analyzeBottlenecks department flowLogs departments
          (firstn 5 bottlenecks) [] with
  | Simulation.Returned interventions =>
      Simulation.Returned (JSArray.sort byRoi interventions)
  | Simulation.Thrown message => Simulation.Thrown message
  end.

End Optimization.

(* ------------------------------------------------------------------ *)
(** * predictiveAnalyticsService: the admission forecast *)

Module Forecast.

Import Records.

(** The smoothed series starts with the first value; each later entry mixes
    the value with the entry before it. *)
Fixpoint smoothFrom (alpha previous : num) (values : list num) : list num :=
  match values with
  | [] => []
  | v :: rest =>
      let s := (alpha * v + (of_Z 1 - alpha) * previous)%num in
      s :: smoothFrom alpha s rest
  end.

Definition exponentialSmoothing (values : list num) (alpha : num)
  : list num :=
  match values with
  | [] => []
  | v :: rest => v :: smoothFrom alpha v rest
  end.

(** The loop of [calculateTrend]: the state is the pair of [numerator] and
    [denominator]. *)
Definition trendStep (xMean yMean : num) (state : num * num)
  (entry : nat * num) : num * num :=
  let xDiff := (of_nat (fst entry) - xMean)%num in
  ((fst state + xDiff * (snd entry - yMean))%num,
   (snd state + xDiff * xDiff)%num).

Definition calculateTrend (values : list num) : num :=
  if (List.length values <? 2)%nat then zero
  else
    let n := of_nat (List.length values) in
    let xMean := ((n - of_Z 1) / of_Z 2)%num in
    let yMean := (fold_left add values zero / n)%num in
    let state :=
      fold_left (trendStep xMean yMean)
        (combine (seq 0 (List.length values)) values) (zero, zero) in
    if (snd state === zero)%num then zero
    else (fst state / snd state)%num.

Inductive Direction : Type := increasing | decreasing | stable.

(** The date of a forecast is a text and is left out. *)
Record AdmissionForecast : Type := mkForecast {
  predictedAdmissions : num;
  lower : num;
  upper : num;
  trend : Direction
}.

(** [Math.PI], the double nearest to the number. *)
Definition Math_PI : num := fin (884279719003555 # 281474976710656).

(** The order of the default [sort()]: by code units. *)
Fixpoint precedes (a b : jsstring) : bool :=
  match a, b with
  | _, [] => false
  | [], _ :: _ => true
  | x :: a', y :: b' => (x <? y)%N || ((x =? y)%N && precedes a' b')
  end.

Definition defaultCompare (a b : jsstring) : num :=
  if precedes a b then of_Z (-1)
  else if precedes b a then of_Z 1
  else zero.

Section Host.

(** The day of a time, as [toISOString().split('T')[0]] gives it, the
    host's [Math.sqrt] on the finite numbers that are not negative, and the
    host's [Math.sin]. *)
Variable isoDate : Z -> jsstring.
Variable sqrtQ : Q -> Q.
Variable Math_sin : num -> num.

Definition countOf (dailyAdmissions : JSMap.t num) (date : jsstring) : num :=
  match JSMap.get date dailyAdmissions with
  | Some count => or_default count zero
  | None => zero
  end.

Definition countAdmission (dailyAdmissions : JSMap.t num)
  (record : PatientRecord) : JSMap.t num :=
  match admissionDate record with
  | Some t =>
      let date := isoDate t in
      JSMap.set date (countOf dailyAdmissions date + of_Z 1)%num
        dailyAdmissions
  | None => dailyAdmissions
  end.

Definition directionOf (trend : num) : Direction :=
  if (trend >? lit 5 10)%num then increasing
  else if (trend <? lit (-5) 10)%num then decreasing
  else stable.

(** The body of the loop over the days. *)
Definition forecastOf (lastValue trend stdDev : num) (i : nat)
  : AdmissionForecast :=
  let trendComponent := (trend * of_nat i)%num in
  let seasonalFactor :=
    (of_Z 1
     + lit 1 10 * Math_sin (of_nat i / of_Z 7 * of_Z 2 * Math_PI))%num in
  let predicted :=
    Math_max zero
      (Math_round ((lastValue + trendComponent) * seasonalFactor)%num) in
  mkForecast predicted
    (Math_max zero (Math_round (predicted - lit 196 100 * stdDev)%num))
    (Math_round (predicted + lit 196 100 * stdDev)%num)
    (directionOf trend).

(** The part of [forecastAdmissions] that follows the counting. *)
Definition forecastFrom (admissionValues : list num) (days : nat)
  : list AdmissionForecast :=
  match admissionValues with
  | [] => []
  | _ =>
      let smoothed := exponentialSmoothing admissionValues (lit 3 10) in
      let trend := calculateTrend smoothed in
      let lastValue := List.last smoothed NaN in
      let n := of_nat (List.length admissionValues) in
      let avgValue := (fold_left add admissionValues zero / n)%num in
      let stdDev :=
        Math_sqrt sqrtQ
          (fold_left
             (fun sum val => (sum + Math_pow (val - avgValue) 2)%num)
             admissionValues zero
           / n)%num in
      map (forecastOf lastValue trend stdDev) (seq 1 days)
  end.

(** [forecastAdmissions(records, days)]; [days] is the number of rounds of
    the loop. *)
Definition forecastAdmissions (records : list PatientRecord) (days : nat)
  : list AdmissionForecast :=
  let dailyAdmissions := fold_left countAdmission records [] in
  let sortedDates :=
    JSArray.sort defaultCompare (JSMap.keys dailyAdmissions) in
  let admissionValues := map (countOf dailyAdmissions) sortedDates in
  forecastFrom admissionValues days.

End Host.

End Forecast.

(* ------------------------------------------------------------------ *)
(** * predictiveAnalyticsService: the capacity risks *)

Module Capacity.

Import Records.

Record DepartmentCapacity : Type := mkCapacity {
  currentLoad : num;
  historicalPeak : num;
  avgLoad : num
}.

(** The date of a risk is the day of the call plus [day] days; the
    embedding keeps the number of days. *)
Record CapacityRisk : Type := mkCapacityRisk {
  day : nat;
  department : jsstring;
  currentCapacity : num;
  predictedDemand : num;
  utilizationRate : num;
  riskLevel : RiskLevel
}.

(** The callback of [records.forEach]. *)
Definition collectRecord (departmentCapacity : JSMap.t DepartmentCapacity)
  (record : PatientRecord) : JSMap.t DepartmentCapacity :=
  match currentDepartment record with
  | Some dept =>
      if nonempty dept then
        let capacity :=
          match JSMap.get dept departmentCapacity with
          | Some c => c
          | None => mkCapacity zero zero zero
          end in
        let load := (currentLoad capacity + of_Z 1)%num in
        JSMap.set dept
          (mkCapacity load (Math_max (historicalPeak capacity) load)
             (avgLoad capacity))
          departmentCapacity
      else departmentCapacity
  | None => departmentCapacity
  end.

Definition levelOf (utilizationRate : num) : RiskLevel :=
  if (utilizationRate >=? of_Z 95)%num then critical
  else if (utilizationRate >=? of_Z 85)%num then high
  else if (utilizationRate >=? of_Z 75)%num then medium
  else low.

Definition isCriticalOrHigh (riskLevel : RiskLevel) : bool :=
  match riskLevel with
  | critical | high => true
  | _ => false
  end.

Definition riskOrder (riskLevel : RiskLevel) : Z :=
  match riskLevel with
  | critical => 4
  | high => 3
  | medium => 2
  | low => 1
  end.

Definition byRiskDescending (a b : CapacityRisk) : num :=
  (of_Z (riskOrder (riskLevel b)) - of_Z (riskOrder (riskLevel a)))%num.

Section Host.

(** The host's [Math.sin]. *)
Variable Math_sin : num -> num.

(** The body of the loop over the days: [None] when nothing is pushed.  The
    average load that the callback stores in the entry is the current
    load. *)
Definition riskOn (dept : jsstring) (capacity : DepartmentCapacity)
  (day : nat) : option CapacityRisk :=
  let avgLoad := currentLoad capacity in
  let seasonalFactor :=
    (of_Z 1
     + lit 15 100
       * Math_sin (of_nat day / of_Z 7 * of_Z 2 * Forecast.Math_PI))%num in
  let trendFactor := (of_Z 1 + lit 2 100 * (of_nat day / of_Z 30))%num in
  let predictedDemand :=
    Math_round (avgLoad * seasonalFactor * trendFactor)%num in
  let assumedCapacity :=
    Math_round (historicalPeak capacity * lit 12 10)%num in
  let utilizationRate :=
    (predictedDemand / assumedCapacity * of_Z 100)%num in
  let riskLevel := levelOf utilizationRate in
  if (day mod 7 =? 0)%nat || isCriticalOrHigh riskLevel
  then Some (mkCapacityRisk day dept assumedCapacity predictedDemand
               (Math_round utilizationRate) riskLevel)
  else None.

(** The callback of [departmentCapacity.forEach]. *)
Definition risksOf (forecastDays : nat)
  (entry : jsstring * DepartmentCapacity) : list CapacityRisk :=
  BottleneckDetection.collectSome
    (map (riskOn (fst entry) (snd entry)) (seq 1 forecastDays)).

(** [predictCapacityRisks(records, forecastDays)]; [forecastDays] is the
    number of rounds of the loop over the days. *)
Definition predictCapacityRisks (records : list PatientRecord)
  (forecastDays : nat) : list CapacityRisk :=
  let departmentCapacity := fold_left collectRecord records [] in
  JSArray.sort byRiskDescending
    (flat_map (risksOf forecastDays) departmentCapacity).

End Host.

End Capacity.

(* ------------------------------------------------------------------ *)
(** * patientFlowService: the insights *)

Module FlowInsights.

Import PatientFlow.

Inductive InsightType : Type :=
| delayInsight | varianceInsight | bottleneckInsight | impactInsight.

Inductive Severity : Type := high | medium | low.

(** The title and the description of an insight are texts and are left
    out. *)
Record FlowInsight : Type := mkInsight {
  type : InsightType;
  severity : Severity;
  department : jsstring;
  metric : num
}.

Definition enoughPatients (d : FlowAnalysis.DepartmentDelay) : bool :=
  (FlowAnalysis.patientCount d >=? of_Z 5)%num.

(** The body of the loop over the delays. *)
Definition insightsOf
  (contributions : list FlowAnalysis.DepartmentTimeContribution)
  (d : FlowAnalysis.DepartmentDelay) : list FlowInsight :=
  (if (FlowAnalysis.delayRatio d >? lit 15 10)%num && enoughPatients d
   then
     [mkInsight delayInsight
        (if (FlowAnalysis.delayRatio d >? of_Z 2)%num then high else medium)
        (FlowAnalysis.departmentName d) (FlowAnalysis.delayRatio d)]
     ++ match find
                (fun c => streq (FlowAnalysis.c_department c)
                            (FlowAnalysis.departmentName d))
                contributions with
        | Some contrib =>
            if (FlowAnalysis.percentage contrib <? of_Z 15)%num
               && (FlowAnalysis.impactOnLOS d >? of_Z 10)%num
            then [mkInsight impactInsight high
                    (FlowAnalysis.departmentName d)
                    (FlowAnalysis.impactOnLOS d)]
            else []
        | None => []
        end
   else [])
  ++ (if (FlowAnalysis.variance d
          >? FlowAnalysis.actualAvgTime d * lit 8 10)%num
         && enoughPatients d
      then
        [mkInsight varianceInsight
           (if (FlowAnalysis.variance d
                >? FlowAnalysis.actualAvgTime d * lit 15 10)%num
            then high else medium)
           (FlowAnalysis.departmentName d) (FlowAnalysis.variance d)]
      else [])
  ++ (if (FlowAnalysis.queueBuildup d >? lit 12 10)%num && enoughPatients d
      then
        [mkInsight bottleneckInsight
           (if (FlowAnalysis.queueBuildup d >? lit 15 10)%num
            then high else medium)
           (FlowAnalysis.departmentName d) (FlowAnalysis.queueBuildup d)]
      else []).

(** The insight on the journeys as a whole. *)
Definition systemWide (journeys : list PatientJourney) : list FlowInsight :=
  let avgJourneyDuration :=
    (fold_left (fun sum j => (sum + totalDuration j)%num) journeys zero
     / of_nat (List.length journeys))%num in
  let longJourneys :=
    filter (fun j => (totalDuration j >? avgJourneyDuration * lit 15 10)%num)
      journeys in
  if (of_nat (List.length longJourneys)
      >? of_nat (List.length journeys) * lit 2 10)%num
  then [mkInsight impactInsight high (str "System-wide")
          (of_nat (List.length longJourneys)
           / of_nat (List.length journeys))%num]
  else [].

Definition severityOrder (s : Severity) : Z :=
  match s with
  | high => 3
  | medium => 2
  | low => 1
  end.

Definition bySeverityDescending (a b : FlowInsight) : num :=
  (of_Z (severityOrder (severity b)) - of_Z (severityOrder (severity a)))%num.

(** [generateFlowInsights(filters)], given the journeys that the three
    calls work on. *)
Definition generateFlowInsights (journeys : list PatientJourney)
  : list FlowInsight :=
  let delays := FlowAnalysis.getDepartmentDelays journeys in
  let contributions := FlowAnalysis.getDepartmentTimeContributions journeys in
  JSArray.sort bySeverityDescending
    (flat_map (insightsOf contributions) delays ++ systemWide journeys).

End FlowInsights.

(* ------------------------------------------------------------------ *)
(** * alertsService *)

Module Alerts.

Inductive AlertSeverity : Type := critical | warning | info.

Inductive AlertCategory : Type :=
| bottleneck | discharge_delay | readmission_risk | capacity.

(** The identifier, the time stamp and the texts of an alert are left out;
    [current] and [threshold] are the two numbers of its [metrics]. *)
Record Alert : Type := mkAlert {
  severity : AlertSeverity;
  category : AlertCategory;
  departmentName : jsstring;
  current : num;
  threshold : num
}.

Record AlertThresholds : Type := mkThresholds {
  bottleneckImpactScore : num;
  bedUtilizationCritical : num;
  bedUtilizationWarning : num;
  avgProcessingTimeIncrease : num;
  readmissionRiskHigh : num;
  dischargeDelayMinutes : num
}.

Definition DEFAULT_THRESHOLDS : AlertThresholds :=
  mkThresholds (of_Z 60) (of_Z 90) (of_Z 80) (of_Z 50) (of_Z 25) (of_Z 120).

(** The body of the loop of [detectBottleneckAlerts]. *)
Definition bottleneckAlertsOf (thresholds : AlertThresholds)
  (b : BottleneckDetection.BottleneckDetection) : list Alert :=
  (if (BottleneckDetection.overallImpactScore b
       >=? bottleneckImpactScore thresholds)%num
   then
     [mkAlert
        (if (BottleneckDetection.overallImpactScore b >=? of_Z 80)%num
         then critical
         else if (BottleneckDetection.overallImpactScore b >=? of_Z 60)%num
         then warning
         else info)
        bottleneck (BottleneckDetection.departmentName b)
        (BottleneckDetection.overallImpactScore b)
        (bottleneckImpactScore thresholds)]
   else [])
  ++ (if (BottleneckDetection.timeDeviation b
          >=? avgProcessingTimeIncrease thresholds)%num
      then
        [mkAlert
           (if (BottleneckDetection.timeDeviation b >=? of_Z 100)%num
            then critical else warning)
           discharge_delay (BottleneckDetection.departmentName b)
           (BottleneckDetection.b_actualTime b)
           (BottleneckDetection.b_expectedTime b)]
      else []).

Definition detectBottleneckAlerts (thresholds : AlertThresholds)
  (bottlenecks : list BottleneckDetection.BottleneckDetection)
  : list Alert :=
  flat_map (bottleneckAlertsOf thresholds) bottlenecks.

(** The body of the loop of [detectCapacityAlerts]. *)
Definition capacityAlertsOf (thresholds : AlertThresholds)
  (dept : Optimization.Utilization) : list Alert :=
  (if (Optimization.bedUtilization dept
       >=? bedUtilizationCritical thresholds)%num
   then [mkAlert critical capacity (Optimization.name dept)
           (Optimization.bedUtilization dept)
           (bedUtilizationCritical thresholds)]
   else if (Optimization.bedUtilization dept
            >=? bedUtilizationWarning thresholds)%num
   then [mkAlert warning capacity (Optimization.name dept)
           (Optimization.bedUtilization dept)
           (bedUtilizationWarning thresholds)]
   else [])
  ++ (if (Optimization.staffUtilization dept >? of_Z 10)%num
      then [mkAlert critical capacity (Optimization.name dept)
              (Optimization.staffUtilization dept) (of_Z 8)]
      else []).

Definition detectCapacityAlerts (thresholds : AlertThresholds)
  (utilization : list Optimization.Utilization) : list Alert :=
  flat_map (capacityAlertsOf thresholds) utilization.

Definition estimatedRiskOf (b : BottleneckDetection.BottleneckDetection)
  : num :=
  let baseReadmissionRisk := of_Z 15 in
  let timeImpact :=
    (BottleneckDetection.b_actualTime b / of_Z 60 * lit 5 10)%num in
  let delayImpact :=
    (of_nat (List.length (BottleneckDetection.downstreamDepartments b))
     * of_Z 2)%num in
  (baseReadmissionRisk + timeImpact + delayImpact)%num.

(** The body of the loop of [detectReadmissionRiskAlerts]. *)
Definition readmissionAlertsOf (thresholds : AlertThresholds)
  (b : BottleneckDetection.BottleneckDetection) : list Alert :=
  let estimatedRisk := estimatedRiskOf b in
  if (estimatedRisk >=? readmissionRiskHigh thresholds)%num
  then [mkAlert
          (if (estimatedRisk >=? of_Z 35)%num then critical else warning)
          readmission_risk (BottleneckDetection.departmentName b)
          (Math_round (estimatedRisk * of_Z 10) / of_Z 10)%num
          (readmissionRiskHigh thresholds)]
  else [].

Definition detectReadmissionRiskAlerts (thresholds : AlertThresholds)
  (bottlenecks : list BottleneckDetection.BottleneckDetection)
  : list Alert :=
  flat_map (readmissionAlertsOf thresholds) bottlenecks.

Definition severityOrder (s : AlertSeverity) : Z :=
  match s with
  | critical => 3
  | warning => 2
  | info => 1
  end.

Definition bySeverityDescending (a b : Alert) : num :=
  (of_Z (severityOrder (severity b)) - of_Z (severityOrder (severity a)))%num.

(** [getAllAlerts(filters, thresholds)], given the bottlenecks and the
    utilization that the three detectors work on. *)
Definition getAllAlerts (thresholds : AlertThresholds)
  (bottlenecks : list BottleneckDetection.BottleneckDetection)
  (utilization : list Optimization.Utilization) : list Alert :=
  JSArray.sort bySeverityDescending
    (detectBottleneckAlerts thresholds bottlenecks
     ++ detectCapacityAlerts thresholds utilization
     ++ detectReadmissionRiskAlerts thresholds bottlenecks).

Definition getAlertsByDepartment (alerts : list Alert)
  (departmentName : jsstring) : list Alert :=
  filter (fun alert => streq (Alerts.departmentName alert) departmentName)
    alerts.

End Alerts.

(* ------------------------------------------------------------------ *)
(** * The specification's notions *)

(** The reconstruction in the words of the specification. *)
Module JourneySpec.

Import PatientFlow.

(** The unit of a row; a row without one counts for the unit "Unknown". *)
Definition unitOf (log : FlowLog) : jsstring :=
  match log_department log with
  | Some n => if nonempty n then n else str "Unknown"
  | None => str "Unknown"
  end.

(** The optional restriction to one unit. *)
Definition passesFilter (department : option jsstring) (unit : jsstring)
  : bool :=
  match department with
  | Some d => negb (nonempty d) || streq unit d
  | None => true
  end.

(** duration = (exit - entry) in minutes, the times being in
    milliseconds. *)
Definition derivedDuration (entry exit : Z) : num :=
  fin (inject_Z (exit - entry) / inject_Z 60000).

(** The stage a fetched row contributes: a row with a patient, both
    timestamps and the unit asked for, whose exit is not before its entry,
    gives a stage; any other row is dropped. *)
Definition keptStage (department : option jsstring) (log : FlowLog)
  : option (jsstring * Stage) :=
  match log_patient_id log, entry_time log, exit_time log with
  | Some patient, Some entry, Some exit =>
      if nonempty patient && passesFilter department (unitOf log)
         && (entry <=? exit)%Z
      then Some (patient,
                 mkStage (unitOf log) (categorizeDepartment (unitOf log))
                   entry exit (derivedDuration entry exit))
      else None
  | _, _, _ => None
  end.

Fixpoint keptStages (department : option jsstring) (flowLogs : list FlowLog)
  : list (jsstring * Stage) :=
  match flowLogs with
  | [] => []
  | log :: rest =>
      match keptStage department log with
      | Some s => s :: keptStages department rest
      | None => keptStages department rest
      end
  end.

(** The kept stages of one patient, in the order of the rows. *)
Definition stagesOfPatient (department : option jsstring)
  (flowLogs : list FlowLog) (patient : jsstring) : list Stage :=
  map snd
    (filter (fun ps => streq (fst ps) patient)
       (keptStages department flowLogs)).

End JourneySpec.

(** The statistics in the words of the specification. *)
Module StatisticsSpec.

(** The arithmetic mean. *)
Definition arithmeticMean (values : list num) : num :=
  (JSNum.sum values / of_nat (List.length values))%num.

(** The population variance: the squared deviations from the mean, divided
    by the number of samples. *)
Definition populationVariance (values : list num) : num :=
  (JSNum.sum
     (map (fun v => ((v - arithmeticMean values)
                     * (v - arithmeticMean values))%num) values)
   / of_nat (List.length values))%num.

Definition ascendingOrder (l : list num) : Prop :=
  StronglySorted (fun a b => (a <=? b)%num = true) l.

(** The samples sorted ascending: a sample goes after the samples that are
    smaller. *)
Fixpoint insertAscending (x : num) (l : list num) : list num :=
  match l with
  | [] => [x]
  | y :: l' => if (y <? x)%num then y :: insertAscending x l' else x :: l
  end.

Fixpoint sortAscending (l : list num) : list num :=
  match l with
  | [] => []
  | x :: l' => insertAscending x (sortAscending l')
  end.

(** The median: the sample at index n/2 of the sorted samples. *)
Definition sampleMedian (values : list num) : num :=
  nth (List.length values / 2) (sortAscending values) NaN.

(** The standard deviation: the square root of the population variance. *)
Definition standardDeviation (sqrtQ : Q -> Q) (values : list num) : num :=
  Math_sqrt sqrtQ (populationVariance values).

End StatisticsSpec.

(** The classification in the words of the specification. *)
Module BottleneckSpec.

Import PatientFlow BottleneckDetection.

(** The duration samples of a unit: the durations of its stages, over all
    journeys. *)
Definition samples (journeys : list PatientJourney) (unit : jsstring)
  : list num :=
  map duration
    (filter (fun s => streq (department s) unit)
       (flat_map stages journeys)).

(** The ordered first-match rule: moderate load and delay-propagation score
    > 30 gives invisible; otherwise high load and time-deviation > 50 gives
    obvious; otherwise variance-ratio > 1.3 and congestion-indicator > 0.8
    gives emerging; otherwise no type. *)
Definition firstMatch (load : LoadLevel)
  (delayPropagation timeDeviation varianceRatio congestion : num)
  : option BottleneckType :=
  match load with
  | moderate =>
      if (delayPropagation >? of_Z 30)%num then Some invisible
      else if (varianceRatio >? lit 13 10)%num
              && (congestion >? lit 8 10)%num
      then Some emerging else None
  | high =>
      if (timeDeviation >? of_Z 50)%num then Some obvious
      else if (varianceRatio >? lit 13 10)%num
              && (congestion >? lit 8 10)%num
      then Some emerging else None
  | low =>
      if (varianceRatio >? lit 13 10)%num && (congestion >? lit 8 10)%num
      then Some emerging else None
  end.

Section WithSqrt.
Variable sqrtQ : Q -> Q.

(** A unit is reported with a type. *)
Definition reported (journeys : list PatientJourney) (unit : jsstring)
  (type : BottleneckType) : Prop :=
  exists b, In b (detectBottlenecks sqrtQ journeys)
            /\ departmentName b = unit /\ bottleneckType b = type.

End WithSqrt.

End BottleneckSpec.

(** The analysis in the words of the specification. *)
Module PropagationSpec.

Import PatientFlow.

(** The pairs of consecutive stages of a journey. *)
Fixpoint transitions (stages : list Stage) : list (Stage * Stage) :=
  match stages with
  | [] => []
  | current :: rest =>
      match rest with
      | [] => []
      | next :: _ => (current, next) :: transitions rest
      end
  end.

Definition allTransitions (journeys : list PatientJourney)
  : list (Stage * Stage) :=
  flat_map (fun j => transitions (stages j)) journeys.

(** wait = next entry - current exit, in minutes. *)
Definition waitMinutes (t : Stage * Stage) : num :=
  fin (inject_Z (entryTime (snd t) - exitTime (fst t)) / inject_Z 60000).

(** A wait is counted when it exceeds 5 minutes, that is 300000 ms. *)
Definition counted (t : Stage * Stage) : bool :=
  (300000 <? entryTime (snd t) - exitTime (fst t))%Z.

Definition between (source target : jsstring) (t : Stage * Stage) : bool :=
  streq (department (fst t)) source && streq (department (snd t)) target.

(** The counted waits from [source] to [target], over all journeys. *)
Definition countedWaits (journeys : list PatientJourney)
  (source target : jsstring) : list num :=
  map waitMinutes
    (filter (between source target)
       (filter counted (allTransitions journeys))).

Definition averageDelay (waits : list num) : num :=
  (JSNum.sum waits / of_nat (List.length waits))%num.

(** propagation strength = min(100, (average delay / 60) x 100). *)
Definition strength (waits : list num) : num :=
  Math_min (averageDelay waits / of_Z 60 * of_Z 100)%num (of_Z 100).

(** No unit name contains the arrow that separates the two names of a key. *)
Definition arrowFree (journeys : list PatientJourney) : Prop :=
  Forall (fun j => Forall (fun s => ~ In arrow (department s)) (stages j))
    journeys.

(** The two units an edge joins. *)
Definition endpoints (e : BottleneckDetection.DelayPropagation)
  : jsstring * jsstring :=
  (BottleneckDetection.sourceDepartment e,
   BottleneckDetection.targetDepartment e).

End PropagationSpec.

(** The metrics of the classifier in the words of the specification: each
    is computed from the journeys, for a unit given by its name. *)
Module ClassifierSpec.

Import PatientFlow StatisticsSpec BottleneckSpec PropagationSpec.
Import BottleneckDetection (LoadLevel, low, moderate, high, BottleneckType).

(** Each name once, in the order of the first occurrences. *)
Definition firstOccurrences (names : list jsstring) : list jsstring :=
  fold_left
    (fun seen name =>
       if existsb (streq name) seen then seen else seen ++ [name])
    names [].

(** The units: the units of the stages of the journeys. *)
Definition units (journeys : list PatientJourney) : list jsstring :=
  firstOccurrences (map department (flat_map stages journeys)).

(** The mean and the median of the samples of a unit. *)
Definition unitMean (journeys : list PatientJourney) (unit : jsstring) : num :=
  arithmeticMean (samples journeys unit).

Definition unitMedian (journeys : list PatientJourney) (unit : jsstring)
  : num :=
  sampleMedian (samples journeys unit).

(** time deviation % = (unit mean - unit median) / unit median x 100, and 0
    when the unit median is 0. *)
Definition timeDeviation (journeys : list PatientJourney) (unit : jsstring)
  : num :=
  if (unitMedian journeys unit === zero)%num then zero
  else ((unitMean journeys unit - unitMedian journeys unit)
        / unitMedian journeys unit * of_Z 100)%num.

(** volume-percentile = unit sample count / mean sample count across units
    x 100. *)
Definition sampleCount (journeys : list PatientJourney) (unit : jsstring)
  : num :=
  of_nat (List.length (samples journeys unit)).

Definition volumePercentile (journeys : list PatientJourney)
  (unit : jsstring) : num :=
  (sampleCount journeys unit
   / arithmeticMean (map (sampleCount journeys) (units journeys))
   * of_Z 100)%num.

(** Load level: volume-percentile < 60 is low, < 100 moderate, else high. *)
Definition loadLevel (journeys : list PatientJourney) (unit : jsstring)
  : LoadLevel :=
  if (volumePercentile journeys unit <? of_Z 60)%num then low
  else if (volumePercentile journeys unit <? of_Z 100)%num then moderate
  else high.

(** The waits after the stages of a unit: for each stage of the unit that
    another stage follows in its journey, the wait between the exit of the
    stage and the entry of the next, with the unit of the next stage. *)
Definition waitsFrom (journeys : list PatientJourney) (unit : jsstring)
  : list (jsstring * num) :=
  map (fun t => (department (snd t), waitMinutes t))
    (filter (fun t => streq (department (fst t)) unit)
       (allTransitions journeys)).

(** The downstream delays of a unit, given which waits count: the waits
    summed per next unit, and the average of these sums over the next
    units; 0 when no stage follows. *)
Section Counting.
Variable counts : num -> bool.

Definition countedWaitsFrom (journeys : list PatientJourney)
  (unit : jsstring) : list (jsstring * num) :=
  filter (fun w => counts (snd w)) (waitsFrom journeys unit).

Definition nextUnits (journeys : list PatientJourney) (unit : jsstring)
  : list jsstring :=
  firstOccurrences (map fst (countedWaitsFrom journeys unit)).

Definition downstreamDelay (journeys : list PatientJourney)
  (unit target : jsstring) : num :=
  JSNum.sum
    (map snd
       (filter (fun w => streq (fst w) target)
          (countedWaitsFrom journeys unit))).

Definition averageDownstreamDelay (journeys : list PatientJourney)
  (unit : jsstring) : num :=
  match nextUnits journeys unit with
  | [] => zero
  | targets =>
      (JSNum.sum (map (downstreamDelay journeys unit) targets)
       / of_nat (List.length targets))%num
  end.

(** delay-propagation score = min(100, (average downstream delay / unit
    mean) x 100), and 0 when the unit mean is 0. *)
Definition delayPropagationScore (journeys : list PatientJourney)
  (unit : jsstring) : num :=
  if (unitMean journeys unit === zero)%num then zero
  else Math_min (of_Z 100)
         (averageDownstreamDelay journeys unit / unitMean journeys unit
          * of_Z 100)%num.

End Counting.

(** Every wait counts, as the specification words it. *)
Definition everyWait (wait : num) : bool := true.

(** Only a wait above 0 counts, as the source has it. *)
Definition positiveWait (wait : num) : bool := (wait >? zero)%num.

Section WithSqrt.
Variable sqrtQ : Q -> Q.

Definition unitDeviation (journeys : list PatientJourney) (unit : jsstring)
  : num :=
  standardDeviation sqrtQ (samples journeys unit).

(** The global standard deviation: that of the samples of all units. *)
Definition globalDeviation (journeys : list PatientJourney) : num :=
  standardDeviation sqrtQ (flat_map (samples journeys) (units journeys)).

(** variance ratio = unit standard deviation / global standard deviation,
    and 1 when the global standard deviation is 0. *)
Definition varianceRatio (journeys : list PatientJourney) (unit : jsstring)
  : num :=
  if (globalDeviation journeys === zero)%num then of_Z 1
  else (unitDeviation journeys unit / globalDeviation journeys)%num.

(** congestion-indicator = std-dev / mean if std-dev > 0.5 x mean, else 0. *)
Definition congestionIndicator (journeys : list PatientJourney)
  (unit : jsstring) : num :=
  if (unitDeviation journeys unit >? lit 5 10 * unitMean journeys unit)%num
  then (unitDeviation journeys unit / unitMean journeys unit)%num
  else zero.

(** The type that the first-match rule assigns to a unit. *)
Definition assignedType (counts : num -> bool)
  (journeys : list PatientJourney) (unit : jsstring)
  : option BottleneckType :=
  firstMatch (loadLevel journeys unit)
    (delayPropagationScore counts journeys unit)
    (timeDeviation journeys unit)
    (varianceRatio journeys unit)
    (congestionIndicator journeys unit).

End WithSqrt.

End ClassifierSpec.

(** The quantities and the tiers in the words of the specification. *)
Module PredictiveSpec.

Import Records.

Definition isIn (dept : jsstring) (record : PatientRecord) : bool :=
  match currentDepartment record with
  | Some d => streq d dept
  | None => false
  end.

(** The records whose current unit is [dept]. *)
Definition recordsIn (dept : jsstring) (records : list PatientRecord)
  : list PatientRecord :=
  filter (isIn dept) records.

Definition waitsOf (record : PatientRecord) : list num :=
  match journeySteps record with
  | Some steps => map waitTimeMinutes steps
  | None => []
  end.

(** The waits of more than 60 minutes of a list of records. *)
Definition longWaits (records : list PatientRecord) : list num :=
  flat_map (fun r => filter (fun w => (w >? of_Z 60)%num) (waitsOf r)) records.

(** delay-frequency = count(wait > 60 min) / total patients. *)
Definition delayFrequency (dept : jsstring) (records : list PatientRecord)
  : num :=
  (of_nat (List.length (longWaits (recordsIn dept records)))
   / of_nat (List.length (recordsIn dept records)))%num.

(** The average of those waits, 0 when there is none. *)
Definition averageDelay (dept : jsstring) (records : list PatientRecord)
  : num :=
  match longWaits (recordsIn dept records) with
  | [] => zero
  | waits => (JSNum.sum waits / of_nat (List.length waits))%num
  end.

(** The tiers, for a given reading of "the frequency reaches the
    threshold". *)
Definition tierBy (reaches : num -> num -> bool) (frequency average : num)
  : RiskLevel * num :=
  if reaches frequency (lit 3 10) && (average >? of_Z 120)%num
  then (critical, lit 85 100)
  else if reaches frequency (lit 2 10) || (average >? of_Z 90)%num
  then (high, lit 65 100)
  else if reaches frequency (lit 1 10) || (average >? of_Z 60)%num
  then (medium, lit 40 100)
  else (low, lit 15 100).

(** The specification reads the thresholds as "at least"; the source as "more
    than". *)
Definition statedTier : num -> num -> RiskLevel * num := tierBy geb.
Definition tier : num -> num -> RiskLevel * num := tierBy gtb.

End PredictiveSpec.

(** The scoring rule in the words of the specification. *)
Module ReadmissionSpec.

Import Records.

Definition daysBetween (fromMs toMs : Z) : Q :=
  inject_Z (toMs - fromMs) / inject_Z 86400000.

(** Length of stay in days; 0 when a date is missing. *)
Definition lengthOfStay (record : PatientRecord) : Q :=
  match admissionDate record, dischargeDate record with
  | Some a, Some d => daysBetween a d
  | _, _ => 0
  end.


(** +25 if 0 < LOS < 2 days, +20 if LOS > 14 days. *)
Definition stayPoints (record : PatientRecord) : Z :=
  if Qltb 0 (lengthOfStay record) && Qltb (lengthOfStay record) 2 then 25
  else if Qltb 14 (lengthOfStay record) then 20
  else 0.

Definition averageWait (steps : list JourneyStep) : num :=
  (JSNum.sum (map (fun s => or_default (waitTimeMinutes s) zero) steps)
   / of_nat (List.length steps))%num.

(** +30, +20 or +10 if the average wait per stage exceeds 120, 90 or 60
    minutes. *)
Definition waitPoints (record : PatientRecord) : Z :=
  match journeySteps record with
  | None | Some [] => 0
  | Some steps =>
      if (averageWait steps >? of_Z 120)%num then 30
      else if (averageWait steps >? of_Z 90)%num then 20
      else if (averageWait steps >? of_Z 60)%num then 10
      else 0
  end.

(** +15 if there are more than 5 stage transitions. *)
Definition transferPoints (record : PatientRecord) : Z :=
  match journeySteps record with
  | Some steps => if (5 <? List.length steps)%nat then 15 else 0
  | None => 0
  end.

(** The earlier admissions of the same patient less than 90 days before. *)
Definition isPriorAdmission (record r : PatientRecord) : bool :=
  streq (patientId r) (patientId record)
  && negb (streq (id r) (id record))
  && match admissionDate r, admissionDate record with
     | Some ra, Some a =>
         Qltb 0 (daysBetween ra a) && Qltb (daysBetween ra a) 90
     | _, _ => false
     end.

Definition priorAdmissions (record : PatientRecord)
  (historicalRecords : list PatientRecord) : nat :=
  List.length (filter (isPriorAdmission record) historicalRecords).

(** +15 per prior admission, capped at +30. *)
Definition historyPoints (record : PatientRecord)
  (historicalRecords : list PatientRecord) : Z :=
  Z.min 30 (15 * Z.of_nat (priorAdmissions record historicalRecords)).

(** The day of the week of a calendar date, given as the time value of its
    midnight in UTC: 0 is Sunday, and 1 January 1970 was a Thursday. *)
Definition weekday (t : Z) : Z := ((t / 86400000) + 4) mod 7.

(** Friday is day 5 and Saturday day 6. *)
Definition isFridayOrSaturday (date : option Z) : bool :=
  match date with
  | Some t => (weekday t =? 5)%Z || (weekday t =? 6)%Z
  | None => false
  end.

(** +10 if the discharge falls on a Friday or Saturday. *)
Definition weekendPoints (record : PatientRecord) : Z :=
  if isFridayOrSaturday (dischargeDate record) then 10 else 0.


Definition score (record : PatientRecord)
  (historicalRecords : list PatientRecord) : Z :=
  stayPoints record + waitPoints record + transferPoints record
  + historyPoints record historicalRecords + weekendPoints record.

Definition levelOf (score : Z) : RiskLevel :=
  if (70 <=? score)%Z then critical
  else if (50 <=? score)%Z then high
  else if (30 <=? score)%Z then medium
  else low.

End ReadmissionSpec.

Module SimulationSpec.

(** The three types of intervention the simulator knows. *)
Definition knownType (t : jsstring) : Prop :=
  t = str "staff" \/ t = str "beds" \/ t = str "processing_time".

(** Failing fast: the call ends with an error raised to the caller. *)
Definition failsFast {A : Type} (c : Simulation.Completion A) : Prop :=
  exists message, c = Simulation.Thrown message.

End SimulationSpec.

(* ------------------------------------------------------------------ *)
(** * Sample data *)

Module Examples.

Import PatientFlow.

(** A row of the flow log, with its times in minutes. *)
Definition row (patient unit : string) (entryMinute exitMinute : Z) : FlowLog :=
  mkLog (Some (str patient)) (Some (str unit))
    (Some (entryMinute * 60000)%Z) (Some (exitMinute * 60000)%Z).

(** One patient seen in three units, entered out of order, with one row
    whose exit precedes its entry. *)
Definition threeRows : list FlowLog :=
  [ row "p1" "Radiology" 60 90;
    row "p1" "ER" 0 45;
    row "p1" "Laboratory" 50 40;
    row "p1" "Pharmacy" 100 110 ].

Definition threeRowsJourney : PatientJourney :=
  mkJourney (str "p1") (of_Z 85)
    [ mkStage (str "ER") Emergency 0 2700000 (of_Z 45);
      mkStage (str "Radiology") Diagnostics 3600000 5400000 (of_Z 30);
      mkStage (str "Pharmacy") Discharge 6000000 6600000 (of_Z 10) ].

End Examples.

Module ReadmissionExamples.

Import Records.

Definition day (n : Z) : Z := (n * 86400000)%Z.

(** [getDay] on a host whose time zone is UTC. *)
Definition getDayUTC (t : Z) : Z := ((t / 86400000) + 4) mod 7.

(** [getDay] on a host five hours west of Greenwich. *)
Definition getDayWest (t : Z) : Z := (((t - 18000000) / 86400000) + 4) mod 7.


(** Admitted on Wednesday 10 January 2024, discharged the day after. *)
Definition oneDayStay : PatientRecord :=
  mkRecord (str "r1") (str "p1") (Some (day 19732)) (Some (day 19733))
    None None.

(** Admitted on Friday 5 January 2024 and discharged on the Saturday, after
    six steps that waited 100 minutes each; the same patient had been
    admitted thirty days earlier. *)
Definition busyStay : PatientRecord :=
  mkRecord (str "r2") (str "p2") (Some (day 19727)) (Some (day 19728))
    (Some (str "ER"))
    (Some (repeat (mkStep (str "ER") (of_Z 100)) 6)).

Definition earlierStay : PatientRecord :=
  mkRecord (str "r0") (str "p2") (Some (day 19697)) (Some (day 19699))
    None None.

(** Admitted on Wednesday 10 January 2024, discharged on Saturday the 13th. *)
Definition saturdayDischarge : PatientRecord :=
  mkRecord (str "r3") (str "p3") (Some (day 19732)) (Some (day 19735))
    None None.

End ReadmissionExamples.

Module PredictiveExamples.

Import Records.

Definition inER (waits : list Z) : PatientRecord :=
  mkRecord (str "r") (str "p") None None (Some (str "ER"))
    (Some (map (fun w => mkStep (str "ER") (of_Z w)) waits)).

(** Ten patients in the ER, three of whom waited 130 minutes at a step: the
    delay frequency is exactly 0.3 and the average delay 130 minutes. *)
Definition tenInER : list PatientRecord :=
  repeat (inER [130%Z]) 3 ++ repeat (inER [20%Z]) 7.

Definition tenInERPrediction : Predictive.BottleneckPrediction :=
  Predictive.mkPrediction (str "ER") high (lit 65 100) (of_Z 39).

End PredictiveExamples.

Module SimulationExamples.

Import Simulation.

Definition overtime : SimulationIntervention :=
  mkIntervention (str "overtime") (str "ER") (of_Z 5).

Definition erBaseline : SimulationMetrics :=
  mkSimMetrics (lit 42 10) (lit 785 10) (of_Z 120) (lit 172 10) (of_Z 40).

Definition twoMoreStaff : SimulationIntervention :=
  mkIntervention (str "staff") (str "ER") (of_Z 2).

End SimulationExamples.

Module PropagationExamples.

Import PatientFlow.

(** Three patients go from Triage to Radiology, after gaps of 6, 7 and 5
    minutes. *)
Definition threeGaps : list FlowLog :=
  [ Examples.row "p1" "Triage" 0 10; Examples.row "p1" "Radiology" 16 30;
    Examples.row "p2" "Triage" 0 10; Examples.row "p2" "Radiology" 17 30;
    Examples.row "p3" "Triage" 0 10; Examples.row "p3" "Radiology" 15 30 ].

Definition threeGapsJourneys : list PatientJourney :=
  getPatientJourneys None threeGaps.

Definition threeGapsEdge : BottleneckDetection.DelayPropagation :=
  BottleneckDetection.mkPropagation (str "Triage") (str "Radiology")
    (of_Z 7) (of_Z 2) (lit 108 10).

End PropagationExamples.

Module BottleneckExamples.

Import PatientFlow.

(** Three patients pass Triage in no time and wait ten minutes for
    Radiology; two go from Radiology to the Laboratory; three stop at the
    Desk, in no time; three spend 60, 40 and 50 minutes in Imaging and wait
    for the Ward, where a fourth patient is too. *)
Definition wardRows : list FlowLog :=
  [ Examples.row "p1" "Triage" 0 0; Examples.row "p1" "Radiology" 10 20;
    Examples.row "p2" "Triage" 0 0; Examples.row "p2" "Radiology" 10 20;
    Examples.row "p3" "Triage" 0 0; Examples.row "p3" "Radiology" 10 20;
    Examples.row "p4" "Radiology" 10 20; Examples.row "p4" "Laboratory" 25 30;
    Examples.row "p5" "Radiology" 10 20; Examples.row "p5" "Laboratory" 25 30;
    Examples.row "p6" "Desk" 0 0; Examples.row "p7" "Desk" 0 0;
    Examples.row "p8" "Desk" 0 0;
    Examples.row "p9" "Imaging" 0 60; Examples.row "p9" "Ward" 100 130;
    Examples.row "p10" "Imaging" 0 40; Examples.row "p10" "Ward" 100 130;
    Examples.row "p11" "Imaging" 0 50; Examples.row "p11" "Ward" 100 130;
    Examples.row "p12" "Ward" 100 130 ].

Definition wardJourneys : list PatientJourney :=
  getPatientJourneys None wardRows.

Definition wardAnalysis : JSMap.t BottleneckDetection.DepartmentAnalysis :=
  BottleneckDetection.analyzeDepartmentFlows sqrt_approx wardJourneys.

Definition analysisOf (unit : string)
  : option BottleneckDetection.DepartmentAnalysis :=
  JSMap.get (str unit) wardAnalysis.

(** Three patients spend 100 minutes at the Intake: one goes on to the Scan
    at once, one waits 50 minutes for the Laboratory, one leaves.  The Scan
    takes 10 minutes four times and 100 minutes once; the Laboratory takes
    no time twice and 300 minutes once; the Desk takes 5 minutes three
    times and the Pharmacy 5 minutes twice. *)
Definition clinicRows : list FlowLog :=
  [ Examples.row "p1" "Intake" 0 100; Examples.row "p1" "Scan" 100 110;
    Examples.row "p2" "Intake" 0 100; Examples.row "p2" "Laboratory" 150 150;
    Examples.row "p3" "Intake" 0 100;
    Examples.row "p4" "Scan" 0 10; Examples.row "p5" "Scan" 0 10;
    Examples.row "p6" "Scan" 0 10; Examples.row "p7" "Scan" 0 100;
    Examples.row "p8" "Laboratory" 0 0; Examples.row "p9" "Laboratory" 0 300;
    Examples.row "p10" "Desk" 0 5; Examples.row "p11" "Desk" 0 5;
    Examples.row "p12" "Desk" 0 5;
    Examples.row "p13" "Pharmacy" 0 5; Examples.row "p14" "Pharmacy" 0 5 ].

Definition clinicJourneys : list PatientJourney :=
  getPatientJourneys None clinicRows.

End BottleneckExamples.

Module FlowExamples.


End FlowExamples.

Module CohortExamples.

Import Records.

(** Admitted on Friday 5 January 2024 and discharged the day after, after
    six steps that waited 130 minutes each; the same patient had been
    admitted thirty and twenty days earlier. *)
Definition crowdedStay : PatientRecord :=
  mkRecord (str "r9") (str "p9") (Some (ReadmissionExamples.day 19727))
    (Some (ReadmissionExamples.day 19728)) (Some (str "ER"))
    (Some (repeat (mkStep (str "ER") (of_Z 130)) 6)).

Definition firstVisit : PatientRecord :=
  mkRecord (str "r7") (str "p9") (Some (ReadmissionExamples.day 19697))
    (Some (ReadmissionExamples.day 19699)) None None.

Definition secondVisit : PatientRecord :=
  mkRecord (str "r8") (str "p9") (Some (ReadmissionExamples.day 19707))
    (Some (ReadmissionExamples.day 19709)) None None.

Definition cohort : list PatientRecord :=
  [ firstVisit; secondVisit; crowdedStay; ReadmissionExamples.busyStay;
    ReadmissionExamples.earlierStay; ReadmissionExamples.oneDayStay ].

End CohortExamples.

Module PipelineExamples.

Import Simulation SimulationPipeline.

(** Two more staff for Triage, where every stage took no time. *)
Definition moreTriageStaff : SimulationIntervention :=
  mkIntervention (str "staff") (str "Triage") (of_Z 2).

Definition shorterImaging : SimulationIntervention :=
  mkIntervention (str "processing_time") (str "Imaging") (of_Z 10).

Definition moreWardBeds : SimulationIntervention :=
  mkIntervention (str "beds") (str "Ward") (of_Z 5).

(** Every unit has ten staff and twenty beds. *)
Definition tenAndTwenty (name : jsstring) : option Department :=
  Some (mkDepartment (Some (of_Z 10)) (Some (of_Z 20))).

Definition triageBaseline : SimulationMetrics :=
  calculateBaselineMetrics (str "Triage") BottleneckExamples.wardJourneys
    (FlowAnalysis.getDepartmentDelays BottleneckExamples.wardJourneys)
    (tenAndTwenty (str "Triage")).

End PipelineExamples.

Module ForecastExamples.

Definition digit (n : Z) : N := (48 + Z.to_N (n mod 10))%N.

Definition twoDigits (n : Z) : jsstring := [digit (n / 10); digit n].

Definition fourDigits (n : Z) : jsstring :=
  [digit (n / 1000); digit (n / 100); digit (n / 10); digit n].

(** The day of a time in UTC, as year, month and day, for the years 0 to
    9999. *)
Definition isoDate (t : Z) : jsstring :=
  let z := (t / 86400000 + 719468)%Z in
  let era := (z / 146097)%Z in
  let doe := (z - era * 146097)%Z in
  let yoe := ((doe - doe / 1460 + doe / 36524 - doe / 146096) / 365)%Z in
  let doy := (doe - (365 * yoe + yoe / 4 - yoe / 100))%Z in
  let mp := ((5 * doy + 2) / 153)%Z in
  let d := (doy - (153 * mp + 2) / 5 + 1)%Z in
  let m := (if mp <? 10 then mp + 3 else mp - 9)%Z in
  let y := (yoe + era * 400 + (if m <=? 2 then 1 else 0))%Z in
  fourDigits y ++ str "-" ++ twoDigits m ++ str "-" ++ twoDigits d.

(** A computable sine: the argument is brought between minus pi and pi and
    the series is cut after the ninth power.  It stands for the host's
    [Math.sin] when the forecast is run on concrete data. *)
Definition sin_approx (x : num) : num :=
  match x with
  | Fin q =>
      let tau := 2 * (884279719003555 # 281474976710656) in
      let r := q - inject_Z (Qfloor (q / tau + (1 # 2))) * tau in
      fin (r - r ^ 3 / 6 + r ^ 5 / 120 - r ^ 7 / 5040 + r ^ 9 / 362880)
  | _ => NaN
  end.

End ForecastExamples.

(* ------------------------------------------------------------------ *)
(** * Facts about numbers *)

Module NumFacts.

Lemma Qltb_lt (a b : Q) : Qltb a b = true <-> a < b.
Proof.
  unfold Qltb. rewrite negb_true_iff.
  split; intro H.
  - apply Qnot_le_lt. intro L. apply Qle_bool_iff in L. congruence.
  - destruct (Qle_bool b a) eqn:E; [|reflexivity].
    apply Qle_bool_iff in E. exfalso. exact (Qlt_not_le _ _ H E).
Qed.

Lemma Qltb_ge (a b : Q) : Qltb a b = false <-> b <= a.
Proof.
  unfold Qltb. rewrite negb_false_iff. apply Qle_bool_iff.
Qed.

Lemma Qeq_bool_false (a b : Q) : Qeq_bool a b = false <-> ~ a == b.
Proof.
  split; intro H.
  - intro E. apply Qeq_bool_iff in E. congruence.
  - destruct (Qeq_bool a b) eqn:E; [|reflexivity].
    apply Qeq_bool_iff in E. contradiction.
Qed.

Lemma Qred_zero (q : Q) : q == 0 -> Qred q = 0.
Proof. intro H. apply (Qred_complete q 0 H). Qed.

(** Numbers in lowest terms. *)
Definition canonical (x : num) : Prop :=
  match x with Fin q => Qred q = q | _ => True end.

Lemma fin_canonical (q : Q) : canonical (fin q).
Proof. apply Qcanon.Qred_involutive. Qed.

Lemma of_Z_canonical (z : Z) : canonical (of_Z z).
Proof.
  unfold canonical, of_Z, inject_Z.
  apply Qcanon.Qred_identity. simpl. apply Z.gcd_1_r.
Qed.

Lemma fin_eq (p q : Q) : p == q -> fin p = fin q.
Proof. intro H. unfold fin. f_equal. apply Qred_complete, H. Qed.

Lemma fin_of_Z (z : Z) : fin (inject_Z z) = of_Z z.
Proof. unfold fin, of_Z. f_equal. apply (of_Z_canonical z). Qed.

Lemma add_fin (a b : Q) : (Fin a + Fin b)%num = fin (a + b).
Proof. reflexivity. Qed.

Lemma sub_fin (a b : Q) : (Fin a - Fin b)%num = fin (a - b).
Proof.
  unfold sub, neg, add, fin. f_equal. apply Qred_complete.
  rewrite Qred_correct. reflexivity.
Qed.

Lemma mul_fin (a b : Q) : (Fin a * Fin b)%num = fin (a * b).
Proof. reflexivity. Qed.

Lemma div_fin (a b : Q) : ~ b == 0 -> (Fin a / Fin b)%num = fin (a / b).
Proof.
  intro H. unfold div. apply Qeq_bool_false in H.
  change (Qeq_bool b 0) with (Qeq_bool b 0). rewrite H. reflexivity.
Qed.

Lemma add_zero_l (x : num) : canonical x -> (zero + x)%num = x.
Proof.
  destruct x as [q| | |]; simpl; intros H; try reflexivity.
  unfold fin. rewrite <- H at 2. f_equal. apply Qred_complete. ring.
Qed.

Lemma add_zero_r (x : num) : canonical x -> (x + zero)%num = x.
Proof.
  destruct x as [q| | |]; simpl; intros H; try reflexivity.
  unfold fin. rewrite <- H at 2. f_equal. apply Qred_complete. ring.
Qed.

Lemma sub_self (q : Q) : (Fin q - Fin q)%num = zero.
Proof. rewrite sub_fin. unfold fin. rewrite Qred_zero; [reflexivity | ring]. Qed.

Lemma add_of_Z (a b : Z) : (of_Z a + of_Z b)%num = of_Z (a + b).
Proof.
  unfold of_Z at 1 2. rewrite add_fin, <- fin_of_Z. apply fin_eq.
  rewrite inject_Z_plus. reflexivity.
Qed.

Lemma sub_of_Z (a b : Z) : (of_Z a - of_Z b)%num = of_Z (a - b).
Proof.
  unfold of_Z at 1 2. rewrite sub_fin, <- fin_of_Z. apply fin_eq.
  unfold Z.sub. rewrite inject_Z_plus, inject_Z_opp. reflexivity.
Qed.

Lemma mul_of_Z (a b : Z) : (of_Z a * of_Z b)%num = of_Z (a * b).
Proof.
  unfold of_Z at 1 2. rewrite mul_fin, <- fin_of_Z. apply fin_eq.
  rewrite inject_Z_mult. reflexivity.
Qed.

Lemma ltb_fin (a b : Q) : (Fin a <? Fin b)%num = true <-> a < b.
Proof. apply Qltb_lt. Qed.

Lemma gtb_fin (a b : Q) : (Fin a >? Fin b)%num = true <-> b < a.
Proof. apply Qltb_lt. Qed.

Lemma leb_fin (a b : Q) : (Fin a <=? Fin b)%num = true <-> a <= b.
Proof. apply Qle_bool_iff. Qed.

Lemma geb_fin (a b : Q) : (Fin a >=? Fin b)%num = true <-> b <= a.
Proof. apply Qle_bool_iff. Qed.

Lemma gtb_fin_false (a b : Q) : (Fin a >? Fin b)%num = false <-> a <= b.
Proof. apply Qltb_ge. Qed.

Lemma ltb_of_Z (a b : Z) : (of_Z a <? of_Z b)%num = (a <? b)%Z.
Proof.
  apply eq_true_iff_eq. unfold of_Z. rewrite ltb_fin, <- Zlt_Qlt.
  symmetry. apply Z.ltb_lt.
Qed.

Lemma gtb_of_Z (a b : Z) : (of_Z a >? of_Z b)%num = (b <? a)%Z.
Proof. apply ltb_of_Z. Qed.

Lemma geb_of_Z (a b : Z) : (of_Z a >=? of_Z b)%num = (b <=? a)%Z.
Proof.
  apply eq_true_iff_eq. unfold of_Z. rewrite geb_fin, <- Zle_Qle.
  symmetry. apply Z.leb_le.
Qed.

(** The sign of a difference of finite numbers decides their order. *)
Lemma sub_positive (a b : Q) :
  (Fin a - Fin b >? zero)%num = true <-> b < a.
Proof.
  rewrite sub_fin. unfold fin, zero, of_Z. rewrite gtb_fin.
  rewrite Qred_correct. change (inject_Z 0) with 0%Q.
  split; intro H.
  - apply Qlt_minus_iff. exact H.
  - apply Qlt_minus_iff in H. exact H.
Qed.

Lemma sub_not_positive (a b : Q) :
  (Fin a - Fin b >? zero)%num = false <-> a <= b.
Proof.
  split; intro H.
  - apply Qnot_lt_le. intro L. apply sub_positive in L. congruence.
  - destruct (Fin a - Fin b >? zero)%num eqn:E; [|reflexivity].
    apply sub_positive in E. exfalso. exact (Qlt_not_le _ _ E H).
Qed.

Lemma leb_trans (x y z : num) :
  (x <=? y)%num = true -> (y <=? z)%num = true -> (x <=? z)%num = true.
Proof.
  destruct x as [a| | |], y as [b| | |], z as [c| | |]; simpl;
    try discriminate; try reflexivity.
  rewrite !Qle_bool_iff. apply Qle_trans.
Qed.

Lemma is_fin_inv (x : num) : is_fin x -> exists q, x = Fin q.
Proof. destruct x; simpl; try contradiction. eauto. Qed.

Lemma is_fin_add (x y : num) : is_fin x -> is_fin y -> is_fin (x + y)%num.
Proof. destruct x, y; simpl; intros; try contradiction; exact I. Qed.

Lemma is_fin_sub (x y : num) : is_fin x -> is_fin y -> is_fin (x - y)%num.
Proof. destruct x, y; simpl; intros; try contradiction; exact I. Qed.

Lemma is_fin_mul (x y : num) : is_fin x -> is_fin y -> is_fin (x * y)%num.
Proof. destruct x, y; simpl; intros; try contradiction; exact I. Qed.

Lemma is_fin_of_Z (z : Z) : is_fin (of_Z z).
Proof. exact I. Qed.

Lemma is_fin_round (x : num) : is_fin x -> is_fin (Math_round x).
Proof. destruct x; simpl; auto. Qed.

Lemma is_fin_abs (x : num) : is_fin x -> is_fin (Math_abs x).
Proof. destruct x; simpl; auto. Qed.

Lemma is_fin_div_of_Z (x : num) (z : Z) :
  z <> 0%Z -> is_fin x -> is_fin (x / of_Z z)%num.
Proof.
  intros Hz Hx. destruct x as [q| | |]; simpl in *; try contradiction.
  destruct (Qeq_bool (inject_Z z) 0) eqn:E; [|exact I].
  apply Qeq_bool_iff in E. exfalso. apply Hz.
  unfold Qeq in E. simpl in E. lia.
Qed.

End NumFacts.

(* ------------------------------------------------------------------ *)
(** * Facts about arrays, strings and maps *)

Module ArrayFacts.

Import JSArray.

Section SortFacts.
Context {A : Type}.
Variable comparefn : A -> A -> num.

Lemma insert_perm (x : A) (l : list A) :
  Permutation (insert comparefn x l) (x :: l).
Proof.
  induction l as [|y l IH]; simpl.
  - apply Permutation_refl.
  - destruct (after comparefn x y).
    + apply perm_trans with (y :: x :: l).
      * apply perm_skip, IH.
      * apply perm_swap.
    + apply Permutation_refl.
Qed.

Lemma sort_perm (l : list A) : Permutation (sort comparefn l) l.
Proof.
  induction l as [|x l IH]; simpl.
  - apply perm_nil.
  - apply perm_trans with (x :: sort comparefn l).
    + apply insert_perm.
    + apply perm_skip, IH.
Qed.

Lemma sort_In (x : A) (l : list A) : In x (sort comparefn l) <-> In x l.
Proof.
  split; apply Permutation_in.
  - apply sort_perm.
  - apply Permutation_sym, sort_perm.
Qed.

Lemma sort_length (l : list A) : List.length (sort comparefn l) = List.length l.
Proof. apply Permutation_length, sort_perm. Qed.

Lemma sort_Forall (P : A -> Prop) (l : list A) :
  Forall P l -> Forall P (sort comparefn l).
Proof.
  rewrite !Forall_forall. intros H x Hx. apply H, sort_In, Hx.
Qed.

(** Sortedness, for a comparison that agrees with a transitive relation on
    the elements that satisfy [P]. *)
Variable R : A -> A -> Prop.
Variable P : A -> Prop.
Hypothesis R_trans : forall x y z, R x y -> R y z -> R x z.
Hypothesis stays_before :
  forall x y, P x -> P y -> after comparefn x y = false -> R x y.
Hypothesis goes_after :
  forall x y, P x -> P y -> after comparefn x y = true -> R y x.

Lemma insert_sorted (x : A) (l : list A) :
  P x -> Forall P l -> StronglySorted R l ->
  StronglySorted R (insert comparefn x l).
Proof.
  intros Px. induction l as [|y l IH]; intros Pl Sl; simpl.
  - constructor; constructor.
  - inversion Pl as [|? ? Py Pl']; subst.
    inversion Sl as [|? ? Sl' Ry]; subst.
    destruct (after comparefn x y) eqn:E.
    + constructor.
      * apply IH; assumption.
      * rewrite Forall_forall. intros z Hz.
        apply (Permutation_in _ (insert_perm x l)) in Hz.
        destruct Hz as [<- | Hz].
        -- apply goes_after; assumption.
        -- rewrite Forall_forall in Ry. apply Ry, Hz.
    + constructor; [exact Sl|].
      constructor.
      * apply stays_before; assumption.
      * rewrite Forall_forall in Ry |- *. intros z Hz.
        apply R_trans with y.
        -- apply stays_before; assumption.
        -- apply Ry, Hz.
Qed.

Lemma sort_sorted (l : list A) :
  Forall P l -> StronglySorted R (sort comparefn l).
Proof.
  induction l as [|x l IH]; intros Pl; simpl.
  - constructor.
  - inversion Pl; subst. apply insert_sorted; auto.
    apply sort_Forall. assumption.
Qed.

End SortFacts.

(** Sorting by a finite key, ascending or descending. *)
Section ByKey.
Context {A : Type}.
Variable key : A -> num.

Definition ascendingBy (x y : A) : Prop := (key x <=? key y)%num = true.
Definition descendingBy (x y : A) : Prop := (key x >=? key y)%num = true.

Lemma sort_ascending (l : list A) :
  Forall (fun x => is_fin (key x)) l ->
  StronglySorted ascendingBy (sort (fun a b => (key a - key b)%num) l).
Proof.
  apply sort_sorted; unfold ascendingBy, after.
  - intros x y z. apply NumFacts.leb_trans.
  - intros x y Hx Hy. apply NumFacts.is_fin_inv in Hx, Hy.
    destruct Hx as [a ->], Hy as [b ->].
    rewrite NumFacts.sub_not_positive. apply NumFacts.leb_fin.
  - intros x y Hx Hy. apply NumFacts.is_fin_inv in Hx, Hy.
    destruct Hx as [a ->], Hy as [b ->].
    rewrite NumFacts.sub_positive. intro H. apply NumFacts.leb_fin.
    apply Qlt_le_weak, H.
Qed.

Lemma sort_descending (l : list A) :
  Forall (fun x => is_fin (key x)) l ->
  StronglySorted descendingBy (sort (fun a b => (key b - key a)%num) l).
Proof.
  apply sort_sorted; unfold descendingBy, after, geb.
  - intros x y z H1 H2. apply NumFacts.leb_trans with (key y); assumption.
  - intros x y Hx Hy. apply NumFacts.is_fin_inv in Hx, Hy.
    destruct Hx as [a ->], Hy as [b ->].
    rewrite NumFacts.sub_not_positive. apply NumFacts.leb_fin.
  - intros x y Hx Hy. apply NumFacts.is_fin_inv in Hx, Hy.
    destruct Hx as [a ->], Hy as [b ->].
    rewrite NumFacts.sub_positive. intro H. apply NumFacts.leb_fin.
    apply Qlt_le_weak, H.
Qed.

End ByKey.

Lemma mapi_from_nth {A B : Type} (f : nat -> A -> B) (l : list A) (i k : nat) :
  nth_error (mapi_from f k l) i = option_map (f (k + i)%nat) (nth_error l i).
Proof.
  revert i k. induction l as [|x l IH]; intros [|i] k; simpl; try reflexivity.
  - rewrite Nat.add_0_r. reflexivity.
  - rewrite IH. rewrite Nat.add_succ_r. reflexivity.
Qed.

Lemma mapi_nth {A B : Type} (f : nat -> A -> B) (l : list A) (i : nat) :
  nth_error (mapi f l) i = option_map (f i) (nth_error l i).
Proof. apply (mapi_from_nth f l i 0). Qed.

Lemma mapi_from_map {A B C : Type} (f : nat -> A -> B) (g : B -> C)
  (h : A -> C) (l : list A) (k : nat) :
  (forall i x, g (f i x) = h x) ->
  map g (mapi_from f k l) = map h l.
Proof.
  intro H. revert k. induction l as [|x l IH]; intro k; simpl.
  - reflexivity.
  - rewrite H, IH. reflexivity.
Qed.

Lemma mapi_map {A B C : Type} (f : nat -> A -> B) (g : B -> C)
  (h : A -> C) (l : list A) :
  (forall i x, g (f i x) = h x) -> map g (mapi f l) = map h l.
Proof. apply mapi_from_map. Qed.

Lemma mapi_length {A B : Type} (f : nat -> A -> B) (l : list A) :
  List.length (mapi f l) = List.length l.
Proof.
  unfold mapi. generalize 0%nat. induction l; intro k; simpl; auto.
Qed.

End ArrayFacts.

Module MapFacts.

Lemma streq_eq (a b : jsstring) : streq a b = true <-> a = b.
Proof.
  revert b. induction a as [|x a IH]; intros [|y b]; simpl;
    try (split; [discriminate | discriminate]); try (split; reflexivity).
  rewrite andb_true_iff, N.eqb_eq, IH.
  split.
  - intros [-> ->]. reflexivity.
  - intro H. inversion H. auto.
Qed.

Lemma streq_refl (a : jsstring) : streq a a = true.
Proof. apply streq_eq. reflexivity. Qed.

Lemma streq_neq (a b : jsstring) : streq a b = false <-> a <> b.
Proof.
  split.
  - intros H E. apply streq_eq in E. congruence.
  - intro H. destruct (streq a b) eqn:E; [|reflexivity].
    apply streq_eq in E. contradiction.
Qed.

Lemma streq_sym (a b : jsstring) : streq a b = streq b a.
Proof.
  apply eq_true_iff_eq. rewrite !streq_eq. split; congruence.
Qed.

Section Facts.
Context {V : Type}.

Lemma get_In (k : jsstring) (v : V) (m : JSMap.t V) :
  JSMap.get k m = Some v -> In (k, v) m.
Proof.
  induction m as [|[k' v'] m IH]; simpl; [discriminate|].
  destruct (streq k k') eqn:E.
  - intro H. inversion H. subst. apply streq_eq in E. subst. left. reflexivity.
  - intro H. right. apply IH, H.
Qed.

Lemma get_None (k : jsstring) (m : JSMap.t V) :
  JSMap.get k m = None <-> ~ In k (JSMap.keys m).
Proof.
  induction m as [|[k' v'] m IH]; simpl.
  - split; auto.
  - destruct (streq k k') eqn:E.
    + apply streq_eq in E. subst. split; [discriminate|]. intro H.
      exfalso. apply H. left. reflexivity.
    + apply streq_neq in E. rewrite IH. split.
      * intros H [H1 | H1]; [congruence | contradiction].
      * intros H H1. apply H. right. exact H1.
Qed.

Lemma In_get (k : jsstring) (v : V) (m : JSMap.t V) :
  NoDup (JSMap.keys m) -> In (k, v) m -> JSMap.get k m = Some v.
Proof.
  induction m as [|[k' v'] m IH]; simpl; [contradiction|].
  intros ND [H | H].
  - inversion H. subst. rewrite streq_refl. reflexivity.
  - inversion ND as [|? ? Hn ND']; subst.
    destruct (streq k k') eqn:E.
    + apply streq_eq in E. subst. exfalso. apply Hn.
      apply (in_map fst) in H. exact H.
    + apply IH; assumption.
Qed.

Lemma get_set_same (k : jsstring) (v : V) (m : JSMap.t V) :
  JSMap.get k (JSMap.set k v m) = Some v.
Proof.
  induction m as [|[k' v'] m IH]; simpl.
  - rewrite streq_refl. reflexivity.
  - destruct (streq k k') eqn:E; simpl; rewrite E; [reflexivity | exact IH].
Qed.

Lemma get_set_other (k k0 : jsstring) (v : V) (m : JSMap.t V) :
  k0 <> k -> JSMap.get k0 (JSMap.set k v m) = JSMap.get k0 m.
Proof.
  intro N. induction m as [|[k' v'] m IH]; simpl.
  - apply streq_neq in N. rewrite N. reflexivity.
  - destruct (streq k k') eqn:E; simpl.
    + apply streq_eq in E. subst. apply streq_neq in N. rewrite N. reflexivity.
    + destruct (streq k0 k'); [reflexivity | exact IH].
Qed.

Lemma keys_set (k : jsstring) (v : V) (m : JSMap.t V) :
  JSMap.keys (JSMap.set k v m) =
  if JSMap.has k m then JSMap.keys m else JSMap.keys m ++ [k].
Proof.
  unfold JSMap.has.
  induction m as [|[k' v'] m IH]; simpl; [reflexivity|].
  destruct (streq k k') eqn:E; simpl; [reflexivity|].
  rewrite IH. destruct (JSMap.get k m); reflexivity.
Qed.

Lemma NoDup_set (k : jsstring) (v : V) (m : JSMap.t V) :
  NoDup (JSMap.keys m) -> NoDup (JSMap.keys (JSMap.set k v m)).
Proof.
  intro ND. rewrite keys_set. unfold JSMap.has.
  destruct (JSMap.get k m) eqn:E; [exact ND|].
  apply get_None in E.
  apply NoDup_rev in ND. rewrite <- (rev_involutive (JSMap.keys m ++ [k])).
  apply NoDup_rev. rewrite rev_app_distr. simpl. constructor; [|exact ND].
  rewrite <- in_rev. exact E.
Qed.

Lemma In_set (k k0 : jsstring) (v v0 : V) (m : JSMap.t V) :
  In (k0, v0) (JSMap.set k v m) -> (k0 = k /\ v0 = v) \/ In (k0, v0) m.
Proof.
  induction m as [|[k' v'] m IH]; simpl.
  - intros [H | []]. inversion H. auto.
  - destruct (streq k k') eqn:E; simpl.
    + apply streq_eq in E. subst. intros [H | H]; [|auto].
      inversion H. auto.
    + intros [H | H]; [auto|]. destruct (IH H); auto.
Qed.

End Facts.

(** Grouping a list of keyed items into a map, as the loops of the services
    do: the entry of a key starts from [init] and is updated by each of its
    items in turn. *)
Section Grouping.
Context {V X : Type}.
Variable init : jsstring -> V.
Variable upd : V -> X -> V.

Definition bump (m : JSMap.t V) (k : jsstring) (x : X) : JSMap.t V :=
  JSMap.set k
    (upd (match JSMap.get k m with Some v => v | None => init k end) x) m.

Definition group (items : list (jsstring * X)) (m : JSMap.t V) : JSMap.t V :=
  fold_left (fun m kx => bump m (fst kx) (snd kx)) items m.

Definition itemsOf (k : jsstring) (items : list (jsstring * X)) : list X :=
  map snd (filter (fun kx => streq (fst kx) k) items).

Lemma get_group (k : jsstring) (items : list (jsstring * X)) (m : JSMap.t V) :
  JSMap.get k (group items m) =
  match JSMap.get k m, itemsOf k items with
  | Some v, xs => Some (fold_left upd xs v)
  | None, [] => None
  | None, xs => Some (fold_left upd xs (init k))
  end.
Proof.
  revert m. induction items as [|[k' x] items IH]; intro m; simpl.
  - destruct (JSMap.get k m); reflexivity.
  - unfold group in IH. rewrite IH. unfold itemsOf. simpl.
    destruct (streq k' k) eqn:E.
    + apply streq_eq in E. subst. unfold bump. rewrite get_set_same. simpl.
      destruct (JSMap.get k m); reflexivity.
    + apply streq_neq in E. unfold bump.
      rewrite get_set_other by congruence. reflexivity.
Qed.

Lemma group_NoDup (items : list (jsstring * X)) (m : JSMap.t V) :
  NoDup (JSMap.keys m) -> NoDup (JSMap.keys (group items m)).
Proof.
  revert m. induction items as [|[k x] items IH]; intros m ND; simpl.
  - exact ND.
  - apply IH. apply NoDup_set, ND.
Qed.

Lemma itemsOf_nil (k : jsstring) (items : list (jsstring * X)) :
  itemsOf k items = [] <-> ~ In k (map fst items).
Proof.
  unfold itemsOf. induction items as [|[k' x] items IH]; simpl.
  - split; auto.
  - destruct (streq k' k) eqn:E; simpl.
    + apply streq_eq in E. subst. split; [discriminate|].
      intro H. exfalso. apply H. auto.
    + apply streq_neq in E. rewrite IH. split.
      * intros H [H1 | H1]; [congruence | contradiction].
      * intros H H1. apply H. auto.
Qed.

(** The entries of the grouped map, from the empty map. *)
Lemma In_group (k : jsstring) (v : V) (items : list (jsstring * X)) :
  In (k, v) (group items []) <->
  itemsOf k items <> [] /\ v = fold_left upd (itemsOf k items) (init k).
Proof.
  assert (ND : NoDup (JSMap.keys (group items []))).
  { apply group_NoDup. constructor. }
  split.
  - intro H. apply (In_get _ _ _ ND) in H.
    rewrite get_group in H. simpl in H.
    destruct (itemsOf k items) eqn:E; [discriminate|].
    inversion H. split; [discriminate | reflexivity].
  - intros [Hn ->]. apply get_In. rewrite get_group. simpl.
    destruct (itemsOf k items); [contradiction | reflexivity].
Qed.

End Grouping.

End MapFacts.

(* ------------------------------------------------------------------ *)
(** * The journey reconstructor *)

Module JourneyFacts.

Import PatientFlow JourneySpec MapFacts.

Definition newJourney (patient : jsstring) : PatientJourney :=
  mkJourney patient zero [].

Definition addStage (journey : PatientJourney) (stage : Stage)
  : PatientJourney :=
  mkJourney (patientId journey) (totalDuration journey)
    (stages journey ++ [stage]).

Lemma minutes_of_Z (z : Z) :
  minutes (of_Z z) = fin (inject_Z z / inject_Z 60000).
Proof.
  unfold minutes. rewrite NumFacts.mul_of_Z. simpl Z.mul.
  unfold of_Z. apply NumFacts.div_fin. discriminate.
Qed.

Lemma minutes_diff (entry exit : Z) :
  minutes (of_Z exit - of_Z entry)%num = derivedDuration entry exit.
Proof. rewrite NumFacts.sub_of_Z. apply minutes_of_Z. Qed.

Lemma derivedDuration_negative (entry exit : Z) :
  (derivedDuration entry exit <? zero)%num = negb (entry <=? exit)%Z.
Proof.
  apply eq_true_iff_eq. unfold derivedDuration, fin, zero, of_Z.
  rewrite NumFacts.ltb_fin, Qred_correct, negb_true_iff, Z.leb_gt.
  unfold Qlt, Qdiv, Qmult, Qinv, inject_Z. simpl. lia.
Qed.

Lemma collectLog_keptStage (department : option jsstring)
  (journeyMap : JSMap.t PatientJourney) (log : FlowLog) :
  collectLog department journeyMap log =
  match keptStage department log with
  | Some s => bump newJourney addStage journeyMap (fst s) (snd s)
  | None => journeyMap
  end.
Proof.
  unfold collectLog, keptStage. fold (unitOf log).
  destruct (log_patient_id log) as [patient|]; [|reflexivity].
  destruct (entry_time log) as [entry|]; [|reflexivity].
  destruct (exit_time log) as [exit|]; [|reflexivity].
  destruct (nonempty patient); cbn [negb andb]; [|reflexivity].
  assert (F : match department with
              | Some d => nonempty d && negb (streq (unitOf log) d)
              | None => false
              end = negb (passesFilter department (unitOf log))).
  { destruct department as [d|]; simpl; [|reflexivity].
    rewrite negb_orb, negb_involutive. reflexivity. }
  rewrite F. destruct (passesFilter department (unitOf log));
    cbn [negb andb]; [|reflexivity].
  cbv zeta. rewrite minutes_diff, derivedDuration_negative.
  destruct (entry <=? exit)%Z; reflexivity.
Qed.

Lemma journeyMap_group (department : option jsstring)
  (flowLogs : list FlowLog) (journeyMap : JSMap.t PatientJourney) :
  fold_left (collectLog department) flowLogs journeyMap =
  group newJourney addStage (keptStages department flowLogs) journeyMap.
Proof.
  revert journeyMap. induction flowLogs as [|log rest IH]; intro m; simpl.
  - reflexivity.
  - rewrite IH, collectLog_keptStage.
    destruct (keptStage department log); reflexivity.
Qed.

Lemma fold_addStage (l : list Stage) (journey : PatientJourney) :
  fold_left addStage l journey =
  mkJourney (patientId journey) (totalDuration journey) (stages journey ++ l).
Proof.
  revert journey. induction l as [|s l IH]; intro j; simpl.
  - rewrite app_nil_r. destruct j; reflexivity.
  - rewrite IH. simpl. rewrite <- app_assoc. reflexivity.
Qed.

(** The journeys before the final pass: one per patient with a kept stage. *)
Lemma journey_In (department : option jsstring) (flowLogs : list FlowLog)
  (j : PatientJourney) :
  In j (getPatientJourneys department flowLogs) <->
  exists patient,
    stagesOfPatient department flowLogs patient <> [] /\
    j = finishJourney
          (mkJourney patient zero
             (stagesOfPatient department flowLogs patient)).
Proof.
  unfold getPatientJourneys, JSMap.values. rewrite journeyMap_group.
  rewrite in_map_iff. split.
  - intros (j0 & <- & H). apply in_map_iff in H.
    destruct H as ([k v] & <- & H). apply In_group in H.
    destruct H as [Hn ->]. exists k. split; [exact Hn|].
    rewrite fold_addStage. reflexivity.
  - intros (patient & Hn & ->).
    exists (mkJourney patient zero (stagesOfPatient department flowLogs patient)).
    split; [reflexivity|].
    apply in_map_iff. eexists (patient, _). split; [reflexivity|].
    apply In_group. split; [exact Hn|].
    rewrite fold_addStage. reflexivity.
Qed.

Definition wellTimed (s : Stage) : Prop :=
  (entryTime s <= exitTime s)%Z /\
  duration s = derivedDuration (entryTime s) (exitTime s).

Lemma keptStage_wellTimed (department : option jsstring) (log : FlowLog)
  (p : jsstring) (s : Stage) :
  keptStage department log = Some (p, s) -> wellTimed s.
Proof.
  unfold keptStage.
  destruct (log_patient_id log); [|discriminate].
  destruct (entry_time log) as [entry|]; [|discriminate].
  destruct (exit_time log) as [exit|]; [|discriminate].
  destruct (nonempty j && passesFilter department (unitOf log)); simpl;
    [|discriminate].
  destruct (entry <=? exit)%Z eqn:E; [|discriminate].
  intro H. inversion H. subst. split; simpl; [lia | reflexivity].
Qed.

Lemma keptStages_wellTimed (department : option jsstring)
  (flowLogs : list FlowLog) :
  Forall (fun ps => wellTimed (snd ps)) (keptStages department flowLogs).
Proof.
  induction flowLogs as [|log rest IH]; simpl; [constructor|].
  destruct (keptStage department log) as [[p s]|] eqn:E; [|exact IH].
  constructor; [|exact IH]. simpl. eapply keptStage_wellTimed, E.
Qed.

Lemma stagesOfPatient_wellTimed (department : option jsstring)
  (flowLogs : list FlowLog) (patient : jsstring) :
  Forall wellTimed (stagesOfPatient department flowLogs patient).
Proof.
  unfold stagesOfPatient, itemsOf. rewrite Forall_forall.
  intros s Hs. apply in_map_iff in Hs. destruct Hs as (ps & <- & Hps).
  apply filter_In in Hps. destruct Hps as [Hps _].
  pose proof (keptStages_wellTimed department flowLogs) as F.
  rewrite Forall_forall in F. apply (F ps Hps).
Qed.

Lemma sumDurations_sum (l : list Stage) :
  sumDurations l = JSNum.sum (map duration l).
Proof.
  unfold sumDurations, JSNum.sum. generalize zero.
  induction l as [|s l IH]; intro acc; simpl; [reflexivity | apply IH].
Qed.

Lemma finishJourney_sorted (journey : PatientJourney) :
  StronglySorted (fun a b => (entryTime a <= entryTime b)%Z)
    (stages (finishJourney journey)).
Proof.
  simpl.
  assert (F : Forall (fun s : Stage => is_fin (of_Z (entryTime s)))
                (stages journey)).
  { rewrite Forall_forall. intros. exact I. }
  pose proof (@ArrayFacts.sort_ascending Stage
                (fun s => of_Z (entryTime s)) (stages journey) F) as S.
  unfold byEntryTime.
  induction S as [|a l S IH H]; constructor; [exact IH|].
  rewrite Forall_forall in H |- *. intros b Hb. specialize (H b Hb).
  unfold ArrayFacts.ascendingBy, of_Z in H. apply NumFacts.leb_fin in H.
  rewrite Zle_Qle. exact H.
Qed.

End JourneyFacts.

(** C9: every journey the reconstructor produces has a total duration equal
    to the sum of the durations of its stages; its stages are in ascending
    order of entry time and are the rows of the patient that were kept, each
    lasting [(exit - entry) / 60000] minutes with the exit not before the
    entry, so that no stage has a negative duration. *)
Theorem C9_journey_total_is_sum_of_stage_durations
  (department : option jsstring) (flowLogs : list PatientFlow.FlowLog)
  (j : PatientFlow.PatientJourney) :
  In j (PatientFlow.getPatientJourneys department flowLogs) ->
  PatientFlow.totalDuration j
  = JSNum.sum (map PatientFlow.duration (PatientFlow.stages j))
  /\ StronglySorted
       (fun a b => (PatientFlow.entryTime a <= PatientFlow.entryTime b)%Z)
       (PatientFlow.stages j)
  /\ Permutation (PatientFlow.stages j)
       (JourneySpec.stagesOfPatient department flowLogs
          (PatientFlow.patientId j))
  /\ Forall
       (fun s =>
          (PatientFlow.entryTime s <= PatientFlow.exitTime s)%Z
          /\ PatientFlow.duration s
             = JourneySpec.derivedDuration (PatientFlow.entryTime s)
                 (PatientFlow.exitTime s)
          /\ (PatientFlow.duration s <? zero)%num = false)
       (PatientFlow.stages j).
Proof.
  intro H. apply JourneyFacts.journey_In in H.
  destruct H as (patient & _ & ->).
  split; [|split; [|split]].
  - simpl. apply JourneyFacts.sumDurations_sum.
  - apply JourneyFacts.finishJourney_sorted.
  - simpl. apply ArrayFacts.sort_perm.
  - simpl. apply ArrayFacts.sort_Forall.
    pose proof (JourneyFacts.stagesOfPatient_wellTimed department flowLogs
                  patient) as F.
    rewrite Forall_forall in F |- *. intros s Hs.
    destruct (F s Hs) as [T D]. repeat split; try assumption.
    rewrite D, JourneyFacts.derivedDuration_negative.
    apply negb_false_iff, Z.leb_le, T.
Qed.

Lemma C9_witness :
  PatientFlow.totalDuration Examples.threeRowsJourney
  = JSNum.sum
      (map PatientFlow.duration (PatientFlow.stages Examples.threeRowsJourney))
  /\ PatientFlow.getPatientJourneys None Examples.threeRows
     = [Examples.threeRowsJourney].
Proof.
  split.
  - apply (C9_journey_total_is_sum_of_stage_durations None Examples.threeRows).
    vm_compute. left. reflexivity.
  - vm_compute. reflexivity.
Defined.

(* ------------------------------------------------------------------ *)
(** * Readmission risk *)

Module ReadmissionFacts.

Import Records Readmission ReadmissionSpec.

Lemma msPerDay_eq : msPerDay = of_Z 86400000.
Proof. reflexivity. Qed.

Lemma days_num (fromMs toMs : Z) :
  ((of_Z toMs - of_Z fromMs) / msPerDay)%num = fin (daysBetween fromMs toMs).
Proof.
  rewrite msPerDay_eq, NumFacts.sub_of_Z. unfold of_Z.
  apply NumFacts.div_fin. discriminate.
Qed.

Lemma fin_ltb_l (q : Q) (z : Z) : (fin q <? of_Z z)%num = Qltb q (inject_Z z).
Proof.
  apply eq_true_iff_eq. unfold fin, of_Z.
  rewrite NumFacts.ltb_fin, NumFacts.Qltb_lt, Qred_correct. reflexivity.
Qed.

Lemma fin_gtb_l (q : Q) (z : Z) : (fin q >? of_Z z)%num = Qltb (inject_Z z) q.
Proof.
  apply eq_true_iff_eq. unfold fin, of_Z.
  rewrite NumFacts.gtb_fin, NumFacts.Qltb_lt, Qred_correct. reflexivity.
Qed.

Lemma lengthOfStayOf_fin (record : PatientRecord) :
  lengthOfStayOf record = fin (lengthOfStay record).
Proof.
  unfold lengthOfStayOf, lengthOfStay, calculateLengthOfStay.
  destruct (admissionDate record), (dischargeDate record);
    try reflexivity.
  apply days_num.
Qed.

Lemma Math_min_of_Z (a b : Z) : Math_min (of_Z a) (of_Z b) = of_Z (Z.min a b).
Proof.
  unfold Math_min. change (of_Z a) with (Fin (inject_Z a)).
  change (of_Z b) with (Fin (inject_Z b)).
  change (Fin (inject_Z b) <? Fin (inject_Z a))%num
    with (of_Z b <? of_Z a)%num.
  rewrite NumFacts.ltb_of_Z.
  destruct (b <? a)%Z eqn:E; fold (of_Z a); fold (of_Z b); f_equal.
  - apply Z.ltb_lt in E. lia.
  - apply Z.ltb_ge in E. lia.
Qed.

Lemma of_nat_mul (n : nat) (z : Z) :
  (of_nat n * of_Z z)%num = of_Z (Z.of_nat n * z).
Proof. apply NumFacts.mul_of_Z. Qed.

(** The score so far is an integer, and each step adds its points. *)
Lemma snd_push (name : string) (z n : Z) (p : Progress) :
  snd p = of_Z n -> snd (push name (of_Z z) p) = of_Z (n + z).
Proof. intro H. simpl. rewrite H. apply NumFacts.add_of_Z. Qed.

Lemma stepLengthOfStay_score (record : PatientRecord) (p : Progress) (n : Z) :
  snd p = of_Z n ->
  snd (stepLengthOfStay record p) = of_Z (n + stayPoints record).
Proof.
  intro H. unfold stepLengthOfStay, stayPoints.
  rewrite lengthOfStayOf_fin.
  change zero with (of_Z 0).
  rewrite fin_gtb_l, fin_ltb_l, fin_gtb_l.
  change (inject_Z 0) with 0%Q. change (inject_Z 2) with 2%Q.
  change (inject_Z 14) with 14%Q.
  destruct (Qltb 0 (lengthOfStay record)) eqn:E0; simpl.
  - destruct (Qltb (lengthOfStay record) 2).
    + apply snd_push, H.
    + destruct (Qltb 14 (lengthOfStay record)).
      * apply snd_push, H.
      * rewrite Z.add_0_r. exact H.
  - destruct (Qltb 14 (lengthOfStay record)) eqn:E.
    + exfalso. apply NumFacts.Qltb_lt in E. apply NumFacts.Qltb_ge in E0.
      apply (Qlt_not_le _ _ E). apply Qle_trans with 0%Q; [exact E0|].
      discriminate.
    + rewrite Z.add_0_r. exact H.
Qed.

Lemma fold_left_add_map {A : Type} (f : A -> num) (l : list A) (acc : num) :
  fold_left (fun sum x => (sum + f x)%num) l acc
  = fold_left add (map f l) acc.
Proof.
  revert acc. induction l as [|x l IH]; intro acc; simpl;
    [reflexivity | apply IH].
Qed.

Lemma operationalDelayScore_points (record : PatientRecord) :
  calculateOperationalDelayScore record = of_Z (waitPoints record).
Proof.
  unfold calculateOperationalDelayScore, waitPoints, averageWait, JSNum.sum.
  destruct (journeySteps record) as [[|s steps]|]; try reflexivity.
  rewrite fold_left_add_map.
  set (avg := (_ / _)%num).
  destruct (avg >? of_Z 120)%num; [reflexivity|].
  destruct (avg >? of_Z 90)%num; [reflexivity|].
  destruct (avg >? of_Z 60)%num; reflexivity.
Qed.

Lemma waitPoints_range (record : PatientRecord) :
  (0 <= waitPoints record)%Z.
Proof.
  unfold waitPoints.
  destruct (journeySteps record) as [[|s steps]|]; try lia.
  repeat match goal with
         | |- context [if ?c then _ else _] => destruct c
         end; lia.
Qed.

Lemma stepOperationalDelay_score (record : PatientRecord) (p : Progress)
  (n : Z) :
  snd p = of_Z n ->
  snd (stepOperationalDelay record p) = of_Z (n + waitPoints record).
Proof.
  intro H. unfold stepOperationalDelay.
  rewrite operationalDelayScore_points.
  change zero with (of_Z 0). rewrite NumFacts.gtb_of_Z.
  destruct (0 <? waitPoints record)%Z eqn:E.
  - apply snd_push, H.
  - apply Z.ltb_ge in E. pose proof (waitPoints_range record).
    replace (waitPoints record) with 0%Z by lia.
    rewrite Z.add_0_r. exact H.
Qed.

Lemma stepTransfers_score (record : PatientRecord) (p : Progress) (n : Z) :
  snd p = of_Z n ->
  snd (stepTransfers record p) = of_Z (n + transferPoints record).
Proof.
  intro H. unfold stepTransfers, transferPoints.
  destruct (journeySteps record) as [steps|].
  - destruct (5 <? List.length steps)%nat.
    + apply snd_push, H.
    + rewrite Z.add_0_r. exact H.
  - rewrite Z.add_0_r. exact H.
Qed.

Lemma filter_filter {A : Type} (f g : A -> bool) (l : list A) :
  filter g (filter f l) = filter (fun x => f x && g x) l.
Proof.
  induction l as [|x l IH]; simpl; [reflexivity|].
  destruct (f x); simpl; [|exact IH].
  destruct (g x); rewrite IH; reflexivity.
Qed.

Lemma recentVisits_prior (record : PatientRecord)
  (historicalRecords : list PatientRecord) :
  recentVisitsOf record (patientHistoryOf record historicalRecords)
  = filter (isPriorAdmission record) historicalRecords.
Proof.
  unfold recentVisitsOf, patientHistoryOf. rewrite filter_filter.
  apply filter_ext. intro r. unfold isPriorAdmission.
  destruct (admissionDate r) as [ra|], (admissionDate record) as [a|];
    try reflexivity.
  rewrite days_num. change zero with (of_Z 0).
  rewrite fin_gtb_l, fin_ltb_l. reflexivity.
Qed.

Lemma stepHistory_score (record : PatientRecord)
  (historicalRecords : list PatientRecord) (p : Progress) (n : Z) :
  snd p = of_Z n ->
  snd (stepHistory record historicalRecords p)
  = of_Z (n + historyPoints record historicalRecords).
Proof.
  intro H. unfold stepHistory, historyPoints, priorAdmissions.
  rewrite <- recentVisits_prior.
  destruct (patientHistoryOf record historicalRecords) as [|r0 h] eqn:E.
  - simpl. rewrite Z.add_0_r. exact H.
  - change (0 <? List.length (r0 :: h))%nat with true. cbv iota.
    destruct (recentVisitsOf record (r0 :: h)) as [|v vs].
    + simpl. rewrite Z.add_0_r. exact H.
    + change (0 <? List.length (v :: vs))%nat with true. cbv iota.
      rewrite of_nat_mul, Math_min_of_Z.
      rewrite (Z.mul_comm 15). apply snd_push, H.
Qed.


Section Host.
Variable getDay : Z -> Z.

(** The test of the last factor: the host's day of the week of a date is 5
    or 6. *)
Definition hostWeekend (date : option Z) : bool :=
  match date with
  | Some t => (getDay t =? 5)%Z || (getDay t =? 6)%Z
  | None => false
  end.

Lemma stepWeekend_score (record : PatientRecord) (p : Progress) (n : Z) :
  snd p = of_Z n ->
  snd (stepWeekend getDay record p)
  = of_Z (n + if hostWeekend (admissionDate record) then 10 else 0).
Proof.
  intro H. unfold stepWeekend, hostWeekend.
  destruct (admissionDate record) as [a|].
  - destruct ((getDay a =? 5)%Z || (getDay a =? 6)%Z).
    + apply snd_push, H.
    + rewrite Z.add_0_r. exact H.
  - rewrite Z.add_0_r. exact H.
Qed.

(** The score the source computes: the weekend points are those of the
    admission date, on the host's day of the week. *)
Lemma riskScore_sum (record : PatientRecord)
  (historicalRecords : list PatientRecord) :
  riskScore (predictReadmissionRisk getDay record historicalRecords)
  = of_Z (stayPoints record + waitPoints record + transferPoints record
          + historyPoints record historicalRecords
          + if hostWeekend (admissionDate record) then 10 else 0).
Proof.
  unfold predictReadmissionRisk. simpl.
  apply stepWeekend_score, stepHistory_score, stepTransfers_score,
    stepOperationalDelay_score.
  apply stepLengthOfStay_score with (n := 0%Z). reflexivity.
Qed.


(** Every factor pushed has a finite impact. *)
Definition finiteFactors (p : Progress) : Prop :=
  Forall (fun f => is_fin (impact f)) (fst p).

Lemma push_finite (name : string) (x : num) (p : Progress) :
  is_fin x -> finiteFactors p -> finiteFactors (push name x p).
Proof.
  intros Hx Hp. unfold finiteFactors, push. simpl.
  apply Forall_app. split; [exact Hp|]. constructor; [exact Hx | constructor].
Qed.

Lemma factors_finite (record : PatientRecord)
  (historicalRecords : list PatientRecord) :
  finiteFactors
    (stepWeekend getDay record
       (stepHistory record historicalRecords
          (stepTransfers record
             (stepOperationalDelay record
                (stepLengthOfStay record ([], zero)))))).
Proof.
  assert (H0 : finiteFactors ([], zero)) by constructor.
  assert (H1 : finiteFactors (stepLengthOfStay record ([], zero))).
  { unfold stepLengthOfStay.
    repeat match goal with
           | |- context [if ?c then _ else _] => destruct c
           end; try exact H0; apply push_finite; try exact H0; exact I. }
  assert (H2 : finiteFactors
                 (stepOperationalDelay record
                    (stepLengthOfStay record ([], zero)))).
  { unfold stepOperationalDelay.
    destruct (_ >? _)%num; [|exact H1].
    apply push_finite; [|exact H1].
    rewrite operationalDelayScore_points. exact I. }
  assert (H3 : finiteFactors
                 (stepTransfers record
                    (stepOperationalDelay record
                       (stepLengthOfStay record ([], zero))))).
  { unfold stepTransfers. destruct (journeySteps record); [|exact H2].
    destruct (_ <? _)%nat; [|exact H2]. apply push_finite; [exact I | exact H2]. }
  assert (H4 : finiteFactors
                 (stepHistory record historicalRecords
                    (stepTransfers record
                       (stepOperationalDelay record
                          (stepLengthOfStay record ([], zero)))))).
  { unfold stepHistory. destruct (_ <? _)%nat; [|exact H3].
    destruct (_ <? _)%nat; [|exact H3]. apply push_finite; [|exact H3].
    rewrite of_nat_mul, Math_min_of_Z. exact I. }
  unfold stepWeekend. destruct (admissionDate record); [|exact H4].
  destruct (_ || _); [|exact H4]. apply push_finite; [exact I | exact H4].
Qed.

End Host.

End ReadmissionFacts.




(** The scenario of the specification: a stay of one day, no delays, no
    history, discharged on a Thursday after a Wednesday admission, scores 25,
    which is low. *)
Example readmission_one_day_stay :
  Readmission.riskScore
    (Readmission.predictReadmissionRisk ReadmissionExamples.getDayUTC
       ReadmissionExamples.oneDayStay [])
  = of_Z 25
  /\ Readmission.riskLevel
       (Readmission.predictReadmissionRisk ReadmissionExamples.getDayUTC
          ReadmissionExamples.oneDayStay [])
     = Records.low.
Proof. split; reflexivity. Qed.

(** The factor named after the weekend discharge looks at the admission day:
    a stay from a Wednesday to a Saturday gets no weekend points. *)
Example weekend_factor_tests_admission_day :
  ReadmissionSpec.isFridayOrSaturday
    (Records.dischargeDate ReadmissionExamples.saturdayDischarge) = true
  /\ Readmission.riskScore
       (Readmission.predictReadmissionRisk ReadmissionExamples.getDayUTC
          ReadmissionExamples.saturdayDischarge [])
     = of_Z 0.
Proof. split; reflexivity. Qed.

(** The day tested is the host's: five hours west of Greenwich the Friday
    admission of the busy stay is read as a Thursday, and the stay scores 75
    where a host in UTC gives 85. *)
Example weekend_factor_follows_the_host :
  Readmission.riskScore
    (Readmission.predictReadmissionRisk ReadmissionExamples.getDayWest
       ReadmissionExamples.busyStay
       [ReadmissionExamples.earlierStay; ReadmissionExamples.busyStay])
  = of_Z 75
  /\ Readmission.riskScore
       (Readmission.predictReadmissionRisk ReadmissionExamples.getDayUTC
          ReadmissionExamples.busyStay
          [ReadmissionExamples.earlierStay; ReadmissionExamples.busyStay])
     = of_Z 85.
Proof. split; reflexivity. Qed.

(** C10: the contributing factors of a risk score are listed in descending
    order of impact: each factor's impact is at least that of the next. *)
Theorem C10_contributing_factors_sorted_by_impact
  (getDay : Z -> Z) (record : Records.PatientRecord)
  (historicalRecords : list Records.PatientRecord) :
  Sorted
    (fun a b => (Readmission.impact a >=? Readmission.impact b)%num = true)
    (Readmission.contributingFactors
       (Readmission.predictReadmissionRisk getDay record historicalRecords)).
Proof.
  apply StronglySorted_Sorted.
  unfold Readmission.predictReadmissionRisk. simpl.
  apply (@ArrayFacts.sort_descending _ Readmission.impact).
  apply ReadmissionFacts.factors_finite.
Qed.

(* ------------------------------------------------------------------ *)
(** * Per-unit bottleneck prediction *)

Module PredictiveFacts.

Import Records Predictive PredictiveSpec MapFacts.

Definition newMetrics (dept : jsstring) : DepartmentMetrics :=
  mkMetrics zero zero [].

Definition addRecord (metrics : DepartmentMetrics) (record : PatientRecord)
  : DepartmentMetrics :=
  mkMetrics (avgWaitTime metrics) (totalPatients metrics + of_Z 1)%num
    (delays metrics ++ longWaits [record]).

Fixpoint keyed (records : list PatientRecord)
  : list (jsstring * PatientRecord) :=
  match records with
  | [] => []
  | r :: rest =>
      match currentDepartment r with
      | Some d => if nonempty d then (d, r) :: keyed rest else keyed rest
      | None => keyed rest
      end
  end.

Lemma collectRecord_bump (m : JSMap.t DepartmentMetrics) (r : PatientRecord) :
  collectRecord m r =
  match currentDepartment r with
  | Some d => if nonempty d then bump newMetrics addRecord m d r else m
  | None => m
  end.
Proof.
  unfold collectRecord, bump, addRecord, longWaits, waitsOf.
  destruct (currentDepartment r) as [d|]; [|reflexivity].
  destruct (nonempty d); [|reflexivity].
  simpl. rewrite app_nil_r.
  destruct (JSMap.get d m), (journeySteps r); reflexivity.
Qed.

Lemma departmentMetrics_group (records : list PatientRecord)
  (m : JSMap.t DepartmentMetrics) :
  fold_left collectRecord records m
  = group newMetrics addRecord (keyed records) m.
Proof.
  revert m. induction records as [|r rest IH]; intro m; simpl;
    [reflexivity|].
  rewrite IH, collectRecord_bump.
  destruct (currentDepartment r) as [d|]; [|reflexivity].
  destruct (nonempty d); reflexivity.
Qed.

Lemma itemsOf_keyed (dept : jsstring) (records : list PatientRecord) :
  itemsOf dept (keyed records)
  = if nonempty dept then recordsIn dept records else [].
Proof.
  unfold itemsOf, recordsIn.
  induction records as [|r rest IH]; simpl.
  - destruct (nonempty dept); reflexivity.
  - unfold isIn at 1. destruct (currentDepartment r) as [d|].
    + destruct (nonempty d) eqn:Ed; simpl.
      * destruct (streq d dept) eqn:E; simpl; rewrite IH.
        -- apply streq_eq in E. subst. rewrite Ed. reflexivity.
        -- reflexivity.
      * rewrite IH. destruct (streq d dept) eqn:E; [|reflexivity].
        apply streq_eq in E. subst. rewrite Ed. reflexivity.
    + exact IH.
Qed.

Lemma longWaits_app (l1 l2 : list PatientRecord) :
  longWaits (l1 ++ l2) = longWaits l1 ++ longWaits l2.
Proof. unfold longWaits. apply flat_map_app. Qed.

Lemma fold_addRecord (l : list PatientRecord) (metrics : DepartmentMetrics)
  (n : nat) :
  totalPatients metrics = of_nat n ->
  totalPatients (fold_left addRecord l metrics) = of_nat (n + List.length l)
  /\ delays (fold_left addRecord l metrics) = delays metrics ++ longWaits l.
Proof.
  revert metrics n. induction l as [|r l IH]; intros metrics n H;
    cbn [fold_left List.length].
  - rewrite Nat.add_0_r. split; [exact H|].
    change (longWaits []) with (@nil num). rewrite app_nil_r. reflexivity.
  - destruct (IH (addRecord metrics r) (S n)) as [T D].
    + simpl. rewrite H. unfold of_nat. rewrite NumFacts.add_of_Z.
      f_equal. lia.
    + split.
      * rewrite T. f_equal. lia.
      * rewrite D.
        change (delays (addRecord metrics r))
          with (delays metrics ++ longWaits [r]).
        change (r :: l) with ([r] ++ l).
        rewrite longWaits_app, app_assoc. reflexivity.
Qed.

(** What the map built by the first loop holds for each unit. *)
Lemma departmentMetrics_In (dept : jsstring) (metrics : DepartmentMetrics)
  (records : list PatientRecord) :
  In (dept, metrics) (departmentMetricsOf records) ->
  recordsIn dept records <> []
  /\ totalPatients metrics = of_nat (List.length (recordsIn dept records))
  /\ delays metrics = longWaits (recordsIn dept records).
Proof.
  unfold departmentMetricsOf. rewrite departmentMetrics_group.
  intro H. apply In_group in H. destruct H as [Hn ->].
  rewrite itemsOf_keyed in *.
  destruct (nonempty dept); [|contradiction].
  split; [exact Hn|].
  destruct (@fold_addRecord (recordsIn dept records) (newMetrics dept) 0%nat)
    as [T D]; [reflexivity|].
  split; [exact T | exact D].
Qed.

Lemma riskOf_tier (frequency average : num) :
  riskOf frequency average = tier frequency average.
Proof. reflexivity. Qed.

Lemma avgDelayOf_average (dept : jsstring) (metrics : DepartmentMetrics)
  (records : list PatientRecord) :
  delays metrics = longWaits (recordsIn dept records) ->
  avgDelayOf metrics = averageDelay dept records.
Proof.
  intro D. unfold avgDelayOf, averageDelay. rewrite D.
  destruct (longWaits (recordsIn dept records)) as [|w ws]; [reflexivity|].
  change (0 <? List.length (w :: ws))%nat with true. cbv iota.
  f_equal.
Qed.

End PredictiveFacts.

(** C8, as the source has it: the tier and the probability of a unit are
    critical and 0.85 when the delay frequency is more than 0.3 and the
    average delay more than 120 minutes; otherwise high and 0.65 when the
    frequency is more than 0.2 or the average more than 90; otherwise medium
    and 0.40 when the frequency is more than 0.1 or the average more than
    60; otherwise low and 0.15.  The frequency is the number of waits of more
    than 60 minutes over the number of patients of the unit, the average is
    taken over those waits. *)
Theorem C8_prediction_tiers_use_strict_thresholds
  (records : list Records.PatientRecord)
  (p : Predictive.BottleneckPrediction) :
  In p (Predictive.predictBottlenecks records) ->
  (Predictive.riskLevel p, Predictive.probability p)
  = PredictiveSpec.tier
      (PredictiveSpec.delayFrequency (Predictive.departmentName p) records)
      (PredictiveSpec.averageDelay (Predictive.departmentName p) records).
Proof.
  unfold Predictive.predictBottlenecks. intro H.
  apply ArrayFacts.sort_In in H. apply in_map_iff in H.
  destruct H as ([dept metrics] & <- & H).
  apply PredictiveFacts.departmentMetrics_In in H.
  destruct H as (_ & T & D).
  unfold Predictive.predictionOf.
  cbn [Predictive.riskLevel Predictive.probability Predictive.departmentName
       fst snd].
  rewrite PredictiveFacts.riskOf_tier.
  rewrite (PredictiveFacts.avgDelayOf_average dept metrics records D).
  unfold Predictive.delayFrequencyOf, PredictiveSpec.delayFrequency.
  rewrite T, D. destruct (PredictiveSpec.tier _ _). reflexivity.
Qed.

Lemma C8_witness :
  (Predictive.riskLevel PredictiveExamples.tenInERPrediction,
   Predictive.probability PredictiveExamples.tenInERPrediction)
  = PredictiveSpec.tier
      (PredictiveSpec.delayFrequency (str "ER") PredictiveExamples.tenInER)
      (PredictiveSpec.averageDelay (str "ER") PredictiveExamples.tenInER).
Proof.
  apply (C8_prediction_tiers_use_strict_thresholds PredictiveExamples.tenInER
           PredictiveExamples.tenInERPrediction).
  vm_compute. left. reflexivity.
Defined.

(** C8 as stated fails at a delay frequency of exactly 0.3 with an average
    delay above 120 minutes: the unit is rated high with probability 0.65,
    where the specification says critical with 0.85. *)
Lemma C8_counterexample :
  PredictiveSpec.delayFrequency (str "ER") PredictiveExamples.tenInER
  = lit 3 10
  /\ PredictiveSpec.averageDelay (str "ER") PredictiveExamples.tenInER
     = of_Z 130
  /\ PredictiveSpec.statedTier (lit 3 10) (of_Z 130)
     = (Records.critical, lit 85 100)
  /\ map (fun p => (Predictive.departmentName p, Predictive.riskLevel p,
                    Predictive.probability p))
       (Predictive.predictBottlenecks PredictiveExamples.tenInER)
     = [(str "ER", Records.high, lit 65 100)].
Proof. repeat split; vm_compute; reflexivity. Qed.

(* ------------------------------------------------------------------ *)
(** * The intervention simulator *)

(** C6, as the source has it: simulating an intervention whose type is not
    staff, beds or processing_time returns a result; the projection is the
    baseline itself, the patients impacted are the baseline throughput, and
    the estimated cost and the ROI are 0. *)
Theorem C6_unknown_type_projects_the_baseline
  (intervention : Simulation.SimulationIntervention)
  (baseline : Simulation.SimulationMetrics)
  (staff_count bed_capacity : option num) :
  ~ SimulationSpec.knownType (Simulation.type intervention) ->
  exists r,
    Simulation.simulateIntervention intervention baseline staff_count
      bed_capacity = Simulation.Returned r
    /\ Simulation.intervention r = intervention
    /\ Simulation.baseline r = baseline
    /\ Simulation.projected r = baseline
    /\ Simulation.patientsImpacted (Simulation.improvements r)
       = Simulation.throughput baseline
    /\ Simulation.estimatedCost (Simulation.costBenefit r) = zero
    /\ Simulation.roi (Simulation.costBenefit r) = zero.
Proof.
  intro U. unfold SimulationSpec.knownType in U.
  assert (E1 : streq (Simulation.type intervention) (str "staff") = false).
  { apply MapFacts.streq_neq. tauto. }
  assert (E2 : streq (Simulation.type intervention) (str "beds") = false).
  { apply MapFacts.streq_neq. tauto. }
  assert (E3 : streq (Simulation.type intervention) (str "processing_time")
               = false).
  { apply MapFacts.streq_neq. tauto. }
  eexists. split; [reflexivity|].
  unfold Simulation.calculateCostBenefit.
  cbn [Simulation.intervention Simulation.baseline Simulation.projected
       Simulation.improvements Simulation.costBenefit
       Simulation.patientsImpacted Simulation.estimatedCost Simulation.roi].
  rewrite E1, E2, E3. repeat split; reflexivity.
Qed.

Lemma C6_witness :
  exists r,
    Simulation.simulateIntervention SimulationExamples.overtime
      SimulationExamples.erBaseline None None = Simulation.Returned r
    /\ Simulation.intervention r = SimulationExamples.overtime
    /\ Simulation.baseline r = SimulationExamples.erBaseline
    /\ Simulation.projected r = SimulationExamples.erBaseline
    /\ Simulation.patientsImpacted (Simulation.improvements r)
       = Simulation.throughput SimulationExamples.erBaseline
    /\ Simulation.estimatedCost (Simulation.costBenefit r) = zero
    /\ Simulation.roi (Simulation.costBenefit r) = zero.
Proof.
  apply (C6_unknown_type_projects_the_baseline SimulationExamples.overtime
           SimulationExamples.erBaseline None None).
  unfold SimulationSpec.knownType. vm_compute.
  intros [H | [H | H]]; discriminate H.
Defined.

(** C6 as stated fails: an intervention of the unknown type "overtime" does
    not fail fast, it returns a result. *)
Lemma C6_counterexample :
  ~ SimulationSpec.knownType (Simulation.type SimulationExamples.overtime)
  /\ ~ SimulationSpec.failsFast
         (Simulation.simulateIntervention SimulationExamples.overtime
            SimulationExamples.erBaseline None None).
Proof.
  split.
  - unfold SimulationSpec.knownType. vm_compute.
    intros [H | [H | H]]; discriminate H.
  - intros [message H]. discriminate H.
Qed.

(** The scenario of the specification: two more staff on a unit of ten, with
    a baseline processing time of 120 minutes, give 100 minutes. *)
Example staff_intervention_scenario :
  Simulation.avgProcessingTime
    (Simulation.projectStaffIntervention SimulationExamples.erBaseline
       (of_Z 2) (of_Z 10))
  = of_Z 100.
Proof. reflexivity. Qed.

(* ------------------------------------------------------------------ *)
(** * The statistics profiler *)

Module StatisticsFacts.

Import BottleneckDetection StatisticsSpec.

Lemma Math_floor_fin (q : Q) : Math_floor (fin q) = of_Z (Qfloor q).
Proof.
  unfold fin, Math_floor. f_equal. apply Qfloor_comp, Qred_correct.
Qed.

Lemma at_index_of_nat (l : list num) (k : nat) :
  JSArray.at_index l (of_nat k) = nth k l NaN.
Proof.
  unfold JSArray.at_index, of_nat, of_Z.
  assert (E : Qltb (inject_Z (Z.of_nat k)) 0 = false).
  { apply NumFacts.Qltb_ge. change 0%Q with (inject_Z 0).
    rewrite <- Zle_Qle. lia. }
  rewrite E, Qfloor_Z, Nat2Z.id. reflexivity.
Qed.

Lemma half_index (n : nat) :
  Math_floor (of_nat n / of_Z 2)%num = of_nat (n / 2).
Proof.
  unfold of_nat at 1. unfold of_Z at 1 2.
  rewrite NumFacts.div_fin by discriminate.
  rewrite Math_floor_fin. unfold of_nat. f_equal.
  rewrite Nat2Z.inj_div.
  unfold Qfloor, Qdiv, Qmult, Qinv, inject_Z. simpl Qnum. simpl Qden.
  rewrite Z.mul_1_r. reflexivity.
Qed.

Lemma quarter_index (n : nat) :
  Math_floor (of_nat n * lit 25 100)%num = of_nat (n / 4).
Proof.
  unfold of_nat at 1. unfold of_Z at 1.
  change (lit 25 100) with (Fin (1 # 4)).
  rewrite NumFacts.mul_fin, Math_floor_fin. unfold of_nat. f_equal.
  rewrite Nat2Z.inj_div.
  unfold Qfloor, Qmult, inject_Z. simpl Qnum. simpl Qden.
  rewrite Z.mul_1_r. reflexivity.
Qed.

Lemma three_quarter_index (n : nat) :
  Math_floor (of_nat n * lit 75 100)%num = of_nat (3 * n / 4).
Proof.
  unfold of_nat at 1. unfold of_Z at 1.
  change (lit 75 100) with (Fin (3 # 4)).
  rewrite NumFacts.mul_fin, Math_floor_fin. unfold of_nat. f_equal.
  rewrite Nat2Z.inj_div, Nat2Z.inj_mul.
  unfold Qfloor, Qmult, inject_Z. simpl Qnum. simpl Qden.
  f_equal. lia.
Qed.

Lemma variance_population (values : list num) :
  variance_of values (arithmeticMean values) = populationVariance values.
Proof.
  unfold variance_of, populationVariance, JSNum.sum.
  rewrite (ReadmissionFacts.fold_left_add_map
             (fun val => Math_pow (val - arithmeticMean values) 2)).
  reflexivity.
Qed.

Lemma mean_fold (values : list num) :
  (fold_left (fun a b => (a + b)%num) values zero
   / of_nat (List.length values))%num = arithmeticMean values.
Proof. reflexivity. Qed.

(** The statistics of a non-empty sample, field by field. *)
Lemma calculateStatistics_nonempty (sqrtQ : Q -> Q) (values : list num) :
  values <> [] ->
  calculateStatistics sqrtQ values =
  let sorted := JSArray.sort ascending values in
  let n := List.length values in
  mkStats (arithmeticMean values)
    (nth (n / 2) sorted NaN)
    (nth (n / 4) sorted NaN)
    (nth (3 * n / 4) sorted NaN)
    (nth (3 * n / 4) sorted NaN - nth (n / 4) sorted NaN)%num
    (Math_sqrt sqrtQ (populationVariance values)).
Proof.
  intro H. destruct values as [|v vs]; [contradiction|].
  unfold calculateStatistics.
  set (values := v :: vs).
  cbv zeta.
  rewrite (ArrayFacts.sort_length ascending values).
  rewrite half_index, quarter_index, three_quarter_index.
  rewrite !at_index_of_nat.
  rewrite mean_fold, variance_population. reflexivity.
Qed.

End StatisticsFacts.

(** C2: the profiler sorts the samples in ascending order and returns
    median = the sample at index n/2, Q1 = the sample at index n/4 (the floor
    of 0.25 n), Q3 = the sample at index 3n/4 (the floor of 0.75 n),
    IQR = Q3 - Q1, mean = the arithmetic mean and standard deviation = the
    square root of the population variance; an empty sample gives all-zero
    statistics.  For the samples 30, 90, 150 it returns median 90, mean 90,
    Q1 30, Q3 150, IQR 120 and the square root of 2400, which lies between
    48.95 and 49.05. *)
Theorem C2_statistics_are_order_statistics
  (sqrtQ : Q -> Q) (values : list num) :
  Forall is_fin values ->
  let sorted := JSArray.sort BottleneckDetection.ascending values in
  let n := List.length values in
  let s := BottleneckDetection.calculateStatistics sqrtQ values in
  let radiology :=
    BottleneckDetection.calculateStatistics sqrtQ
      [of_Z 30; of_Z 90; of_Z 150] in
  Permutation sorted values
  /\ StatisticsSpec.ascendingOrder sorted
  /\ (values = [] ->
      s = BottleneckDetection.mkStats zero zero zero zero zero zero)
  /\ (values <> [] ->
      BottleneckDetection.median s = nth (n / 2) sorted NaN
      /\ BottleneckDetection.q1 s = nth (n / 4) sorted NaN
      /\ BottleneckDetection.q3 s = nth (3 * n / 4) sorted NaN
      /\ BottleneckDetection.iqr s
         = (BottleneckDetection.q3 s - BottleneckDetection.q1 s)%num
      /\ BottleneckDetection.mean s = StatisticsSpec.arithmeticMean values
      /\ BottleneckDetection.stdDev s
         = Math_sqrt sqrtQ (StatisticsSpec.populationVariance values))
  /\ (BottleneckDetection.median radiology = of_Z 90
      /\ BottleneckDetection.mean radiology = of_Z 90
      /\ BottleneckDetection.q1 radiology = of_Z 30
      /\ BottleneckDetection.q3 radiology = of_Z 150
      /\ BottleneckDetection.iqr radiology = of_Z 120
      /\ BottleneckDetection.stdDev radiology = Math_sqrt sqrtQ (of_Z 2400)
      /\ (lit 4895 100 * lit 4895 100 <? of_Z 2400)%num = true
      /\ (of_Z 2400 <? lit 4905 100 * lit 4905 100)%num = true).
Proof.
  intros F sorted n s radiology.
  split; [apply ArrayFacts.sort_perm|].
  split.
  { apply (@ArrayFacts.sort_ascending num (fun x => x) values F). }
  split.
  { intros ->. reflexivity. }
  split.
  { intro H. subst s.
    rewrite (StatisticsFacts.calculateStatistics_nonempty sqrtQ values H).
    cbv zeta. repeat split; reflexivity. }
  repeat split; reflexivity.
Qed.

Lemma C2_witness :
  BottleneckDetection.calculateStatistics sqrt_approx
    [of_Z 150; of_Z 30; of_Z 90]
  = BottleneckDetection.mkStats (of_Z 90) (of_Z 90) (of_Z 30) (of_Z 150)
      (of_Z 120) (lit 48989794855663 1000000000000)
  /\ StatisticsSpec.ascendingOrder
       (JSArray.sort BottleneckDetection.ascending
          [of_Z 150; of_Z 30; of_Z 90]).
Proof.
  split; [vm_compute; reflexivity|].
  apply (C2_statistics_are_order_statistics sqrt_approx
           [of_Z 150; of_Z 30; of_Z 90]).
  repeat constructor.
Defined.

(* ------------------------------------------------------------------ *)
(** * The delay propagation analyzer *)

Module PropagationFacts.

Import PatientFlow BottleneckDetection PropagationSpec MapFacts.

Lemma split_no_sep (sep : N) (s : jsstring) :
  ~ In sep s -> split sep s = [s].
Proof.
  induction s as [|c s IH]; simpl; intro H; [reflexivity|].
  destruct (N.eqb c sep) eqn:E.
  - apply N.eqb_eq in E. exfalso. apply H. left. exact E.
  - rewrite IH; [reflexivity|]. intro H1. apply H. right. exact H1.
Qed.

Lemma split_key (source target : jsstring) :
  ~ In arrow source -> ~ In arrow target ->
  split arrow (propagationKey source target) = [source; target].
Proof.
  unfold propagationKey. intros Hs Ht.
  induction source as [|c s IH]; simpl.
  - rewrite split_no_sep by exact Ht. reflexivity.
  - destruct (N.eqb c arrow) eqn:E.
    + apply N.eqb_eq in E. exfalso. apply Hs. left. exact E.
    + simpl in IH. rewrite IH; [reflexivity|].
      intro H1. apply Hs. right. exact H1.
Qed.

Lemma key_inj (d1 d2 s t : jsstring) :
  ~ In arrow d1 -> ~ In arrow d2 ->
  propagationKey d1 d2 = propagationKey s t -> d1 = s /\ d2 = t.
Proof.
  unfold propagationKey. intros H1 H2. revert s.
  induction d1 as [|c d1 IH]; intros [|c' s] E; simpl in E.
  - inversion E. auto.
  - inversion E. subst. exfalso. apply H2. apply in_or_app. right. left.
    reflexivity.
  - inversion E. subst. exfalso. apply H1. left. reflexivity.
  - inversion E. subst. destruct (IH (fun H => H1 (or_intror H)) s) as [-> ->];
      auto.
Qed.

Definition newAcc (key : jsstring) : Accumulated := mkAcc zero zero.

Definition addWait (acc : Accumulated) (waitTime : num) : Accumulated :=
  mkAcc (totalDelay acc + waitTime)%num (count acc + of_Z 1)%num.

Definition keyOf (t : Stage * Stage) : jsstring :=
  propagationKey (department (fst t)) (department (snd t)).

(** The keyed waits that the loop adds, in order. *)
Definition keyedWaits (l : list (Stage * Stage)) : list (jsstring * num) :=
  map (fun t => (keyOf t, waitMinutes t)) (filter counted l).

Lemma waitTime_counted (current next : Stage) :
  minutes (of_Z (entryTime next) - of_Z (exitTime current))%num
  = waitMinutes (current, next)
  /\ (waitMinutes (current, next) >? of_Z 5)%num = counted (current, next).
Proof.
  split.
  - apply JourneyFacts.minutes_diff.
  - unfold waitMinutes, counted. simpl fst. simpl snd.
    set (d := (entryTime next - exitTime current)%Z).
    rewrite ReadmissionFacts.fin_gtb_l.
    apply eq_true_iff_eq. rewrite NumFacts.Qltb_lt, Z.ltb_lt.
    unfold Qlt, Qdiv, Qmult, Qinv, inject_Z. simpl. lia.
Qed.

Lemma propagateStages_group (stages : list Stage) (m : JSMap.t Accumulated) :
  propagateStages stages m
  = group newAcc addWait (keyedWaits (transitions stages)) m.
Proof.
  revert m. induction stages as [|current rest IH]; intro m; [reflexivity|].
  destruct rest as [|next rest']; [reflexivity|].
  change (propagateStages (current :: next :: rest') m)
    with (propagateStages (next :: rest')
            (if (minutes (of_Z (entryTime next) - of_Z (exitTime current))
                 >? of_Z 5)%num
             then bump newAcc addWait m
                    (propagationKey (department current) (department next))
                    (minutes (of_Z (entryTime next) - of_Z (exitTime current))%num)
             else m)).
  rewrite IH.
  destruct (waitTime_counted current next) as [W C].
  rewrite W, C.
  change (transitions (current :: next :: rest'))
    with ((current, next) :: transitions (next :: rest')).
  unfold keyedWaits. simpl filter.
  destruct (counted (current, next)); reflexivity.
Qed.

Lemma group_app {V X : Type} (init : jsstring -> V) (upd : V -> X -> V)
  (l1 l2 : list (jsstring * X)) (m : JSMap.t V) :
  group init upd (l1 ++ l2) m = group init upd l2 (group init upd l1 m).
Proof. unfold group. apply fold_left_app. Qed.

Lemma keyedWaits_app (l1 l2 : list (Stage * Stage)) :
  keyedWaits (l1 ++ l2) = keyedWaits l1 ++ keyedWaits l2.
Proof. unfold keyedWaits. rewrite filter_app, map_app. reflexivity. Qed.

Lemma propagationMap_group_from (journeys : list PatientJourney)
  (m : JSMap.t Accumulated) :
  fold_left (fun propagationMap journey =>
               propagateStages (stages journey) propagationMap) journeys m
  = group newAcc addWait (keyedWaits (allTransitions journeys)) m.
Proof.
  revert m. induction journeys as [|j js IH]; intro m; [reflexivity|].
  simpl fold_left. rewrite IH, propagateStages_group.
  unfold allTransitions. simpl flat_map.
  rewrite keyedWaits_app, group_app. reflexivity.
Qed.

Lemma propagationMap_group (journeys : list PatientJourney) :
  propagationMapOf journeys
  = group newAcc addWait (keyedWaits (allTransitions journeys)) [].
Proof. apply propagationMap_group_from. Qed.

Lemma transitions_In (stages : list Stage) (a b : Stage) :
  In (a, b) (transitions stages) -> In a stages /\ In b stages.
Proof.
  induction stages as [|current rest IH]; [contradiction|].
  destruct rest as [|next rest']; [contradiction|].
  change (transitions (current :: next :: rest'))
    with ((current, next) :: transitions (next :: rest')).
  intros [H | H].
  - inversion H. subst. split; [left | right; left]; reflexivity.
  - destruct (IH H). split; right; assumption.
Qed.

Lemma arrowFree_transition (journeys : list PatientJourney)
  (t : Stage * Stage) :
  arrowFree journeys -> In t (allTransitions journeys) ->
  ~ In arrow (department (fst t)) /\ ~ In arrow (department (snd t)).
Proof.
  unfold arrowFree, allTransitions. intros F H.
  apply in_flat_map in H. destruct H as (j & Hj & Ht).
  rewrite Forall_forall in F. specialize (F j Hj).
  rewrite Forall_forall in F. destruct t as [a b].
  apply transitions_In in Ht. destruct Ht as [Ha Hb].
  split; apply F; assumption.
Qed.

Lemma filter_map_commute {A B : Type} (f : A -> B) (p : B -> bool)
  (l : list A) :
  filter p (map f l) = map f (filter (fun x => p (f x)) l).
Proof.
  induction l as [|x l IH]; simpl; [reflexivity|].
  destruct (p (f x)); simpl; rewrite IH; reflexivity.
Qed.

Lemma itemsOf_keyedWaits (k : jsstring) (l : list (Stage * Stage)) :
  itemsOf k (keyedWaits l)
  = map waitMinutes (filter (fun t => streq (keyOf t) k) (filter counted l)).
Proof.
  unfold itemsOf, keyedWaits.
  rewrite (filter_map_commute (fun t => (keyOf t, waitMinutes t))
             (fun kx => streq (fst kx) k)).
  rewrite map_map. reflexivity.
Qed.

(** With arrow-free names, the waits filed under the key of a pair of units
    are the counted waits between them. *)
Lemma itemsOf_countedWaits (journeys : list PatientJourney)
  (source target : jsstring) :
  arrowFree journeys ->
  itemsOf (propagationKey source target)
    (keyedWaits (allTransitions journeys))
  = countedWaits journeys source target.
Proof.
  intro F. rewrite itemsOf_keyedWaits. unfold countedWaits. f_equal.
  apply filter_ext_in. intros t Ht. apply filter_In in Ht.
  destruct Ht as [Ht _].
  destruct (@arrowFree_transition journeys t F Ht) as [A1 A2].
  apply eq_true_iff_eq. unfold between, keyOf.
  rewrite streq_eq, andb_true_iff, !streq_eq. split.
  - apply key_inj; assumption.
  - intros [-> ->]. reflexivity.
Qed.

Lemma fold_addWait (waits : list num) (acc : Accumulated) (n : nat) :
  count acc = of_nat n ->
  totalDelay (fold_left addWait waits acc)
  = fold_left add waits (totalDelay acc)
  /\ count (fold_left addWait waits acc) = of_nat (n + List.length waits).
Proof.
  revert acc n. induction waits as [|w ws IH]; intros acc n H;
    cbn [fold_left List.length].
  - rewrite Nat.add_0_r. auto.
  - destruct (IH (addWait acc w) (S n)) as [T C].
    + simpl. rewrite H. unfold of_nat. rewrite NumFacts.add_of_Z.
      f_equal. lia.
    + split; [exact T|]. rewrite C. f_equal. lia.
Qed.

(** What the propagation map holds under each key. *)
Lemma propagationMap_In (journeys : list PatientJourney) (k : jsstring)
  (acc : Accumulated) :
  In (k, acc) (propagationMapOf journeys) <->
  exists waits,
    waits = itemsOf k (keyedWaits (allTransitions journeys))
    /\ waits <> []
    /\ acc = mkAcc (JSNum.sum waits) (of_nat (List.length waits)).
Proof.
  rewrite propagationMap_group, In_group.
  set (waits := itemsOf k (keyedWaits (allTransitions journeys))).
  destruct (@fold_addWait waits (newAcc k) 0%nat eq_refl) as [T C].
  assert (E : fold_left addWait waits (newAcc k)
              = mkAcc (JSNum.sum waits) (of_nat (List.length waits))).
  { destruct (fold_left addWait waits (newAcc k)) as [t c].
    simpl in T, C. rewrite T, C. reflexivity. }
  rewrite E. split.
  - intros [Hn ->]. exists waits. auto.
  - intros (ws & -> & Hn & ->). auto.
Qed.

Lemma key_of_entry (journeys : list PatientJourney) (k : jsstring) :
  itemsOf k (keyedWaits (allTransitions journeys)) <> [] ->
  exists t, In t (allTransitions journeys) /\ k = keyOf t.
Proof.
  intro H.
  destruct (in_dec (list_eq_dec N.eq_dec) k
              (map fst (keyedWaits (allTransitions journeys)))) as [I | I].
  - apply in_map_iff in I. destruct I as ([k' w] & <- & I).
    unfold keyedWaits in I. apply in_map_iff in I.
    destruct I as (t & E & I). inversion E. subst.
    apply filter_In in I. exists t. split; [apply I | reflexivity].
  - apply itemsOf_nil in I. contradiction.
Qed.

Lemma sum_finite (l : list num) : Forall is_fin l -> is_fin (JSNum.sum l).
Proof.
  unfold JSNum.sum. assert (H : is_fin zero) by exact I.
  revert H. generalize zero. induction l as [|x l IH]; intros acc Ha F.
  - exact Ha.
  - inversion F; subst. simpl. apply IH; [|assumption].
    apply NumFacts.is_fin_add; assumption.
Qed.

Lemma is_fin_div_count (x : num) (n : nat) :
  is_fin x -> is_fin (x / of_nat (S n))%num.
Proof.
  intro H. unfold of_nat. apply NumFacts.is_fin_div_of_Z; [lia | exact H].
Qed.

Lemma is_fin_min (x y : num) : is_fin x -> is_fin y -> is_fin (Math_min x y).
Proof.
  destruct x, y; simpl; try contradiction. intros _ _.
  destruct (Qltb q0 q); exact I.
Qed.

Lemma is_fin_round1 (x : num) : is_fin x -> is_fin (round1 x).
Proof.
  intro H. unfold round1. apply NumFacts.is_fin_div_of_Z; [lia|].
  apply NumFacts.is_fin_round, NumFacts.is_fin_mul; [exact H | exact I].
Qed.

Lemma waits_finite (k : jsstring) (l : list (Stage * Stage)) :
  Forall is_fin (itemsOf k (keyedWaits l)).
Proof.
  rewrite itemsOf_keyedWaits, Forall_forall. intros w H.
  apply in_map_iff in H. destruct H as (t & <- & _). exact I.
Qed.

Lemma strength_finite (waits : list num) :
  waits <> [] -> Forall is_fin waits -> is_fin (round1 (strength waits)).
Proof.
  intros Hn F. apply is_fin_round1. unfold strength. apply is_fin_min;
    [|exact I].
  apply NumFacts.is_fin_mul; [|exact I].
  apply NumFacts.is_fin_div_of_Z; [lia|].
  unfold averageDelay. destruct waits as [|w ws]; [contradiction|].
  apply is_fin_div_count, sum_finite, F.
Qed.

Lemma propagationOf_entry (k : jsstring) (waits : list num) :
  propagationOf (k, mkAcc (JSNum.sum waits) (of_nat (List.length waits)))
  = mkPropagation (nth 0 (split arrow k) []) (nth 1 (split arrow k) [])
      (Math_round (averageDelay waits)) (of_nat (List.length waits))
      (round1 (strength waits)).
Proof. reflexivity. Qed.

(** One edge per pair of units. *)
Lemma edges_distinct (journeys : list PatientJourney) :
  arrowFree journeys ->
  NoDup (map endpoints (getDelayPropagationMap journeys)).
Proof.
  intro F. unfold getDelayPropagationMap.
  apply (Permutation_NoDup
           (l := map endpoints (map propagationOf (propagationMapOf journeys)))).
  { apply Permutation_map, Permutation_sym, ArrayFacts.sort_perm. }
  rewrite map_map.
  assert (ND : NoDup (JSMap.keys (propagationMapOf journeys))).
  { rewrite propagationMap_group. apply group_NoDup. constructor. }
  apply NoDup_map_NoDup_ForallPairs.
  - intros [k1 a1] [k2 a2] H1 H2 E.
    assert (K : forall k a, In (k, a) (propagationMapOf journeys) ->
                exists d1 d2, k = propagationKey d1 d2
                              /\ endpoints (propagationOf (k, a)) = (d1, d2)).
    { intros k a H. apply propagationMap_In in H.
      destruct H as (waits & Ew & Hn & ->).
      rewrite Ew in Hn. apply key_of_entry in Hn.
      destruct Hn as (t & Ht & ->).
      destruct (arrowFree_transition journeys t F Ht) as [A1 A2].
      exists (department (fst t)), (department (snd t)).
      split; [reflexivity|].
      rewrite propagationOf_entry. unfold keyOf, endpoints.
      rewrite (split_key _ _ A1 A2). reflexivity. }
    destruct (K k1 a1 H1) as (d1 & d2 & -> & E1).
    destruct (K k2 a2 H2) as (d1' & d2' & -> & E2).
    rewrite E1, E2 in E. inversion E. subst.
    f_equal.
    apply (In_get _ _ _ ND) in H1. apply (In_get _ _ _ ND) in H2.
    congruence.
  - apply (NoDup_map_inv fst). exact ND.
Qed.

End PropagationFacts.

(** C5, as the source has it: a wait between two consecutive stages (next
    entry minus current exit, in minutes) is counted exactly when it exceeds
    5 minutes; for unit names without the arrow character, the edges are the
    pairs (source unit, target unit) with a counted wait, one edge per pair,
    and an edge reports the number of counted waits, the average delay
    total/count rounded to the nearest minute, and the propagation strength
    min(100, (average delay / 60) x 100) rounded to one decimal; the edges
    are in descending order of the reported strength. *)
Theorem C5_delay_propagation_edges
  (journeys : list PatientFlow.PatientJourney) :
  PropagationSpec.arrowFree journeys ->
  let edges := BottleneckDetection.getDelayPropagationMap journeys in
  StronglySorted
    (fun a b => (BottleneckDetection.propagationStrength a
                 >=? BottleneckDetection.propagationStrength b)%num = true)
    edges
  /\ (forall e, In e edges ->
      let waits :=
        PropagationSpec.countedWaits journeys
          (BottleneckDetection.sourceDepartment e)
          (BottleneckDetection.targetDepartment e) in
      waits <> []
      /\ BottleneckDetection.patientsAffected_p e = of_nat (List.length waits)
      /\ BottleneckDetection.avgDelayTransferred e
         = Math_round (PropagationSpec.averageDelay waits)
      /\ BottleneckDetection.propagationStrength e
         = BottleneckDetection.round1 (PropagationSpec.strength waits))
  /\ (forall source target,
      PropagationSpec.countedWaits journeys source target <> [] ->
      exists e, In e edges
                /\ BottleneckDetection.sourceDepartment e = source
                /\ BottleneckDetection.targetDepartment e = target)
  /\ NoDup (map PropagationSpec.endpoints edges).
Proof.
  intros F edges. subst edges.
  split; [|split; [|split]]; [| | |apply PropagationFacts.edges_distinct, F];
    unfold BottleneckDetection.getDelayPropagationMap.
  - apply (@ArrayFacts.sort_descending _
             BottleneckDetection.propagationStrength).
    rewrite Forall_forall. intros e He. apply in_map_iff in He.
    destruct He as ([k acc] & <- & He).
    apply PropagationFacts.propagationMap_In in He.
    destruct He as (waits & -> & Hn & ->).
    rewrite PropagationFacts.propagationOf_entry. simpl.
    apply PropagationFacts.strength_finite; [exact Hn|].
    apply PropagationFacts.waits_finite.
  - intros e He. apply ArrayFacts.sort_In in He. apply in_map_iff in He.
    destruct He as ([k acc] & <- & He).
    apply PropagationFacts.propagationMap_In in He.
    destruct He as (waits & Ew & Hn & ->).
    assert (Hn' := Hn). rewrite Ew in Hn'.
    apply PropagationFacts.key_of_entry in Hn'.
    destruct Hn' as (t & Ht & ->).
    destruct (@PropagationFacts.arrowFree_transition journeys t F Ht)
      as [A1 A2].
    rewrite PropagationFacts.propagationOf_entry.
    unfold PropagationFacts.keyOf in *.
    rewrite (PropagationFacts.split_key _ _ A1 A2).
    cbn [nth BottleneckDetection.sourceDepartment
         BottleneckDetection.targetDepartment
         BottleneckDetection.patientsAffected_p
         BottleneckDetection.avgDelayTransferred
         BottleneckDetection.propagationStrength].
    rewrite (PropagationFacts.itemsOf_countedWaits _ _ _ F) in Ew.
    rewrite <- Ew. auto.
  - intros source target Hn.
    assert (Hk := Hn).
    rewrite <- (PropagationFacts.itemsOf_countedWaits journeys source target F) in Hk.
    set (waits := PropagationSpec.countedWaits journeys source target) in *.
    assert (A : ~ In arrow source /\ ~ In arrow target).
    { destruct waits as [|w ws] eqn:E; [contradiction|].
      unfold waits, PropagationSpec.countedWaits in E.
      destruct (filter (PropagationSpec.between source target) _)
        as [|t ts] eqn:Et; [discriminate|].
      assert (It : In t (t :: ts)) by (left; reflexivity).
      rewrite <- Et in It. apply filter_In in It. destruct It as [It B].
      apply filter_In in It. destruct It as [It _].
      destruct (@PropagationFacts.arrowFree_transition journeys t F It)
        as [A1 A2].
      unfold PropagationSpec.between in B. apply andb_true_iff in B.
      destruct B as [B1 B2]. apply MapFacts.streq_eq in B1, B2.
      subst. auto. }
    destruct A as [A1 A2].
    exists (BottleneckDetection.propagationOf
              (BottleneckDetection.propagationKey source target,
               BottleneckDetection.mkAcc (JSNum.sum waits)
                 (of_nat (List.length waits)))).
    split.
    + apply ArrayFacts.sort_In. apply in_map.
      apply PropagationFacts.propagationMap_In.
      exists waits. split; [|auto].
      symmetry. apply PropagationFacts.itemsOf_countedWaits, F.
    + rewrite PropagationFacts.propagationOf_entry.
      rewrite (PropagationFacts.split_key _ _ A1 A2). auto.
Qed.

Lemma threeGaps_arrowFree :
  PropagationSpec.arrowFree PropagationExamples.threeGapsJourneys.
Proof.
  unfold PropagationSpec.arrowFree. vm_compute.
  repeat first
    [ apply Forall_nil
    | apply Forall_cons
    | intro H; repeat (destruct H as [H | H]; [discriminate H|]); exact H ].
Defined.

Lemma C5_witness :
  PropagationSpec.arrowFree PropagationExamples.threeGapsJourneys
  /\ BottleneckDetection.getDelayPropagationMap
       PropagationExamples.threeGapsJourneys
     = [PropagationExamples.threeGapsEdge]
  /\ PropagationSpec.countedWaits PropagationExamples.threeGapsJourneys
       (str "Triage") (str "Radiology") = [of_Z 6; of_Z 7]
  /\ NoDup
       (map PropagationSpec.endpoints
          (BottleneckDetection.getDelayPropagationMap
             PropagationExamples.threeGapsJourneys)).
Proof.
  split; [exact threeGaps_arrowFree|].
  split; [vm_compute; reflexivity|].
  split; [vm_compute; reflexivity|].
  apply (C5_delay_propagation_edges PropagationExamples.threeGapsJourneys
           threeGaps_arrowFree).
Defined.

(** C5 as stated fails where the average is not a whole number: for waits of
    6 and 7 minutes the average delay is 6.5 and the strength 65/6, but the
    edge reports 7 and 10.8.  The gap of 5 minutes is not counted. *)
Lemma C5_counterexample :
  BottleneckDetection.getDelayPropagationMap
    PropagationExamples.threeGapsJourneys
  = [PropagationExamples.threeGapsEdge]
  /\ PropagationSpec.countedWaits PropagationExamples.threeGapsJourneys
       (str "Triage") (str "Radiology") = [of_Z 6; of_Z 7]
  /\ PropagationSpec.averageDelay [of_Z 6; of_Z 7] = lit 13 2
  /\ PropagationSpec.strength [of_Z 6; of_Z 7] = lit 65 6
  /\ BottleneckDetection.avgDelayTransferred PropagationExamples.threeGapsEdge
     <> PropagationSpec.averageDelay [of_Z 6; of_Z 7]
  /\ BottleneckDetection.propagationStrength PropagationExamples.threeGapsEdge
     <> PropagationSpec.strength [of_Z 6; of_Z 7].
Proof.
  repeat split; try (vm_compute; reflexivity); vm_compute; discriminate.
Qed.

(* ------------------------------------------------------------------ *)
(** * The bottleneck classifier *)

Module BottleneckFacts.

Import PatientFlow BottleneckDetection BottleneckSpec MapFacts.

(** A visit: a stage with the stage that follows it in the journey. *)
Definition Visit : Type := (Stage * option Stage)%type.

Fixpoint visits (stages : list Stage) : list (jsstring * Visit) :=
  match stages with
  | [] => []
  | stage :: rest => (department stage, (stage, hd_error rest)) :: visits rest
  end.

Definition allVisits (journeys : list PatientJourney)
  : list (jsstring * Visit) :=
  flat_map (fun j => visits (stages j)) journeys.

Definition addDownstream (stage : Stage) (next : option Stage)
  (downstream : JSMap.t num) : JSMap.t num :=
  match next with
  | Some nextStage =>
      let waitTime :=
        minutes (of_Z (entryTime nextStage) - of_Z (exitTime stage))%num in
      if (waitTime >? zero)%num then
        JSMap.set (department nextStage)
          (match JSMap.get (department nextStage) downstream with
           | Some d => or_default d zero
           | None => zero
           end + waitTime)%num
          downstream
      else downstream
  | None => downstream
  end.

Definition addVisit (analysis : DepartmentAnalysis) (v : Visit)
  : DepartmentAnalysis :=
  mkAnalysis (name analysis)
    (times analysis ++ [duration (fst v)])
    (patientVolume analysis + of_Z 1)%num
    (addDownstream (fst v) (snd v) (downstreamDelays analysis))
    (processingVariance analysis)
    (expectedTime analysis)
    (actualTime analysis).

Lemma analyzeStages_group (stages : list Stage)
  (m : JSMap.t DepartmentAnalysis) :
  analyzeStages stages m = group newAnalysis addVisit (visits stages) m.
Proof.
  revert m. induction stages as [|stage rest IH]; intro m; [reflexivity|].
  cbn [analyzeStages visits]. rewrite IH.
  unfold group at 2. cbn [fold_left fst snd]. fold (group newAnalysis addVisit).
  f_equal. unfold bump, addVisit, addDownstream. cbn [fst snd].
  destruct rest as [|nextStage rest']; reflexivity.
Qed.

Lemma rawAnalysis_group (journeys : list PatientJourney)
  (m : JSMap.t DepartmentAnalysis) :
  fold_left (fun deptAnalysis journey =>
               analyzeStages (stages journey) deptAnalysis) journeys m
  = group newAnalysis addVisit (allVisits journeys) m.
Proof.
  revert m. induction journeys as [|j js IH]; intro m; [reflexivity|].
  cbn [fold_left]. rewrite IH, analyzeStages_group.
  unfold allVisits. cbn [flat_map].
  rewrite PropagationFacts.group_app. reflexivity.
Qed.

(** The analysis of a unit before the statistics pass. *)
Definition rawAnalysis (journeys : list PatientJourney) (unit : jsstring)
  : DepartmentAnalysis :=
  fold_left addVisit (itemsOf unit (allVisits journeys)) (newAnalysis unit).

Lemma analysis_keys (sqrtQ : Q -> Q) (journeys : list PatientJourney) :
  NoDup (JSMap.keys (analyzeDepartmentFlows sqrtQ journeys)).
Proof.
  unfold analyzeDepartmentFlows, JSMap.keys. rewrite map_map. cbn [fst].
  rewrite rawAnalysis_group. apply (group_NoDup newAnalysis addVisit).
  constructor.
Qed.

Lemma analysis_In (sqrtQ : Q -> Q) (journeys : list PatientJourney)
  (unit : jsstring) (analysis : DepartmentAnalysis) :
  In (unit, analysis) (analyzeDepartmentFlows sqrtQ journeys) <->
  itemsOf unit (allVisits journeys) <> []
  /\ analysis = withStatistics sqrtQ (rawAnalysis journeys unit).
Proof.
  unfold analyzeDepartmentFlows. rewrite rawAnalysis_group, in_map_iff.
  split.
  - intros ([k a] & E & H). inversion E. subst.
    apply In_group in H. destruct H as [Hn ->]. auto.
  - intros [Hn ->]. exists (unit, rawAnalysis journeys unit).
    split; [reflexivity|]. apply In_group. auto.
Qed.

Lemma fold_addVisit (l : list Visit) (analysis : DepartmentAnalysis)
  (n : nat) :
  patientVolume analysis = of_nat n ->
  name (fold_left addVisit l analysis) = name analysis
  /\ times (fold_left addVisit l analysis)
     = times analysis ++ map (fun v => duration (fst v)) l
  /\ patientVolume (fold_left addVisit l analysis)
     = of_nat (n + List.length l).
Proof.
  revert analysis n. induction l as [|v l IH]; intros a n H;
    cbn [fold_left List.length map].
  - rewrite Nat.add_0_r, app_nil_r. auto.
  - destruct (IH (addVisit a v) (S n)) as (N & T & V).
    + cbn. rewrite H. unfold of_nat. rewrite NumFacts.add_of_Z.
      f_equal. lia.
    + split; [exact N|]. split.
      * rewrite T. cbn [times addVisit]. rewrite <- app_assoc. reflexivity.
      * rewrite V. f_equal. lia.
Qed.

Lemma visits_stages (unit : jsstring) (journeys : list PatientJourney) :
  map (fun v : Visit => duration (fst v)) (itemsOf unit (allVisits journeys))
  = samples journeys unit.
Proof.
  unfold samples, allVisits, itemsOf.
  induction journeys as [|j js IH]; [reflexivity|].
  cbn [flat_map]. rewrite !filter_app, !map_app, IH. f_equal.
  generalize (stages j). intro l.
  induction l as [|s l IHl]; [reflexivity|].
  cbn [visits filter fst map]. rewrite streq_sym.
  destruct (streq unit (department s)); cbn [map snd fst]; rewrite <- IHl;
    rewrite streq_sym || idtac; reflexivity.
Qed.

Lemma analysis_times (sqrtQ : Q -> Q) (journeys : list PatientJourney)
  (unit : jsstring) (analysis : DepartmentAnalysis) :
  In (unit, analysis) (analyzeDepartmentFlows sqrtQ journeys) ->
  name analysis = unit
  /\ times analysis = samples journeys unit
  /\ patientVolume analysis = of_nat (List.length (samples journeys unit)).
Proof.
  intro H. apply analysis_In in H. destruct H as [_ ->].
  destruct (fold_addVisit (itemsOf unit (allVisits journeys))
              (newAnalysis unit) 0%nat eq_refl) as (N & T & V).
  unfold withStatistics. cbn [name times patientVolume].
  fold (rawAnalysis journeys unit) in N, T, V.
  rewrite <- visits_stages, length_map.
  rewrite N, T, V. auto.
Qed.

Lemma collectSome_In {A : Type} (x : A) (l : list (option A)) :
  In x (collectSome l) <-> In (Some x) l.
Proof.
  induction l as [|[y|] l IH]; cbn [collectSome In].
  - tauto.
  - rewrite IH. split; intros [H | H]; auto.
    + left. congruence.
    + left. congruence.
  - rewrite IH. split; [auto | intros [H | H]; [discriminate | exact H]].
Qed.

Lemma bottleneckTypeOf_firstMatch (load : LoadLevel) (d t v c : num) :
  bottleneckTypeOf load d t v c = firstMatch load d t v c.
Proof.
  unfold bottleneckTypeOf, firstMatch.
  destruct load; cbn [isModerate isHigh andb]; reflexivity.
Qed.

Section Detection.
Variable sqrtQ : Q -> Q.

(** The type decided for a unit inside the loop. *)
Definition typeInLoop (globalStats volumeStats : Statistics)
  (analysis : DepartmentAnalysis) : option BottleneckType :=
  let deptStats := calculateStatistics sqrtQ (times analysis) in
  bottleneckTypeOf
    (loadLevelOf (volumePercentileOf volumeStats analysis))
    (delayPropagationScoreOf analysis)
    (timeDeviationOf analysis)
    (varianceRatioOf globalStats deptStats)
    (congestionIndicatorOf deptStats).

Lemma detectUnit_Some (globalStats volumeStats : Statistics)
  (deptName : jsstring) (analysis : DepartmentAnalysis)
  (b : BottleneckDetection) :
  detectUnit sqrtQ globalStats volumeStats deptName analysis = Some b ->
  departmentName b = deptName
  /\ (3 <= List.length (times analysis))%nat
  /\ typeInLoop globalStats volumeStats analysis = Some (bottleneckType b).
Proof.
  unfold detectUnit, typeInLoop.
  destruct (List.length (times analysis) <? 3)%nat eqn:L; [discriminate|].
  apply Nat.ltb_ge in L. cbv zeta.
  destruct (bottleneckTypeOf _ _ _ _ _) as [ty|]; [|discriminate].
  intro H. inversion H. cbn. auto.
Qed.

Lemma detectUnit_exists (globalStats volumeStats : Statistics)
  (deptName : jsstring) (analysis : DepartmentAnalysis)
  (ty : BottleneckType) :
  (3 <= List.length (times analysis))%nat ->
  typeInLoop globalStats volumeStats analysis = Some ty ->
  exists b,
    detectUnit sqrtQ globalStats volumeStats deptName analysis = Some b
    /\ departmentName b = deptName /\ bottleneckType b = ty.
Proof.
  unfold detectUnit, typeInLoop. intros L T.
  apply Nat.ltb_ge in L. rewrite L. cbv zeta in *. rewrite T.
  eexists. split; [reflexivity|]. cbn. auto.
Qed.

Lemma detectedUnits_In (deptAnalysis : JSMap.t DepartmentAnalysis)
  (b : BottleneckDetection) :
  In b (detectedUnits sqrtQ deptAnalysis) <->
  exists unit analysis,
    In (unit, analysis) deptAnalysis
    /\ detectUnit sqrtQ (globalStatsOf sqrtQ deptAnalysis)
         (volumeStatsOf sqrtQ deptAnalysis) unit analysis = Some b.
Proof.
  unfold detectedUnits. rewrite collectSome_In, in_map_iff. split.
  - intros ([unit analysis] & E & H). exists unit, analysis. auto.
  - intros (unit & analysis & H & E). exists (unit, analysis). auto.
Qed.

Definition label (b : BottleneckDetection) : jsstring * BottleneckType :=
  (departmentName b, bottleneckType b).

Lemma detectBottlenecks_labels (journeys : list PatientJourney) :
  Permutation (map label (detectBottlenecks sqrtQ journeys))
    (map label (detectedUnits sqrtQ (analyzeDepartmentFlows sqrtQ journeys))).
Proof.
  unfold detectBottlenecks.
  destruct (analyzeDepartmentFlows sqrtQ journeys) as [|e m] eqn:E.
  - apply Permutation_refl.
  - rewrite (ArrayFacts.mapi_map withRank label label) by reflexivity.
    apply Permutation_map, ArrayFacts.sort_perm.
Qed.

Lemma reported_detected (journeys : list PatientJourney) (unit : jsstring)
  (ty : BottleneckType) :
  reported sqrtQ journeys unit ty <->
  exists b, In b (detectedUnits sqrtQ (analyzeDepartmentFlows sqrtQ journeys))
            /\ departmentName b = unit /\ bottleneckType b = ty.
Proof.
  unfold reported.
  assert (L : forall l, (exists b, In b l /\ departmentName b = unit
                                   /\ bottleneckType b = ty)
                        <-> In (unit, ty) (map label l)).
  { intro l. rewrite in_map_iff. unfold label. split.
    - intros (b & H & <- & <-). exists b. auto.
    - intros (b & E & H). inversion E. exists b. auto. }
  rewrite !L. split; apply Permutation_in.
  - apply detectBottlenecks_labels.
  - apply Permutation_sym, detectBottlenecks_labels.
Qed.

End Detection.

End BottleneckFacts.

(* ------------------------------------------------------------------ *)
(** * Finite scores *)

Module FiniteFacts.

Import PatientFlow BottleneckDetection StatisticsSpec.

(** A finite number that is not negative. *)
Definition nonneg (x : num) : Prop :=
  match x with Fin q => 0 <= q | _ => False end.

(** The rational value of a finite number. *)
Definition qval (x : num) : Q :=
  match x with Fin q => q | _ => 0 end.

Definition qsum (l : list num) : Q :=
  fold_right (fun x s => qval x + s) 0 l.

Lemma nonneg_fin (x : num) : nonneg x -> is_fin x.
Proof. destruct x; simpl; auto. Qed.

Lemma Forall_nonneg_fin (l : list num) : Forall nonneg l -> Forall is_fin l.
Proof. apply Forall_impl, nonneg_fin. Qed.

Lemma fold_add_value (l : list num) (a : Q) :
  Forall is_fin l ->
  exists s, fold_left add l (Fin a) = Fin s /\ s == a + qsum l.
Proof.
  revert a. induction l as [|x l IH]; intros a F; cbn [fold_left].
  - exists a. split; [reflexivity|]. change (qsum []) with 0. ring.
  - inversion F as [|? ? Hx Hl]; subst.
    destruct x as [q| | |]; try contradiction.
    destruct (IH (Qred (a + q)) Hl) as (s & E & V).
    exists s. split; [exact E|].
    change (qsum (Fin q :: l)) with (q + qsum l).
    rewrite V, Qred_correct. ring.
Qed.

Lemma sum_value (l : list num) :
  Forall is_fin l -> exists s, JSNum.sum l = Fin s /\ s == qsum l.
Proof.
  intro F. destruct (fold_add_value l 0 F) as (s & E & V).
  exists s. split; [exact E|]. rewrite V. ring.
Qed.

Lemma qsum_nonneg (l : list num) : Forall nonneg l -> 0 <= qsum l.
Proof.
  induction 1 as [|x l Hx _ IH].
  - apply Qle_refl.
  - destruct x as [q| | |]; try contradiction.
    change (qsum (Fin q :: l)) with (q + qsum l). cbn [nonneg] in Hx.
    rewrite <- (Qplus_0_l 0). apply Qplus_le_compat; assumption.
Qed.

Lemma qsum_zero (l : list num) :
  Forall nonneg l -> qsum l == 0 -> Forall (fun x => qval x == 0) l.
Proof.
  induction 1 as [|x l Hx Hl IH]; intro Z; constructor;
    destruct x as [q| | |]; try contradiction;
    change (qsum (Fin q :: l)) with (q + qsum l) in Z;
    cbn [qval nonneg] in *; pose proof (qsum_nonneg l Hl) as S.
  - apply Qle_antisym; [|exact Hx].
    rewrite <- Z. rewrite <- (Qplus_0_r q) at 1.
    apply Qplus_le_compat; [apply Qle_refl | exact S].
  - apply IH.
    apply Qle_antisym; [|exact S].
    rewrite <- Z. rewrite <- (Qplus_0_l (qsum l)) at 1.
    apply Qplus_le_compat; [exact Hx | apply Qle_refl].
Qed.

Lemma count_nonzero (n : nat) : ~ inject_Z (Z.of_nat (S n)) == 0.
Proof. unfold Qeq. simpl. lia. Qed.

Lemma count_positive (n : nat) : 0 < inject_Z (Z.of_nat (S n)).
Proof. unfold Qlt. simpl. lia. Qed.

(** The mean of a non-empty finite sample. *)
Lemma mean_value (values : list num) :
  Forall is_fin values -> values <> [] ->
  exists m,
    arithmeticMean values = Fin m
    /\ m == qsum values / inject_Z (Z.of_nat (List.length values)).
Proof.
  intros F Hn. destruct (sum_value values F) as (s & E & V).
  unfold arithmeticMean. rewrite E.
  destruct values as [|v vs]; [contradiction|].
  cbn [List.length]. unfold of_nat, of_Z.
  rewrite NumFacts.div_fin by apply count_nonzero.
  eexists. split; [reflexivity|]. rewrite Qred_correct, V. reflexivity.
Qed.

Lemma mean_nonneg (values : list num) :
  Forall nonneg values -> values <> [] -> nonneg (arithmeticMean values).
Proof.
  intros F Hn.
  destruct (mean_value values (Forall_nonneg_fin _ F) Hn) as (m & E & V).
  rewrite E. cbn [nonneg]. rewrite V.
  destruct values as [|v vs]; [contradiction|].
  apply Qle_shift_div_l; [apply count_positive|].
  rewrite Qmult_0_l. apply qsum_nonneg, F.
Qed.

Lemma mean_zero (values : list num) (m : Q) :
  Forall nonneg values -> values <> [] ->
  arithmeticMean values = Fin m -> m == 0 ->
  Forall (fun x => qval x == 0) values.
Proof.
  intros F Hn E Z.
  destruct (mean_value values (Forall_nonneg_fin _ F) Hn) as (m' & E' & V).
  rewrite E in E'. inversion E'. subst m'.
  apply qsum_zero; [exact F|].
  destruct values as [|v vs]; [contradiction|].
  rewrite Z in V. symmetry in V.
  assert (P := count_nonzero (List.length vs)).
  cbn [List.length] in V.
  set (c := inject_Z (Z.of_nat (S (List.length vs)))) in *.
  assert (E0 : qsum (v :: vs) == (qsum (v :: vs) / c) * c).
  { field. exact P. }
  rewrite E0, V. ring.
Qed.

Lemma sum_nonneg (l : list num) : Forall nonneg l -> nonneg (JSNum.sum l).
Proof.
  intro F. destruct (sum_value l (Forall_nonneg_fin _ F)) as (s & E & V).
  rewrite E. cbn [nonneg]. rewrite V. apply qsum_nonneg, F.
Qed.

Lemma nonneg_div_count (x : num) (n : nat) :
  nonneg x -> nonneg (x / of_nat (S n))%num.
Proof.
  destruct x as [q| | |]; try contradiction. cbn [nonneg]. intro H.
  unfold of_nat, of_Z. rewrite NumFacts.div_fin by apply count_nonzero.
  cbn [fin nonneg]. rewrite Qred_correct.
  apply Qle_shift_div_l; [apply count_positive|].
  rewrite Qmult_0_l. exact H.
Qed.

Lemma square_nonneg (x : num) : is_fin x -> nonneg (x * x)%num.
Proof.
  destruct x as [q| | |]; try contradiction. intros _.
  cbn [mul fin nonneg]. rewrite Qred_correct.
  destruct (Qlt_le_dec q 0) as [L | L].
  - setoid_replace (q * q) with ((- q) * (- q)) by ring.
    apply Qmult_le_0_compat; apply (Qopp_le_compat q 0), Qlt_le_weak, L.
  - apply Qmult_le_0_compat; exact L.
Qed.

Lemma mean_finite (values : list num) :
  Forall is_fin values -> values <> [] -> is_fin (arithmeticMean values).
Proof.
  intros F Hn. destruct (mean_value values F Hn) as (m & E & _).
  rewrite E. exact I.
Qed.

Lemma variance_nonneg (values : list num) :
  Forall is_fin values -> values <> [] -> nonneg (populationVariance values).
Proof.
  intros F Hn. unfold populationVariance.
  destruct values as [|v vs] eqn:E; [contradiction|]. rewrite <- E in *.
  replace (List.length values) with (S (List.length vs))
    by (rewrite E; reflexivity).
  apply nonneg_div_count, sum_nonneg.
  rewrite Forall_forall. intros x Hx. apply in_map_iff in Hx.
  destruct Hx as (y & <- & Hy). apply square_nonneg.
  apply NumFacts.is_fin_sub.
  - rewrite Forall_forall in F. apply F, Hy.
  - apply mean_finite; assumption.
Qed.

Lemma index_bounds (n : nat) :
  (0 < n -> n / 2 < n /\ n / 4 < n /\ 3 * n / 4 < n)%nat.
Proof.
  intro H. repeat split.
  - apply Nat.div_lt; lia.
  - apply Nat.div_lt; lia.
  - apply Nat.Div0.div_lt_upper_bound. lia.
Qed.

Lemma nth_sorted (P : num -> Prop) (values : list num) (i : nat) :
  Forall P values -> (i < List.length values)%nat ->
  P (nth i (JSArray.sort ascending values) NaN).
Proof.
  intros F L. rewrite Forall_forall in F. apply F.
  apply (ArrayFacts.sort_In ascending). apply nth_In.
  rewrite ArrayFacts.sort_length. exact L.
Qed.

Section WithSqrt.
Variable sqrtQ : Q -> Q.

Lemma sqrt_finite (x : num) : nonneg x -> is_fin (Math_sqrt sqrtQ x).
Proof.
  destruct x as [q| | |]; try contradiction. cbn [nonneg Math_sqrt].
  intro H. apply NumFacts.Qltb_ge in H. rewrite H. exact I.
Qed.

Definition finiteStatistics (s : Statistics) : Prop :=
  is_fin (mean s) /\ is_fin (median s) /\ is_fin (q1 s) /\ is_fin (q3 s)
  /\ is_fin (iqr s) /\ is_fin (stdDev s).

Lemma statistics_finite (values : list num) :
  Forall is_fin values -> finiteStatistics (calculateStatistics sqrtQ values).
Proof.
  intro F. destruct values as [|v vs] eqn:E.
  - repeat split.
  - rewrite <- E in *. assert (Hn : values <> []) by (rewrite E; discriminate).
    rewrite (StatisticsFacts.calculateStatistics_nonempty sqrtQ values Hn).
    cbv zeta.
    destruct (index_bounds (List.length values)) as (B1 & B2 & B3).
    { rewrite E. cbn. lia. }
    unfold finiteStatistics. cbn [mean median q1 q3 iqr stdDev].
    repeat split.
    + apply mean_finite; assumption.
    + apply nth_sorted; assumption.
    + apply nth_sorted; assumption.
    + apply nth_sorted; assumption.
    + apply NumFacts.is_fin_sub; apply nth_sorted; assumption.
    + apply sqrt_finite, variance_nonneg; assumption.
Qed.

(** The statistics of a non-empty sample of non-negative numbers. *)
Lemma statistics_nonneg (values : list num) :
  Forall nonneg values -> values <> [] ->
  nonneg (mean (calculateStatistics sqrtQ values))
  /\ nonneg (median (calculateStatistics sqrtQ values)).
Proof.
  intros F Hn.
  rewrite (StatisticsFacts.calculateStatistics_nonempty sqrtQ values Hn).
  cbv zeta. cbn [mean median]. split.
  - apply mean_nonneg; assumption.
  - apply nth_sorted; [exact F|].
    apply index_bounds. destruct values; [contradiction | cbn; lia].
Qed.

Hypothesis sqrt_zero : sqrtQ 0 == 0.

Lemma sum_zeros (l : list num) : Forall (eq zero) l -> JSNum.sum l = zero.
Proof.
  unfold JSNum.sum. induction 1 as [|x l Hx _ IH]; [reflexivity|].
  subst x. exact IH.
Qed.

(** A non-negative sample of mean 0 has no spread. *)
Lemma stdDev_zero_mean (values : list num) (m : Q) :
  Forall nonneg values -> values <> [] ->
  mean (calculateStatistics sqrtQ values) = Fin m -> m == 0 ->
  stdDev (calculateStatistics sqrtQ values) = zero.
Proof.
  intros F Hn E Z.
  rewrite (StatisticsFacts.calculateStatistics_nonempty sqrtQ values Hn) in *.
  cbv zeta in *. cbn [mean stdDev] in *.
  pose proof (mean_zero values m F Hn E Z) as A.
  assert (V : populationVariance values = zero).
  { unfold populationVariance. rewrite E.
    rewrite sum_zeros.
    - destruct values as [|v vs]; [contradiction|].
      cbn [List.length]. unfold zero, of_nat, of_Z.
      rewrite NumFacts.div_fin by apply count_nonzero.
      unfold fin. rewrite NumFacts.Qred_zero; [reflexivity|].
      change (inject_Z 0) with 0. field. apply count_nonzero.
    - rewrite Forall_forall in A, F |- *. intros x Hx.
      apply in_map_iff in Hx. destruct Hx as (y & <- & Hy).
      specialize (A y Hy). specialize (F y Hy).
      destruct y as [q| | |]; try contradiction. cbn [qval] in A.
      rewrite NumFacts.sub_fin. unfold fin. rewrite NumFacts.mul_fin.
      unfold fin, zero, of_Z. f_equal. symmetry. apply NumFacts.Qred_zero.
      rewrite Qred_correct, A, Z. ring. }
  rewrite V. unfold zero, of_Z. cbn [Math_sqrt].
  change (Qltb (inject_Z 0) 0) with false. cbv iota.
  unfold fin. f_equal. apply NumFacts.Qred_zero. exact sqrt_zero.
Qed.

End WithSqrt.

End FiniteFacts.

Module ScoreFacts.

Import PatientFlow BottleneckDetection FiniteFacts.

Lemma is_fin_div (x y : num) (q : Q) :
  is_fin x -> y = Fin q -> ~ q == 0 -> is_fin (x / y)%num.
Proof.
  intros Hx -> Hq. destruct x as [p| | |]; try contradiction.
  rewrite NumFacts.div_fin by exact Hq. exact I.
Qed.

Lemma positive_nonzero (q : Q) : (Fin q >? zero)%num = true -> ~ q == 0.
Proof.
  intro H. apply NumFacts.gtb_fin in H. intro E. rewrite E in H.
  exact (Qlt_irrefl 0 H).
Qed.

Lemma is_fin_div_positive (x y : num) :
  is_fin x -> is_fin y -> (y >? zero)%num = true -> is_fin (x / y)%num.
Proof.
  intros Hx Hy P. destruct y as [q| | |]; try contradiction.
  apply is_fin_div with q; [exact Hx | reflexivity|].
  apply positive_nonzero, P.
Qed.

Lemma timeDeviation_finite (analysis : DepartmentAnalysis) :
  is_fin (expectedTime analysis) -> is_fin (actualTime analysis) ->
  is_fin (timeDeviationOf analysis).
Proof.
  intros He Ha. unfold timeDeviationOf.
  destruct (expectedTime analysis >? zero)%num eqn:P; [|exact I].
  apply NumFacts.is_fin_mul; [|exact I].
  apply is_fin_div_positive; [|exact He | exact P].
  apply NumFacts.is_fin_sub; assumption.
Qed.

Lemma volumePercentile_finite (volumeStats : Statistics)
  (analysis : DepartmentAnalysis) :
  is_fin (mean volumeStats) -> is_fin (patientVolume analysis) ->
  is_fin (volumePercentileOf volumeStats analysis).
Proof.
  intros Hm Hv. unfold volumePercentileOf.
  destruct (mean volumeStats >? zero)%num eqn:P; [|exact I].
  apply NumFacts.is_fin_mul; [|exact I].
  apply is_fin_div_positive; assumption.
Qed.

Lemma zScore_finite (value mean stdDev : num) :
  is_fin value -> is_fin mean -> is_fin stdDev ->
  is_fin (calculateZScore value mean stdDev).
Proof.
  intros Hv Hm Hs. unfold calculateZScore.
  destruct (stdDev === zero)%num eqn:E; [exact I|].
  destruct stdDev as [q| | |]; try contradiction.
  apply is_fin_div with q; [|reflexivity|].
  - apply NumFacts.is_fin_sub; assumption.
  - apply NumFacts.Qeq_bool_false. exact E.
Qed.

Lemma varianceRatio_finite (globalStats deptStats : Statistics) :
  is_fin (stdDev globalStats) -> is_fin (stdDev deptStats) ->
  is_fin (varianceRatioOf globalStats deptStats).
Proof.
  intros Hg Hd. unfold varianceRatioOf.
  destruct (stdDev globalStats >? zero)%num eqn:P; [|exact I].
  apply is_fin_div_positive; assumption.
Qed.

Definition finiteDelays (analysis : DepartmentAnalysis) : Prop :=
  Forall (fun entry => is_fin (snd entry)) (downstreamDelays analysis).

Lemma avgDownstreamDelay_finite (analysis : DepartmentAnalysis) :
  finiteDelays analysis -> is_fin (avgDownstreamDelayOf analysis).
Proof.
  intro F. unfold avgDownstreamDelayOf, JSMap.size.
  destruct (downstreamDelays analysis) as [|e l] eqn:E; [exact I|].
  change (0 <? List.length (e :: l))%nat with true. cbv iota.
  cbn [List.length]. apply PropagationFacts.is_fin_div_count.
  unfold totalDownstreamDelayOf. rewrite E.
  rewrite (ReadmissionFacts.fold_left_add_map snd).
  apply PropagationFacts.sum_finite.
  unfold finiteDelays in F. rewrite E in F.
  rewrite Forall_forall in F |- *. intros x Hx.
  apply in_map_iff in Hx. destruct Hx as (y & <- & Hy). apply F, Hy.
Qed.

Lemma delayPropagation_finite (analysis : DepartmentAnalysis) (m : Q) :
  finiteDelays analysis -> actualTime analysis = Fin m -> ~ m == 0 ->
  is_fin (delayPropagationScoreOf analysis).
Proof.
  intros F E Hm. unfold delayPropagationScoreOf.
  apply PropagationFacts.is_fin_min; [|exact I].
  apply NumFacts.is_fin_mul; [|exact I].
  apply is_fin_div with m; [|exact E | exact Hm].
  apply avgDownstreamDelay_finite, F.
Qed.

(** A score capped at 100 that exceeds 30 is finite. *)
Lemma capped_above_30_finite (x : num) :
  (Math_min x (of_Z 100) >? of_Z 30)%num = true ->
  is_fin (Math_min x (of_Z 100)).
Proof.
  destruct x as [q| | |]; cbn; try discriminate.
  - intros _. destruct (Qltb _ q); exact I.
  - intros _. exact I.
Qed.

(** With a mean of 0 the time deviation is 0 or -100, never above 50. *)
Lemma timeDeviation_zero_mean (analysis : DepartmentAnalysis) (m : Q) :
  is_fin (expectedTime analysis) -> actualTime analysis = Fin m -> m == 0 ->
  (timeDeviationOf analysis >? of_Z 50)%num = false.
Proof.
  intros He E Z. unfold timeDeviationOf. rewrite E.
  destruct (expectedTime analysis) as [e| | |]; try contradiction.
  destruct (Fin e >? zero)%num eqn:P; [|reflexivity].
  apply NumFacts.gtb_fin in P. change (inject_Z 0) with 0 in P.
  assert (Ne : ~ e == 0).
  { intro A. rewrite A in P. exact (Qlt_irrefl 0 P). }
  rewrite NumFacts.sub_fin. unfold fin at 1.
  rewrite NumFacts.div_fin by exact Ne. unfold fin at 1.
  change (of_Z 100) with (Fin (inject_Z 100)).
  rewrite NumFacts.mul_fin. rewrite ReadmissionFacts.fin_gtb_l.
  apply NumFacts.Qltb_ge.
  rewrite !Qred_correct, Z.
  setoid_replace ((0 - e) / e * inject_Z 100) with (- inject_Z 100)
    by (field; exact Ne).
  discriminate.
Qed.

Section WithSqrt.
Variable sqrtQ : Q -> Q.
Hypothesis sqrt_zero : sqrtQ 0 == 0.

(** The congestion indicator of a non-negative sample: finite, and 0 when
    the mean is 0. *)
Lemma congestion_cases (values : list num) :
  Forall nonneg values -> values <> [] ->
  exists m,
    mean (calculateStatistics sqrtQ values) = Fin m
    /\ ((~ m == 0
         /\ is_fin (congestionIndicatorOf (calculateStatistics sqrtQ values)))
        \/ (m == 0
            /\ congestionIndicatorOf (calculateStatistics sqrtQ values)
               = zero)).
Proof.
  intros F Hn.
  pose proof (statistics_finite sqrtQ values (Forall_nonneg_fin _ F))
    as (Hm & _ & _ & _ & _ & Hs).
  destruct (mean (calculateStatistics sqrtQ values)) as [m| | |] eqn:E;
    try contradiction.
  exists m. split; [reflexivity|].
  unfold congestionIndicatorOf. rewrite E.
  destruct (Qeq_bool m 0) eqn:Z.
  - right. apply Qeq_bool_iff in Z. split; [exact Z|].
    rewrite (stdDev_zero_mean sqrtQ sqrt_zero values m F Hn E Z).
    assert (G : (zero >? Fin m * lit 5 10)%num = false).
    { change (lit 5 10) with (Fin (1 # 2)). rewrite NumFacts.mul_fin.
      unfold zero, of_Z, fin. apply NumFacts.gtb_fin_false.
      rewrite Qred_correct, Z. discriminate. }
    rewrite G. reflexivity.
  - left. apply NumFacts.Qeq_bool_false in Z. split; [exact Z|].
    destruct (_ >? _)%num; [|exact I].
    apply is_fin_div with m; [exact Hs | reflexivity | exact Z].
Qed.

(** The hypotheses under which a unit's scores are finite: what the analysis
    of reconstructed journeys provides. *)
Record sound (globalStats volumeStats : Statistics)
  (analysis : DepartmentAnalysis) : Prop := mkSound {
  sound_global : finiteStatistics globalStats;
  sound_volume : is_fin (mean volumeStats);
  sound_times : Forall nonneg (times analysis);
  sound_patients : is_fin (patientVolume analysis);
  sound_delays : finiteDelays analysis;
  sound_expected :
    expectedTime analysis
    = median (calculateStatistics sqrtQ (times analysis));
  sound_actual :
    actualTime analysis = mean (calculateStatistics sqrtQ (times analysis))
}.

Lemma detected_finite (globalStats volumeStats : Statistics)
  (deptName : jsstring) (analysis : DepartmentAnalysis)
  (b : BottleneckDetection) :
  sound globalStats volumeStats analysis ->
  detectUnit sqrtQ globalStats volumeStats deptName analysis = Some b ->
  is_fin (overallImpactScore b).
Proof.
  intros [(Gm & _ & Gq1 & Gq3 & Giqr & Gs) Vm Ft Fp Fd Ee Ea].
  unfold detectUnit.
  destruct (List.length (times analysis) <? 3)%nat eqn:L; [discriminate|].
  apply Nat.ltb_ge in L.
  assert (Hn : times analysis <> []).
  { destruct (times analysis); [cbn in L; lia | discriminate]. }
  cbv zeta.
  pose proof (statistics_finite sqrtQ (times analysis)
                (Forall_nonneg_fin _ Ft)) as (Sm & Smed & _ & _ & _ & Ss).
  destruct (congestion_cases (times analysis) Ft Hn) as (m & Em & C).
  assert (Fa : is_fin (actualTime analysis)) by (rewrite Ea; exact Sm).
  assert (Fe : is_fin (expectedTime analysis)) by (rewrite Ee; exact Smed).
  assert (Fc : is_fin (congestionIndicatorOf
                         (calculateStatistics sqrtQ (times analysis)))).
  { destruct C as [[_ C] | [_ C]]; [exact C | rewrite C; exact I]. }
  assert (Ftd := timeDeviation_finite analysis Fe Fa).
  assert (Fvp := volumePercentile_finite volumeStats analysis Vm Fp).
  assert (Fz := zScore_finite (actualTime analysis) (mean globalStats)
                  (stdDev globalStats) Fa Gm Gs).
  assert (Fvr := varianceRatio_finite globalStats
                   (calculateStatistics sqrtQ (times analysis)) Gs Ss).
  destruct (bottleneckTypeOf _ _ _ _ _) as [ty|] eqn:T; [|discriminate].
  intro H. inversion H. subst b. cbn [overallImpactScore].
  apply PropagationFacts.is_fin_round1. unfold overallImpactScoreOf.
  assert (Fd' : is_fin (delayPropagationScoreOf analysis)).
  { unfold bottleneckTypeOf in T.
    destruct (isModerate _ && _) eqn:B1.
    - apply andb_true_iff in B1. destruct B1 as [_ B1].
      apply capped_above_30_finite. exact B1.
    - rewrite Ea in *.
      apply delayPropagation_finite with m; [exact Fd | congruence|].
      destruct C as [[C _] | [Z C]]; [exact C|]. exfalso.
      destruct (isHigh _ && _) eqn:B2.
      + apply andb_true_iff in B2. destruct B2 as [_ B2].
        rewrite (timeDeviation_zero_mean analysis m Fe) in B2;
          [discriminate | congruence | exact Z].
      + rewrite C in T. rewrite andb_false_r in T. discriminate. }
  repeat first [ apply NumFacts.is_fin_add | apply NumFacts.is_fin_mul
               | exact I | assumption ].
  - unfold patientImpactScoreOf.
    repeat first [ apply NumFacts.is_fin_add | apply NumFacts.is_fin_mul
                 | apply NumFacts.is_fin_abs | exact I | assumption ].
  - unfold resourceStrainScoreOf. apply PropagationFacts.is_fin_min;
      [|exact I].
    repeat first [ apply NumFacts.is_fin_add | apply NumFacts.is_fin_mul
                 | apply NumFacts.is_fin_abs | exact I | assumption ].
Qed.

End WithSqrt.

End ScoreFacts.

(* ------------------------------------------------------------------ *)
(** * Ranking *)

Module RankingFacts.

Import PatientFlow BottleneckDetection BottleneckSpec FiniteFacts ScoreFacts.
Import MapFacts.

Lemma derivedDuration_nonneg (entry exit : Z) :
  (entry <= exit)%Z -> nonneg (JourneySpec.derivedDuration entry exit).
Proof.
  intro H. unfold JourneySpec.derivedDuration. cbn [fin nonneg].
  rewrite Qred_correct. unfold Qle, Qdiv, Qmult, Qinv, inject_Z. simpl. lia.
Qed.

(** Every stage of a reconstructed journey has a non-negative duration. *)
Lemma reconstructed_nonneg (department : option jsstring)
  (flowLogs : list FlowLog) :
  Forall (fun s => nonneg (duration s))
    (flat_map stages (getPatientJourneys department flowLogs)).
Proof.
  rewrite Forall_forall. intros s Hs. apply in_flat_map in Hs.
  destruct Hs as (j & Hj & Hs).
  apply JourneyFacts.journey_In in Hj. destruct Hj as (patient & _ & ->).
  cbn [stages finishJourney] in Hs.
  apply (proj1 (ArrayFacts.sort_In byEntryTime s _)) in Hs.
  pose proof (JourneyFacts.stagesOfPatient_wellTimed department flowLogs
                patient) as F.
  rewrite Forall_forall in F. destruct (F s Hs) as [T D].
  rewrite D. apply derivedDuration_nonneg, T.
Qed.

Lemma samples_nonneg (journeys : list PatientJourney) (unit : jsstring) :
  Forall (fun s => nonneg (duration s)) (flat_map stages journeys) ->
  Forall nonneg (samples journeys unit).
Proof.
  intro F. unfold samples. rewrite Forall_forall in F |- *.
  intros x Hx. apply in_map_iff in Hx. destruct Hx as (s & <- & Hs).
  apply filter_In in Hs. apply F, Hs.
Qed.

Lemma Forall_set {V : Type} (P : V -> Prop) (k : jsstring) (v : V)
  (m : JSMap.t V) :
  P v -> Forall (fun e => P (snd e)) m ->
  Forall (fun e => P (snd e)) (JSMap.set k v m).
Proof.
  intros Hv F. rewrite Forall_forall in F |- *. intros [k0 v0] H.
  apply In_set in H. destruct H as [[_ ->] | H]; [exact Hv | apply (F _ H)].
Qed.

Lemma addDownstream_finite (stage : Stage) (next : option Stage)
  (downstream : JSMap.t num) :
  Forall (fun e => is_fin (snd e)) downstream ->
  Forall (fun e => is_fin (snd e))
    (BottleneckFacts.addDownstream stage next downstream).
Proof.
  intro F. unfold BottleneckFacts.addDownstream.
  destruct next as [nextStage|]; [|exact F].
  rewrite JourneyFacts.minutes_diff.
  destruct (_ >? _)%num; [|exact F].
  apply Forall_set; [|exact F].
  apply NumFacts.is_fin_add; [|exact I].
  destruct (JSMap.get (department nextStage) downstream) as [d|] eqn:G;
    [|exact I].
  apply get_In in G. rewrite Forall_forall in F. specialize (F _ G).
  cbn [snd] in F. unfold or_default. destruct (truthy d); [exact F | exact I].
Qed.

Lemma fold_addVisit_delays (l : list BottleneckFacts.Visit)
  (analysis : DepartmentAnalysis) :
  finiteDelays analysis ->
  finiteDelays (fold_left BottleneckFacts.addVisit l analysis).
Proof.
  revert analysis. induction l as [|v l IH]; intros a F; [exact F|].
  cbn [fold_left]. apply IH. unfold finiteDelays.
  cbn [downstreamDelays BottleneckFacts.addVisit].
  apply addDownstream_finite, F.
Qed.

Section WithSqrt.
Variable sqrtQ : Q -> Q.
Hypothesis sqrt_zero : sqrtQ 0 == 0.

Lemma analyses_sound (journeys : list PatientJourney) (unit : jsstring)
  (analysis : DepartmentAnalysis) :
  Forall (fun s => nonneg (duration s)) (flat_map stages journeys) ->
  In (unit, analysis) (analyzeDepartmentFlows sqrtQ journeys) ->
  Forall nonneg (times analysis)
  /\ is_fin (patientVolume analysis)
  /\ finiteDelays analysis
  /\ expectedTime analysis
     = median (calculateStatistics sqrtQ (times analysis))
  /\ actualTime analysis = mean (calculateStatistics sqrtQ (times analysis)).
Proof.
  intros F H.
  destruct (BottleneckFacts.analysis_times sqrtQ journeys unit analysis H)
    as (_ & T & V).
  split; [rewrite T; apply samples_nonneg, F|].
  split; [rewrite V; exact I|].
  apply BottleneckFacts.analysis_In in H. destruct H as [_ ->].
  split; [|split; reflexivity].
  unfold finiteDelays, withStatistics. cbn [downstreamDelays].
  apply fold_addVisit_delays. constructor.
Qed.

Lemma global_sound (journeys : list PatientJourney) :
  Forall (fun s => nonneg (duration s)) (flat_map stages journeys) ->
  finiteStatistics
    (globalStatsOf sqrtQ (analyzeDepartmentFlows sqrtQ journeys))
  /\ is_fin (mean (volumeStatsOf sqrtQ
                     (analyzeDepartmentFlows sqrtQ journeys))).
Proof.
  intro F. split.
  - apply statistics_finite. rewrite Forall_forall. intros x Hx.
    apply in_flat_map in Hx. destruct Hx as (a & Ha & Hx).
    unfold JSMap.values in Ha. apply in_map_iff in Ha.
    destruct Ha as ([unit a'] & <- & Ha).
    destruct (analyses_sound journeys unit a' F Ha) as (Ft & _).
    rewrite Forall_forall in Ft. apply nonneg_fin, Ft, Hx.
  - apply statistics_finite. rewrite Forall_forall. intros x Hx.
    apply in_map_iff in Hx. destruct Hx as (a & <- & Ha).
    unfold JSMap.values in Ha. apply in_map_iff in Ha.
    destruct Ha as ([unit a'] & <- & Ha).
    apply (analyses_sound journeys unit a' F Ha).
Qed.

(** Every detection has a finite overall impact score. *)
Lemma detections_finite (journeys : list PatientJourney) :
  Forall (fun s => nonneg (duration s)) (flat_map stages journeys) ->
  Forall (fun b => is_fin (overallImpactScore b))
    (detectedUnits sqrtQ (analyzeDepartmentFlows sqrtQ journeys)).
Proof.
  intro F. rewrite Forall_forall. intros b Hb.
  apply BottleneckFacts.detectedUnits_In in Hb.
  destruct Hb as (unit & analysis & Hin & D).
  destruct (analyses_sound journeys unit analysis F Hin)
    as (Ft & Fp & Fd & Ee & Ea).
  destruct (global_sound journeys F) as [G V].
  refine (detected_finite sqrtQ sqrt_zero _ _ unit analysis b _ D).
  constructor; assumption.
Qed.

End WithSqrt.

Lemma withRank_ranks (l : list BottleneckDetection) (k : nat) :
  map rank (JSArray.mapi_from withRank k l)
  = map of_nat (seq (S k) (List.length l)).
Proof.
  revert k. induction l as [|b l IH]; intro k; [reflexivity|].
  cbn [JSArray.mapi_from map List.length seq]. rewrite IH. f_equal.
  cbn [rank withRank]. unfold of_nat. rewrite NumFacts.add_of_Z.
  f_equal. lia.
Qed.

End RankingFacts.

(** C3: the ranks of the detections are 1, 2, ..., N in the order of the
    list, and the overall impact scores are in non-increasing order: each
    record's score is at least that of every later record.  The journeys are
    those of the reconstructor, and the square root of 0 is 0. *)
Theorem C3_ranks_are_dense_and_follow_descending_score
  (sqrtQ : Q -> Q) (department : option jsstring)
  (flowLogs : list PatientFlow.FlowLog) :
  sqrtQ 0 == 0 ->
  let records :=
    BottleneckDetection.detectBottlenecks sqrtQ
      (PatientFlow.getPatientJourneys department flowLogs) in
  map BottleneckDetection.rank records
  = map of_nat (seq 1 (List.length records))
  /\ StronglySorted (fun a b => (a >=? b)%num = true)
       (map BottleneckDetection.overallImpactScore records).
Proof.
  intros sqrt_zero records. subst records.
  unfold BottleneckDetection.detectBottlenecks.
  set (journeys := PatientFlow.getPatientJourneys department flowLogs).
  destruct (BottleneckDetection.analyzeDepartmentFlows sqrtQ journeys)
    as [|e m] eqn:E.
  { split; [reflexivity | constructor]. }
  rewrite <- E. split.
  - rewrite ArrayFacts.mapi_length. unfold JSArray.mapi.
    rewrite RankingFacts.withRank_ranks. reflexivity.
  - rewrite (ArrayFacts.mapi_map BottleneckDetection.withRank
               BottleneckDetection.overallImpactScore
               BottleneckDetection.overallImpactScore) by reflexivity.
    pose proof (RankingFacts.detections_finite sqrtQ sqrt_zero journeys
                  (RankingFacts.reconstructed_nonneg department flowLogs))
      as F.
    pose proof (@ArrayFacts.sort_descending _
                  BottleneckDetection.overallImpactScore _ F) as S.
    unfold BottleneckDetection.byImpactDescending.
    induction S as [|a l S IH H]; cbn [map]; constructor; [exact IH|].
    rewrite Forall_forall in H |- *. intros x Hx.
    apply in_map_iff in Hx. destruct Hx as (b & <- & Hb).
    apply (H b Hb).
Qed.

Lemma C3_witness :
  map BottleneckDetection.rank
    (BottleneckDetection.detectBottlenecks sqrt_approx
       BottleneckExamples.wardJourneys)
  = map of_nat (seq 1 2)
  /\ StronglySorted (fun a b => (a >=? b)%num = true)
       [lit 699 10; lit 559 10]
  /\ map BottleneckDetection.departmentName
       (BottleneckDetection.detectBottlenecks sqrt_approx
          BottleneckExamples.wardJourneys)
     = [str "Imaging"; str "Triage"].
Proof.
  assert (sqrt_zero : sqrt_approx 0 == 0) by reflexivity.
  split; [|split; [|vm_compute; reflexivity]].
  - exact (proj1 (C3_ranks_are_dense_and_follow_descending_score sqrt_approx
                    None BottleneckExamples.wardRows sqrt_zero)).
  - exact (proj2 (C3_ranks_are_dense_and_follow_descending_score sqrt_approx
                    None BottleneckExamples.wardRows sqrt_zero)).
Defined.

(** The guards of the sibling metrics: a zero denominator gives the
    default. *)
Lemma guarded_metrics_default
  (value mean q1 q3 : num)
  (globalStats deptStats : BottleneckDetection.Statistics)
  (analysis : BottleneckDetection.DepartmentAnalysis) :
  BottleneckDetection.calculateZScore value mean zero = zero
  /\ BottleneckDetection.calculateIQRPosition value q1 q3 zero = zero
  /\ (BottleneckDetection.stdDev globalStats = zero ->
      BottleneckDetection.varianceRatioOf globalStats deptStats = of_Z 1)
  /\ (BottleneckDetection.expectedTime analysis = zero ->
      BottleneckDetection.timeDeviationOf analysis = zero).
Proof.
  split; [reflexivity|]. split; [reflexivity|]. split.
  - intro H. unfold BottleneckDetection.varianceRatioOf. rewrite H.
    reflexivity.
  - intro H. unfold BottleneckDetection.timeDeviationOf. rewrite H.
    reflexivity.
Qed.

(** C7, where the source departs from it: the delay-propagation score
    divides by the unit's mean without a guard.  For a unit whose mean is 0
    the score is never 0: for Triage (mean 0, a downstream delay of 30
    minutes) it is 100, and the unit is reported with that score; for the
    Desk (mean 0, no downstream delay) it is NaN. *)
Theorem C7_delay_propagation_score_has_no_zero_mean_guard :
  (forall analysis,
     BottleneckDetection.actualTime analysis = zero ->
     BottleneckDetection.delayPropagationScoreOf analysis <> zero)
  /\ option_map
       (fun a => (BottleneckDetection.actualTime a,
                  BottleneckDetection.avgDownstreamDelayOf a,
                  BottleneckDetection.delayPropagationScoreOf a))
       (BottleneckExamples.analysisOf "Triage")
     = Some (zero, of_Z 30, of_Z 100)
  /\ option_map
       (fun a => (BottleneckDetection.actualTime a,
                  BottleneckDetection.avgDownstreamDelayOf a,
                  BottleneckDetection.delayPropagationScoreOf a))
       (BottleneckExamples.analysisOf "Desk")
     = Some (zero, zero, NaN)
  /\ map (fun b => (BottleneckDetection.departmentName b,
                    BottleneckDetection.b_actualTime b,
                    BottleneckDetection.delayPropagationScore b))
       (BottleneckDetection.detectBottlenecks sqrt_approx
          BottleneckExamples.wardJourneys)
     = [(str "Imaging", of_Z 50, of_Z 100); (str "Triage", zero, of_Z 100)].
Proof.
  split; [|repeat split; vm_compute; reflexivity].
  intros analysis E. unfold BottleneckDetection.delayPropagationScoreOf.
  rewrite E.
  destruct (BottleneckDetection.avgDownstreamDelayOf analysis) as [q| | |];
    cbn; try discriminate.
  destruct (q ?= 0); cbn; discriminate.
Qed.

(* ------------------------------------------------------------------ *)
(** * Grouping and counting *)

Module GroupFacts.

Import MapFacts.

Lemma fold_left_flat_map {A B C : Type} (f : A -> C -> A) (g : B -> list C)
  (l : list B) (a : A) :
  fold_left (fun acc x => fold_left f (g x) acc) l a
  = fold_left f (flat_map g l) a.
Proof.
  revert a. induction l as [|x l IH]; intro a; [reflexivity|].
  cbn [fold_left flat_map]. rewrite fold_left_app. apply IH.
Qed.

(** Grouping where a new entry may be initialised from the item that creates
    it. *)
Section GroupingWith.
Context {V X : Type}.
Variable init : jsstring -> X -> V.
Variable upd : V -> X -> V.

Definition bumpWith (m : JSMap.t V) (k : jsstring) (x : X) : JSMap.t V :=
  JSMap.set k
    (upd (match JSMap.get k m with Some v => v | None => init k x end) x) m.

Definition groupWith (items : list (jsstring * X)) (m : JSMap.t V)
  : JSMap.t V :=
  fold_left (fun m kx => bumpWith m (fst kx) (snd kx)) items m.

Lemma get_groupWith (k : jsstring) (items : list (jsstring * X))
  (m : JSMap.t V) :
  JSMap.get k (groupWith items m) =
  match JSMap.get k m, itemsOf k items with
  | Some v, xs => Some (fold_left upd xs v)
  | None, [] => None
  | None, x :: xs => Some (fold_left upd (x :: xs) (init k x))
  end.
Proof.
  revert m. induction items as [|[k' x] items IH]; intro m; simpl.
  - destruct (JSMap.get k m); reflexivity.
  - unfold groupWith in IH. rewrite IH. unfold itemsOf. simpl.
    destruct (streq k' k) eqn:E.
    + apply streq_eq in E. subst. unfold bumpWith. rewrite get_set_same. simpl.
      destruct (JSMap.get k m); reflexivity.
    + apply streq_neq in E. unfold bumpWith.
      rewrite get_set_other by congruence. reflexivity.
Qed.

Lemma groupWith_NoDup (items : list (jsstring * X)) (m : JSMap.t V) :
  NoDup (JSMap.keys m) -> NoDup (JSMap.keys (groupWith items m)).
Proof.
  revert m. induction items as [|[k x] items IH]; intros m ND; simpl.
  - exact ND.
  - apply IH. apply NoDup_set, ND.
Qed.

Lemma In_groupWith (k : jsstring) (v : V) (items : list (jsstring * X)) :
  In (k, v) (groupWith items []) <->
  exists x xs,
    itemsOf k items = x :: xs /\ v = fold_left upd (x :: xs) (init k x).
Proof.
  assert (ND : NoDup (JSMap.keys (groupWith items []))).
  { apply groupWith_NoDup. constructor. }
  split.
  - intro H. apply (In_get _ _ _ ND) in H.
    rewrite get_groupWith in H. simpl in H.
    destruct (itemsOf k items) as [|x xs] eqn:E; [discriminate|].
    inversion H. exists x, xs. split; reflexivity.
  - intros (x & xs & E & ->). apply get_In. rewrite get_groupWith. simpl.
    rewrite E. reflexivity.
Qed.

End GroupingWith.

(** The keys of a map built by grouping are the keys of the items. *)
Lemma keys_group {V X : Type} (init : jsstring -> V) (upd : V -> X -> V)
  (items : list (jsstring * X)) (k : jsstring) :
  In k (JSMap.keys (group init upd items [])) <-> In k (map fst items).
Proof.
  split.
  - intro H. unfold JSMap.keys in H. apply in_map_iff in H.
    destruct H as ([k' v] & <- & H). apply In_group in H. destruct H as [H _].
    destruct (in_dec (list_eq_dec N.eq_dec) k' (map fst items)) as [I | I];
      [exact I|].
    apply itemsOf_nil in I. contradiction.
  - intro H.
    destruct (JSMap.get k (group init upd items [])) as [v|] eqn:G.
    + apply get_In in G. apply (in_map fst) in G. exact G.
    + rewrite get_group in G. simpl in G.
      destruct (itemsOf k items) eqn:E; [|discriminate].
      apply itemsOf_nil in E. contradiction.
Qed.

Lemma keys_groupWith {V X : Type} (init : jsstring -> X -> V)
  (upd : V -> X -> V) (items : list (jsstring * X)) (k : jsstring) :
  In k (JSMap.keys (groupWith init upd items [])) <-> In k (map fst items).
Proof.
  split.
  - intro H. unfold JSMap.keys in H. apply in_map_iff in H.
    destruct H as ([k' v] & <- & H). apply In_groupWith in H.
    destruct H as (x & xs & E & _).
    destruct (in_dec (list_eq_dec N.eq_dec) k' (map fst items)) as [I | I];
      [exact I|].
    apply itemsOf_nil in I. cbn [fst] in E. congruence.
  - intro H.
    destruct (JSMap.get k (groupWith init upd items [])) as [v|] eqn:G.
    + apply get_In in G. apply (in_map fst) in G. exact G.
    + rewrite get_groupWith in G. simpl in G.
      destruct (itemsOf k items) eqn:E; [|discriminate].
      apply itemsOf_nil in E. contradiction.
Qed.

Lemma list_sum_cons (n : nat) (l : list nat) :
  list_sum (n :: l) = (n + list_sum l)%nat.
Proof. reflexivity. Qed.

(** Every item belongs to the group of exactly one key. *)
Lemma no_key (k : jsstring) (ks : list jsstring) :
  ~ In k ks ->
  list_sum (map (fun k' => if streq k k' then 1%nat else 0%nat) ks) = 0%nat.
Proof.
  induction ks as [|k1 ks IH]; intro Hn; [reflexivity|].
  cbn [map]. rewrite list_sum_cons.
  destruct (streq k k1) eqn:E1.
  - apply streq_eq in E1. subst. exfalso. apply Hn. left. reflexivity.
  - rewrite IH; [reflexivity|]. intro H. apply Hn. right. exact H.
Qed.

Lemma one_key (k : jsstring) (ks : list jsstring) :
  NoDup ks -> In k ks ->
  list_sum (map (fun k' => if streq k k' then 1%nat else 0%nat) ks) = 1%nat.
Proof.
  induction ks as [|k0 ks IH]; intros ND H; [contradiction|].
  inversion ND as [|? ? Hn ND']; subst. cbn [map]. rewrite list_sum_cons.
  destruct (streq k k0) eqn:E.
  - apply streq_eq in E. subst k0. rewrite (no_key k ks Hn). reflexivity.
  - apply streq_neq in E. destruct H as [H | H]; [congruence|].
    rewrite (IH ND' H). reflexivity.
Qed.

Lemma partition_count {X : Type} (items : list (jsstring * X))
  (ks : list jsstring) :
  NoDup ks -> (forall k, In k (map fst items) -> In k ks) ->
  list_sum (map (fun k => List.length (itemsOf k items)) ks)
  = List.length items.
Proof.
  intros ND. induction items as [|[k x] items IH]; intro H.
  - cbn [List.length]. clear H ND.
    induction ks as [|k ks IHk]; [reflexivity|].
    cbn [map]. rewrite list_sum_cons, IHk. reflexivity.
  - cbn [List.length]. rewrite <- IH by (intros k' Hk; apply H; right; exact Hk).
    assert (K := one_key k ks ND (H k (or_introl eq_refl))).
    change (S (list_sum (map (fun k0 => List.length (itemsOf k0 items)) ks)))
      with (1 + list_sum (map (fun k0 => List.length (itemsOf k0 items)) ks))%nat.
    rewrite <- K.
    clear IH H ND K. induction ks as [|k0 ks IHk]; [reflexivity|].
    cbn [map]. rewrite !list_sum_cons, IHk. unfold itemsOf at 1.
    cbn [filter fst].
    destruct (streq k k0); cbn [map List.length]; unfold itemsOf; lia.
Qed.

Lemma list_sum_perm (l l' : list nat) :
  Permutation l l' -> list_sum l = list_sum l'.
Proof.
  induction 1; rewrite ?list_sum_cons; lia.
Qed.

Lemma fold_add_of_nat (l : list nat) (a : nat) :
  fold_left add (map of_nat l) (of_nat a) = of_nat (a + list_sum l).
Proof.
  revert a. induction l as [|n l IH]; intro a.
  - cbn [map fold_left]. f_equal. cbn. lia.
  - cbn [map fold_left]. rewrite list_sum_cons.
    unfold of_nat at 2 3. rewrite NumFacts.add_of_Z.
    rewrite <- Nat2Z.inj_add. fold (of_nat (a + n)). rewrite IH.
    f_equal. lia.
Qed.

Lemma sum_of_nat (l : list nat) :
  JSNum.sum (map of_nat l) = of_nat (list_sum l).
Proof. apply (fold_add_of_nat l 0). Qed.

(** The sum of a list of counts does not depend on the order. *)
Lemma sum_perm_counts (l : list num) (ns : list nat) :
  Permutation l (map of_nat ns) -> JSNum.sum l = of_nat (list_sum ns).
Proof.
  intro P. apply Permutation_map_inv in P. destruct P as (ns' & -> & P).
  rewrite sum_of_nat. f_equal. apply list_sum_perm, Permutation_sym, P.
Qed.

(** The sizes of the groups of a grouped map add up to the number of
    items. *)
Lemma group_sizes {V X : Type} (m : JSMap.t V) (items : list (jsstring * X)) :
  NoDup (JSMap.keys m) ->
  (forall k, In k (map fst items) -> In k (JSMap.keys m)) ->
  list_sum (map (fun e => List.length (itemsOf (fst e) items)) m)
  = List.length items.
Proof.
  intros ND H.
  rewrite <- (map_map fst (fun k => List.length (itemsOf k items))).
  apply partition_count; assumption.
Qed.

Lemma length_flat_map {A B : Type} (f : A -> list B) (l : list A) :
  List.length (flat_map f l)
  = list_sum (map (fun x => List.length (f x)) l).
Proof.
  induction l as [|x l IH]; [reflexivity|].
  cbn [flat_map map]. rewrite length_app, list_sum_cons, IH. reflexivity.
Qed.

Lemma is_fin_round2 (x : num) :
  is_fin x -> is_fin (BottleneckDetection.round2 x).
Proof.
  intro H. unfold BottleneckDetection.round2.
  apply NumFacts.is_fin_div_of_Z; [discriminate|].
  apply NumFacts.is_fin_round, NumFacts.is_fin_mul; [exact H | exact I].
Qed.

End GroupFacts.

(* ------------------------------------------------------------------ *)
(** * Delays, paths and time contributions *)

Module FlowFacts.

Import PatientFlow FlowAnalysis MapFacts GroupFacts.

Definition keyedStages (l : list Stage) : list (jsstring * Stage) :=
  map (fun s => (department s, s)) l.

Lemma itemsOf_keyedStages (unit : jsstring) (l : list Stage) :
  itemsOf unit (keyedStages l)
  = filter (fun s => streq (department s) unit) l.
Proof.
  unfold itemsOf, keyedStages. induction l as [|s l IH]; [reflexivity|].
  cbn [map filter fst]. destruct (streq (department s) unit); cbn [map snd];
    rewrite IH; reflexivity.
Qed.

Lemma keyedStages_keys (unit : jsstring) (l : list Stage) :
  In unit (map fst (keyedStages l)) <->
  filter (fun s => streq (department s) unit) l <> [].
Proof.
  rewrite <- itemsOf_keyedStages. split.
  - intros H E. apply itemsOf_nil in E. contradiction.
  - intro H.
    destruct (in_dec (list_eq_dec N.eq_dec) unit (map fst (keyedStages l)))
      as [I | I]; [exact I|].
    apply itemsOf_nil in I. contradiction.
Qed.

Definition newStats (unit : jsstring) (stage : Stage) : DeptStats :=
  mkDeptStats [] (category stage) zero zero.

Definition addStage (stats : DeptStats) (stage : Stage) : DeptStats :=
  mkDeptStats (s_times stats ++ [duration stage]) (s_category stats)
    (totalImpact stats + duration stage)%num
    (s_patientCount stats + of_Z 1)%num.

Lemma collectStage_group (l : list Stage) (m : JSMap.t DeptStats) :
  fold_left collectStage l m = groupWith newStats addStage (keyedStages l) m.
Proof.
  revert m. induction l as [|s l IH]; intro m; [reflexivity|].
  cbn [fold_left keyedStages map]. rewrite IH. reflexivity.
Qed.

Lemma deptStats_group (journeys : list PatientJourney) :
  deptStatsOf journeys
  = groupWith newStats addStage (keyedStages (flat_map stages journeys)) [].
Proof.
  unfold deptStatsOf.
  rewrite (fold_left_flat_map collectStage stages journeys []).
  apply collectStage_group.
Qed.

Lemma fold_addStage_stats (l : list Stage) (stats : DeptStats) (n : nat) :
  s_patientCount stats = of_nat n ->
  s_times (fold_left addStage l stats) = s_times stats ++ map duration l
  /\ s_patientCount (fold_left addStage l stats) = of_nat (n + List.length l)
  /\ totalImpact (fold_left addStage l stats)
     = fold_left add (map duration l) (totalImpact stats).
Proof.
  revert stats n. induction l as [|s l IH]; intros stats n Hn.
  - cbn [fold_left map List.length]. rewrite app_nil_r, Nat.add_0_r. auto.
  - cbn [fold_left map List.length].
    destruct (IH (addStage stats s) (S n)) as (T & C & I).
    { cbn [s_patientCount addStage]. rewrite Hn. unfold of_nat.
      rewrite NumFacts.add_of_Z. f_equal. lia. }
    rewrite T, C, I. cbn [s_times addStage totalImpact].
    rewrite <- app_assoc. split; [reflexivity|]. split; [|reflexivity].
    f_equal. lia.
Qed.

(** The entry of a unit holds its samples, in the order of the journeys. *)
Lemma deptStats_In (journeys : list PatientJourney) (unit : jsstring)
  (stats : DeptStats) :
  In (unit, stats) (deptStatsOf journeys) ->
  BottleneckSpec.samples journeys unit <> []
  /\ s_times stats = BottleneckSpec.samples journeys unit
  /\ s_patientCount stats
     = of_nat (List.length (BottleneckSpec.samples journeys unit))
  /\ totalImpact stats = JSNum.sum (BottleneckSpec.samples journeys unit).
Proof.
  rewrite deptStats_group. intro H. apply In_groupWith in H.
  destruct H as (x & xs & E & ->). rewrite itemsOf_keyedStages in E.
  unfold BottleneckSpec.samples. rewrite E.
  destruct (fold_addStage_stats (x :: xs) (newStats unit x) 0 eq_refl)
    as (T & C & I).
  rewrite T, C, I. cbn [s_times newStats app totalImpact Nat.add].
  rewrite length_map.
  split; [discriminate|]. repeat split; reflexivity.
Qed.

Lemma deptStats_keys (journeys : list PatientJourney) (unit : jsstring) :
  In unit (JSMap.keys (deptStatsOf journeys)) <->
  BottleneckSpec.samples journeys unit <> [].
Proof.
  rewrite deptStats_group, keys_groupWith, keyedStages_keys.
  unfold BottleneckSpec.samples. split; intros H E; apply H.
  - apply map_eq_nil in E. exact E.
  - rewrite E. reflexivity.
Qed.

Lemma getDepartmentDelays_sorted (journeys : list PatientJourney) :
  getDepartmentDelays journeys
  = JSArray.sort byDelayRatioDescending
      (map (delayOf journeys) (deptStatsOf journeys)).
Proof. destruct journeys; reflexivity. Qed.

Lemma delays_In (journeys : list PatientJourney) (d : DepartmentDelay) :
  In d (getDepartmentDelays journeys) <->
  exists unit stats,
    In (unit, stats) (deptStatsOf journeys)
    /\ d = delayOf journeys (unit, stats).
Proof.
  rewrite getDepartmentDelays_sorted, ArrayFacts.sort_In, in_map_iff.
  split.
  - intros ([unit stats] & <- & H). exists unit, stats. auto.
  - intros (unit & stats & H & ->). exists (unit, stats). auto.
Qed.

Lemma delays_names (journeys : list PatientJourney) :
  Permutation (map departmentName (getDepartmentDelays journeys))
    (JSMap.keys (deptStatsOf journeys)).
Proof.
  rewrite getDepartmentDelays_sorted.
  apply perm_trans
    with (map departmentName (map (delayOf journeys) (deptStatsOf journeys))).
  - apply Permutation_map, ArrayFacts.sort_perm.
  - rewrite map_map. apply Permutation_refl.
Qed.

Lemma or_default_finite (x d : num) :
  is_fin x -> is_fin d -> is_fin (or_default x d).
Proof. intros Hx Hd. unfold or_default. destruct (truthy x); assumption. Qed.

Lemma delayRatio_finite (journeys : list PatientJourney)
  (entry : jsstring * DeptStats) :
  Forall FiniteFacts.nonneg (s_times (snd entry)) ->
  s_times (snd entry) <> [] ->
  is_fin (delayRatio (delayOf journeys entry)).
Proof.
  intros F Hn. cbn [delayRatio delayOf]. apply is_fin_round2.
  rewrite ArrayFacts.sort_length, StatisticsFacts.half_index,
    StatisticsFacts.at_index_of_nat, StatisticsFacts.mean_fold.
  assert (L : (0 < List.length (s_times (snd entry)))%nat).
  { destruct (s_times (snd entry)); [contradiction | cbn; lia]. }
  assert (M : is_fin (nth (List.length (s_times (snd entry)) / 2)
                        (JSArray.sort BottleneckDetection.ascending
                           (s_times (snd entry))) NaN)).
  { apply FiniteFacts.nonneg_fin.
    apply (FiniteFacts.nth_sorted FiniteFacts.nonneg); [exact F|].
    apply FiniteFacts.index_bounds, L. }
  assert (A : is_fin (StatisticsSpec.arithmeticMean (s_times (snd entry)))).
  { apply FiniteFacts.mean_finite;
      [apply FiniteFacts.Forall_nonneg_fin, F | exact Hn]. }
  destruct (or_default _ zero >? zero)%num eqn:G; [|exact I].
  apply ScoreFacts.is_fin_div_positive;
    [exact A | apply or_default_finite; [exact M | exact I] | exact G].
Qed.

Lemma counts_add_up (journeys : list PatientJourney) (ks : list jsstring) :
  NoDup ks ->
  (forall unit, In unit ks <-> BottleneckSpec.samples journeys unit <> []) ->
  list_sum
    (map (fun unit => List.length (BottleneckSpec.samples journeys unit)) ks)
  = List.length (flat_map stages journeys).
Proof.
  intros ND H.
  rewrite <- (length_map (fun s => (department s, s))
                (flat_map stages journeys)).
  fold (keyedStages (flat_map stages journeys)).
  rewrite <- (partition_count (keyedStages (flat_map stages journeys)) ks ND).
  - f_equal. apply map_ext. intro unit. unfold BottleneckSpec.samples.
    rewrite length_map, itemsOf_keyedStages. reflexivity.
  - intros unit Hu. apply H. apply keyedStages_keys in Hu.
    unfold BottleneckSpec.samples. intro E. apply map_eq_nil in E.
    contradiction.
Qed.

(** ** Flow paths *)

(** The pairs of consecutive stages that the unit filter lets through. *)
Definition considered (dept : option jsstring) (t : Stage * Stage) : bool :=
  negb (skipped dept (department (fst t)) (department (snd t))).

Definition newPath (key : jsstring) : PathData := mkPathData zero zero.

Definition addPath (path : PathData) (next : Stage) : PathData :=
  mkPathData (p_count path + of_Z 1)%num
    (p_totalDuration path + duration next)%num.

Definition keyedPairs (dept : option jsstring) (l : list (Stage * Stage))
  : list (jsstring * Stage) :=
  map (fun t => (PropagationFacts.keyOf t, snd t)) (filter (considered dept) l).

Lemma collectPaths_group (dept : option jsstring) (stages : list Stage)
  (m : JSMap.t PathData) :
  collectPaths dept stages m
  = group newPath addPath (keyedPairs dept (PropagationSpec.transitions stages))
      m.
Proof.
  revert m. induction stages as [|current rest IH]; intro m; [reflexivity|].
  destruct rest as [|next rest']; [reflexivity|].
  change (collectPaths dept (current :: next :: rest') m)
    with (collectPaths dept (next :: rest')
            (if skipped dept (department current) (department next)
             then m
             else bump newPath addPath m
                    (BottleneckDetection.propagationKey (department current)
                       (department next))
                    next)).
  rewrite IH.
  change (PropagationSpec.transitions (current :: next :: rest'))
    with ((current, next) :: PropagationSpec.transitions (next :: rest')).
  unfold keyedPairs. cbn [filter]. unfold considered at 2. cbn [fst snd].
  destruct (skipped dept (department current) (department next));
    reflexivity.
Qed.

Lemma keyedPairs_app (dept : option jsstring) (l1 l2 : list (Stage * Stage)) :
  keyedPairs dept (l1 ++ l2) = keyedPairs dept l1 ++ keyedPairs dept l2.
Proof. unfold keyedPairs. rewrite filter_app, map_app. reflexivity. Qed.

Lemma pathMap_group_from (dept : option jsstring)
  (journeys : list PatientJourney) (m : JSMap.t PathData) :
  fold_left (fun pathMap journey => collectPaths dept (stages journey) pathMap)
    journeys m
  = group newPath addPath
      (keyedPairs dept (PropagationSpec.allTransitions journeys)) m.
Proof.
  revert m. induction journeys as [|j js IH]; intro m; [reflexivity|].
  cbn [fold_left]. rewrite IH, collectPaths_group.
  unfold PropagationSpec.allTransitions. cbn [flat_map].
  rewrite keyedPairs_app, PropagationFacts.group_app. reflexivity.
Qed.

Lemma pathMap_group (dept : option jsstring) (journeys : list PatientJourney) :
  pathMapOf dept journeys
  = group newPath addPath
      (keyedPairs dept (PropagationSpec.allTransitions journeys)) [].
Proof. apply pathMap_group_from. Qed.

Lemma fold_addPath (l : list Stage) (path : PathData) (n : nat) :
  p_count path = of_nat n ->
  p_count (fold_left addPath l path) = of_nat (n + List.length l)
  /\ p_totalDuration (fold_left addPath l path)
     = fold_left add (map duration l) (p_totalDuration path).
Proof.
  revert path n. induction l as [|s l IH]; intros path n Hn.
  - cbn [fold_left map List.length]. rewrite Nat.add_0_r. auto.
  - cbn [fold_left map List.length].
    destruct (IH (addPath path s) (S n)) as (C & T).
    { cbn [p_count addPath]. rewrite Hn. unfold of_nat.
      rewrite NumFacts.add_of_Z. f_equal. lia. }
    rewrite C, T. split; [f_equal; lia | reflexivity].
Qed.

(** What the path map holds under each key: the number of the pairs filed
    under it and the total duration of their second stages. *)
Lemma pathMap_In (dept : option jsstring) (journeys : list PatientJourney)
  (k : jsstring) (data : PathData) :
  In (k, data) (pathMapOf dept journeys) <->
  itemsOf k (keyedPairs dept (PropagationSpec.allTransitions journeys)) <> []
  /\ data
     = mkPathData
         (of_nat (List.length
                    (itemsOf k
                       (keyedPairs dept
                          (PropagationSpec.allTransitions journeys)))))
         (JSNum.sum
            (map duration
               (itemsOf k
                  (keyedPairs dept
                     (PropagationSpec.allTransitions journeys))))).
Proof.
  rewrite pathMap_group, In_group.
  set (nexts := itemsOf k _).
  destruct (fold_addPath nexts (newPath k) 0 eq_refl) as [C T].
  assert (E : fold_left addPath nexts (newPath k)
              = mkPathData (of_nat (List.length nexts))
                  (JSNum.sum (map duration nexts))).
  { destruct (fold_left addPath nexts (newPath k)) as [c t].
    cbn [p_count p_totalDuration] in C, T. rewrite C, T. reflexivity. }
  rewrite E. reflexivity.
Qed.

Lemma itemsOf_keyedPairs (dept : option jsstring) (k : jsstring)
  (l : list (Stage * Stage)) :
  itemsOf k (keyedPairs dept l)
  = map snd
      (filter (fun t => streq (PropagationFacts.keyOf t) k)
         (filter (considered dept) l)).
Proof.
  unfold itemsOf, keyedPairs.
  rewrite (PropagationFacts.filter_map_commute
             (fun t => (PropagationFacts.keyOf t, snd t))
             (fun kx => streq (fst kx) k)).
  rewrite map_map. reflexivity.
Qed.

Lemma paths_perm (dept : option jsstring) (flowLogs : list FlowLog) :
  Permutation (getPatientFlowPaths dept flowLogs)
    (map pathOf (pathMapOf dept (getPatientJourneys None flowLogs))).
Proof. apply ArrayFacts.sort_perm. Qed.

Definition endsOf (p : PatientFlowPath) : jsstring * jsstring :=
  (from p, to p).

(** With arrow-free names, the entry of a key is the path between the two
    units of the key, and it counts the pairs between them. *)
Lemma path_entry (dept : option jsstring) (journeys : list PatientJourney)
  (k : jsstring) (data : PathData) :
  PropagationSpec.arrowFree journeys ->
  In (k, data) (pathMapOf dept journeys) ->
  let p := pathOf (k, data) in
  let between :=
    filter (PropagationSpec.between (from p) (to p))
      (filter (considered dept) (PropagationSpec.allTransitions journeys)) in
  k = BottleneckDetection.propagationKey (from p) (to p)
  /\ between <> []
  /\ count p = of_nat (List.length between)
  /\ avgDuration p
     = Math_round
         (JSNum.sum (map (fun t => duration (snd t)) between)
          / of_nat (List.length between))%num.
Proof.
  intros F H. apply pathMap_In in H. destruct H as [Hn ->].
  rewrite itemsOf_keyedPairs in *.
  set (all := filter (considered dept)
                (PropagationSpec.allTransitions journeys)) in *.
  assert (K : exists t, In t all /\ PropagationFacts.keyOf t = k).
  { destruct (filter (fun t => streq (PropagationFacts.keyOf t) k) all)
      as [|t l] eqn:E; [contradiction|].
    assert (I : In t (filter (fun t => streq (PropagationFacts.keyOf t) k)
                        all)) by (rewrite E; left; reflexivity).
    apply filter_In in I. destruct I as [I1 I2]. apply streq_eq in I2.
    exists t. auto. }
  destruct K as (t & Ht & <-).
  assert (A : forall t', In t' all ->
              ~ In arrow (department (fst t'))
              /\ ~ In arrow (department (snd t'))).
  { intros t' Ht'. apply filter_In in Ht'.
    apply (PropagationFacts.arrowFree_transition journeys t' F), Ht'. }
  destruct (A t Ht) as [A1 A2].
  assert (S : split arrow (PropagationFacts.keyOf t)
              = [department (fst t); department (snd t)])
    by (apply PropagationFacts.split_key; assumption).
  cbv zeta. unfold pathOf.
  cbn [fst snd from to count avgDuration p_count p_totalDuration].
  rewrite !S. cbn [nth].
  assert (E : filter (fun t' => streq (PropagationFacts.keyOf t')
                                  (PropagationFacts.keyOf t)) all
              = filter (PropagationSpec.between (department (fst t))
                          (department (snd t))) all).
  { apply filter_ext_in. intros t' Ht'. destruct (A t' Ht') as [B1 B2].
    apply eq_true_iff_eq. unfold PropagationSpec.between.
    rewrite streq_eq, andb_true_iff, !streq_eq. split.
    - apply PropagationFacts.key_inj; assumption.
    - intros [E1 E2]. unfold PropagationFacts.keyOf. rewrite E1, E2.
      reflexivity. }
  rewrite E in *. rewrite map_map, !length_map.
  split; [reflexivity|]. split; [|split; reflexivity].
  intro Z. apply Hn. rewrite Z. reflexivity.
Qed.

Lemma paths_distinct (dept : option jsstring)
  (journeys : list PatientJourney) :
  PropagationSpec.arrowFree journeys ->
  NoDup (map endsOf (map pathOf (pathMapOf dept journeys))).
Proof.
  intro F. rewrite map_map.
  assert (ND : NoDup (JSMap.keys (pathMapOf dept journeys))).
  { rewrite pathMap_group. apply group_NoDup. constructor. }
  apply NoDup_map_NoDup_ForallPairs.
  - intros [k1 a1] [k2 a2] H1 H2 E.
    destruct (path_entry dept journeys k1 a1 F H1) as (K1 & _).
    destruct (path_entry dept journeys k2 a2 F H2) as (K2 & _).
    cbv zeta in K1, K2. unfold endsOf in E. apply pair_equal_spec in E.
    destruct E as [E1 E2].
    rewrite E1, E2 in K1. rewrite <- K2 in K1. subst k2. f_equal.
    apply (In_get _ _ _ ND) in H1. apply (In_get _ _ _ ND) in H2.
    congruence.
  - apply (NoDup_map_inv fst). exact ND.
Qed.

(** ** Time contributions *)

Definition newTime (unit : jsstring) : DeptTime := mkDeptTime zero zero.

Definition addTime (stats : DeptTime) (stage : Stage) : DeptTime :=
  mkDeptTime (totalTime stats + duration stage)%num
    (t_patientCount stats + of_Z 1)%num.

Lemma collectTime_group (l : list Stage) (state : JSMap.t DeptTime * num) :
  fold_left collectTime l state
  = (group newTime addTime (keyedStages l) (fst state),
     fold_left add (map duration l) (snd state)).
Proof.
  revert state. induction l as [|s l IH]; intros [m g]; [reflexivity|].
  cbn [fold_left keyedStages map]. rewrite IH. reflexivity.
Qed.

Lemma deptTimes_group (journeys : list PatientJourney) :
  deptTimesOf journeys
  = (group newTime addTime (keyedStages (flat_map stages journeys)) [],
     JSNum.sum (map duration (flat_map stages journeys))).
Proof.
  unfold deptTimesOf.
  rewrite (fold_left_flat_map collectTime stages journeys ([], zero)).
  apply collectTime_group.
Qed.

Lemma fold_addTime (l : list Stage) (stats : DeptTime) (n : nat) :
  t_patientCount stats = of_nat n ->
  t_patientCount (fold_left addTime l stats) = of_nat (n + List.length l)
  /\ totalTime (fold_left addTime l stats)
     = fold_left add (map duration l) (totalTime stats).
Proof.
  revert stats n. induction l as [|s l IH]; intros stats n Hn.
  - cbn [fold_left map List.length]. rewrite Nat.add_0_r. auto.
  - cbn [fold_left map List.length].
    destruct (IH (addTime stats s) (S n)) as (C & T).
    { cbn [t_patientCount addTime]. rewrite Hn. unfold of_nat.
      rewrite NumFacts.add_of_Z. f_equal. lia. }
    rewrite C, T. split; [f_equal; lia | reflexivity].
Qed.

Lemma deptTimes_In (journeys : list PatientJourney) (unit : jsstring)
  (stats : DeptTime) :
  In (unit, stats) (fst (deptTimesOf journeys)) ->
  BottleneckSpec.samples journeys unit <> []
  /\ stats
     = mkDeptTime (JSNum.sum (BottleneckSpec.samples journeys unit))
         (of_nat (List.length (BottleneckSpec.samples journeys unit))).
Proof.
  rewrite deptTimes_group. cbn [fst]. intro H. apply In_group in H.
  destruct H as [Hn ->]. rewrite itemsOf_keyedStages in *.
  unfold BottleneckSpec.samples.
  set (l := filter _ _) in *.
  destruct (fold_addTime l (newTime unit) 0 eq_refl) as [C T].
  split.
  - intro E. apply map_eq_nil in E. contradiction.
  - destruct (fold_left addTime l (newTime unit)) as [t c].
    cbn [t_patientCount totalTime] in C, T. rewrite C, T, length_map.
    reflexivity.
Qed.

Lemma getDepartmentTimeContributions_sorted (journeys : list PatientJourney) :
  getDepartmentTimeContributions journeys
  = JSArray.sort byPercentageDescending
      (map (contributionOf (snd (deptTimesOf journeys)))
         (fst (deptTimesOf journeys))).
Proof. destruct journeys; reflexivity. Qed.

Lemma add_canonical (x y : num) : NumFacts.canonical (x + y)%num.
Proof.
  destruct x as [a| | |], y as [b| | |]; try exact I.
  apply NumFacts.fin_canonical.
Qed.

Lemma sum_canonical (l : list num) : NumFacts.canonical (JSNum.sum l).
Proof.
  unfold JSNum.sum.
  assert (H : forall a, NumFacts.canonical a ->
                        NumFacts.canonical (fold_left add l a)).
  { induction l as [|x l IH]; intros a Ha; [exact Ha|].
    cbn [fold_left]. apply IH, add_canonical. }
  apply H, NumFacts.of_Z_canonical.
Qed.

Lemma canonical_zero (q : Q) :
  NumFacts.canonical (Fin q) -> q == 0 -> Fin q = zero.
Proof.
  intros C Z. cbn [NumFacts.canonical] in C. rewrite <- C.
  rewrite (NumFacts.Qred_zero q Z). reflexivity.
Qed.

Lemma qsum_of_zeros (l : list num) :
  Forall (fun x => FiniteFacts.qval x == 0) l -> FiniteFacts.qsum l == 0.
Proof.
  induction 1 as [|x l Hx _ IH]; [reflexivity|].
  cbn [FiniteFacts.qsum fold_right].
  change (fold_right (fun x s => FiniteFacts.qval x + s) 0 l)
    with (FiniteFacts.qsum l).
  rewrite Hx, IH. reflexivity.
Qed.

(** When the durations total 0, so does the time of every unit. *)
Lemma zero_total (journeys : list PatientJourney) (unit : jsstring) :
  Forall (fun s => FiniteFacts.nonneg (duration s)) (flat_map stages journeys) ->
  JSNum.sum (map duration (flat_map stages journeys)) = zero ->
  exists t, JSNum.sum (BottleneckSpec.samples journeys unit) = Fin t /\ t == 0.
Proof.
  intros F Z.
  assert (Fd : Forall FiniteFacts.nonneg
                 (map duration (flat_map stages journeys))).
  { rewrite Forall_forall in F |- *. intros x Hx. apply in_map_iff in Hx.
    destruct Hx as (s & <- & Hs). apply F, Hs. }
  destruct (FiniteFacts.sum_value _ (FiniteFacts.Forall_nonneg_fin _ Fd))
    as (g & G & Eg).
  rewrite Z in G. inversion G as [G']. rewrite <- G' in Eg.
  assert (Zs := FiniteFacts.qsum_zero _ Fd (Qeq_sym _ _ Eg)).
  assert (Fs := RankingFacts.samples_nonneg journeys unit F).
  destruct (FiniteFacts.sum_value _ (FiniteFacts.Forall_nonneg_fin _ Fs))
    as (t & T & Et).
  exists t. split; [exact T|]. rewrite Et. apply qsum_of_zeros.
  rewrite Forall_forall in Zs |- *. intros x Hx. apply Zs.
  unfold BottleneckSpec.samples in Hx. apply in_map_iff in Hx.
  destruct Hx as (s & <- & Hs). apply filter_In in Hs.
  apply in_map, Hs.
Qed.

Lemma percentage_undefined (t : Q) :
  t == 0 ->
  (Math_round (Fin t / zero * of_Z 1000) / of_Z 10)%num = NaN.
Proof.
  intro Z. unfold div at 2. cbn [zero of_Z].
  change (Qeq_bool (inject_Z 0) 0) with true. cbv iota.
  rewrite (proj1 (Qeq_alt t 0) Z). reflexivity.
Qed.


End FlowFacts.

(** X1: on the journeys of the reconstructor, getDepartmentDelays returns
    exactly one record for each unit that has a stage; the patient count of a
    record is the number of stages of its unit, so the counts add up to the
    number of stages; and the records are in non-increasing order of delay
    ratio. *)
Theorem department_delays_partition_the_stages
  (department : option jsstring) (flowLogs : list PatientFlow.FlowLog) :
  let journeys := PatientFlow.getPatientJourneys department flowLogs in
  let delays := FlowAnalysis.getDepartmentDelays journeys in
  NoDup (map FlowAnalysis.departmentName delays)
  /\ (forall unit,
        In unit (map FlowAnalysis.departmentName delays)
        <-> BottleneckSpec.samples journeys unit <> [])
  /\ Forall
       (fun d =>
          FlowAnalysis.patientCount d
          = of_nat (List.length
                      (BottleneckSpec.samples journeys
                         (FlowAnalysis.departmentName d))))
       delays
  /\ JSNum.sum (map FlowAnalysis.patientCount delays)
     = of_nat (List.length (flat_map PatientFlow.stages journeys))
  /\ StronglySorted
       (fun a b => (FlowAnalysis.delayRatio a
                    >=? FlowAnalysis.delayRatio b)%num = true)
       delays.
Proof.
  intros journeys delays.
  assert (P := FlowFacts.delays_names journeys). fold delays in P.
  assert (ND : NoDup (map FlowAnalysis.departmentName delays)).
  { apply (Permutation_NoDup (Permutation_sym P)).
    rewrite FlowFacts.deptStats_group.
    apply GroupFacts.groupWith_NoDup. constructor. }
  assert (K : forall unit,
             In unit (map FlowAnalysis.departmentName delays)
             <-> BottleneckSpec.samples journeys unit <> []).
  { intro unit. rewrite <- FlowFacts.deptStats_keys. split.
    - apply Permutation_in, P.
    - apply Permutation_in, Permutation_sym, P. }
  assert (C : Forall
                (fun d =>
                   FlowAnalysis.patientCount d
                   = of_nat (List.length
                               (BottleneckSpec.samples journeys
                                  (FlowAnalysis.departmentName d))))
                delays).
  { rewrite Forall_forall. intros d Hd. apply FlowFacts.delays_In in Hd.
    destruct Hd as (unit & stats & Hin & ->).
    apply FlowFacts.deptStats_In in Hin. apply Hin. }
  split; [exact ND|]. split; [exact K|]. split; [exact C|]. split.
  - rewrite Forall_forall in C.
    rewrite (map_ext_in _
               (fun d => of_nat (List.length
                                   (BottleneckSpec.samples journeys
                                      (FlowAnalysis.departmentName d))))
               delays C).
    rewrite <- (map_map
                  (fun d => List.length
                              (BottleneckSpec.samples journeys
                                 (FlowAnalysis.departmentName d))) of_nat).
    rewrite GroupFacts.sum_of_nat. f_equal.
    rewrite <- (map_map FlowAnalysis.departmentName
                  (fun unit => List.length
                                 (BottleneckSpec.samples journeys unit))).
    apply FlowFacts.counts_add_up; assumption.
  - unfold delays. rewrite FlowFacts.getDepartmentDelays_sorted.
    apply (@ArrayFacts.sort_descending _ FlowAnalysis.delayRatio).
    rewrite Forall_forall. intros d Hd. apply in_map_iff in Hd.
    destruct Hd as ([unit stats] & <- & Hin).
    apply FlowFacts.deptStats_In in Hin. destruct Hin as (Hn & T & _).
    apply FlowFacts.delayRatio_finite; cbn [snd]; rewrite T; [|exact Hn].
    apply RankingFacts.samples_nonneg, RankingFacts.reconstructed_nonneg.
Qed.

(** X2: getPatientFlowPaths reconstructs the journeys without the unit
    filter and files every pair of consecutive stages that the filter lets
    through under one path: the counts of the paths add up to the number of
    such pairs, and the paths are in non-increasing order of count.  When no
    unit name contains the arrow of the key, there is one path for each
    pair of units with such a pair of stages, its count is their number and
    its average duration the rounded mean duration of their second
    stages. *)
Theorem flow_paths_count_the_transitions
  (department : option jsstring) (flowLogs : list PatientFlow.FlowLog) :
  let journeys := PatientFlow.getPatientJourneys None flowLogs in
  let pairs :=
    filter (FlowFacts.considered department)
      (PropagationSpec.allTransitions journeys) in
  let paths := FlowAnalysis.getPatientFlowPaths department flowLogs in
  StronglySorted
    (fun a b => (FlowAnalysis.count a >=? FlowAnalysis.count b)%num = true)
    paths
  /\ JSNum.sum (map FlowAnalysis.count paths) = of_nat (List.length pairs)
  /\ (PropagationSpec.arrowFree journeys ->
      NoDup (map FlowFacts.endsOf paths)
      /\ Forall
           (fun p =>
              let between :=
                filter
                  (PropagationSpec.between (FlowAnalysis.from p)
                     (FlowAnalysis.to p))
                  pairs in
              between <> []
              /\ FlowAnalysis.count p = of_nat (List.length between)
              /\ FlowAnalysis.avgDuration p
                 = Math_round
                     (JSNum.sum
                        (map (fun t => PatientFlow.duration (snd t)) between)
                      / of_nat (List.length between))%num)
           paths).
Proof.
  intros journeys pairs paths.
  assert (P := FlowFacts.paths_perm department flowLogs).
  fold journeys paths in P.
  assert (C : forall e, In e (FlowAnalysis.pathMapOf department journeys) ->
              FlowAnalysis.count (FlowAnalysis.pathOf e)
              = of_nat (List.length
                          (MapFacts.itemsOf (fst e)
                             (FlowFacts.keyedPairs department
                                (PropagationSpec.allTransitions journeys))))).
  { intros [k data] H. apply FlowFacts.pathMap_In in H.
    destruct H as [_ ->]. reflexivity. }
  split; [|split].
  - apply (@ArrayFacts.sort_descending _ FlowAnalysis.count).
    rewrite Forall_forall. intros p Hp. apply in_map_iff in Hp.
    destruct Hp as (e & <- & He). rewrite (C e He). exact I.
  - rewrite (GroupFacts.sum_perm_counts (map FlowAnalysis.count paths)
               (map (fun e => List.length
                                (MapFacts.itemsOf (fst e)
                                   (FlowFacts.keyedPairs department
                                      (PropagationSpec.allTransitions
                                         journeys))))
                  (FlowAnalysis.pathMapOf department journeys))).
    + f_equal. rewrite GroupFacts.group_sizes.
      * unfold FlowFacts.keyedPairs. apply length_map.
      * rewrite FlowFacts.pathMap_group. apply MapFacts.group_NoDup.
        constructor.
      * intros k Hk. rewrite FlowFacts.pathMap_group.
        apply GroupFacts.keys_group, Hk.
    + rewrite map_map. rewrite <- (map_ext_in _ _ _ C).
      rewrite <- (map_map FlowAnalysis.pathOf FlowAnalysis.count).
      apply Permutation_map, P.
  - intro F. split.
    + apply (Permutation_NoDup
               (l := map FlowFacts.endsOf
                       (map FlowAnalysis.pathOf
                          (FlowAnalysis.pathMapOf department journeys)))).
      * apply Permutation_map, Permutation_sym, P.
      * apply FlowFacts.paths_distinct, F.
    + rewrite Forall_forall. intros p Hp.
      apply (Permutation_in _ P) in Hp. apply in_map_iff in Hp.
      destruct Hp as ([k data] & <- & He).
      apply (FlowFacts.path_entry department journeys k data F He).
Qed.

Lemma flow_paths_witness :
  let paths :=
    FlowAnalysis.getPatientFlowPaths None PropagationExamples.threeGaps in
  PropagationSpec.arrowFree PropagationExamples.threeGapsJourneys
  /\ paths
     = [FlowAnalysis.mkPath (str "Triage") (str "Radiology") (of_Z 3)
          (of_Z 14)]
  /\ NoDup (map FlowFacts.endsOf paths)
  /\ JSNum.sum (map FlowAnalysis.count paths) = of_nat 3.
Proof.
  split; [exact threeGaps_arrowFree|].
  split; [vm_compute; reflexivity|].
  destruct (flow_paths_count_the_transitions None
              PropagationExamples.threeGaps) as (_ & S & H).
  split; [exact (proj1 (H threeGaps_arrowFree)) | exact S].
Defined.



(* ------------------------------------------------------------------ *)
(** * The shape of the reconstructed journeys *)

Module ReconstructionFacts.

Import PatientFlow JourneySpec MapFacts GroupFacts.

Definition journeyOf (department : option jsstring) (flowLogs : list FlowLog)
  (patient : jsstring) : PatientJourney :=
  finishJourney
    (mkJourney patient zero (stagesOfPatient department flowLogs patient)).

(** The journeys, in the order in which the patients first appear. *)
Lemma journeys_by_patient (department : option jsstring)
  (flowLogs : list FlowLog) :
  getPatientJourneys department flowLogs
  = map (journeyOf department flowLogs)
      (JSMap.keys
         (group JourneyFacts.newJourney JourneyFacts.addStage
            (keptStages department flowLogs) [])).
Proof.
  unfold getPatientJourneys, JSMap.values, JSMap.keys.
  rewrite JourneyFacts.journeyMap_group, !map_map.
  apply map_ext_in. intros [k v] H. apply In_group in H.
  destruct H as [_ ->]. rewrite JourneyFacts.fold_addStage. reflexivity.
Qed.

Lemma keptStage_unit (department : option jsstring) (log : FlowLog)
  (p : jsstring) (s : Stage) :
  keptStage department log = Some (p, s) ->
  passesFilter department (PatientFlow.department s) = true.
Proof.
  unfold keptStage.
  destruct (log_patient_id log) as [patient|]; [|discriminate].
  destruct (entry_time log) as [entry|]; [|discriminate].
  destruct (exit_time log) as [exit|]; [|discriminate].
  destruct (nonempty patient && passesFilter department (unitOf log)
            && (entry <=? exit)%Z) eqn:E; [|discriminate].
  intro H. inversion H. subst. cbn [PatientFlow.department].
  apply andb_true_iff in E. destruct E as [E _].
  apply andb_true_iff in E. apply E.
Qed.

Lemma keptStages_unit (department : option jsstring)
  (flowLogs : list FlowLog) :
  Forall (fun ps => passesFilter department (PatientFlow.department (snd ps))
                    = true)
    (keptStages department flowLogs).
Proof.
  induction flowLogs as [|log rest IH]; [constructor|].
  cbn [keptStages]. destruct (keptStage department log) as [[p s]|] eqn:K;
    [|exact IH].
  constructor; [|exact IH]. apply (keptStage_unit department log p s K).
Qed.

End ReconstructionFacts.

(** X4: getPatientJourneys returns one journey for each patient with a kept
    row and no other; every kept row is a stage of exactly one journey, so
    the stages of the journeys are as many as the kept rows; and under a
    unit filter every stage is in that unit. *)
Theorem journeys_partition_the_kept_rows
  (department : option jsstring) (flowLogs : list PatientFlow.FlowLog) :
  let journeys := PatientFlow.getPatientJourneys department flowLogs in
  NoDup (map PatientFlow.patientId journeys)
  /\ (forall patient,
        In patient (map PatientFlow.patientId journeys)
        <-> JourneySpec.stagesOfPatient department flowLogs patient <> [])
  /\ List.length (flat_map PatientFlow.stages journeys)
     = List.length (JourneySpec.keptStages department flowLogs)
  /\ Forall
       (fun s =>
          JourneySpec.passesFilter department (PatientFlow.department s)
          = true)
       (flat_map PatientFlow.stages journeys).
Proof.
  intro journeys. unfold journeys.
  rewrite ReconstructionFacts.journeys_by_patient.
  set (kept := JourneySpec.keptStages department flowLogs).
  set (m := MapFacts.group JourneyFacts.newJourney JourneyFacts.addStage
              kept []).
  assert (ND : NoDup (JSMap.keys m)).
  { apply MapFacts.group_NoDup. constructor. }
  assert (E : map PatientFlow.patientId
                (map (ReconstructionFacts.journeyOf department flowLogs)
                   (JSMap.keys m))
              = JSMap.keys m).
  { rewrite map_map. apply map_id. }
  rewrite E. split; [exact ND|]. split; [|split].
  - intro patient. unfold m. rewrite GroupFacts.keys_group.
    unfold JourneySpec.stagesOfPatient. fold kept.
    change (map snd (filter (fun ps => streq (fst ps) patient) kept))
      with (MapFacts.itemsOf patient kept).
    split.
    + intros H Z. apply MapFacts.itemsOf_nil in Z. contradiction.
    + intro H.
      destruct (in_dec (list_eq_dec N.eq_dec) patient (map fst kept))
        as [I | I]; [exact I|].
      apply MapFacts.itemsOf_nil in I. contradiction.
  - rewrite GroupFacts.length_flat_map, map_map.
    rewrite <- (GroupFacts.partition_count kept (JSMap.keys m) ND).
    + f_equal. apply map_ext. intro patient.
      unfold ReconstructionFacts.journeyOf. cbn [PatientFlow.stages
        PatientFlow.finishJourney].
      rewrite ArrayFacts.sort_length. reflexivity.
    + intros k Hk. apply GroupFacts.keys_group, Hk.
  - rewrite Forall_forall. intros s Hs. apply in_flat_map in Hs.
    destruct Hs as (j & Hj & Hs). apply in_map_iff in Hj.
    destruct Hj as (patient & <- & _).
    unfold ReconstructionFacts.journeyOf in Hs.
    cbn [PatientFlow.stages PatientFlow.finishJourney] in Hs.
    apply (proj1 (ArrayFacts.sort_In PatientFlow.byEntryTime s _)) in Hs.
    unfold JourneySpec.stagesOfPatient in Hs. apply in_map_iff in Hs.
    destruct Hs as ([p s'] & <- & Hs). apply filter_In in Hs.
    destruct Hs as [Hs _].
    pose proof (ReconstructionFacts.keptStages_unit department flowLogs) as F.
    rewrite Forall_forall in F. apply (F _ Hs).
Qed.

(* ------------------------------------------------------------------ *)
(** * The records of the bottleneck detector *)

Module DetectionFacts.

Import PatientFlow BottleneckDetection MapFacts.

Lemma mapi_from_In {A B : Type} (f : nat -> A -> B) (k : nat) (l : list A)
  (y : B) :
  In y (JSArray.mapi_from f k l) -> exists i x, In x l /\ y = f i x.
Proof.
  revert k. induction l as [|x l IH]; intros k H; [contradiction|].
  cbn [JSArray.mapi_from] in H. destruct H as [<- | H].
  - exists k, x. split; [left|]; reflexivity.
  - destruct (IH (S k) H) as (i & x' & Hx & ->).
    exists i, x'. split; [right; exact Hx | reflexivity].
Qed.

(** The names of the units that pass a loop over the entries of a map are
    distinct, like the keys. *)
Lemma collected_names {V B : Type} (f : jsstring * V -> option B)
  (nameOf : B -> jsstring) (m : JSMap.t V) :
  (forall e b, f e = Some b -> nameOf b = fst e) ->
  NoDup (JSMap.keys m) ->
  NoDup (map nameOf (collectSome (map f m)))
  /\ (forall k, In k (map nameOf (collectSome (map f m))) ->
                In k (JSMap.keys m)).
Proof.
  intro H. induction m as [|e m IH]; intro ND.
  - split; [constructor | intros k []].
  - inversion ND as [|? ? Hn ND']; subst. destruct (IH ND') as [N S].
    cbn [map collectSome]. destruct (f e) as [b|] eqn:E.
    + cbn [map]. rewrite (H e b E). split.
      * constructor; [|exact N]. intro I. apply Hn, S, I.
      * intros k [<- | I]; [left; reflexivity | right; apply S, I].
    + split; [exact N|]. intros k I. right. apply S, I.
Qed.

Section Detection.
Variable sqrtQ : Q -> Q.

Lemma detections_In (journeys : list PatientJourney)
  (b : BottleneckDetection) :
  In b (detectBottlenecks sqrtQ journeys) ->
  exists i b0,
    In b0 (detectedUnits sqrtQ (analyzeDepartmentFlows sqrtQ journeys))
    /\ b = withRank i b0.
Proof.
  unfold detectBottlenecks.
  destruct (analyzeDepartmentFlows sqrtQ journeys) as [|e m] eqn:E;
    [contradiction|].
  intro H. apply mapi_from_In in H. destruct H as (i & b0 & H & ->).
  apply (proj1 (ArrayFacts.sort_In byImpactDescending b0 _)) in H.
  exists i, b0. auto.
Qed.

Lemma detection_names (journeys : list PatientJourney) :
  NoDup (map departmentName (detectBottlenecks sqrtQ journeys)).
Proof.
  assert (P : Permutation
                (map departmentName (detectBottlenecks sqrtQ journeys))
                (map departmentName
                   (detectedUnits sqrtQ
                      (analyzeDepartmentFlows sqrtQ journeys)))).
  { unfold detectBottlenecks.
    destruct (analyzeDepartmentFlows sqrtQ journeys) as [|e m] eqn:E.
    - apply Permutation_refl.
    - rewrite (ArrayFacts.mapi_map withRank departmentName departmentName)
        by reflexivity.
      apply Permutation_map, ArrayFacts.sort_perm. }
  apply (Permutation_NoDup (Permutation_sym P)).
  apply (collected_names
           (fun entry =>
              detectUnit sqrtQ
                (globalStatsOf sqrtQ (analyzeDepartmentFlows sqrtQ journeys))
                (volumeStatsOf sqrtQ (analyzeDepartmentFlows sqrtQ journeys))
                (fst entry) (snd entry))
           departmentName).
  - intros e b H.
    apply (BottleneckFacts.detectUnit_Some sqrtQ _ _ _ _ _ H).
  - apply BottleneckFacts.analysis_keys.
Qed.

(** The fields that a detection copies from the analysis of its unit. *)
Lemma detectUnit_times (globalStats volumeStats : Statistics)
  (deptName : jsstring) (analysis : DepartmentAnalysis)
  (b : BottleneckDetection) :
  detectUnit sqrtQ globalStats volumeStats deptName analysis = Some b ->
  patientsAffected b = patientVolume analysis
  /\ b_expectedTime b = Math_round (expectedTime analysis)
  /\ b_actualTime b = Math_round (actualTime analysis).
Proof.
  unfold detectUnit.
  destruct (List.length (times analysis) <? 3)%nat; [discriminate|].
  cbv zeta.
  destruct (bottleneckTypeOf _ _ _ _ _) as [ty|]; [|discriminate].
  intro H. inversion H. cbn. auto.
Qed.

End Detection.

End DetectionFacts.

(** X5: detectBottlenecks reports a unit at most once; a reported unit has
    at least three duration samples, its number of patients affected is the
    number of those samples, its actual time their rounded mean and its
    expected time their rounded median, the sample at index floor(n/2) of
    the sorted samples. *)
Theorem detections_describe_their_unit
  (sqrtQ : Q -> Q) (journeys : list PatientFlow.PatientJourney) :
  let records := BottleneckDetection.detectBottlenecks sqrtQ journeys in
  NoDup (map BottleneckDetection.departmentName records)
  /\ Forall
       (fun b =>
          let times :=
            BottleneckSpec.samples journeys
              (BottleneckDetection.departmentName b) in
          (3 <= List.length times)%nat
          /\ BottleneckDetection.patientsAffected b
             = of_nat (List.length times)
          /\ BottleneckDetection.b_actualTime b
             = Math_round (StatisticsSpec.arithmeticMean times)
          /\ BottleneckDetection.b_expectedTime b
             = Math_round
                 (nth (List.length times / 2)
                    (JSArray.sort BottleneckDetection.ascending times) NaN))
       records.
Proof.
  intro records. split; [apply DetectionFacts.detection_names|].
  rewrite Forall_forall. intros b Hb.
  apply DetectionFacts.detections_In in Hb.
  destruct Hb as (i & b0 & Hb & ->).
  apply BottleneckFacts.detectedUnits_In in Hb.
  destruct Hb as (unit & analysis & Hin & D).
  destruct (BottleneckFacts.detectUnit_Some sqrtQ _ _ _ _ _ D)
    as (N & L & _).
  destruct (DetectionFacts.detectUnit_times sqrtQ _ _ _ _ _ D)
    as (P & E & A).
  destruct (BottleneckFacts.analysis_times sqrtQ journeys unit analysis Hin)
    as (_ & T & V).
  apply BottleneckFacts.analysis_In in Hin. destruct Hin as [_ W].
  cbv zeta.
  cbn [BottleneckDetection.departmentName BottleneckDetection.withRank
       BottleneckDetection.patientsAffected BottleneckDetection.b_actualTime
       BottleneckDetection.b_expectedTime].
  rewrite N, P, E, A, V. rewrite T in L.
  assert (Hn : BottleneckSpec.samples journeys unit <> []).
  { intro Z. rewrite Z in L. cbn in L. lia. }
  assert (S : BottleneckDetection.calculateStatistics sqrtQ
                (BottleneckDetection.times analysis)
              = BottleneckDetection.calculateStatistics sqrtQ
                  (BottleneckSpec.samples journeys unit))
    by (rewrite T; reflexivity).
  rewrite (StatisticsFacts.calculateStatistics_nonempty sqrtQ _ Hn) in S.
  rewrite W in S |- *. cbn [BottleneckDetection.withStatistics
    BottleneckDetection.expectedTime BottleneckDetection.actualTime
    BottleneckDetection.times] in S |- *.
  rewrite S. cbn [BottleneckDetection.mean BottleneckDetection.median].
  repeat split; try reflexivity. exact L.
Qed.

(* ------------------------------------------------------------------ *)
(** * Capped scores *)

Module CapFacts.

Import FiniteFacts.

Lemma nonneg_add (x y : num) : nonneg x -> nonneg y -> nonneg (x + y)%num.
Proof.
  destruct x as [a| | |], y as [b| | |]; try contradiction.
  cbn [nonneg add fin]. intros Ha Hb. rewrite Qred_correct. lra.
Qed.

Lemma nonneg_mul (x y : num) : nonneg x -> nonneg y -> nonneg (x * y)%num.
Proof.
  destruct x as [a| | |], y as [b| | |]; try contradiction.
  cbn [nonneg mul fin]. intros Ha Hb. rewrite Qred_correct.
  apply Qmult_le_0_compat; assumption.
Qed.

Lemma nonneg_abs (x : num) : is_fin x -> nonneg (Math_abs x).
Proof.
  destruct x as [a| | |]; try contradiction. intros _.
  cbn [nonneg Math_abs fin]. rewrite Qred_correct. apply Qabs_nonneg.
Qed.

Lemma nonneg_min (x y : num) : nonneg x -> nonneg y -> nonneg (Math_min x y).
Proof.
  destruct x as [a| | |], y as [b| | |]; try contradiction.
  intros Ha Hb. unfold Math_min. destruct (Fin b <? Fin a)%num; assumption.
Qed.

(** The quotient of two non-negative numbers is non-negative, +Infinity or
    NaN. *)
Lemma nonneg_div (x y : num) :
  nonneg x -> nonneg y ->
  nonneg (x / y)%num \/ (x / y)%num = PInf \/ (x / y)%num = NaN.
Proof.
  destruct x as [a| | |], y as [b| | |]; try contradiction.
  cbn [nonneg]. intros Ha Hb. unfold div.
  destruct (Qeq_bool b 0) eqn:E.
  - destruct (a ?= 0) eqn:C; auto.
    exfalso. apply Qlt_alt in C. lra.
  - left. apply NumFacts.Qeq_bool_false in E. cbn [fin nonneg].
    rewrite Qred_correct. apply Qle_shift_div_l; lra.
Qed.

Lemma round1_fin (q : Q) :
  BottleneckDetection.round1 (Fin q)
  = fin (inject_Z (Qfloor (q * inject_Z 10 + (1 # 2))) / inject_Z 10).
Proof.
  unfold BottleneckDetection.round1. change (of_Z 10) with (Fin (inject_Z 10)).
  rewrite NumFacts.mul_fin. unfold fin at 1. cbn [Math_round].
  unfold of_Z. rewrite NumFacts.div_fin by discriminate.
  apply NumFacts.fin_eq.
  rewrite (Qfloor_comp _ (q * inject_Z 10 + (1 # 2))); [reflexivity|].
  rewrite Qred_correct. reflexivity.
Qed.

Lemma tenths (z n : Z) :
  (z <= 10 * n)%Z -> inject_Z z / inject_Z 10 <= inject_Z n.
Proof.
  intro H. unfold Qle, Qdiv, Qmult, Qinv, inject_Z. simpl. lia.
Qed.

Lemma tenths_nonneg (z : Z) : (0 <= z)%Z -> 0 <= inject_Z z / inject_Z 10.
Proof.
  intro H. unfold Qle, Qdiv, Qmult, Qinv, inject_Z. simpl. lia.
Qed.

Lemma round1_le (q : Q) (n : Z) :
  q <= inject_Z n ->
  (BottleneckDetection.round1 (Fin q) <=? of_Z n)%num = true.
Proof.
  intro H. rewrite round1_fin. unfold fin, of_Z. apply NumFacts.leb_fin.
  rewrite Qred_correct. apply tenths.
  assert (L := Qfloor_le (q * inject_Z 10 + (1 # 2))).
  assert (B : inject_Z (Qfloor (q * inject_Z 10 + (1 # 2)))
              < inject_Z (10 * n + 1)).
  { rewrite inject_Z_plus, inject_Z_mult.
    change (inject_Z 1) with 1. change (inject_Z 10) with 10 in *. lra. }
  rewrite <- Zlt_Qlt in B. lia.
Qed.

Lemma round1_nonneg (x : num) :
  nonneg x -> nonneg (BottleneckDetection.round1 x).
Proof.
  destruct x as [q| | |]; try contradiction. cbn [nonneg]. intro H.
  rewrite round1_fin. cbn [fin nonneg]. rewrite Qred_correct.
  apply tenths_nonneg.
  change 0%Z with (Qfloor 0). apply Qfloor_resp_le.
  change (inject_Z 10) with 10. lra.
Qed.

(** A finite value capped at [n] rounds to at most [n]. *)
Lemma capped_le (x : num) (n : Z) :
  is_fin (Math_min x (of_Z n)) ->
  (BottleneckDetection.round1 (Math_min x (of_Z n)) <=? of_Z n)%num = true.
Proof.
  destruct x as [q| | |]; try contradiction.
  - intros _. unfold Math_min, of_Z.
    destruct (Fin (inject_Z n) <? Fin q)%num eqn:E.
    + apply round1_le. apply Qle_refl.
    + apply round1_le. apply NumFacts.Qltb_ge in E. exact E.
  - intros _. cbn [Math_min ltb]. apply round1_le. apply Qle_refl.
Qed.

Lemma nonneg_leb (x : num) : nonneg x -> (zero <=? x)%num = true.
Proof.
  destruct x as [q| | |]; try contradiction. cbn [nonneg]. intro H.
  apply NumFacts.leb_fin. exact H.
Qed.

End CapFacts.

Module BoundFacts.

Import PatientFlow BottleneckDetection FiniteFacts ScoreFacts CapFacts.
Import MapFacts.

Definition nonnegDelays (analysis : DepartmentAnalysis) : Prop :=
  Forall (fun entry => nonneg (snd entry)) (downstreamDelays analysis).

Lemma nonnegDelays_finite (analysis : DepartmentAnalysis) :
  nonnegDelays analysis -> finiteDelays analysis.
Proof.
  unfold nonnegDelays, finiteDelays. apply Forall_impl.
  intros e. apply nonneg_fin.
Qed.

Lemma positive_nonneg (x : num) : (x >? zero)%num = true -> is_fin x -> nonneg x.
Proof.
  destruct x as [q| | |]; try contradiction. intros H _.
  apply NumFacts.gtb_fin in H. cbn [nonneg]. apply Qlt_le_weak.
  exact H.
Qed.

Lemma addDownstream_nonneg (stage : Stage) (next : option Stage)
  (downstream : JSMap.t num) :
  Forall (fun e => nonneg (snd e)) downstream ->
  Forall (fun e => nonneg (snd e))
    (BottleneckFacts.addDownstream stage next downstream).
Proof.
  intro F. unfold BottleneckFacts.addDownstream.
  destruct next as [nextStage|]; [|exact F].
  rewrite JourneyFacts.minutes_diff.
  destruct (_ >? _)%num eqn:G; [|exact F].
  apply RankingFacts.Forall_set; [|exact F].
  apply nonneg_add; [|apply (positive_nonneg _ G); exact I].
  destruct (JSMap.get (department nextStage) downstream) as [d|] eqn:E;
    [|apply Qle_refl].
  apply get_In in E. rewrite Forall_forall in F. specialize (F _ E).
  cbn [snd] in F. unfold or_default.
  destruct (truthy d); [exact F | apply Qle_refl].
Qed.

Lemma fold_addVisit_nonneg (l : list BottleneckFacts.Visit)
  (analysis : DepartmentAnalysis) :
  nonnegDelays analysis ->
  nonnegDelays (fold_left BottleneckFacts.addVisit l analysis).
Proof.
  revert analysis. induction l as [|v l IH]; intros a F; [exact F|].
  cbn [fold_left]. apply IH. unfold nonnegDelays.
  cbn [downstreamDelays BottleneckFacts.addVisit].
  apply addDownstream_nonneg, F.
Qed.

Lemma avgDownstreamDelay_nonneg (analysis : DepartmentAnalysis) :
  nonnegDelays analysis -> nonneg (avgDownstreamDelayOf analysis).
Proof.
  intro F. unfold avgDownstreamDelayOf, JSMap.size.
  destruct (downstreamDelays analysis) as [|e l] eqn:E; [apply Qle_refl|].
  change (0 <? List.length (e :: l))%nat with true. cbv iota.
  cbn [List.length]. apply nonneg_div_count.
  unfold totalDownstreamDelayOf. rewrite E.
  rewrite (ReadmissionFacts.fold_left_add_map snd).
  apply sum_nonneg.
  unfold nonnegDelays in F. rewrite E in F.
  rewrite Forall_forall in F |- *. intros x Hx.
  apply in_map_iff in Hx. destruct Hx as (y & <- & Hy). apply F, Hy.
Qed.

Lemma delayPropagation_nonneg (analysis : DepartmentAnalysis) :
  nonnegDelays analysis -> nonneg (actualTime analysis) ->
  is_fin (delayPropagationScoreOf analysis) ->
  nonneg (delayPropagationScoreOf analysis).
Proof.
  intros F A. unfold delayPropagationScoreOf.
  destruct (nonneg_div _ _ (avgDownstreamDelay_nonneg analysis F) A)
    as [N | [P | P]].
  - intros _. apply nonneg_min; [|discriminate].
    apply nonneg_mul; [exact N | discriminate].
  - rewrite P. intros _. cbn. discriminate.
  - rewrite P. intros [].
Qed.

Lemma congestion_nonneg (stats : Statistics) :
  nonneg (mean stats) -> is_fin (stdDev stats) ->
  is_fin (congestionIndicatorOf stats) ->
  nonneg (congestionIndicatorOf stats).
Proof.
  intros M S. unfold congestionIndicatorOf.
  destruct (stdDev stats >? mean stats * lit 5 10)%num eqn:G;
    [|intros _; apply Qle_refl].
  assert (N : nonneg (stdDev stats)).
  { destruct (stdDev stats) as [s| | |]; try contradiction.
    destruct (mean stats) as [m| | |]; try contradiction.
    cbn [nonneg] in *. change (lit 5 10) with (Fin (1 # 2)) in G.
    rewrite NumFacts.mul_fin in G. apply NumFacts.gtb_fin in G.
    rewrite Qred_correct in G.
    assert (0 <= m * (1 # 2)) by (apply Qmult_le_0_compat; [exact M | discriminate]).
    lra. }
  destruct (nonneg_div _ _ N M) as [R | [P | P]].
  - intros _. exact R.
  - rewrite P. intros [].
  - rewrite P. intros [].
Qed.

Lemma varianceRatio_nonneg (globalStats deptStats : Statistics) :
  nonneg (stdDev deptStats) -> is_fin (stdDev globalStats) ->
  nonneg (varianceRatioOf globalStats deptStats).
Proof.
  intros D G. unfold varianceRatioOf.
  destruct (stdDev globalStats >? zero)%num eqn:P; [|discriminate].
  destruct (nonneg_div _ _ D (positive_nonneg _ P G)) as [R | [E | E]];
    [exact R | |];
    pose proof (is_fin_div_positive (stdDev deptStats) (stdDev globalStats)
                  (nonneg_fin _ D) G P) as F;
    rewrite E in F; destruct F.
Qed.

Section WithSqrt.
Variable sqrtQ : Q -> Q.
Hypothesis sqrt_zero : sqrtQ 0 == 0.
Hypothesis sqrt_nonneg : forall q, 0 <= q -> 0 <= sqrtQ q.

Lemma stdDev_nonneg (values : list num) :
  Forall is_fin values -> values <> [] ->
  nonneg (stdDev (calculateStatistics sqrtQ values)).
Proof.
  intros F Hn.
  rewrite (StatisticsFacts.calculateStatistics_nonempty sqrtQ values Hn).
  cbv zeta. cbn [stdDev].
  pose proof (variance_nonneg values F Hn) as V.
  destruct (StatisticsSpec.populationVariance values) as [v| | |];
    try contradiction.
  cbn [nonneg] in V. cbn [Math_sqrt].
  rewrite (proj2 (NumFacts.Qltb_ge v 0) V). cbn [fin nonneg].
  rewrite Qred_correct. apply sqrt_nonneg, V.
Qed.

Definition within (x : num) : Prop :=
  (zero <=? x)%num = true /\ (x <=? of_Z 100)%num = true.

Lemma capped_within (x : num) :
  is_fin (Math_min x (of_Z 100)) -> nonneg (Math_min x (of_Z 100)) ->
  within (round1 (Math_min x (of_Z 100))).
Proof.
  intros F N. split.
  - apply nonneg_leb, round1_nonneg, N.
  - apply capped_le, F.
Qed.

Lemma detected_bounded (globalStats volumeStats : Statistics)
  (deptName : jsstring) (analysis : DepartmentAnalysis)
  (b : BottleneckDetection) :
  sound sqrtQ globalStats volumeStats analysis ->
  nonnegDelays analysis ->
  detectUnit sqrtQ globalStats volumeStats deptName analysis = Some b ->
  within (delayPropagationScore b) /\ within (resourceStrainScore b).
Proof.
  intros [(Gm & _ & Gq1 & Gq3 & Giqr & Gs) Vm Ft Fp Fd Ee Ea] Nd.
  unfold detectUnit.
  destruct (List.length (times analysis) <? 3)%nat eqn:L; [discriminate|].
  apply Nat.ltb_ge in L.
  assert (Hn : times analysis <> []).
  { destruct (times analysis); [cbn in L; lia | discriminate]. }
  cbv zeta.
  pose proof (statistics_finite sqrtQ (times analysis)
                (Forall_nonneg_fin _ Ft)) as (Sm & Smed & _ & _ & _ & Ss).
  destruct (statistics_nonneg sqrtQ (times analysis) Ft Hn) as [Nm _].
  destruct (congestion_cases sqrtQ sqrt_zero (times analysis) Ft Hn)
    as (m & Em & C).
  assert (Fa : is_fin (actualTime analysis)) by (rewrite Ea; exact Sm).
  assert (Fe : is_fin (expectedTime analysis)) by (rewrite Ee; exact Smed).
  assert (Fc : is_fin (congestionIndicatorOf
                         (calculateStatistics sqrtQ (times analysis)))).
  { destruct C as [[_ C] | [_ C]]; [exact C | rewrite C; exact I]. }
  assert (Fz := zScore_finite (actualTime analysis) (mean globalStats)
                  (stdDev globalStats) Fa Gm Gs).
  assert (Nc := congestion_nonneg _ Nm Ss Fc).
  assert (Nv := varianceRatio_nonneg globalStats
                  (calculateStatistics sqrtQ (times analysis))
                  (stdDev_nonneg (times analysis) (Forall_nonneg_fin _ Ft) Hn)
                  Gs).
  assert (Ftd := timeDeviation_finite analysis Fe Fa).
  destruct (bottleneckTypeOf _ _ _ _ _) as [ty|] eqn:T; [|discriminate].
  intro H. inversion H. subst b.
  cbn [delayPropagationScore resourceStrainScore].
  assert (Fd' : is_fin (delayPropagationScoreOf analysis)).
  { unfold bottleneckTypeOf in T.
    destruct (isModerate _ && _) eqn:B1.
    - apply andb_true_iff in B1. destruct B1 as [_ B1].
      apply capped_above_30_finite. exact B1.
    - rewrite Ea in *.
      apply delayPropagation_finite with m; [exact Fd | congruence|].
      destruct C as [[C _] | [Z C]]; [exact C|]. exfalso.
      destruct (isHigh _ && _) eqn:B2.
      + apply andb_true_iff in B2. destruct B2 as [_ B2].
        rewrite (timeDeviation_zero_mean analysis m Fe) in B2;
          [discriminate | congruence | exact Z].
      + rewrite C in T. rewrite andb_false_r in T. discriminate. }
  split.
  - apply capped_within; [exact Fd'|].
    apply delayPropagation_nonneg; [exact Nd | rewrite Ea; exact Nm|].
    exact Fd'.
  - unfold resourceStrainScoreOf.
    assert (N : nonneg
                  (congestionIndicatorOf
                     (calculateStatistics sqrtQ (times analysis)) * of_Z 30
                   + varianceRatioOf globalStats
                       (calculateStatistics sqrtQ (times analysis)) * of_Z 40
                   + Math_abs
                       (calculateZScore (actualTime analysis)
                          (mean globalStats) (stdDev globalStats))
                     * of_Z 30)%num).
    { repeat apply nonneg_add; apply nonneg_mul;
        try discriminate; try assumption.
      apply nonneg_abs, Fz. }
    apply capped_within.
    + apply PropagationFacts.is_fin_min; [apply nonneg_fin, N | exact I].
    + apply nonneg_min; [exact N | discriminate].
Qed.

Lemma analyses_nonnegDelays (journeys : list PatientJourney)
  (unit : jsstring) (analysis : DepartmentAnalysis) :
  In (unit, analysis) (analyzeDepartmentFlows sqrtQ journeys) ->
  nonnegDelays analysis.
Proof.
  intro H. apply BottleneckFacts.analysis_In in H. destruct H as [_ ->].
  unfold nonnegDelays, withStatistics. cbn [downstreamDelays].
  apply fold_addVisit_nonneg. constructor.
Qed.

End WithSqrt.

Lemma sqrt_approx_nonneg (q : Q) : 0 <= q -> 0 <= sqrt_approx q.
Proof.
  intros _. unfold sqrt_approx, Qle. cbn [Qnum Qden].
  rewrite Z.mul_1_r. cbn [Z.mul]. apply Z.sqrt_nonneg.
Qed.

End BoundFacts.

(** X6: for a square root that is non-negative and maps 0 to 0, the two
    capped scores of every record that detectBottlenecks returns on the
    journeys of the reconstructor, the delay-propagation score and the
    resource-strain score, are numbers between 0 and 100. *)
Theorem capped_scores_stay_within_bounds
  (sqrtQ : Q -> Q) (department : option jsstring)
  (flowLogs : list PatientFlow.FlowLog) :
  sqrtQ 0 == 0 ->
  (forall q, 0 <= q -> 0 <= sqrtQ q) ->
  Forall
    (fun b =>
       ((zero <=? BottleneckDetection.delayPropagationScore b)%num = true
        /\ (BottleneckDetection.delayPropagationScore b <=? of_Z 100)%num
           = true)
       /\ ((zero <=? BottleneckDetection.resourceStrainScore b)%num = true
           /\ (BottleneckDetection.resourceStrainScore b <=? of_Z 100)%num
              = true))
    (BottleneckDetection.detectBottlenecks sqrtQ
       (PatientFlow.getPatientJourneys department flowLogs)).
Proof.
  intros sqrt_zero sqrt_nonneg.
  set (journeys := PatientFlow.getPatientJourneys department flowLogs).
  assert (F := RankingFacts.reconstructed_nonneg department flowLogs).
  fold journeys in F.
  rewrite Forall_forall. intros b Hb.
  apply DetectionFacts.detections_In in Hb.
  destruct Hb as (i & b0 & Hb & ->).
  apply BottleneckFacts.detectedUnits_In in Hb.
  destruct Hb as (unit & analysis & Hin & D).
  destruct (RankingFacts.analyses_sound sqrtQ journeys unit analysis F Hin)
    as (Ft & Fp & Fd & Ee & Ea).
  destruct (RankingFacts.global_sound sqrtQ journeys F) as [G V].
  cbn [BottleneckDetection.withRank BottleneckDetection.delayPropagationScore
       BottleneckDetection.resourceStrainScore].
  refine (BoundFacts.detected_bounded sqrtQ sqrt_zero sqrt_nonneg _ _ unit
            analysis b0 _ _ D).
  - constructor; assumption.
  - apply (BoundFacts.analyses_nonnegDelays sqrtQ journeys unit analysis Hin).
Qed.

Lemma capped_scores_witness :
  Forall
    (fun b =>
       ((zero <=? BottleneckDetection.delayPropagationScore b)%num = true
        /\ (BottleneckDetection.delayPropagationScore b <=? of_Z 100)%num
           = true)
       /\ ((zero <=? BottleneckDetection.resourceStrainScore b)%num = true
           /\ (BottleneckDetection.resourceStrainScore b <=? of_Z 100)%num
              = true))
    (BottleneckDetection.detectBottlenecks sqrt_approx
       BottleneckExamples.wardJourneys)
  /\ map (fun b => (BottleneckDetection.departmentName b,
                    BottleneckDetection.delayPropagationScore b,
                    BottleneckDetection.resourceStrainScore b))
       (BottleneckDetection.detectBottlenecks sqrt_approx
          BottleneckExamples.wardJourneys)
     = [(str "Imaging", of_Z 100, lit 744 10);
        (str "Triage", of_Z 100, lit 277 10)].
Proof.
  split.
  - apply (capped_scores_stay_within_bounds sqrt_approx None
             BottleneckExamples.wardRows).
    + reflexivity.
    + exact BoundFacts.sqrt_approx_nonneg.
  - vm_compute. reflexivity.
Defined.

(* ------------------------------------------------------------------ *)
(** * The metrics of the classifier *)

Module ClassifierFacts.

Import PatientFlow BottleneckDetection StatisticsSpec BottleneckSpec.
Import PropagationSpec MapFacts FiniteFacts.

(** ** The order of the keys of a grouped map *)

Lemma has_existsb {V : Type} (k : jsstring) (m : JSMap.t V) :
  JSMap.has k m = existsb (streq k) (JSMap.keys m).
Proof.
  unfold JSMap.has.
  induction m as [|[k' v] m IH]; [reflexivity|].
  cbn [JSMap.get JSMap.keys map fst existsb].
  destruct (streq k k'); [reflexivity | exact IH].
Qed.

Section Grouped.
Context {V X : Type}.
Variable init : jsstring -> V.
Variable upd : V -> X -> V.

Lemma keys_order (items : list (jsstring * X)) (m : JSMap.t V) :
  JSMap.keys (group init upd items m)
  = fold_left
      (fun seen name =>
         if existsb (streq name) seen then seen else seen ++ [name])
      (map fst items) (JSMap.keys m).
Proof.
  revert m. induction items as [|[k x] items IH]; intro m; [reflexivity|].
  cbn [map fst fold_left]. unfold group in *. cbn [fold_left fst snd].
  rewrite IH. f_equal. unfold bump. rewrite keys_set, has_existsb.
  reflexivity.
Qed.

Lemma entries_of_keys (m : JSMap.t V) (f : jsstring -> V) :
  (forall k v, In (k, v) m -> v = f k) ->
  m = map (fun k => (k, f k)) (JSMap.keys m).
Proof.
  induction m as [|[k v] m IH]; intro H; [reflexivity|].
  cbn [JSMap.keys map fst]. rewrite (H k v (or_introl eq_refl)).
  f_equal. apply IH. intros k' v' Hin. apply H. right. exact Hin.
Qed.

(** The entries of a grouped map, in order. *)
Lemma group_entries (items : list (jsstring * X)) :
  group init upd items []
  = map (fun k => (k, fold_left upd (itemsOf k items) (init k)))
      (ClassifierSpec.firstOccurrences (map fst items)).
Proof.
  rewrite (entries_of_keys (group init upd items [])
             (fun k => fold_left upd (itemsOf k items) (init k))).
  - rewrite keys_order. reflexivity.
  - intros k v H. apply In_group in H. apply H.
Qed.

End Grouped.

Lemma firstOccurrences_In (names : list jsstring) (k : jsstring) :
  In k (ClassifierSpec.firstOccurrences names) <-> In k names.
Proof.
  pose proof (GroupFacts.keys_group (fun _ => tt)
                (fun (v : Datatypes.unit) (_ : Datatypes.unit) => v)
                (map (fun n => (n, tt)) names) k) as H.
  rewrite keys_order in H. rewrite !map_map in H. cbn [fst] in H.
  rewrite map_id in H. exact H.
Qed.

(** ** The analyses of the units *)

Lemma visits_keys (journeys : list PatientJourney) :
  map fst (BottleneckFacts.allVisits journeys)
  = map department (flat_map stages journeys).
Proof.
  unfold BottleneckFacts.allVisits.
  induction journeys as [|j js IH]; [reflexivity|].
  cbn [flat_map]. rewrite !map_app, IH. f_equal.
  generalize (stages j). intro l.
  induction l as [|s l IHl]; [reflexivity|].
  cbn [BottleneckFacts.visits map fst]. rewrite IHl. reflexivity.
Qed.

Lemma analysis_entries (sqrtQ : Q -> Q) (journeys : list PatientJourney) :
  analyzeDepartmentFlows sqrtQ journeys
  = map (fun unit =>
           (unit,
            withStatistics sqrtQ (BottleneckFacts.rawAnalysis journeys unit)))
      (ClassifierSpec.units journeys).
Proof.
  unfold analyzeDepartmentFlows.
  rewrite BottleneckFacts.rawAnalysis_group, group_entries, map_map.
  rewrite visits_keys. reflexivity.
Qed.

Lemma raw_times (journeys : list PatientJourney) (unit : jsstring) :
  times (BottleneckFacts.rawAnalysis journeys unit) = samples journeys unit
  /\ patientVolume (BottleneckFacts.rawAnalysis journeys unit)
     = ClassifierSpec.sampleCount journeys unit.
Proof.
  unfold BottleneckFacts.rawAnalysis, ClassifierSpec.sampleCount.
  destruct (BottleneckFacts.fold_addVisit
              (itemsOf unit (BottleneckFacts.allVisits journeys))
              (newAnalysis unit) 0%nat eq_refl) as (_ & T & V).
  rewrite T, V, <- BottleneckFacts.visits_stages, length_map.
  split; reflexivity.
Qed.

Lemma units_In (journeys : list PatientJourney) (unit : jsstring) :
  samples journeys unit <> [] -> In unit (ClassifierSpec.units journeys).
Proof.
  intro H. apply firstOccurrences_In.
  unfold samples in H.
  destruct (filter _ (flat_map stages journeys)) as [|s l] eqn:E;
    [contradiction|].
  assert (Hs : In s (filter (fun s => streq (department s) unit)
                       (flat_map stages journeys)))
    by (rewrite E; left; reflexivity).
  apply filter_In in Hs. destruct Hs as [Hs D].
  apply streq_eq in D. subst unit. apply in_map, Hs.
Qed.

(** The samples of all units, and their numbers, as the source collects
    them. *)
Lemma all_times (sqrtQ : Q -> Q) (journeys : list PatientJourney) :
  flat_map times (JSMap.values (analyzeDepartmentFlows sqrtQ journeys))
  = flat_map (samples journeys) (ClassifierSpec.units journeys).
Proof.
  rewrite analysis_entries. unfold JSMap.values. rewrite map_map.
  cbn [snd]. induction (ClassifierSpec.units journeys) as [|u us IH];
    [reflexivity|].
  cbn [map flat_map]. rewrite IH. f_equal.
  unfold withStatistics. cbn [times]. apply raw_times.
Qed.

Lemma all_volumes (sqrtQ : Q -> Q) (journeys : list PatientJourney) :
  map patientVolume (JSMap.values (analyzeDepartmentFlows sqrtQ journeys))
  = map (ClassifierSpec.sampleCount journeys) (ClassifierSpec.units journeys).
Proof.
  rewrite analysis_entries. unfold JSMap.values. rewrite !map_map.
  apply map_ext. intro u. cbn [snd]. unfold withStatistics.
  cbn [patientVolume]. apply raw_times.
Qed.

(** ** The downstream delays *)

Definition noDelay (target : jsstring) : num := zero.

Definition accumulate (delay wait : num) : num :=
  (or_default delay zero + wait)%num.

(** The wait that a visit adds to the downstream delays. *)
Definition addedWait (v : BottleneckFacts.Visit) : list (jsstring * num) :=
  match snd v with
  | Some next =>
      if ClassifierSpec.positiveWait (waitMinutes (fst v, next))
      then [(department next, waitMinutes (fst v, next))]
      else []
  | None => []
  end.

Lemma addDownstream_group (stage : Stage) (next : option Stage)
  (downstream : JSMap.t num) :
  BottleneckFacts.addDownstream stage next downstream
  = group noDelay accumulate (addedWait (stage, next)) downstream.
Proof.
  unfold BottleneckFacts.addDownstream, addedWait. cbn [fst snd].
  destruct next as [nextStage|]; [|reflexivity].
  rewrite (proj1 (PropagationFacts.waitTime_counted stage nextStage)).
  unfold ClassifierSpec.positiveWait.
  destruct (_ >? zero)%num; [|reflexivity].
  unfold group, bump, accumulate, noDelay. cbn [fold_left fst snd].
  destruct (JSMap.get (department nextStage) downstream); reflexivity.
Qed.

Lemma fold_addVisit_downstream (l : list BottleneckFacts.Visit)
  (analysis : DepartmentAnalysis) :
  downstreamDelays (fold_left BottleneckFacts.addVisit l analysis)
  = group noDelay accumulate (flat_map addedWait l)
      (downstreamDelays analysis).
Proof.
  revert analysis. induction l as [|[stage next] l IH]; intro a;
    [reflexivity|].
  cbn [fold_left flat_map]. rewrite IH, PropagationFacts.group_app.
  cbn [downstreamDelays BottleneckFacts.addVisit fst snd].
  rewrite addDownstream_group. reflexivity.
Qed.

Lemma addedWait_stages (unit : jsstring) (l : list Stage) :
  flat_map addedWait (itemsOf unit (BottleneckFacts.visits l))
  = filter (fun w => ClassifierSpec.positiveWait (snd w))
      (map (fun t => (department (snd t), waitMinutes t))
         (filter (fun t => streq (department (fst t)) unit)
            (transitions l))).
Proof.
  unfold itemsOf. induction l as [|s l IH]; [reflexivity|].
  cbn [BottleneckFacts.visits filter fst transitions].
  destruct l as [|next l'].
  - destruct (streq (department s) unit); reflexivity.
  - cbn [hd_error filter fst].
    destruct (streq (department s) unit).
    + cbn [map snd flat_map filter]. rewrite IH.
      unfold addedWait at 1. cbn [fst snd].
      destruct (ClassifierSpec.positiveWait (waitMinutes (s, next)));
        reflexivity.
    + exact IH.
Qed.

Lemma addedWait_journeys (journeys : list PatientJourney) (unit : jsstring) :
  flat_map addedWait (itemsOf unit (BottleneckFacts.allVisits journeys))
  = ClassifierSpec.countedWaitsFrom ClassifierSpec.positiveWait journeys unit.
Proof.
  unfold ClassifierSpec.countedWaitsFrom, ClassifierSpec.waitsFrom,
    allTransitions, BottleneckFacts.allVisits.
  induction journeys as [|j js IH]; [reflexivity|].
  cbn [flat_map]. unfold itemsOf in *.
  rewrite !filter_app, !map_app, flat_map_app, filter_app, IH.
  f_equal. apply addedWait_stages.
Qed.

Lemma or_default_same (d : num) :
  is_fin d -> NumFacts.canonical d -> or_default d zero = d.
Proof.
  destruct d as [q| | |]; try contradiction. intros _ C.
  unfold or_default, truthy.
  destruct (Qeq_bool q 0) eqn:E; [|reflexivity].
  apply Qeq_bool_iff in E. symmetry.
  apply FlowFacts.canonical_zero; assumption.
Qed.

Lemma fold_accumulate (waits : list num) (d : num) :
  Forall is_fin waits -> is_fin d -> NumFacts.canonical d ->
  fold_left accumulate waits d = fold_left add waits d.
Proof.
  intro F. revert d. induction F as [|w waits Hw _ IH]; intros d Hd C;
    [reflexivity|].
  cbn [fold_left]. unfold accumulate at 2. rewrite (or_default_same d Hd C).
  apply IH.
  - apply NumFacts.is_fin_add; assumption.
  - apply FlowFacts.add_canonical.
Qed.

Lemma waits_are_finite (journeys : list PatientJourney) (unit : jsstring)
  (counts : num -> bool) :
  Forall (fun w => is_fin (snd w))
    (ClassifierSpec.countedWaitsFrom counts journeys unit).
Proof.
  rewrite Forall_forall. intros w Hw.
  unfold ClassifierSpec.countedWaitsFrom, ClassifierSpec.waitsFrom in Hw.
  apply filter_In in Hw. destruct Hw as [Hw _].
  apply in_map_iff in Hw. destruct Hw as (t & <- & _). exact I.
Qed.

(** The map of the downstream delays of a unit: the next units reached
    after a positive wait, each with the sum of these waits. *)
Lemma downstream_entries (journeys : list PatientJourney) (unit : jsstring) :
  downstreamDelays (BottleneckFacts.rawAnalysis journeys unit)
  = map (fun target =>
           (target,
            ClassifierSpec.downstreamDelay ClassifierSpec.positiveWait
              journeys unit target))
      (ClassifierSpec.nextUnits ClassifierSpec.positiveWait journeys unit).
Proof.
  unfold BottleneckFacts.rawAnalysis.
  rewrite fold_addVisit_downstream, addedWait_journeys.
  cbn [downstreamDelays newAnalysis]. rewrite group_entries.
  unfold ClassifierSpec.nextUnits. apply map_ext. intro target.
  f_equal. unfold noDelay, ClassifierSpec.downstreamDelay, JSNum.sum.
  apply fold_accumulate; [|exact I | reflexivity].
  unfold itemsOf. rewrite Forall_forall. intros x Hx.
  apply in_map_iff in Hx. destruct Hx as (w & <- & Hw).
  apply filter_In in Hw. destruct Hw as [Hw _].
  pose proof (waits_are_finite journeys unit ClassifierSpec.positiveWait) as F.
  rewrite Forall_forall in F. apply F, Hw.
Qed.

Lemma average_delay (sqrtQ : Q -> Q) (journeys : list PatientJourney)
  (unit : jsstring) :
  avgDownstreamDelayOf
    (withStatistics sqrtQ (BottleneckFacts.rawAnalysis journeys unit))
  = ClassifierSpec.averageDownstreamDelay ClassifierSpec.positiveWait
      journeys unit.
Proof.
  unfold avgDownstreamDelayOf, totalDownstreamDelayOf, withStatistics,
    JSMap.size.
  cbn [downstreamDelays]. rewrite downstream_entries.
  unfold ClassifierSpec.averageDownstreamDelay.
  rewrite (ReadmissionFacts.fold_left_add_map snd), map_map, length_map.
  cbn [snd].
  destruct (ClassifierSpec.nextUnits ClassifierSpec.positiveWait journeys unit)
    as [|t ts]; reflexivity.
Qed.

(** ** The statistics of a sample *)

Lemma after_smaller (x y : num) :
  is_fin x -> is_fin y -> JSArray.after ascending x y = (y <? x)%num.
Proof.
  destruct x as [a| | |], y as [b| | |]; try contradiction. intros _ _.
  unfold JSArray.after, ascending. apply eq_true_iff_eq.
  rewrite NumFacts.sub_positive, NumFacts.ltb_fin. reflexivity.
Qed.

Lemma insert_is_insertAscending (x : num) (l : list num) :
  is_fin x -> Forall is_fin l ->
  JSArray.insert ascending x l = insertAscending x l.
Proof.
  intros Hx F. induction F as [|y l Hy _ IH]; [reflexivity|].
  cbn [JSArray.insert insertAscending].
  rewrite (after_smaller x y Hx Hy), IH. reflexivity.
Qed.

Lemma sort_is_sortAscending (l : list num) :
  Forall is_fin l -> JSArray.sort ascending l = sortAscending l.
Proof.
  intro F. induction F as [|x l Hx Hl IH]; [reflexivity|].
  cbn [JSArray.sort sortAscending]. rewrite <- IH.
  apply insert_is_insertAscending; [exact Hx|].
  apply ArrayFacts.sort_Forall, Hl.
Qed.

Lemma statistics_of_sample (sqrtQ : Q -> Q) (values : list num) :
  Forall is_fin values -> values <> [] ->
  mean (calculateStatistics sqrtQ values) = arithmeticMean values
  /\ median (calculateStatistics sqrtQ values) = sampleMedian values
  /\ stdDev (calculateStatistics sqrtQ values)
     = standardDeviation sqrtQ values.
Proof.
  intros F Hn.
  rewrite (StatisticsFacts.calculateStatistics_nonempty sqrtQ values Hn).
  cbv zeta. cbn [mean median stdDev].
  rewrite (sort_is_sortAscending values F). repeat split.
Qed.

(** ** The metrics of a unit *)

Lemma positive_or_zero (x : num) :
  nonneg x -> (x >? zero)%num = negb (x === zero)%num.
Proof.
  destruct x as [q| | |]; try contradiction. cbn [nonneg]. intro H.
  unfold num_eqb, zero, of_Z. change (inject_Z 0) with 0.
  destruct (Qeq_bool q 0) eqn:E; cbn [negb].
  - apply Qeq_bool_iff in E. apply NumFacts.gtb_fin_false.
    rewrite E. apply Qle_refl.
  - apply NumFacts.Qeq_bool_false in E. apply NumFacts.gtb_fin. lra.
Qed.

Lemma mul_comm (x y : num) : (x * y)%num = (y * x)%num.
Proof.
  destruct x as [a| | |], y as [b| | |]; try reflexivity.
  cbn [mul]. apply NumFacts.fin_eq. ring.
Qed.

Lemma mul_canonical (x y : num) : NumFacts.canonical (x * y)%num.
Proof.
  destruct x as [a| | |], y as [b| | |]; cbn [mul];
    try exact I; try apply NumFacts.fin_canonical;
    match goal with
    | |- context [?q ?= 0] => destruct (q ?= 0); exact I
    end.
Qed.

Lemma div_canonical (x y : num) : NumFacts.canonical (x / y)%num.
Proof.
  destruct x as [a| | |], y as [b| | |]; cbn [div]; try exact I.
  - destruct (Qeq_bool b 0); [destruct (a ?= 0); exact I|].
    apply NumFacts.fin_canonical.
  - reflexivity.
  - reflexivity.
  - destruct (Qltb b 0); exact I.
  - destruct (Qltb b 0); exact I.
Qed.

Lemma canonical_same (a b : Q) :
  NumFacts.canonical (Fin a) -> NumFacts.canonical (Fin b) -> a == b ->
  Fin a = Fin b.
Proof.
  cbn [NumFacts.canonical]. intros Ca Cb E. f_equal.
  rewrite <- Ca, <- Cb. apply Qred_complete, E.
Qed.

Lemma min_comm (x y : num) :
  NumFacts.canonical x -> NumFacts.canonical y ->
  Math_min x y = Math_min y x.
Proof.
  destruct x as [a| | |], y as [b| | |]; try reflexivity.
  intros Ca Cb. unfold Math_min.
  destruct (Fin b <? Fin a)%num eqn:L1, (Fin a <? Fin b)%num eqn:L2;
    try reflexivity.
  - apply NumFacts.ltb_fin in L1, L2. lra.
  - apply NumFacts.Qltb_ge in L1, L2. apply canonical_same; try assumption.
    lra.
Qed.

Lemma not_zero (x : num) :
  NumFacts.canonical x -> x <> zero -> (x === zero)%num = false.
Proof.
  destruct x as [q| | |]; try reflexivity. intros C N.
  unfold num_eqb, zero, of_Z. change (inject_Z 0) with 0.
  apply NumFacts.Qeq_bool_false. intro E. apply N.
  apply FlowFacts.canonical_zero; assumption.
Qed.

Lemma list_sum_In {A : Type} (f : A -> nat) (x : A) (l : list A) :
  In x l -> (f x <= list_sum (map f l))%nat.
Proof.
  induction l as [|y l IH]; [contradiction|].
  cbn [map]. rewrite GroupFacts.list_sum_cons.
  intros [-> | H]; [lia | specialize (IH H); lia].
Qed.

Section Metrics.
Variable sqrtQ : Q -> Q.
Hypothesis sqrt_nonneg : forall q, 0 <= q -> 0 <= sqrtQ q.
Variable journeys : list PatientJourney.
Hypothesis durations_nonneg :
  Forall (fun s => nonneg (duration s)) (flat_map stages journeys).
Variable unit : jsstring.
Hypothesis sampled : samples journeys unit <> [].

Let analysis : DepartmentAnalysis :=
  withStatistics sqrtQ (BottleneckFacts.rawAnalysis journeys unit).

Let deptAnalysis : JSMap.t DepartmentAnalysis :=
  analyzeDepartmentFlows sqrtQ journeys.

Lemma unit_samples : times analysis = samples journeys unit.
Proof. apply raw_times. Qed.

Lemma unit_statistics :
  mean (calculateStatistics sqrtQ (times analysis))
  = ClassifierSpec.unitMean journeys unit
  /\ median (calculateStatistics sqrtQ (times analysis))
     = ClassifierSpec.unitMedian journeys unit
  /\ stdDev (calculateStatistics sqrtQ (times analysis))
     = ClassifierSpec.unitDeviation sqrtQ journeys unit.
Proof.
  rewrite unit_samples.
  apply statistics_of_sample; [|exact sampled].
  apply Forall_nonneg_fin, RankingFacts.samples_nonneg, durations_nonneg.
Qed.

Lemma unit_times :
  expectedTime analysis = ClassifierSpec.unitMedian journeys unit
  /\ actualTime analysis = ClassifierSpec.unitMean journeys unit.
Proof.
  destruct unit_statistics as (M & D & _). split; [exact D | exact M].
Qed.

Lemma unit_nonneg :
  nonneg (ClassifierSpec.unitMean journeys unit)
  /\ nonneg (ClassifierSpec.unitMedian journeys unit).
Proof.
  destruct unit_statistics as (M & D & _). rewrite <- M, <- D.
  apply statistics_nonneg; [|rewrite unit_samples; exact sampled].
  rewrite unit_samples.
  apply RankingFacts.samples_nonneg, durations_nonneg.
Qed.

Lemma time_deviation :
  timeDeviationOf analysis = ClassifierSpec.timeDeviation journeys unit.
Proof.
  unfold timeDeviationOf, ClassifierSpec.timeDeviation.
  destruct unit_times as [-> ->].
  rewrite (positive_or_zero _ (proj2 unit_nonneg)).
  destruct (_ === zero)%num; reflexivity.
Qed.

Lemma all_samples :
  Forall nonneg (flat_map (samples journeys) (ClassifierSpec.units journeys))
  /\ flat_map (samples journeys) (ClassifierSpec.units journeys) <> [].
Proof.
  split.
  - rewrite Forall_forall. intros x Hx. apply in_flat_map in Hx.
    destruct Hx as (u & _ & Hx).
    pose proof (RankingFacts.samples_nonneg journeys u durations_nonneg) as F.
    rewrite Forall_forall in F. apply F, Hx.
  - intro E.
    assert (H : forall x, In x (samples journeys unit) -> False).
    { intros x Hx.
      assert (Hin : In x (flat_map (samples journeys)
                            (ClassifierSpec.units journeys))).
      { apply in_flat_map. exists unit.
        split; [apply units_In, sampled | exact Hx]. }
      rewrite E in Hin. exact Hin. }
    destruct (samples journeys unit) as [|x l]; [apply sampled; reflexivity|].
    apply (H x). left. reflexivity.
Qed.

Lemma global_deviation :
  stdDev (globalStatsOf sqrtQ deptAnalysis)
  = ClassifierSpec.globalDeviation sqrtQ journeys
  /\ nonneg (ClassifierSpec.globalDeviation sqrtQ journeys).
Proof.
  unfold globalStatsOf, deptAnalysis. rewrite all_times.
  destruct all_samples as [F Hn].
  destruct (statistics_of_sample sqrtQ _ (Forall_nonneg_fin _ F) Hn)
    as (_ & _ & D).
  split; [exact D|]. unfold ClassifierSpec.globalDeviation. rewrite <- D.
  apply (BoundFacts.stdDev_nonneg sqrtQ sqrt_nonneg);
    [apply Forall_nonneg_fin, F | exact Hn].
Qed.

Lemma variance_ratio :
  varianceRatioOf (globalStatsOf sqrtQ deptAnalysis)
    (calculateStatistics sqrtQ (times analysis))
  = ClassifierSpec.varianceRatio sqrtQ journeys unit.
Proof.
  unfold varianceRatioOf, ClassifierSpec.varianceRatio.
  destruct global_deviation as [-> N].
  destruct unit_statistics as (_ & _ & ->).
  rewrite (positive_or_zero _ N).
  destruct (_ === zero)%num; reflexivity.
Qed.

Lemma congestion_indicator :
  congestionIndicatorOf (calculateStatistics sqrtQ (times analysis))
  = ClassifierSpec.congestionIndicator sqrtQ journeys unit.
Proof.
  unfold congestionIndicatorOf, ClassifierSpec.congestionIndicator.
  destruct unit_statistics as (-> & _ & ->).
  rewrite (mul_comm (lit 5 10)). reflexivity.
Qed.

Lemma mean_count_positive :
  (arithmeticMean
     (map (ClassifierSpec.sampleCount journeys) (ClassifierSpec.units journeys))
   >? zero)%num = true.
Proof.
  unfold arithmeticMean, ClassifierSpec.sampleCount.
  rewrite <- (map_map (fun u => List.length (samples journeys u)) of_nat).
  rewrite GroupFacts.sum_of_nat, !length_map.
  pose proof (units_In journeys unit sampled) as Hu.
  pose proof (list_sum_In (fun u => List.length (samples journeys u)) unit _ Hu)
    as Hs.
  assert (H1 : (1 <= List.length (samples journeys unit))%nat).
  { destruct (samples journeys unit); [contradiction sampled; reflexivity|].
    cbn [List.length]. lia. }
  destruct (ClassifierSpec.units journeys) as [|u us]; [contradiction|].
  set (total := list_sum _) in *. cbn [List.length].
  unfold of_nat, of_Z. rewrite NumFacts.div_fin by apply count_nonzero.
  unfold fin, zero, of_Z. apply NumFacts.gtb_fin. rewrite Qred_correct.
  change (inject_Z 0) with 0. apply Qlt_shift_div_l; [apply count_positive|].
  rewrite Qmult_0_l. change 0 with (inject_Z 0). rewrite <- Zlt_Qlt. lia.
Qed.

Lemma volume_percentile :
  volumePercentileOf (volumeStatsOf sqrtQ deptAnalysis) analysis
  = ClassifierSpec.volumePercentile journeys unit.
Proof.
  unfold volumePercentileOf, volumeStatsOf, deptAnalysis,
    ClassifierSpec.volumePercentile.
  rewrite all_volumes.
  assert (Hn : map (ClassifierSpec.sampleCount journeys)
                 (ClassifierSpec.units journeys) <> []).
  { pose proof (units_In journeys unit sampled) as Hu.
    destruct (ClassifierSpec.units journeys); [contradiction | discriminate]. }
  assert (F : Forall is_fin
                (map (ClassifierSpec.sampleCount journeys)
                   (ClassifierSpec.units journeys))).
  { rewrite Forall_forall. intros x Hx. apply in_map_iff in Hx.
    destruct Hx as (u & <- & _). exact I. }
  destruct (statistics_of_sample sqrtQ _ F Hn) as (-> & _ & _).
  rewrite mean_count_positive.
  unfold analysis, withStatistics. cbn [patientVolume].
  rewrite (proj2 (raw_times journeys unit)). reflexivity.
Qed.

Lemma delay_propagation :
  ClassifierSpec.unitMean journeys unit <> zero ->
  delayPropagationScoreOf analysis
  = ClassifierSpec.delayPropagationScore ClassifierSpec.positiveWait journeys
      unit.
Proof.
  intro Nz.
  unfold delayPropagationScoreOf, ClassifierSpec.delayPropagationScore.
  rewrite (proj2 unit_times). unfold analysis. rewrite average_delay.
  rewrite (not_zero (ClassifierSpec.unitMean journeys unit)
             (div_canonical _ _) Nz).
  apply min_comm; [apply mul_canonical | reflexivity].
Qed.

(** The type decided in the loop is the type of the first-match rule. *)
Lemma type_in_loop :
  ClassifierSpec.unitMean journeys unit <> zero ->
  BottleneckFacts.typeInLoop sqrtQ (globalStatsOf sqrtQ deptAnalysis)
    (volumeStatsOf sqrtQ deptAnalysis) analysis
  = ClassifierSpec.assignedType sqrtQ ClassifierSpec.positiveWait journeys
      unit.
Proof.
  intro Nz. unfold BottleneckFacts.typeInLoop, ClassifierSpec.assignedType.
  rewrite BottleneckFacts.bottleneckTypeOf_firstMatch.
  rewrite volume_percentile, (delay_propagation Nz), time_deviation,
    variance_ratio, congestion_indicator.
  reflexivity.
Qed.

End Metrics.

(** A unit that is reported has at least three samples. *)
Lemma reported_samples (sqrtQ : Q -> Q) (journeys : list PatientJourney)
  (unit : jsstring) (type : BottleneckType) :
  reported sqrtQ journeys unit type ->
  (3 <= List.length (samples journeys unit))%nat.
Proof.
  intro R. apply BottleneckFacts.reported_detected in R.
  destruct R as (b & Hb & <- & _).
  apply BottleneckFacts.detectedUnits_In in Hb.
  destruct Hb as (u & analysis & Hin & D).
  apply BottleneckFacts.detectUnit_Some in D. destruct D as (<- & L & _).
  destruct (BottleneckFacts.analysis_times sqrtQ journeys _ _ Hin)
    as (_ & <- & _).
  exact L.
Qed.

(** A unit is reported with a type when the pair is among the labels of the
    records. *)
Lemma reported_label (sqrtQ : Q -> Q) (journeys : list PatientJourney)
  (unit : jsstring) (type : BottleneckType) :
  In (unit, type)
    (map BottleneckFacts.label (detectBottlenecks sqrtQ journeys)) ->
  reported sqrtQ journeys unit type.
Proof.
  intro H. apply in_map_iff in H. destruct H as (b & E & Hb).
  inversion E. exists b. auto.
Qed.

End ClassifierFacts.

(** C1, as the source has it: on the journeys of the reconstructor, and for
    a square root that is never negative, a unit whose mean duration is not
    0 is reported with a type if and only if it has at least 3 duration
    samples and the ordered first-match rule assigns it that type (moderate
    load and delay-propagation score > 30: invisible; otherwise high load
    and time-deviation > 50: obvious; otherwise variance-ratio > 1.3 and
    congestion-indicator > 0.8: emerging; otherwise none), where the
    metrics are those of the specification computed from the journeys and
    the downstream delays count only the waits above 0.  A unit with fewer
    than 3 samples, so one with exactly 2, is never reported. *)
Theorem C1_reported_iff_three_samples_and_first_match
  (sqrtQ : Q -> Q) (department : option jsstring)
  (flowLogs : list PatientFlow.FlowLog) (unit : jsstring)
  (type : BottleneckDetection.BottleneckType) :
  (forall q, 0 <= q -> 0 <= sqrtQ q) ->
  let journeys := PatientFlow.getPatientJourneys department flowLogs in
  ((List.length (BottleneckSpec.samples journeys unit) < 3)%nat ->
   ~ BottleneckSpec.reported sqrtQ journeys unit type)
  /\ (ClassifierSpec.unitMean journeys unit <> zero ->
      (BottleneckSpec.reported sqrtQ journeys unit type <->
       (3 <= List.length (BottleneckSpec.samples journeys unit))%nat
       /\ ClassifierSpec.assignedType sqrtQ ClassifierSpec.positiveWait
            journeys unit
          = Some type)).
Proof.
  intros sqrt_nonneg journeys.
  assert (F := RankingFacts.reconstructed_nonneg department flowLogs).
  fold journeys in F.
  assert (S : (3 <= List.length (BottleneckSpec.samples journeys unit))%nat ->
              BottleneckSpec.samples journeys unit <> []).
  { intros L E. rewrite E in L. cbn in L. lia. }
  split; [intros L R; apply ClassifierFacts.reported_samples in R; lia|].
  intro Nz. split.
  - intro R. pose proof (ClassifierFacts.reported_samples _ _ _ _ R) as L.
    split; [exact L|].
    apply BottleneckFacts.reported_detected in R.
    destruct R as (b & Hb & <- & <-).
    apply BottleneckFacts.detectedUnits_In in Hb.
    destruct Hb as (u & analysis & Hin & D).
    apply BottleneckFacts.detectUnit_Some in D. destruct D as (<- & _ & T).
    apply BottleneckFacts.analysis_In in Hin. destruct Hin as [_ ->].
    rewrite <- T. symmetry.
    apply (ClassifierFacts.type_in_loop sqrtQ sqrt_nonneg journeys F _ (S L)
             Nz).
  - intros [L T].
    apply BottleneckFacts.reported_detected.
    set (analysis :=
           BottleneckDetection.withStatistics sqrtQ
             (BottleneckFacts.rawAnalysis journeys unit)).
    assert (Hin : In (unit, analysis)
                    (BottleneckDetection.analyzeDepartmentFlows sqrtQ
                       journeys)).
    { rewrite ClassifierFacts.analysis_entries. apply in_map_iff.
      exists unit.
      split; [reflexivity | apply ClassifierFacts.units_In, S, L]. }
    destruct (BottleneckFacts.detectUnit_exists sqrtQ
                (BottleneckDetection.globalStatsOf sqrtQ
                   (BottleneckDetection.analyzeDepartmentFlows sqrtQ journeys))
                (BottleneckDetection.volumeStatsOf sqrtQ
                   (BottleneckDetection.analyzeDepartmentFlows sqrtQ journeys))
                unit analysis type) as (b & D & Hn & Ht).
    + unfold analysis.
      rewrite (ClassifierFacts.unit_samples sqrtQ journeys unit). exact L.
    + rewrite <- T.
      apply (ClassifierFacts.type_in_loop sqrtQ sqrt_nonneg journeys F _ (S L)
               Nz).
    + exists b. split; [|auto].
      apply BottleneckFacts.detectedUnits_In. exists unit, analysis. auto.
Qed.

Lemma C1_witness :
  let journeys := BottleneckExamples.clinicJourneys in
  BottleneckSpec.reported sqrt_approx journeys (str "Scan")
    BottleneckDetection.obvious
  /\ BottleneckSpec.reported sqrt_approx journeys (str "Laboratory")
       BottleneckDetection.emerging
  /\ BottleneckSpec.reported sqrt_approx journeys (str "Intake")
       BottleneckDetection.invisible
  /\ ~ BottleneckSpec.reported sqrt_approx journeys (str "Desk")
         BottleneckDetection.emerging
  /\ ~ BottleneckSpec.reported sqrt_approx journeys (str "Pharmacy")
         BottleneckDetection.invisible.
Proof.
  intro journeys. subst journeys. unfold BottleneckExamples.clinicJourneys.
  pose proof (fun unit type =>
                C1_reported_iff_three_samples_and_first_match sqrt_approx None
                  BottleneckExamples.clinicRows unit type
                  BoundFacts.sqrt_approx_nonneg) as T.
  cbv zeta in T.
  split; [|split; [|split; [|split]]].
  - refine (proj2 (proj2 (T (str "Scan") BottleneckDetection.obvious) _)
              (conj _ _)).
    + vm_compute. discriminate.
    + vm_compute. lia.
    + vm_compute. reflexivity.
  - refine (proj2 (proj2 (T (str "Laboratory") BottleneckDetection.emerging) _)
              (conj _ _)).
    + vm_compute. discriminate.
    + vm_compute. lia.
    + vm_compute. reflexivity.
  - refine (proj2 (proj2 (T (str "Intake") BottleneckDetection.invisible) _)
              (conj _ _)).
    + vm_compute. discriminate.
    + vm_compute. lia.
    + vm_compute. reflexivity.
  - intro R.
    refine (_ (proj2 (proj1 (proj2 (T (str "Desk")
                                      BottleneckDetection.emerging) _) R))).
    + vm_compute. discriminate.
    + vm_compute. discriminate.
  - refine (proj1 (T (str "Pharmacy") BottleneckDetection.invisible) _).
    vm_compute. lia.
Defined.

(** C1 as stated fails where a wait of 0 follows a stage of the unit.  At
    the Intake one patient goes on to the Scan at once and one waits 50
    minutes for the Laboratory: summed per next unit and averaged, the
    waits give a downstream delay of 25 minutes and, with the mean of 100
    minutes, a delay-propagation score of 25, so the rule assigns no type.
    The source leaves out the wait of 0, and with it the Scan: its score is
    50, and the Intake is reported as invisible. *)
Lemma C1_counterexample :
  let journeys := BottleneckExamples.clinicJourneys in
  ClassifierSpec.delayPropagationScore ClassifierSpec.everyWait journeys
    (str "Intake") = of_Z 25
  /\ ClassifierSpec.assignedType sqrt_approx ClassifierSpec.everyWait journeys
       (str "Intake") = None
  /\ BottleneckSpec.reported sqrt_approx journeys (str "Intake")
       BottleneckDetection.invisible
  /\ ~ (BottleneckSpec.reported sqrt_approx journeys (str "Intake")
          BottleneckDetection.invisible
        <-> (3 <= List.length
                    (BottleneckSpec.samples journeys (str "Intake")))%nat
            /\ ClassifierSpec.assignedType sqrt_approx
                 ClassifierSpec.everyWait journeys (str "Intake")
               = Some BottleneckDetection.invisible).
Proof.
  intro journeys.
  assert (R : BottleneckSpec.reported sqrt_approx journeys (str "Intake")
                BottleneckDetection.invisible).
  { apply ClassifierFacts.reported_label. vm_compute. auto. }
  split; [vm_compute; reflexivity|]. split; [vm_compute; reflexivity|].
  split; [exact R|].
  intros [H _]. destruct (H R) as [_ T]. vm_compute in T. discriminate.
Qed.

(* ------------------------------------------------------------------ *)
(** * The two normalisers *)

Module NormaliserFacts.

Import BottleneckDetection.

Lemma positive_not_zero (s : Q) : 0 < s -> (Fin s === zero)%num = false.
Proof.
  intro H. unfold num_eqb, zero, of_Z. apply NumFacts.Qeq_bool_false.
  change (inject_Z 0) with 0. lra.
Qed.

Lemma quotient (a s : Q) :
  0 < s -> (Fin a / Fin s)%num = fin (a / s).
Proof. intro H. apply NumFacts.div_fin. lra. Qed.

Lemma quotient_sign (a s : Q) : 0 < s -> (0 < a / s <-> 0 < a).
Proof.
  intro H. split; intro P.
  - setoid_replace a with (a / s * s) by (field; lra).
    apply Qmult_lt_0_compat; assumption.
  - apply Qlt_shift_div_l; lra.
Qed.

Lemma quotient_le (a b s : Q) : 0 < s -> (a / s <= b / s <-> a <= b).
Proof.
  intro H. unfold Qdiv. split; intro P.
  - apply (Qmult_le_r a b (/ s)); [apply Qinv_lt_0_compat, H | exact P].
  - apply (Qmult_le_r a b (/ s)); [apply Qinv_lt_0_compat, H | exact P].
Qed.

Lemma difference_quotient (a b s : Q) :
  0 < s -> ((Fin a - Fin b) / Fin s)%num = fin ((a - b) / s).
Proof.
  intro H. rewrite NumFacts.sub_fin. unfold fin at 1.
  rewrite (quotient _ s H). apply NumFacts.fin_eq.
  rewrite Qred_correct. reflexivity.
Qed.

Lemma zScore_value (value mean stdDev : Q) :
  0 < stdDev ->
  calculateZScore (Fin value) (Fin mean) (Fin stdDev)
  = fin ((value - mean) / stdDev).
Proof.
  intro S. unfold calculateZScore. rewrite (positive_not_zero stdDev S).
  apply difference_quotient, S.
Qed.

Lemma fin_zero_iff (q : Q) : fin q = zero <-> q == 0.
Proof.
  unfold fin, zero, of_Z. change (inject_Z 0) with 0. split; intro H.
  - inversion H as [E]. rewrite <- (Qred_correct q), E. reflexivity.
  - f_equal. apply NumFacts.Qred_zero, H.
Qed.

End NormaliserFacts.

(** X7: for a positive standard deviation the z-score has the sign of the
    difference between the value and the mean, it is 0 exactly when the two
    are equal, and it never reverses the order of two values: a value that
    is not larger gets a z-score that is not larger, and a strictly smaller
    z-score comes from a strictly smaller value. *)
Theorem z_score_follows_the_value (value value' mean stdDev : Q) :
  0 < stdDev ->
  let z := BottleneckDetection.calculateZScore (Fin value) (Fin mean)
             (Fin stdDev) in
  let z' := BottleneckDetection.calculateZScore (Fin value') (Fin mean)
              (Fin stdDev) in
  (z >? zero)%num = (Fin value >? Fin mean)%num
  /\ (z <? zero)%num = (Fin value <? Fin mean)%num
  /\ (z = zero <-> value == mean)
  /\ ((Fin value <=? Fin value')%num = true -> (z <=? z')%num = true)
  /\ ((z <? z')%num = true -> (Fin value <? Fin value')%num = true).
Proof.
  intros S z z'. subst z z'.
  rewrite !(NormaliserFacts.zScore_value _ mean stdDev S).
  assert (P := NormaliserFacts.quotient_sign (value - mean) stdDev S).
  assert (N := NormaliserFacts.quotient_sign (mean - value) stdDev S).
  assert (E : (mean - value) / stdDev == - ((value - mean) / stdDev))
    by (field; lra).
  assert (L := NormaliserFacts.quotient_le (value - mean) (value' - mean)
                 stdDev S).
  split; [|split; [|split; [|split]]].
  - apply eq_true_iff_eq. unfold fin, zero, of_Z.
    rewrite !NumFacts.gtb_fin, Qred_correct. change (inject_Z 0) with 0.
    rewrite P. split; intro; lra.
  - apply eq_true_iff_eq. unfold fin, zero, of_Z.
    rewrite !NumFacts.ltb_fin, Qred_correct. change (inject_Z 0) with 0.
    split; intro H.
    + assert (H' : 0 < (mean - value) / stdDev) by lra.
      apply N in H'. lra.
    + assert (H' : 0 < mean - value) by lra. apply N in H'. lra.
  - rewrite NormaliserFacts.fin_zero_iff. split; intro H.
    + assert (H1 : ~ 0 < value - mean) by (intro X; apply P in X; lra).
      assert (H2 : ~ 0 < mean - value) by (intro X; apply N in X; lra).
      lra.
    + rewrite H. field. lra.
  - unfold fin. rewrite !NumFacts.leb_fin, !Qred_correct.
    intro H. apply L. lra.
  - unfold fin. rewrite !NumFacts.ltb_fin, !Qred_correct.
    intro H.
    destruct (Qlt_le_dec value value') as [V | V]; [exact V|].
    assert (V' : value' - mean <= value - mean) by lra.
    apply (NormaliserFacts.quotient_le _ _ stdDev S) in V'. lra.
Qed.

Lemma z_score_witness :
  BottleneckDetection.calculateZScore (of_Z 150) (of_Z 90) (of_Z 30) = of_Z 2
  /\ (BottleneckDetection.calculateZScore (of_Z 150) (of_Z 90) (of_Z 30)
      >? zero)%num = (of_Z 150 >? of_Z 90)%num.
Proof.
  split; [reflexivity|].
  exact (proj1 (z_score_follows_the_value 150 150 90 30 eq_refl)).
Defined.

(** X8: for a positive interquartile range the IQR position is never
    negative, and it is 0 exactly when the value lies between the two
    quartiles, bounds included. *)
Theorem iqr_position_measures_the_distance (value q1 q3 iqr : Q) :
  0 < iqr ->
  let position :=
    BottleneckDetection.calculateIQRPosition (Fin value) (Fin q1) (Fin q3)
      (Fin iqr) in
  (zero <=? position)%num = true
  /\ (position = zero <-> q1 <= value /\ value <= q3).
Proof.
  intros R position. subst position.
  unfold BottleneckDetection.calculateIQRPosition.
  rewrite (NormaliserFacts.positive_not_zero iqr R).
  destruct (Fin value <? Fin q1)%num eqn:L.
  - apply NumFacts.ltb_fin in L.
    rewrite (NormaliserFacts.difference_quotient _ _ iqr R).
    assert (P : 0 < (q1 - value) / iqr).
    { apply (NormaliserFacts.quotient_sign _ iqr R). lra. }
    split.
    + unfold fin, zero, of_Z. apply NumFacts.leb_fin. rewrite Qred_correct.
      change (inject_Z 0) with 0. lra.
    + rewrite NormaliserFacts.fin_zero_iff. split; intro H; lra.
  - apply NumFacts.Qltb_ge in L.
    destruct (Fin value >? Fin q3)%num eqn:G.
    + apply NumFacts.gtb_fin in G.
      rewrite (NormaliserFacts.difference_quotient _ _ iqr R).
      assert (P : 0 < (value - q3) / iqr).
      { apply (NormaliserFacts.quotient_sign _ iqr R). lra. }
      split.
      * unfold fin, zero, of_Z. apply NumFacts.leb_fin. rewrite Qred_correct.
        change (inject_Z 0) with 0. lra.
      * rewrite NormaliserFacts.fin_zero_iff. split; intro H; lra.
    + apply NumFacts.gtb_fin_false in G. split; [reflexivity|].
      split; [intros _; split; assumption | reflexivity].
Qed.

Lemma iqr_position_witness :
  BottleneckDetection.calculateIQRPosition (of_Z 20) (of_Z 30) (of_Z 150)
    (of_Z 120) = lit 1 12
  /\ (zero
      <=? BottleneckDetection.calculateIQRPosition (of_Z 20) (of_Z 30)
            (of_Z 150) (of_Z 120))%num = true.
Proof.
  split; [reflexivity|].
  apply (iqr_position_measures_the_distance 20 30 150 120). reflexivity.
Defined.

(* ------------------------------------------------------------------ *)
(** * The readmission score and its factors *)

Module TallyFacts.

Import Records Readmission ReadmissionSpec.

Definition sumZ (zs : list Z) : Z := fold_right Z.add 0%Z zs.

Lemma sumZ_app (l1 l2 : list Z) : sumZ (l1 ++ l2) = (sumZ l1 + sumZ l2)%Z.
Proof.
  induction l1 as [|z l1 IH]; [reflexivity|].
  cbn [app sumZ fold_right] in *. fold (sumZ (l1 ++ l2)). fold (sumZ l1).
  rewrite IH. lia.
Qed.

Lemma sumZ_perm (l l' : list Z) : Permutation l l' -> sumZ l = sumZ l'.
Proof.
  induction 1 as [|z l l' _ IH|y z l|l1 l2 l3 _ IH1 _ IH2].
  - reflexivity.
  - cbn [sumZ fold_right] in *. fold (sumZ l). fold (sumZ l'). lia.
  - cbn [sumZ fold_right]. lia.
  - lia.
Qed.

Lemma fold_add_of_Z (zs : list Z) (a : Z) :
  fold_left add (map of_Z zs) (of_Z a) = of_Z (a + sumZ zs).
Proof.
  revert a. induction zs as [|z zs IH]; intro a.
  - cbn [map fold_left sumZ fold_right]. f_equal. lia.
  - cbn [map fold_left sumZ fold_right]. fold (sumZ zs).
    rewrite NumFacts.add_of_Z, IH. f_equal. lia.
Qed.

(** The sum of a list of integers does not depend on the order. *)
Lemma sum_perm_Z (l : list num) (zs : list Z) :
  Permutation l (map of_Z zs) -> JSNum.sum l = of_Z (sumZ zs).
Proof.
  intro P. apply Permutation_map_inv in P. destruct P as (zs' & -> & P).
  unfold JSNum.sum. change zero with (of_Z 0). rewrite fold_add_of_Z.
  f_equal. cbn [Z.add]. apply sumZ_perm, Permutation_sym, P.
Qed.

(** The factors pushed so far carry positive integer impacts, and the score
    so far is their sum. *)
Definition tallied (p : Progress) : Prop :=
  exists zs,
    map impact (fst p) = map of_Z zs
    /\ snd p = of_Z (sumZ zs)
    /\ Forall (fun z => (0 < z)%Z) zs.

Lemma push_tallied (name : string) (z : Z) (p : Progress) :
  (0 < z)%Z -> tallied p -> tallied (push name (of_Z z) p).
Proof.
  intros Hz (zs & M & S & F). exists (zs ++ [z]).
  unfold push. cbn [fst snd]. rewrite !map_app, M, S, sumZ_app.
  cbn [map impact sumZ fold_right]. rewrite NumFacts.add_of_Z, Z.add_0_r.
  repeat split. apply Forall_app. split; [exact F|].
  constructor; [exact Hz | constructor].
Qed.

Lemma stepLengthOfStay_tallied (record : PatientRecord) (p : Progress) :
  tallied p -> tallied (stepLengthOfStay record p).
Proof.
  intro T. unfold stepLengthOfStay.
  destruct (_ >? zero)%num; [|exact T].
  destruct (_ <? of_Z 2)%num; [apply push_tallied; [lia | exact T]|].
  destruct (_ >? of_Z 14)%num; [apply push_tallied; [lia | exact T]|].
  exact T.
Qed.

Lemma stepOperationalDelay_tallied (record : PatientRecord) (p : Progress) :
  tallied p -> tallied (stepOperationalDelay record p).
Proof.
  intro T. unfold stepOperationalDelay.
  rewrite ReadmissionFacts.operationalDelayScore_points.
  change zero with (of_Z 0). rewrite NumFacts.gtb_of_Z.
  destruct (0 <? waitPoints record)%Z eqn:G; [|exact T].
  apply Z.ltb_lt in G. apply push_tallied; assumption.
Qed.

Lemma stepTransfers_tallied (record : PatientRecord) (p : Progress) :
  tallied p -> tallied (stepTransfers record p).
Proof.
  intro T. unfold stepTransfers.
  destruct (journeySteps record) as [steps|]; [|exact T].
  destruct (5 <? List.length steps)%nat; [|exact T].
  apply push_tallied; [lia | exact T].
Qed.

Lemma stepHistory_tallied (record : PatientRecord)
  (historicalRecords : list PatientRecord) (p : Progress) :
  tallied p -> tallied (stepHistory record historicalRecords p).
Proof.
  intro T. unfold stepHistory.
  destruct (0 <? List.length (patientHistoryOf record historicalRecords))%nat;
    [|exact T].
  destruct (recentVisitsOf record
              (patientHistoryOf record historicalRecords)) as [|v vs];
    [exact T|].
  change (0 <? List.length (v :: vs))%nat with true. cbv iota.
  rewrite ReadmissionFacts.of_nat_mul, ReadmissionFacts.Math_min_of_Z.
  apply push_tallied; [|exact T]. cbn [List.length]. lia.
Qed.

Section Host.
Variable getDay : Z -> Z.

Lemma stepWeekend_tallied (record : PatientRecord) (p : Progress) :
  tallied p -> tallied (stepWeekend getDay record p).
Proof.
  intro T. unfold stepWeekend.
  destruct (admissionDate record) as [a|]; [|exact T].
  destruct ((getDay a =? 5)%Z || (getDay a =? 6)%Z); [|exact T].
  apply push_tallied; [lia | exact T].
Qed.

Lemma factors_tallied (record : PatientRecord)
  (historicalRecords : list PatientRecord) :
  tallied
    (stepWeekend getDay record
       (stepHistory record historicalRecords
          (stepTransfers record
             (stepOperationalDelay record
                (stepLengthOfStay record ([], zero)))))).
Proof.
  apply stepWeekend_tallied, stepHistory_tallied, stepTransfers_tallied,
    stepOperationalDelay_tallied, stepLengthOfStay_tallied.
  exists []. repeat split. constructor.
Qed.

End Host.

Lemma points_range (record : PatientRecord)
  (historicalRecords : list PatientRecord) :
  (0 <= stayPoints record <= 25)%Z
  /\ (0 <= waitPoints record <= 30)%Z
  /\ (0 <= transferPoints record <= 15)%Z
  /\ (0 <= historyPoints record historicalRecords <= 30)%Z.
Proof.
  unfold stayPoints, waitPoints, transferPoints, historyPoints.
  repeat split;
    repeat match goal with
           | |- context [match ?x with _ => _ end] => destruct x
           end; lia.
Qed.

Lemma waitPoints_values (record : PatientRecord) :
  In (of_Z (waitPoints record)) [zero; of_Z 10; of_Z 20; of_Z 30].
Proof.
  unfold waitPoints.
  destruct (journeySteps record) as [[|s steps]|]; cbn [In]; auto.
  destruct (_ >? of_Z 120)%num; [auto|].
  destruct (_ >? of_Z 90)%num; [auto|].
  destruct (_ >? of_Z 60)%num; auto.
Qed.

End TallyFacts.

(** X9: the risk score of predictReadmissionRisk is the sum of the impacts
    of the contributing factors it lists, every listed impact is positive,
    and the score lies between 0 and 110: it is not capped at 100.  The
    delay influence is 0, 10, 20 or 30. *)
Theorem readmission_score_adds_the_listed_impacts
  (getDay : Z -> Z) (record : Records.PatientRecord)
  (historicalRecords : list Records.PatientRecord) :
  let risk :=
    Readmission.predictReadmissionRisk getDay record historicalRecords in
  Readmission.riskScore risk
  = JSNum.sum (map Readmission.impact (Readmission.contributingFactors risk))
  /\ Forall (fun f => (Readmission.impact f >? zero)%num = true)
       (Readmission.contributingFactors risk)
  /\ (zero <=? Readmission.riskScore risk)%num = true
  /\ (Readmission.riskScore risk <=? of_Z 110)%num = true
  /\ In (Readmission.delayInfluence risk) [zero; of_Z 10; of_Z 20; of_Z 30].
Proof.
  intro risk.
  assert (R := ReadmissionFacts.riskScore_sum getDay record
                 historicalRecords).
  fold risk in R.
  destruct (TallyFacts.points_range record historicalRecords)
    as (P1 & P2 & P3 & P4).
  assert (P5 : (0 <= (if ReadmissionFacts.hostWeekend getDay
                            (Records.admissionDate record)
                      then 10 else 0) <= 10)%Z)
    by (destruct (ReadmissionFacts.hostWeekend getDay _); lia).
  destruct (TallyFacts.factors_tallied getDay record historicalRecords)
    as (zs & M & S & F).
  assert (P : Permutation
                (map Readmission.impact (Readmission.contributingFactors risk))
                (map of_Z zs)).
  { rewrite <- M. apply Permutation_map, ArrayFacts.sort_perm. }
  split; [|split; [|split; [|split]]].
  - rewrite (TallyFacts.sum_perm_Z _ zs P). exact S.
  - rewrite Forall_forall. intros f Hf.
    apply (in_map Readmission.impact) in Hf.
    apply (Permutation_in _ P) in Hf. apply in_map_iff in Hf.
    destruct Hf as (z & <- & Hz). rewrite Forall_forall in F.
    change zero with (of_Z 0). rewrite NumFacts.gtb_of_Z.
    apply Z.ltb_lt, F, Hz.
  - rewrite R. change (zero <=? ?x)%num with (x >=? of_Z 0)%num.
    rewrite NumFacts.geb_of_Z. apply Z.leb_le. lia.
  - rewrite R. change (?x <=? of_Z 110)%num with (of_Z 110 >=? x)%num.
    rewrite NumFacts.geb_of_Z. apply Z.leb_le. lia.
  - unfold risk, Readmission.predictReadmissionRisk.
    cbn [Readmission.delayInfluence].
    rewrite ReadmissionFacts.operationalDelayScore_points.
    apply TallyFacts.waitPoints_values.
Qed.

Lemma readmission_score_witness :
  let risk :=
    Readmission.predictReadmissionRisk ReadmissionExamples.getDayUTC
      CohortExamples.crowdedStay CohortExamples.cohort in
  Readmission.riskScore risk = of_Z 110
  /\ map Readmission.impact (Readmission.contributingFactors risk)
     = [of_Z 30; of_Z 30; of_Z 25; of_Z 15; of_Z 10]
  /\ Readmission.riskScore risk
     = JSNum.sum
         (map Readmission.impact (Readmission.contributingFactors risk)).
Proof.
  split; [vm_compute; reflexivity|]. split; [vm_compute; reflexivity|].
  apply (readmission_score_adds_the_listed_impacts
           ReadmissionExamples.getDayUTC CohortExamples.crowdedStay
           CohortExamples.cohort).
Defined.

(* ------------------------------------------------------------------ *)
(** * The high-risk units and the high-risk cohort *)

Module CohortFacts.

Import Records Readmission ReadmissionCohort MapFacts.

Lemma includes_In (l : list jsstring) (s : jsstring) :
  includes l s = true <-> In s l.
Proof.
  unfold includes. rewrite existsb_exists. split.
  - intros (x & Hx & E). apply streq_eq in E. subst. exact Hx.
  - intro H. exists s. split; [exact H | apply streq_refl].
Qed.

(** The steps of a record; none when the property is absent. *)
Definition stepsOf (record : PatientRecord) : list JourneyStep :=
  match journeySteps record with
  | Some steps => steps
  | None => []
  end.

Definition longWait (step : JourneyStep) : bool :=
  (waitTimeMinutes step >? of_Z 120)%num.

Lemma highRisk_fold (steps : list JourneyStep) (acc : list jsstring) :
  NoDup acc ->
  NoDup
    (fold_left
       (fun highRiskDepts step =>
          if (waitTimeMinutes step >? of_Z 120)%num
             && negb (includes highRiskDepts (departmentId step))
          then highRiskDepts ++ [departmentId step]
          else highRiskDepts)
       steps acc)
  /\ forall d,
       In d
         (fold_left
            (fun highRiskDepts step =>
               if (waitTimeMinutes step >? of_Z 120)%num
                  && negb (includes highRiskDepts (departmentId step))
               then highRiskDepts ++ [departmentId step]
               else highRiskDepts)
            steps acc)
       <-> In d acc
           \/ exists step,
                In step steps /\ departmentId step = d
                /\ longWait step = true.
Proof.
  revert acc. induction steps as [|s steps IH]; intros acc ND.
  - cbn [fold_left]. split; [exact ND|]. intro d. split; [auto|].
    intros [H | (step & [] & _)]. exact H.
  - cbn [fold_left].
    destruct ((waitTimeMinutes s >? of_Z 120)%num
              && negb (includes acc (departmentId s))) eqn:C.
    + apply andb_true_iff in C. destruct C as [W N].
      apply negb_true_iff in N.
      assert (Hn : ~ In (departmentId s) acc).
      { intro I. apply includes_In in I. congruence. }
      assert (ND' : NoDup (acc ++ [departmentId s])).
      { apply NoDup_rev in ND.
        rewrite <- (rev_involutive (acc ++ [departmentId s])).
        apply NoDup_rev. rewrite rev_app_distr. cbn [rev app].
        constructor; [|exact ND]. rewrite <- in_rev. exact Hn. }
      destruct (IH _ ND') as [N1 N2]. split; [exact N1|].
      intro d. rewrite N2, in_app_iff. cbn [In]. split.
      * intros [[H | [H | []]] | (step & Hs & E & L)].
        -- left. exact H.
        -- right. exists s.
           split; [left; reflexivity | split; [exact H | exact W]].
        -- right. exists step.
           split; [right; exact Hs | split; assumption].
      * intros [H | (step & [<- | Hs] & E & L)].
        -- left. left. exact H.
        -- left. right. left. exact E.
        -- right. exists step. split; [exact Hs | split; assumption].
    + destruct (IH _ ND) as [N1 N2]. split; [exact N1|].
      intro d. rewrite N2. split.
      * intros [H | (step & Hs & E & L)]; [left; exact H|].
        right. exists step. split; [right; exact Hs | split; assumption].
      * intros [H | (step & [<- | Hs] & E & L)].
        -- left. exact H.
        -- left. unfold longWait in L. rewrite L in C. cbn [andb] in C.
           apply negb_false_iff in C. apply includes_In in C.
           rewrite <- E. exact C.
        -- right. exists step. split; [exact Hs | split; assumption].
Qed.

Lemma riskLevel_of_score (getDay : Z -> Z) (record : PatientRecord)
  (historicalRecords : list PatientRecord) :
  isHighOrCritical
    (riskLevel (predictReadmissionRisk getDay record historicalRecords))
  = (riskScore (predictReadmissionRisk getDay record historicalRecords)
     >=? of_Z 50)%num.
Proof.
  rewrite (ReadmissionFacts.riskScore_sum getDay record historicalRecords).
  unfold predictReadmissionRisk. cbn [riskLevel].
  change (snd _) with
    (riskScore (predictReadmissionRisk getDay record historicalRecords)).
  rewrite (ReadmissionFacts.riskScore_sum getDay record historicalRecords).
  unfold riskLevelOf. rewrite !NumFacts.geb_of_Z.
  set (n := (_ + _)%Z).
  destruct (70 <=? n)%Z eqn:E70.
  - apply Z.leb_le in E70. symmetry. apply Z.leb_le. lia.
  - destruct (50 <=? n)%Z; [reflexivity|].
    destruct (30 <=? n)%Z; reflexivity.
Qed.

End CohortFacts.

(** X10: identifyHighRiskDepartments lists, each once, exactly the units of
    the steps of the record that waited more than 120 minutes. *)
Theorem high_risk_departments_are_the_long_waits
  (record : Records.PatientRecord) :
  NoDup (Readmission.identifyHighRiskDepartments record)
  /\ forall d,
       In d (Readmission.identifyHighRiskDepartments record)
       <-> exists step,
             In step (CohortFacts.stepsOf record)
             /\ Records.departmentId step = d
             /\ (Records.waitTimeMinutes step >? of_Z 120)%num = true.
Proof.
  unfold Readmission.identifyHighRiskDepartments, CohortFacts.stepsOf.
  destruct (Records.journeySteps record) as [steps|].
  - destruct (CohortFacts.highRisk_fold steps [] (NoDup_nil _)) as [N1 N2].
    split; [exact N1|]. intro d. rewrite N2. split.
    + intros [[] | H]. exact H.
    + intro H. right. exact H.
  - split; [constructor|]. intro d. split; [intros [] |].
    intros (step & [] & _).
Qed.

(** X11: identifyHighRiskPatients returns the predictions of exactly the
    discharged records whose score is at least 50, that is whose level is
    high or critical, in non-increasing order of score. *)
Theorem high_risk_patients_are_sorted_and_complete
  (getDay : Z -> Z) (records historicalRecords : list Records.PatientRecord) :
  let risks :=
    ReadmissionCohort.identifyHighRiskPatients getDay records
      historicalRecords in
  StronglySorted
    (fun a b => (Readmission.riskScore a >=? Readmission.riskScore b)%num
                = true)
    risks
  /\ Forall
       (fun risk =>
          ReadmissionCohort.isHighOrCritical (Readmission.riskLevel risk)
          = true)
       risks
  /\ forall risk,
       In risk risks
       <-> exists record,
             In record records
             /\ Records.dischargeDate record <> None
             /\ risk = Readmission.predictReadmissionRisk getDay record
                         historicalRecords
             /\ (Readmission.riskScore risk >=? of_Z 50)%num = true.
Proof.
  intro risks.
  assert (M : forall risk,
             In risk risks
             <-> exists record,
                   In record records
                   /\ Records.dischargeDate record <> None
                   /\ risk = Readmission.predictReadmissionRisk getDay record
                               historicalRecords
                   /\ (Readmission.riskScore risk >=? of_Z 50)%num = true).
  { intro risk. unfold risks, ReadmissionCohort.identifyHighRiskPatients.
    rewrite ArrayFacts.sort_In, filter_In, in_map_iff. split.
    - intros ((record & <- & Hr) & L). apply filter_In in Hr.
      destruct Hr as [Hr D]. exists record.
      rewrite CohortFacts.riskLevel_of_score in L.
      repeat split; try assumption.
      unfold ReadmissionCohort.discharged in D.
      destruct (Records.dischargeDate record); [discriminate | discriminate].
    - intros (record & Hr & D & -> & L). split.
      + exists record. split; [reflexivity|]. apply filter_In.
        split; [exact Hr|]. unfold ReadmissionCohort.discharged.
        destruct (Records.dischargeDate record); [reflexivity | contradiction].
      + rewrite CohortFacts.riskLevel_of_score. exact L. }
  split; [|split; [|exact M]].
  - apply (@ArrayFacts.sort_descending _ Readmission.riskScore).
    rewrite Forall_forall. intros risk Hr. apply filter_In in Hr.
    destruct Hr as [Hr _]. apply in_map_iff in Hr.
    destruct Hr as (record & <- & _).
    rewrite (ReadmissionFacts.riskScore_sum getDay record historicalRecords).
    exact I.
  - rewrite Forall_forall. intros risk Hr. apply M in Hr.
    destruct Hr as (record & _ & _ & -> & L).
    rewrite CohortFacts.riskLevel_of_score. exact L.
Qed.

Lemma high_risk_patients_witness :
  map (fun risk => (Readmission.r_patientId risk, Readmission.riskScore risk))
    (ReadmissionCohort.identifyHighRiskPatients ReadmissionExamples.getDayUTC
       CohortExamples.cohort CohortExamples.cohort)
  = [(str "p9", of_Z 110); (str "p2", of_Z 85)]
  /\ Forall
       (fun risk =>
          ReadmissionCohort.isHighOrCritical (Readmission.riskLevel risk)
          = true)
       (ReadmissionCohort.identifyHighRiskPatients
          ReadmissionExamples.getDayUTC CohortExamples.cohort
          CohortExamples.cohort).
Proof.
  split; [vm_compute; reflexivity|].
  exact (proj1 (proj2 (high_risk_patients_are_sorted_and_complete
                         ReadmissionExamples.getDayUTC CohortExamples.cohort
                         CohortExamples.cohort))).
Defined.

(* ------------------------------------------------------------------ *)
(** * Readmission trends *)

Module TrendFacts.

Import Records Readmission ReadmissionCohort MapFacts GroupFacts.

Lemma leb_of_nat (a b : nat) : (of_nat a <=? of_nat b)%num = (a <=? b)%nat.
Proof.
  unfold of_nat. change (of_Z ?x <=? of_Z ?y)%num with (of_Z y >=? of_Z x)%num.
  rewrite NumFacts.geb_of_Z. apply eq_true_iff_eq.
  rewrite Z.leb_le, Nat.leb_le. lia.
Qed.

Lemma add_of_nat (a b : nat) : (of_nat a + of_nat b)%num = of_nat (a + b).
Proof.
  unfold of_nat. rewrite NumFacts.add_of_Z. f_equal. lia.
Qed.

Lemma succ_of_nat (a : nat) : (of_nat a + of_Z 1)%num = of_nat (S a).
Proof.
  change (of_Z 1) with (of_nat 1). rewrite add_of_nat. f_equal. lia.
Qed.

Definition newMonth (month : jsstring) : MonthlyData := mkMonthly [] zero.

Definition addRisk (data : MonthlyData) (risk : ReadmissionRisk)
  : MonthlyData :=
  mkMonthly (readmissions data ++ [risk]) (total data + of_Z 1)%num.

Lemma fold_addRisk (l : list ReadmissionRisk) (data : MonthlyData) (n : nat) :
  total data = of_nat n ->
  fold_left addRisk l data
  = mkMonthly (readmissions data ++ l) (of_nat (n + List.length l)).
Proof.
  revert data n. induction l as [|r l IH]; intros data n Hn.
  - cbn [fold_left List.length]. rewrite app_nil_r, Nat.add_0_r, <- Hn.
    destruct data; reflexivity.
  - cbn [fold_left List.length]. rewrite (IH (addRisk data r) (S n)).
    + cbn [readmissions addRisk]. rewrite <- app_assoc. f_equal. f_equal. lia.
    + cbn [total addRisk]. rewrite Hn. apply succ_of_nat.
Qed.

(** The four counters add up to the number of predictions counted. *)
Lemma distribution_counts (l : list ReadmissionRisk) (a b c d : nat) :
  exists a' b' c' d',
    fold_left countLevel l
      (mkDistribution (of_nat a) (of_nat b) (of_nat c) (of_nat d))
    = mkDistribution (of_nat a') (of_nat b') (of_nat c') (of_nat d')
    /\ (a' + b' + c' + d' = a + b + c + d + List.length l)%nat.
Proof.
  revert a b c d. induction l as [|r l IH]; intros a b c d.
  - exists a, b, c, d. split; [reflexivity | cbn; lia].
  - cbn [fold_left List.length]. unfold countLevel at 2.
    cbn [d_low d_medium d_high d_critical].
    destruct (riskLevel r); rewrite succ_of_nat.
    + destruct (IH (S a) b c d) as (a' & b' & c' & d' & E & S).
      exists a', b', c', d'. split; [exact E | lia].
    + destruct (IH a (S b) c d) as (a' & b' & c' & d' & E & S).
      exists a', b', c', d'. split; [exact E | lia].
    + destruct (IH a b (S c) d) as (a' & b' & c' & d' & E & S).
      exists a', b', c', d'. split; [exact E | lia].
    + destruct (IH a b c (S d)) as (a' & b' & c' & d' & E & S).
      exists a', b', c', d'. split; [exact E | lia].
Qed.

(** The predictions of a level among the predictions of a month. *)
Definition hasLevel (level : RiskLevel) (risk : ReadmissionRisk) : bool :=
  match riskLevel risk, level with
  | low, low | medium, medium | high, high | critical, critical => true
  | _, _ => false
  end.

Definition levelCount (level : RiskLevel) (l : list ReadmissionRisk) : nat :=
  List.length (filter (hasLevel level) l).

(** Each counter counts the predictions of its level. *)
Lemma distribution_levels (l : list ReadmissionRisk) (a b c d : nat) :
  fold_left countLevel l
    (mkDistribution (of_nat a) (of_nat b) (of_nat c) (of_nat d))
  = mkDistribution (of_nat (a + levelCount low l))
      (of_nat (b + levelCount medium l)) (of_nat (c + levelCount high l))
      (of_nat (d + levelCount critical l)).
Proof.
  revert a b c d. induction l as [|r l IH]; intros a b c d.
  - unfold levelCount. cbn [fold_left filter List.length].
    rewrite !Nat.add_0_r. reflexivity.
  - cbn [fold_left]. unfold countLevel at 2.
    cbn [d_low d_medium d_high d_critical].
    assert (C : forall level,
               levelCount level (r :: l)
               = ((if hasLevel level r then 1 else 0)
                  + levelCount level l)%nat).
    { intro level. unfold levelCount. cbn [filter].
      destruct (hasLevel level r); reflexivity. }
    rewrite !C. unfold hasLevel.
    destruct (riskLevel r); rewrite succ_of_nat, IH; cbv iota;
      f_equal; f_equal; lia.
Qed.

Section Trends.
Variable getDay : Z -> Z.
Variable monthOf : Z -> jsstring.
Variable localeCompare : jsstring -> jsstring -> num.

(** The predictions of the discharged records, each under its month. *)
Definition keyedRisks (historicalRecords records : list PatientRecord)
  : list (jsstring * ReadmissionRisk) :=
  flat_map
    (fun record =>
       match dischargeDate record with
       | Some d =>
           [(monthOf d, predictReadmissionRisk getDay record historicalRecords)]
       | None => []
       end)
    records.

Lemma monthlyData_group (historicalRecords records : list PatientRecord)
  (m : JSMap.t MonthlyData) :
  fold_left (collectMonth getDay monthOf historicalRecords) records m
  = group newMonth addRisk (keyedRisks historicalRecords records) m.
Proof.
  revert m. induction records as [|r records IH]; intro m; [reflexivity|].
  cbn [fold_left keyedRisks flat_map]. rewrite IH.
  unfold collectMonth. fold (keyedRisks historicalRecords records).
  destruct (dischargeDate r); reflexivity.
Qed.

Lemma keyedRisks_length (historicalRecords records : list PatientRecord) :
  List.length (keyedRisks historicalRecords records)
  = List.length (filter discharged records).
Proof.
  induction records as [|r records IH]; [reflexivity|].
  cbn [keyedRisks flat_map filter]. unfold discharged at 1.
  fold (keyedRisks historicalRecords records).
  destruct (dischargeDate r); cbn [app List.length]; rewrite IH; reflexivity.
Qed.

(** A record discharged in a month. *)
Definition dischargedIn (month : jsstring) (record : PatientRecord) : bool :=
  match dischargeDate record with
  | Some d => streq (monthOf d) month
  | None => false
  end.

(** The predictions of the records discharged in a month. *)
Definition risksIn (historicalRecords records : list PatientRecord)
  (month : jsstring) : list ReadmissionRisk :=
  map (fun record => predictReadmissionRisk getDay record historicalRecords)
    (filter (dischargedIn month) records).

Lemma itemsOf_keyedRisks (historicalRecords records : list PatientRecord)
  (month : jsstring) :
  itemsOf month (keyedRisks historicalRecords records)
  = risksIn historicalRecords records month.
Proof.
  unfold risksIn.
  unfold itemsOf. induction records as [|r records IH]; [reflexivity|].
  cbn [keyedRisks flat_map filter]. fold (keyedRisks historicalRecords records).
  unfold dischargedIn at 1.
  destruct (dischargeDate r) as [d|]; [|exact IH].
  cbn [app filter fst].
  destruct (streq (monthOf d) month); cbn [map snd]; rewrite IH; reflexivity.
Qed.

Lemma keyedRisks_keys (historicalRecords records : list PatientRecord)
  (month : jsstring) :
  In month (map fst (keyedRisks historicalRecords records)) <->
  exists record, In record records /\ dischargedIn month record = true.
Proof.
  split.
  - intro H.
    destruct (itemsOf month (keyedRisks historicalRecords records))
      as [|x xs] eqn:E.
    + apply itemsOf_nil in E. contradiction.
    + rewrite itemsOf_keyedRisks in E. unfold risksIn in E.
      destruct (filter (dischargedIn month) records) as [|r rs] eqn:F;
        [discriminate|].
      assert (Hr : In r (filter (dischargedIn month) records))
        by (rewrite F; left; reflexivity).
      apply filter_In in Hr. exists r. exact Hr.
  - intros (r & Hr & D).
    destruct (in_dec (list_eq_dec N.eq_dec) month
                (map fst (keyedRisks historicalRecords records)))
      as [I | I]; [exact I|].
    apply itemsOf_nil in I. rewrite itemsOf_keyedRisks in I.
    unfold risksIn in I.
    assert (Hf : In r (filter (dischargedIn month) records))
      by (apply filter_In; auto).
    apply (in_map (fun record =>
                     predictReadmissionRisk getDay record historicalRecords))
      in Hf.
    rewrite I in Hf. contradiction.
Qed.

Lemma monthlyData_In (historicalRecords records : list PatientRecord)
  (month : jsstring) (data : MonthlyData) :
  In (month, data)
    (fold_left (collectMonth getDay monthOf historicalRecords) records []) ->
  itemsOf month (keyedRisks historicalRecords records) <> []
  /\ data
     = mkMonthly (itemsOf month (keyedRisks historicalRecords records))
         (of_nat
            (List.length
               (itemsOf month (keyedRisks historicalRecords records)))).
Proof.
  rewrite monthlyData_group. intro H. apply In_group in H.
  destruct H as [Hn ->]. split; [exact Hn|].
  apply (fold_addRisk _ (newMonth month) 0 eq_refl).
Qed.

End Trends.

End TrendFacts.

(** X12: analyzeReadmissionTrends has one trend for each month in which a
    record was discharged: the periods of the trends are distinct, and a
    month is the period of a trend exactly when some record was discharged
    in it.  The total of a trend is the number of records discharged in its
    period; a record without a discharge date is left out and every other
    record is counted in exactly one month, so the totals add up to the
    number of discharged records.  Within a trend each counter of the risk
    distribution is the number of these records whose prediction has its
    level, and the preventable readmissions are the number of those whose
    delay influence is above 10; so the four counters add up to the total,
    which is at least 1, and the preventable readmissions are at most the
    total.  This holds whatever the month of a date, the order of two
    periods and the host's day of the week are. *)
Theorem readmission_trends_account_for_every_discharge
  (getDay : Z -> Z) (monthOf : Z -> jsstring)
  (localeCompare : jsstring -> jsstring -> num)
  (records historicalRecords : list Records.PatientRecord) :
  let trends :=
    ReadmissionCohort.analyzeReadmissionTrends getDay monthOf localeCompare
      records historicalRecords in
  NoDup (map ReadmissionCohort.period trends)
  /\ (forall month,
        In month (map ReadmissionCohort.period trends) <->
        exists record d,
          In record records /\ Records.dischargeDate record = Some d
          /\ monthOf d = month)
  /\ Forall
       (fun t =>
          ReadmissionCohort.totalReadmissions t
          = of_nat
              (List.length
                 (filter
                    (fun record =>
                       match Records.dischargeDate record with
                       | Some d =>
                           streq (monthOf d) (ReadmissionCohort.period t)
                       | None => false
                       end)
                    records)))
       trends
  /\ Forall
       (fun t =>
          let risks :=
            TrendFacts.risksIn getDay monthOf historicalRecords records
              (ReadmissionCohort.period t) in
          ReadmissionCohort.riskDistribution t
          = ReadmissionCohort.mkDistribution
              (of_nat (TrendFacts.levelCount Records.low risks))
              (of_nat (TrendFacts.levelCount Records.medium risks))
              (of_nat (TrendFacts.levelCount Records.high risks))
              (of_nat (TrendFacts.levelCount Records.critical risks))
          /\ ReadmissionCohort.preventableReadmissions t
             = of_nat
                 (List.length
                    (filter
                       (fun risk =>
                          (Readmission.delayInfluence risk >? of_Z 10)%num)
                       risks)))
       trends
  /\ JSNum.sum (map ReadmissionCohort.totalReadmissions trends)
     = of_nat (List.length (filter ReadmissionCohort.discharged records))
  /\ Forall
       (fun t =>
          let d := ReadmissionCohort.riskDistribution t in
          (ReadmissionCohort.d_low d + ReadmissionCohort.d_medium d
           + ReadmissionCohort.d_high d + ReadmissionCohort.d_critical d)%num
          = ReadmissionCohort.totalReadmissions t
          /\ (of_Z 1 <=? ReadmissionCohort.totalReadmissions t)%num = true
          /\ (ReadmissionCohort.preventableReadmissions t
              <=? ReadmissionCohort.totalReadmissions t)%num = true)
       trends.
Proof.
  intro trends.
  set (m := fold_left
              (ReadmissionCohort.collectMonth getDay monthOf
                 historicalRecords)
              records []).
  set (items :=
         TrendFacts.keyedRisks getDay monthOf historicalRecords records).
  assert (P : Permutation trends (map ReadmissionCohort.trendOf m)).
  { apply ArrayFacts.sort_perm. }
  assert (ND : NoDup (JSMap.keys m)).
  { unfold m. rewrite TrendFacts.monthlyData_group.
    apply MapFacts.group_NoDup. constructor. }
  assert (E : forall e, In e m ->
              MapFacts.itemsOf (fst e) items <> []
              /\ snd e
                 = ReadmissionCohort.mkMonthly (MapFacts.itemsOf (fst e) items)
                     (of_nat (List.length (MapFacts.itemsOf (fst e) items)))).
  { intros [month data] H.
    apply (TrendFacts.monthlyData_In getDay monthOf historicalRecords records
             month data H). }
  assert (K : map ReadmissionCohort.period (map ReadmissionCohort.trendOf m)
              = JSMap.keys m).
  { rewrite map_map. reflexivity. }
  split; [|split; [|split; [|split; [|split]]]].
  - apply (Permutation_NoDup
             (l := map ReadmissionCohort.period
                     (map ReadmissionCohort.trendOf m))).
    + apply Permutation_map, Permutation_sym, P.
    + rewrite K. exact ND.
  - intro month.
    assert (Q : In month (map ReadmissionCohort.period trends)
                <-> In month (JSMap.keys m)).
    { rewrite <- K. split; apply Permutation_in.
      - apply Permutation_map, P.
      - apply Permutation_map, Permutation_sym, P. }
    rewrite Q. unfold m. rewrite TrendFacts.monthlyData_group.
    rewrite GroupFacts.keys_group, TrendFacts.keyedRisks_keys.
    unfold TrendFacts.dischargedIn. split.
    + intros (record & Hr & D).
      destruct (Records.dischargeDate record) as [d|] eqn:Ed;
        [|discriminate].
      exists record, d. split; [exact Hr|]. split; [exact Ed|].
      apply MapFacts.streq_eq, D.
    + intros (record & d & Hr & Ed & Em). exists record.
      split; [exact Hr|]. rewrite Ed. apply MapFacts.streq_eq, Em.
  - rewrite Forall_forall. intros t Ht. apply (Permutation_in _ P) in Ht.
    apply in_map_iff in Ht. destruct Ht as (e & <- & He).
    destruct (E e He) as [_ D].
    unfold ReadmissionCohort.trendOf.
    cbn [ReadmissionCohort.totalReadmissions ReadmissionCohort.period].
    rewrite D. cbn [ReadmissionCohort.total]. f_equal.
    unfold items. rewrite TrendFacts.itemsOf_keyedRisks.
    unfold TrendFacts.risksIn. rewrite length_map. reflexivity.
  - rewrite Forall_forall. intros t Ht. apply (Permutation_in _ P) in Ht.
    apply in_map_iff in Ht. destruct Ht as (e & <- & He).
    destruct (E e He) as [_ D]. cbv zeta.
    unfold ReadmissionCohort.trendOf.
    cbn [ReadmissionCohort.riskDistribution ReadmissionCohort.period
         ReadmissionCohort.preventableReadmissions].
    rewrite D. cbn [ReadmissionCohort.readmissions].
    unfold items. rewrite TrendFacts.itemsOf_keyedRisks.
    change zero with (of_nat 0).
    rewrite TrendFacts.distribution_levels. split; reflexivity.
  - rewrite (GroupFacts.sum_perm_counts _
               (map (fun e => List.length (MapFacts.itemsOf (fst e) items))
                  m)).
    + f_equal. rewrite GroupFacts.group_sizes.
      * apply TrendFacts.keyedRisks_length.
      * exact ND.
      * intros k Hk. unfold m. rewrite TrendFacts.monthlyData_group.
        apply GroupFacts.keys_group, Hk.
    + apply (perm_trans
               (Permutation_map ReadmissionCohort.totalReadmissions P)).
      rewrite !map_map.
      rewrite (map_ext_in
                 (fun e => ReadmissionCohort.totalReadmissions
                             (ReadmissionCohort.trendOf e))
                 (fun e => of_nat
                             (List.length (MapFacts.itemsOf (fst e) items)))).
      * apply Permutation_refl.
      * intros e He. destruct (E e He) as [_ D].
        unfold ReadmissionCohort.trendOf.
        cbn [ReadmissionCohort.totalReadmissions]. rewrite D. reflexivity.
  - rewrite Forall_forall. intros t Ht. apply (Permutation_in _ P) in Ht.
    apply in_map_iff in Ht. destruct Ht as (e & <- & He).
    destruct (E e He) as [Hn D]. cbv zeta.
    unfold ReadmissionCohort.trendOf.
    cbn [ReadmissionCohort.riskDistribution
         ReadmissionCohort.totalReadmissions
         ReadmissionCohort.preventableReadmissions].
    rewrite D. cbn [ReadmissionCohort.readmissions ReadmissionCohort.total].
    set (l := MapFacts.itemsOf (fst e) items) in *.
    destruct (TrendFacts.distribution_counts l 0 0 0 0)
      as (a & b & c & d & Ed & S).
    change zero with (of_nat 0). rewrite Ed.
    cbn [ReadmissionCohort.d_low ReadmissionCohort.d_medium
         ReadmissionCohort.d_high ReadmissionCohort.d_critical].
    rewrite !TrendFacts.add_of_nat. split; [f_equal; lia|]. split.
    + change (of_Z 1) with (of_nat 1). rewrite TrendFacts.leb_of_nat.
      apply Nat.leb_le. destruct l; [contradiction | cbn; lia].
    + rewrite TrendFacts.leb_of_nat. apply Nat.leb_le, filter_length_le.
Qed.

(* ------------------------------------------------------------------ *)
(** * The baseline of a simulation *)

Module BaselineFacts.

Import PatientFlow Simulation SimulationPipeline FiniteFacts.

Lemma round1_same (x : num) :
  Simulation.round1 x = BottleneckDetection.round1 x.
Proof. reflexivity. Qed.

Lemma tenths_ge (z n : Z) :
  (10 * n <= z)%Z -> inject_Z n <= inject_Z z / inject_Z 10.
Proof.
  intro H. unfold Qle, Qdiv, Qmult, Qinv, inject_Z. simpl. lia.
Qed.

Lemma round1_ge (q : Q) (n : Z) :
  inject_Z n <= q ->
  (of_Z n <=? BottleneckDetection.round1 (Fin q))%num = true.
Proof.
  intro H. rewrite CapFacts.round1_fin. unfold fin, of_Z.
  apply NumFacts.leb_fin. rewrite Qred_correct. apply tenths_ge.
  assert (L : inject_Z (10 * n) <= q * inject_Z 10 + (1 # 2)).
  { rewrite inject_Z_mult. change (inject_Z 10) with 10. lra. }
  apply Qfloor_resp_le in L. rewrite Qfloor_Z in L. exact L.
Qed.

(** The stages of a unit are found in the journeys that pass it. *)
Lemma departmentStages_all (departmentName : jsstring)
  (journeys : list PatientJourney) :
  filter (fun s => streq (department s) departmentName)
    (flat_map stages
       (filter (fun j =>
                  existsb (fun s => streq (department s) departmentName)
                    (stages j))
          journeys))
  = filter (fun s => streq (department s) departmentName)
      (flat_map stages journeys).
Proof.
  induction journeys as [|j journeys IH]; [reflexivity|].
  cbn [filter flat_map].
  destruct (existsb _ (stages j)) eqn:E.
  - cbn [flat_map]. rewrite !filter_app, IH. reflexivity.
  - rewrite filter_app, IH.
    assert (Z : filter (fun s => streq (department s) departmentName)
                  (stages j) = []).
    { induction (stages j) as [|s l IHl]; [reflexivity|].
      cbn [existsb] in E. apply orb_false_iff in E. destruct E as [E1 E2].
      cbn [filter]. rewrite E1. apply IHl, E2. }
    rewrite Z. reflexivity.
Qed.

Lemma no_length_of_stay (l : list PatientJourney) (a : num) :
  fold_left
    (fun sum j =>
       match admissionDateOf j, dischargeDateOf j with
       | Some a, Some d => (sum + (of_Z d - of_Z a) / Records.msPerDay)%num
       | _, _ => sum
       end)
    l a = a.
Proof. induction l as [|j l IH]; [reflexivity | exact IH]. Qed.

Lemma zero_div_count (n : nat) : (zero / of_nat (S n))%num = zero.
Proof.
  unfold zero, of_nat, of_Z. rewrite NumFacts.div_fin by apply count_nonzero.
  apply NormaliserFacts.fin_zero_iff. unfold Qdiv. apply Qmult_0_l.
Qed.

(** The risk of a non-negative processing time and no delay record. *)
Lemma readmissionRisk_range (t : Q) :
  0 <= t ->
  exists r,
    calculateReadmissionRisk (Fin t) (of_nat 0) = Fin r
    /\ inject_Z 15 <= r /\ r <= inject_Z 100.
Proof.
  intro H. unfold calculateReadmissionRisk. cbv zeta.
  change (of_nat 0 * lit 3 10)%num with zero.
  change (of_Z 60) with (Fin (inject_Z 60)).
  rewrite NumFacts.div_fin by discriminate.
  change (lit 5 10) with (Fin (1 # 2)). unfold fin at 1.
  rewrite NumFacts.mul_fin. change (of_Z 15) with (Fin (inject_Z 15)).
  unfold fin at 1. rewrite NumFacts.add_fin. unfold fin at 1.
  change zero with (Fin 0). rewrite NumFacts.add_fin.
  set (x := Qred (inject_Z 15 + Qred (Qred (t / inject_Z 60) * (1 # 2))) + 0).
  assert (X : inject_Z 15 <= x).
  { unfold x. rewrite !Qred_correct.
    assert (0 <= t / inject_Z 60)
      by (apply Qle_shift_div_l; [reflexivity | lra]).
    change (inject_Z 15) with 15. lra. }
  unfold Math_min, of_Z, fin.
  destruct (Fin (Qred x) <? Fin (inject_Z 100))%num eqn:E.
  - apply NumFacts.ltb_fin in E. rewrite Qred_correct in E.
    exists (Qred x). split; [reflexivity|].
    split; rewrite Qred_correct; [exact X | lra].
  - exists (inject_Z 100). split; [reflexivity|]. split; discriminate.
Qed.

End BaselineFacts.

(** X13: the baseline that calculateBaselineMetrics computes on the journeys
    of the reconstructor has an average length of stay of 0, because the
    journeys carry no admission or discharge date, and a readmission risk
    between 15 and 100 that no delay record raises, because the delay records
    carry no [department]; its throughput is the number of stages of the
    unit and its processing time their rounded mean duration.  Whatever the
    intervention, the simulation on that baseline returns a result whose
    length-of-stay reduction percent is 0. *)
Theorem baseline_has_no_length_of_stay
  (departmentName : jsstring) (department : option jsstring)
  (flowLogs : list PatientFlow.FlowLog)
  (dept : option SimulationPipeline.Department) :
  let journeys := PatientFlow.getPatientJourneys department flowLogs in
  let baseline :=
    SimulationPipeline.calculateBaselineMetrics departmentName journeys
      (FlowAnalysis.getDepartmentDelays journeys) dept in
  let times := BottleneckSpec.samples journeys departmentName in
  Simulation.averageLOS baseline = zero
  /\ Simulation.throughput baseline = of_nat (List.length times)
  /\ Simulation.avgProcessingTime baseline
     = match times with
       | [] => zero
       | _ => Math_round (StatisticsSpec.arithmeticMean times)
       end
  /\ (of_Z 15 <=? Simulation.readmissionRisk baseline)%num = true
  /\ (Simulation.readmissionRisk baseline <=? of_Z 100)%num = true
  /\ forall intervention staff beds,
       exists r,
         Simulation.simulateIntervention intervention baseline staff beds
         = Simulation.Returned r
         /\ Simulation.losReductionPercent (Simulation.improvements r) = zero.
Proof.
  intros journeys baseline times.
  assert (NN := RankingFacts.samples_nonneg journeys departmentName
                  (RankingFacts.reconstructed_nonneg department flowLogs)).
  fold journeys times in NN.
  assert (L : Simulation.averageLOS baseline = zero).
  { unfold baseline, SimulationPipeline.calculateBaselineMetrics.
    cbn [Simulation.averageLOS].
    rewrite BaselineFacts.no_length_of_stay.
    destruct (filter _ journeys) as [|j l]; [reflexivity|].
    change (0 <? List.length (j :: l))%nat with true. cbv iota.
    cbn [List.length]. rewrite BaselineFacts.zero_div_count. reflexivity. }
  assert (S : filter
                (fun s => streq (PatientFlow.department s) departmentName)
                (flat_map PatientFlow.stages
                   (filter
                      (fun j =>
                         existsb
                           (fun s => streq (PatientFlow.department s)
                                       departmentName)
                           (PatientFlow.stages j))
                      journeys))
              = filter
                  (fun s => streq (PatientFlow.department s) departmentName)
                  (flat_map PatientFlow.stages journeys))
    by apply BaselineFacts.departmentStages_all.
  assert (A : (if (0 <? List.length times)%nat
               then (JSNum.sum times / of_nat (List.length times))%num
               else zero)
              = match times with
                | [] => zero
                | _ => StatisticsSpec.arithmeticMean times
                end).
  { destruct times; reflexivity. }
  assert (P : Simulation.avgProcessingTime baseline
              = Math_round
                  (match times with
                   | [] => zero
                   | _ => StatisticsSpec.arithmeticMean times
                   end)).
  { unfold baseline, SimulationPipeline.calculateBaselineMetrics.
    cbn [Simulation.avgProcessingTime]. rewrite S, <- A.
    unfold times, BottleneckSpec.samples. rewrite length_map.
    rewrite (ReadmissionFacts.fold_left_add_map PatientFlow.duration).
    reflexivity. }
  assert (N : exists t,
             match times with
             | [] => zero
             | _ => StatisticsSpec.arithmeticMean times
             end = Fin t /\ 0 <= t).
  { destruct times as [|x l] eqn:E.
    - exists 0. split; [reflexivity | apply Qle_refl].
    - pose proof (FiniteFacts.mean_nonneg (x :: l) NN) as M.
      destruct (StatisticsSpec.arithmeticMean (x :: l)) as [t| | |];
        try (exfalso; apply M; discriminate).
      exists t. split; [reflexivity | apply M; discriminate]. }
  assert (R : Simulation.readmissionRisk baseline
              = BottleneckDetection.round1
                  (SimulationPipeline.calculateReadmissionRisk
                     (match times with
                      | [] => zero
                      | _ => StatisticsSpec.arithmeticMean times
                      end)
                     (of_nat 0))).
  { unfold baseline, SimulationPipeline.calculateBaselineMetrics.
    cbn [Simulation.readmissionRisk]. rewrite S, <- A.
    unfold times, BottleneckSpec.samples. rewrite length_map.
    rewrite (ReadmissionFacts.fold_left_add_map PatientFlow.duration).
    unfold SimulationPipeline.departmentOf.
    assert (F : forall l : list FlowAnalysis.DepartmentDelay,
               filter (fun _ => false) l = []).
    { induction l as [|d l IH]; [reflexivity | exact IH]. }
    rewrite F. reflexivity. }
  split; [exact L|]. split; [|split; [|split; [|split]]].
  - unfold baseline, SimulationPipeline.calculateBaselineMetrics.
    cbn [Simulation.throughput]. rewrite S.
    unfold times, BottleneckSpec.samples. rewrite length_map. reflexivity.
  - rewrite P. destruct times; reflexivity.
  - rewrite R. destruct N as (t & -> & Ht).
    destruct (BaselineFacts.readmissionRisk_range t Ht) as (r & -> & R1 & _).
    apply BaselineFacts.round1_ge, R1.
  - rewrite R. destruct N as (t & -> & Ht).
    destruct (BaselineFacts.readmissionRisk_range t Ht) as (r & -> & _ & R2).
    apply CapFacts.round1_le, R2.
  - intros intervention staff beds. eexists. split; [reflexivity|].
    cbn [Simulation.improvements Simulation.losReductionPercent].
    rewrite L. reflexivity.
Qed.

Module ProjectionFacts.

Import Simulation.

Lemma mul_zero_cases (x : num) :
  (zero * x)%num = zero \/ (zero * x)%num = NaN.
Proof.
  destruct x as [b| | |]; try (right; reflexivity).
  left. unfold zero, of_Z. rewrite NumFacts.mul_fin.
  apply NormaliserFacts.fin_zero_iff. apply Qmult_0_l.
Qed.

Lemma round1_NaN : round1 NaN = NaN.
Proof. reflexivity. Qed.

Lemma sub_NaN (x : num) : (x - NaN)%num = NaN.
Proof. destruct x; reflexivity. Qed.

Lemma add_NaN (x : num) : (x + NaN)%num = NaN.
Proof. destruct x; reflexivity. Qed.

Lemma mul_NaN (x : num) : (NaN * x)%num = NaN.
Proof. destruct x; reflexivity. Qed.

Lemma div_NaN (x : num) : (NaN / x)%num = NaN.
Proof. destruct x; reflexivity. Qed.

Lemma max_NaN (x : num) : Math_max x NaN = NaN.
Proof. destruct x; reflexivity. Qed.

(** With a baseline processing time of 0 the relative reduction is 0/0. *)
Lemma staff_reduction_undefined (baseline : SimulationMetrics)
  (staffIncrease currentStaff : num) :
  avgProcessingTime baseline = zero ->
  readmissionRisk
    (projectStaffIntervention baseline staffIncrease currentStaff) = NaN.
Proof.
  intro Z. unfold projectStaffIntervention. cbn [readmissionRisk].
  rewrite Z.
  destruct (mul_zero_cases (currentStaff / (currentStaff + staffIncrease)))
    as [E | E]; rewrite E.
  - change ((zero - zero) / zero)%num with NaN.
    rewrite !mul_NaN, sub_NaN, max_NaN. reflexivity.
  - repeat first [ rewrite sub_NaN | rewrite div_NaN | rewrite mul_NaN
                 | rewrite max_NaN ].
    reflexivity.
Qed.

End ProjectionFacts.

(** X14: when the baseline processing time of the unit is 0 (it has no
    stage, or its stages take less than half a minute on average), a staff
    intervention divides 0 by 0: the projected readmission risk is NaN, and
    with it the readmission-risk reduction and the impact score of the
    simulation, and the return on investment too when the value of the
    intervention is positive. *)
Theorem staff_simulation_undefined_at_zero_processing_time
  (intervention : Simulation.SimulationIntervention)
  (baseline : Simulation.SimulationMetrics)
  (staff_count bed_capacity : option num) :
  Simulation.type intervention = str "staff" ->
  Simulation.avgProcessingTime baseline = zero ->
  exists r,
    Simulation.simulateIntervention intervention baseline staff_count
      bed_capacity = Simulation.Returned r
    /\ Simulation.readmissionRisk (Simulation.projected r) = NaN
    /\ Simulation.readmissionRiskReduction (Simulation.improvements r) = NaN
    /\ Simulation.impactScore (Simulation.costBenefit r) = NaN
    /\ ((Simulation.value intervention >? zero)%num = true ->
        Simulation.roi (Simulation.costBenefit r) = NaN).
Proof.
  intros T Z. eexists. split; [reflexivity|].
  cbn [Simulation.projected Simulation.improvements Simulation.costBenefit
       Simulation.readmissionRiskReduction].
  rewrite T. change (streq (str "staff") (str "staff")) with true. cbv iota.
  assert (R := ProjectionFacts.staff_reduction_undefined baseline
                 (Simulation.value intervention)
                 (Simulation.orElse staff_count (of_Z 10)) Z).
  split; [exact R|]. rewrite R.
  rewrite ProjectionFacts.sub_NaN, ProjectionFacts.round1_NaN.
  split; [reflexivity|].
  unfold Simulation.calculateCostBenefit.
  cbn [Simulation.impactScore Simulation.roi
       Simulation.readmissionRiskReduction Simulation.losReductionPercent
       Simulation.bedUtilizationChange Simulation.patientsImpacted].
  rewrite T. change (streq (str "staff") (str "staff")) with true. cbv iota.
  rewrite ProjectionFacts.mul_NaN, ProjectionFacts.add_NaN.
  split; [reflexivity|].
  intro V.
  assert (C : (Simulation.value intervention * of_Z 75000 >? zero)%num = true).
  { destruct (Simulation.value intervention) as [v| | |]; try discriminate.
    - apply NumFacts.gtb_fin in V. change (of_Z 75000) with (Fin (inject_Z 75000)).
      rewrite NumFacts.mul_fin. unfold fin, zero, of_Z.
      apply NumFacts.gtb_fin. rewrite Qred_correct.
      change (inject_Z 0) with 0 in *.
      apply Qmult_lt_0_compat; [exact V | reflexivity].
    - reflexivity. }
  rewrite C. rewrite !ProjectionFacts.mul_NaN, ProjectionFacts.div_NaN.
  reflexivity.
Qed.

Lemma staff_simulation_witness :
  Simulation.avgProcessingTime PipelineExamples.triageBaseline = zero
  /\ exists r,
       Simulation.simulateIntervention PipelineExamples.moreTriageStaff
         PipelineExamples.triageBaseline (Some (of_Z 10)) (Some (of_Z 20))
       = Simulation.Returned r
       /\ Simulation.readmissionRisk (Simulation.projected r) = NaN
       /\ Simulation.readmissionRiskReduction (Simulation.improvements r)
          = NaN
       /\ Simulation.impactScore (Simulation.costBenefit r) = NaN
       /\ ((Simulation.value PipelineExamples.moreTriageStaff >? zero)%num
           = true ->
           Simulation.roi (Simulation.costBenefit r) = NaN).
Proof.
  split; [vm_compute; reflexivity|].
  apply (staff_simulation_undefined_at_zero_processing_time
           PipelineExamples.moreTriageStaff PipelineExamples.triageBaseline).
  - reflexivity.
  - vm_compute. reflexivity.
Defined.

(* ------------------------------------------------------------------ *)
(** * The comparison of interventions *)

Module ComparisonFacts.

Import PatientFlow Simulation SimulationPipeline.

Lemma baseline_averageLOS (departmentName : jsstring)
  (journeys : list PatientJourney)
  (delays : list FlowAnalysis.DepartmentDelay) (dept : option Department) :
  averageLOS (calculateBaselineMetrics departmentName journeys delays dept)
  = zero.
Proof.
  unfold calculateBaselineMetrics. cbn [averageLOS].
  rewrite BaselineFacts.no_length_of_stay.
  destruct (filter _ journeys) as [|j l]; [reflexivity|].
  change (0 <? List.length (j :: l))%nat with true. cbv iota.
  cbn [List.length]. rewrite BaselineFacts.zero_div_count. reflexivity.
Qed.

(** A simulation returns, for the intervention it was given, and reports no
    relative reduction of the length of stay. *)
Definition simulated (i : SimulationIntervention) (r : SimulationResult)
  : Prop :=
  intervention r = i /\ losReductionPercent (improvements r) = zero.

Lemma simulate_returns (department : option jsstring)
  (flowLogs : list FlowLog) (departments : jsstring -> option Department)
  (i : SimulationIntervention) :
  exists r,
    simulate department flowLogs departments i = Returned r /\ simulated i r.
Proof.
  unfold simulate, simulateIntervention. eexists. split; [reflexivity|].
  split; [reflexivity|].
  cbn [improvements losReductionPercent]. rewrite baseline_averageLOS.
  reflexivity.
Qed.

Lemma all_returned {A B : Type} (f : A -> Completion B) (P : A -> B -> Prop)
  (l : list A) :
  (forall x, exists r, f x = Returned r /\ P x r) ->
  exists rs, all (map f l) = Returned rs /\ Forall2 P l rs.
Proof.
  intro H. induction l as [|x l IH].
  - exists []. split; [reflexivity | constructor].
  - destruct (H x) as (r & E & Hr). destruct IH as (rs & Er & F).
    exists (r :: rs). cbn [map all]. rewrite E, Er.
    split; [reflexivity | constructor; assumption].
Qed.

Lemma simulated_interventions (l : list SimulationIntervention)
  (rs : list SimulationResult) :
  Forall2 simulated l rs ->
  map intervention rs = l
  /\ Forall (fun r => losReductionPercent (improvements r) = zero) rs.
Proof.
  induction 1 as [|i r l rs [E Z] _ [IH1 IH2]].
  - split; [reflexivity | constructor].
  - cbn [map]. rewrite E, IH1. split; [reflexivity | constructor; assumption].
Qed.

Lemma hd_error_In {A : Type} (l : list A) (x : A) :
  hd_error l = Some x -> In x l.
Proof. destruct l; [discriminate|]. intro H. inversion H. left. reflexivity. Qed.

End ComparisonFacts.

(** X15: compareInterventions always returns; its simulations are those of
    the interventions given, one each, and the optimal intervention is the
    first of them, absent exactly when no intervention was given.  With an
    intervention the first recommendation names the best return; no
    recommendation ever reports a high impact on the length of stay,
    because every simulation reports a reduction of 0 percent.  When every
    return on investment is a finite number, the simulations are in
    non-increasing order of return. *)
Theorem comparison_ranks_by_return
  (department : option jsstring) (flowLogs : list PatientFlow.FlowLog)
  (departments : jsstring -> option SimulationPipeline.Department)
  (interventions : list Simulation.SimulationIntervention) :
  exists c,
    SimulationPipeline.compareInterventions department flowLogs departments
      interventions = Simulation.Returned c
    /\ Permutation
         (map Simulation.intervention (SimulationPipeline.simulations c))
         interventions
    /\ SimulationPipeline.optimalIntervention c
       = hd_error (SimulationPipeline.simulations c)
    /\ (SimulationPipeline.optimalIntervention c = None
        <-> interventions = [])
    /\ (interventions <> [] ->
        exists type unit,
          hd_error (SimulationPipeline.recommendations c)
          = Some (SimulationPipeline.BestROI type unit))
    /\ (forall percent,
          ~ In (SimulationPipeline.HighImpact percent)
              (SimulationPipeline.recommendations c))
    /\ (Forall
          (fun s => is_fin (Simulation.roi (Simulation.costBenefit s)))
          (SimulationPipeline.simulations c) ->
        StronglySorted
          (fun a b =>
             (Simulation.roi (Simulation.costBenefit a)
              >=? Simulation.roi (Simulation.costBenefit b))%num = true)
          (SimulationPipeline.simulations c)).
Proof.
  destruct (ComparisonFacts.all_returned
              (SimulationPipeline.simulate department flowLogs departments)
              ComparisonFacts.simulated interventions
              (ComparisonFacts.simulate_returns department flowLogs
                 departments)) as (rs & E & F).
  destruct (ComparisonFacts.simulated_interventions interventions rs F)
    as [M Z].
  exists (SimulationPipeline.compare rs).
  unfold SimulationPipeline.compareInterventions. rewrite E.
  split; [reflexivity|].
  set (sorted := JSArray.sort SimulationPipeline.byRoiDescending rs).
  assert (P : Permutation sorted rs) by apply ArrayFacts.sort_perm.
  assert (Zs : Forall
                 (fun r => Simulation.losReductionPercent
                             (Simulation.improvements r) = zero)
                 sorted).
  { apply ArrayFacts.sort_Forall, Z. }
  unfold SimulationPipeline.compare. fold sorted.
  cbn [SimulationPipeline.simulations SimulationPipeline.recommendations
       SimulationPipeline.optimalIntervention].
  split; [|split; [reflexivity|split; [|split; [|split]]]].
  - rewrite <- M. apply Permutation_map, P.
  - split.
    + intro H. destruct sorted as [|s l] eqn:S; [|discriminate].
      apply Permutation_nil in P. subst rs.
      rewrite <- M. reflexivity.
    + intro H. subst interventions. destruct rs; [reflexivity | discriminate].
  - intro H. destruct sorted as [|s l] eqn:S.
    + exfalso. apply H. apply Permutation_nil in P.
      subst rs. rewrite <- M. reflexivity.
    + cbn [hd_error app]. eexists. eexists. reflexivity.
  - intros percent H. apply in_app_iff in H. destruct H as [H | H].
    + destruct (hd_error sorted) as [optimal|] eqn:O; [|contradiction].
      apply ComparisonFacts.hd_error_In in O.
      rewrite Forall_forall in Zs. rewrite (Zs optimal O) in H.
      change (zero >? of_Z 20)%num with false in H. cbv iota in H.
      cbn [app] in H. destruct H as [H | H]; [discriminate|].
      apply in_app_iff in H. destruct H as [H | H].
      * destruct (_ >? of_Z 2)%num; [|contradiction].
        destruct H as [H | []]. discriminate.
      * destruct (_ >? of_Z 5)%num; [|contradiction].
        destruct H as [H | []]. discriminate.
    + destruct (0 <? _)%nat; [|contradiction].
      destruct H as [H | []]. discriminate.
  - intro Fin. unfold sorted.
    apply (@ArrayFacts.sort_descending _
             (fun s => Simulation.roi (Simulation.costBenefit s))).
    rewrite Forall_forall in Fin |- *. intros s Hs. apply Fin.
    apply ArrayFacts.sort_In, Hs.
Qed.

(* ------------------------------------------------------------------ *)
(** * The order of the predictions *)

Module PredictionFacts.

Import Records Predictive PredictiveSpec MapFacts.

(** The probability that goes with each risk level. *)
Definition probabilityOf (level : RiskLevel) : num :=
  match level with
  | critical => lit 85 100
  | high => lit 65 100
  | medium => lit 40 100
  | low => lit 15 100
  end.

Definition severity (level : RiskLevel) : nat :=
  match level with
  | critical => 3
  | high => 2
  | medium => 1
  | low => 0
  end.

Lemma riskOf_probability (frequency average : num) :
  snd (riskOf frequency average)
  = probabilityOf (fst (riskOf frequency average)).
Proof.
  unfold riskOf.
  destruct (_ && _); [reflexivity|].
  destruct (_ || _); [reflexivity|].
  destruct (_ || _); reflexivity.
Qed.

Lemma probability_order (a b : RiskLevel) :
  (probabilityOf a >=? probabilityOf b)%num = true ->
  (severity b <= severity a)%nat.
Proof.
  destruct a, b; cbn [severity]; intro H; try lia;
    vm_compute in H; discriminate.
Qed.

Lemma predictions_perm (records : list PatientRecord) :
  Permutation (predictBottlenecks records)
    (map predictionOf (departmentMetricsOf records)).
Proof. apply ArrayFacts.sort_perm. Qed.

Lemma metrics_keys (records : list PatientRecord) (unit : jsstring) :
  In unit (JSMap.keys (departmentMetricsOf records))
  <-> nonempty unit = true /\ recordsIn unit records <> [].
Proof.
  unfold departmentMetricsOf. rewrite PredictiveFacts.departmentMetrics_group.
  rewrite GroupFacts.keys_group. split.
  - intro H.
    assert (N : itemsOf unit (PredictiveFacts.keyed records) <> []).
    { intro E. apply itemsOf_nil in E. contradiction. }
    rewrite PredictiveFacts.itemsOf_keyed in N.
    destruct (nonempty unit); [split; [reflexivity | exact N]|].
    contradiction.
  - intros [Hn Hr].
    destruct (in_dec (list_eq_dec N.eq_dec) unit
                (map fst (PredictiveFacts.keyed records))) as [I | I];
      [exact I|].
    apply itemsOf_nil in I. rewrite PredictiveFacts.itemsOf_keyed, Hn in I.
    contradiction.
Qed.

Lemma sorted_by_severity (l : list BottleneckPrediction) :
  Forall (fun p => probability p = probabilityOf (riskLevel p)) l ->
  StronglySorted
    (fun a b => (probability a >=? probability b)%num = true) l ->
  StronglySorted
    (fun a b => (severity (riskLevel b) <= severity (riskLevel a))%nat) l.
Proof.
  intros Pr S. induction S as [|a l S IH H]; [constructor|].
  inversion Pr as [|? ? Pa Pl]; subst. constructor; [apply IH, Pl|].
  rewrite Forall_forall in H, Pl |- *. intros b Hb.
  apply probability_order. rewrite <- Pa, <- (Pl b Hb). apply H, Hb.
Qed.

End PredictionFacts.

(** X16: predictBottlenecks returns one prediction for each non-empty unit
    that is the current unit of some record, and no other; the probability
    of a prediction is the one that goes with its risk level (0.85, 0.65,
    0.40 or 0.15), and the predictions are ordered from the most severe
    level to the least. *)
Theorem predictions_cover_units_in_risk_order
  (records : list Records.PatientRecord) :
  let predictions := Predictive.predictBottlenecks records in
  NoDup (map Predictive.departmentName predictions)
  /\ (forall unit,
        In unit (map Predictive.departmentName predictions)
        <-> nonempty unit = true
            /\ PredictiveSpec.recordsIn unit records <> [])
  /\ Forall
       (fun p =>
          Predictive.probability p
          = PredictionFacts.probabilityOf (Predictive.riskLevel p))
       predictions
  /\ StronglySorted
       (fun a b =>
          (PredictionFacts.severity (Predictive.riskLevel b)
           <= PredictionFacts.severity (Predictive.riskLevel a))%nat)
       predictions.
Proof.
  intro predictions.
  assert (P := PredictionFacts.predictions_perm records).
  fold predictions in P.
  assert (N : Permutation (map Predictive.departmentName predictions)
                (JSMap.keys (Predictive.departmentMetricsOf records))).
  { apply (perm_trans (Permutation_map Predictive.departmentName P)).
    rewrite map_map. apply Permutation_refl. }
  assert (Pr : Forall
                 (fun p =>
                    Predictive.probability p
                    = PredictionFacts.probabilityOf (Predictive.riskLevel p))
                 predictions).
  { rewrite Forall_forall. intros p Hp. apply (Permutation_in _ P) in Hp.
    apply in_map_iff in Hp. destruct Hp as (e & <- & _).
    unfold Predictive.predictionOf.
    cbn [Predictive.probability Predictive.riskLevel].
    apply PredictionFacts.riskOf_probability. }
  split; [|split; [|split; [exact Pr|]]].
  - apply (Permutation_NoDup (Permutation_sym N)).
    unfold Predictive.departmentMetricsOf.
    rewrite PredictiveFacts.departmentMetrics_group.
    apply MapFacts.group_NoDup. constructor.
  - intro unit. rewrite <- PredictionFacts.metrics_keys. split.
    + apply Permutation_in, N.
    + apply Permutation_in, Permutation_sym, N.
  - assert (S : StronglySorted
                  (fun a b => (Predictive.probability a
                               >=? Predictive.probability b)%num = true)
                  predictions).
    { apply (@ArrayFacts.sort_descending _ Predictive.probability).
      rewrite Forall_forall. intros p Hp. apply in_map_iff in Hp.
      destruct Hp as (e & <- & _). unfold Predictive.predictionOf.
      cbn [Predictive.probability].
      rewrite PredictionFacts.riskOf_probability.
      destruct (fst _); exact I. }
    apply PredictionFacts.sorted_by_severity; assumption.
Qed.

(* ------------------------------------------------------------------ *)
(** * Staff reallocation *)

Module ReallocationFacts.

Import Optimization.

(** A fifth of more than five, rounded down and capped at 2, is 1 or 2. *)
Lemma staffToReallocate_values (source : Utilization) :
  (staff_count source >? of_Z 5)%num = true ->
  staffToReallocateOf source = of_Z 1 \/ staffToReallocateOf source = of_Z 2.
Proof.
  unfold staffToReallocateOf.
  destruct (staff_count source) as [q| | |]; try discriminate.
  - intro H. apply NumFacts.gtb_fin in H.
    change (lit 2 10) with (Fin (1 # 5)). rewrite NumFacts.mul_fin.
    unfold fin. cbn [Math_floor].
    rewrite ReadmissionFacts.Math_min_of_Z.
    assert (L : (1 <= Qfloor (Qred (q * (1 # 5))))%Z).
    { apply (Qfloor_resp_le 1). rewrite Qred_correct.
      change (inject_Z 5) with 5 in H. lra. }
    destruct (Z.eq_dec (Qfloor (Qred (q * (1 # 5)))) 1) as [E | E].
    + left. rewrite E. reflexivity.
    + right. f_equal. lia.
  - intros _. right. reflexivity.
Qed.

(** The score is 0, 50 or 100, and exceeds 50 only when both tests pass. *)
Lemma feasible_both (source target : Utilization) :
  (feasibilityScoreOf source target >? of_Z 50)%num = true ->
  (newSourceUtilOf source <? of_Z 7)%num = true
  /\ (newTargetUtilOf source target >? of_Z 5)%num = true
  /\ feasibilityScoreOf source target = of_Z 100.
Proof.
  unfold feasibilityScoreOf.
  destruct (newSourceUtilOf source <? of_Z 7)%num;
    destruct (newTargetUtilOf source target >? of_Z 5)%num;
    intro H; vm_compute in H; try discriminate.
  repeat split.
Qed.

Lemma opportunities_In (utilization : list Utilization)
  (bottlenecks : list BottleneckDetection.BottleneckDetection)
  (o : StaffReallocationOpportunity) :
  In o (getStaffReallocationOpportunities utilization bottlenecks) <->
  exists source target,
    In source utilization /\ In target utilization
    /\ isUnderutilized bottlenecks source = true
    /\ isOverutilized bottlenecks target = true
    /\ opportunityOf source target = Some o.
Proof.
  unfold getStaffReallocationOpportunities.
  rewrite ArrayFacts.sort_In, in_flat_map. split.
  - intros (source & Hs & Ho). apply filter_In in Hs.
    apply BottleneckFacts.collectSome_In in Ho. apply in_map_iff in Ho.
    destruct Ho as (target & E & Ht). apply filter_In in Ht.
    exists source, target. intuition.
  - intros (source & target & Hs & Ht & U & O & E).
    exists source. split; [apply filter_In; auto|].
    apply BottleneckFacts.collectSome_In. apply in_map_iff.
    exists target. split; [exact E | apply filter_In; auto].
Qed.

End ReallocationFacts.

(** X17: every opportunity that getStaffReallocationOpportunities returns
    has a feasibility score of exactly 100: the score is 0, 50 or 100 and
    only a score above 50 is kept.  It moves 1 or 2 staff from a unit that is
    under-utilized to one that is over-utilized, the source stays below 7
    patients per staff afterwards and the target above 5; and every such
    pair of units gives an opportunity. *)
Theorem reallocation_opportunities_are_fully_feasible
  (utilization : list Optimization.Utilization)
  (bottlenecks : list BottleneckDetection.BottleneckDetection) :
  let opportunities :=
    Optimization.getStaffReallocationOpportunities utilization bottlenecks in
  Forall
    (fun o =>
       Optimization.feasibilityScore o = of_Z 100
       /\ (Optimization.staffCount o = of_Z 1
           \/ Optimization.staffCount o = of_Z 2)
       /\ exists source target,
            In source utilization /\ In target utilization
            /\ Optimization.fromDepartment o = Optimization.name source
            /\ Optimization.toDepartment o = Optimization.name target
            /\ Optimization.isUnderutilized bottlenecks source = true
            /\ Optimization.isOverutilized bottlenecks target = true
            /\ (Optimization.newSourceUtilOf source <? of_Z 7)%num = true
            /\ (Optimization.newTargetUtilOf source target >? of_Z 5)%num
               = true)
    opportunities
  /\ forall source target,
       In source utilization -> In target utilization ->
       Optimization.isUnderutilized bottlenecks source = true ->
       Optimization.isOverutilized bottlenecks target = true ->
       (Optimization.newSourceUtilOf source <? of_Z 7)%num = true ->
       (Optimization.newTargetUtilOf source target >? of_Z 5)%num = true ->
       exists o,
         In o opportunities
         /\ Optimization.fromDepartment o = Optimization.name source
         /\ Optimization.toDepartment o = Optimization.name target.
Proof.
  intro opportunities. split.
  - rewrite Forall_forall. intros o Ho.
    apply ReallocationFacts.opportunities_In in Ho.
    destruct Ho as (source & target & Hs & Ht & U & O & E).
    unfold Optimization.opportunityOf in E.
    destruct (Optimization.feasibilityScoreOf source target >? of_Z 50)%num
      eqn:F; [|discriminate].
    destruct (ReallocationFacts.feasible_both source target F)
      as (F1 & F2 & F3).
    inversion E. subst o.
    cbn [Optimization.feasibilityScore Optimization.staffCount
         Optimization.fromDepartment Optimization.toDepartment].
    split; [rewrite F3; reflexivity|]. split.
    + apply ReallocationFacts.staffToReallocate_values.
      unfold Optimization.isUnderutilized in U.
      apply andb_true_iff in U. destruct U as [U _].
      apply andb_true_iff in U. apply U.
    + exists source, target. repeat split; assumption.
  - intros source target Hs Ht U O F1 F2.
    assert (F : Optimization.feasibilityScoreOf source target = of_Z 100).
    { unfold Optimization.feasibilityScoreOf. rewrite F1, F2. reflexivity. }
    eexists. split.
    + apply ReallocationFacts.opportunities_In.
      exists source, target. repeat split; try assumption.
      unfold Optimization.opportunityOf. rewrite F. reflexivity.
    + split; reflexivity.
Qed.

(* ------------------------------------------------------------------ *)
(** * Cost against impact *)

Module CostFacts.

Import PatientFlow.

(** The cost that [calculateCostBenefit] charges for an intervention. *)
Definition priceOf (i : Simulation.SimulationIntervention) : num :=
  if streq (Simulation.type i) (str "staff")
  then (Simulation.value i * of_Z 75000)%num
  else if streq (Simulation.type i) (str "beds")
  then (Simulation.value i * of_Z 50000)%num
  else if streq (Simulation.type i) (str "processing_time")
  then (Simulation.value i * of_Z 10000)%num
  else zero.

Definition priced (i : Simulation.SimulationIntervention)
  (r : Simulation.SimulationResult) : Prop :=
  Simulation.intervention r = i
  /\ Simulation.estimatedCost (Simulation.costBenefit r) = priceOf i.

Lemma simulate_priced (department : option jsstring)
  (flowLogs : list FlowLog)
  (departments : jsstring -> option SimulationPipeline.Department)
  (i : Simulation.SimulationIntervention) :
  exists r,
    SimulationPipeline.simulate department flowLogs departments i
    = Simulation.Returned r
    /\ priced i r.
Proof.
  unfold SimulationPipeline.simulate, Simulation.simulateIntervention.
  eexists. split; [reflexivity|]. split; reflexivity.
Qed.

Lemma compare_priced (department : option jsstring)
  (flowLogs : list FlowLog)
  (departments : jsstring -> option SimulationPipeline.Department)
  (l : list Simulation.SimulationIntervention) :
  exists rs,
    SimulationPipeline.compareInterventions department flowLogs departments l
    = Simulation.Returned (SimulationPipeline.compare rs)
    /\ Forall2 priced l rs.
Proof.
  destruct (ComparisonFacts.all_returned
              (SimulationPipeline.simulate department flowLogs departments)
              priced l (simulate_priced department flowLogs departments))
    as (rs & E & F).
  exists rs. unfold SimulationPipeline.compareInterventions. rewrite E.
  split; [reflexivity | exact F].
Qed.

(** What an entry of the analysis looks like: one of the three fixed
    candidates, at its fixed cost, and never a quick win. *)
Definition candidate (unit : jsstring)
  (i : Optimization.CostToImpactIntervention) : Prop :=
  Optimization.c_departmentName i = unit
  /\ Optimization.quickWins i = false
  /\ ((Optimization.interventionType i = str "staff"
       /\ Optimization.interventionValue i = of_Z 2
       /\ Optimization.estimatedCost i = of_Z 150000)
      \/ (Optimization.interventionType i = str "beds"
          /\ Optimization.interventionValue i = of_Z 5
          /\ Optimization.estimatedCost i = of_Z 250000)
      \/ (Optimization.interventionType i = str "processing_time"
          /\ Optimization.interventionValue i = of_Z 30
          /\ Optimization.estimatedCost i = of_Z 300000)).

Lemma costToImpact_candidate (unit : jsstring)
  (i : Simulation.SimulationIntervention) (r : Simulation.SimulationResult) :
  In i (Optimization.candidatesFor unit) -> priced i r ->
  candidate unit (Optimization.costToImpactOf r).
Proof.
  intros Hi [E C]. unfold candidate, Optimization.costToImpactOf.
  cbn [Optimization.c_departmentName Optimization.quickWins
       Optimization.interventionType Optimization.interventionValue
       Optimization.estimatedCost].
  rewrite C, E.
  destruct Hi as [Hi | [Hi | [Hi | []]]]; subst i;
    (split; [reflexivity|]); (split; [reflexivity|]).
  - left. repeat split.
  - right. left. repeat split.
  - right. right. repeat split.
Qed.

Lemma Forall2_In_r {A B : Type} (P : A -> B -> Prop) (l : list A)
  (rs : list B) (r : B) :
  Forall2 P l rs -> In r rs -> exists x, In x l /\ P x r.
Proof.
  induction 1 as [|x y l rs H _ IH]; [contradiction|].
  intros [E | Hr].
  - subst y. exists x. split; [left; reflexivity | exact H].
  - destruct (IH Hr) as (x' & Hx & Hp). exists x'. split; [right|]; assumption.
Qed.

Definition hasRow
  (departments : jsstring -> option SimulationPipeline.Department)
  (b : BottleneckDetection.BottleneckDetection) : bool :=
  match departments (BottleneckDetection.departmentName b) with
  | Some _ => true
  | None => false
  end.

Definition analysed
  (departments : jsstring -> option SimulationPipeline.Department)
  (bottlenecks : list BottleneckDetection.BottleneckDetection)
  (i : Optimization.CostToImpactIntervention) : Prop :=
  exists b,
    In b bottlenecks /\ hasRow departments b = true
    /\ candidate (BottleneckDetection.departmentName b) i.

Lemma analysed_cons
  (departments : jsstring -> option SimulationPipeline.Department)
  (b : BottleneckDetection.BottleneckDetection)
  (bottlenecks : list BottleneckDetection.BottleneckDetection)
  (items : list Optimization.CostToImpactIntervention) :
  Forall (analysed departments bottlenecks) items ->
  Forall (analysed departments (b :: bottlenecks)) items.
Proof.
  apply Forall_impl. intros i (b' & Hb & R & C).
  exists b'. split; [right; exact Hb | split; assumption].
Qed.

Lemma analyzeBottlenecks_returns (department : option jsstring)
  (flowLogs : list FlowLog)
  (departments : jsstring -> option SimulationPipeline.Department)
  (bottlenecks : list BottleneckDetection.BottleneckDetection) :
  forall interventions,
  exists items,
    Optimization.analyzeBottlenecks department flowLogs departments
      bottlenecks interventions
    = Simulation.Returned (interventions ++ items)
    /\ Forall (analysed departments bottlenecks) items
    /\ List.length items
       = (3 * List.length (filter (hasRow departments) bottlenecks))%nat.
Proof.
  induction bottlenecks as [|b rest IH]; intro acc.
  - exists []. cbn [Optimization.analyzeBottlenecks]. rewrite app_nil_r.
    split; [reflexivity|]. split; [constructor | reflexivity].
  - cbn [Optimization.analyzeBottlenecks filter].
    destruct (departments (BottleneckDetection.departmentName b)) as [row|]
      eqn:D.
    + assert (R : hasRow departments b = true)
        by (unfold hasRow; rewrite D; reflexivity).
      rewrite R.
      destruct (compare_priced department flowLogs departments
                  (Optimization.candidatesFor
                     (BottleneckDetection.departmentName b)))
        as (rs & E & F).
      rewrite E.
      set (new := map Optimization.costToImpactOf
                    (SimulationPipeline.simulations
                       (SimulationPipeline.compare rs))).
      destruct (IH (acc ++ new)) as (items & Ei & Fi & Li).
      exists (new ++ items). rewrite Ei, app_assoc.
      split; [reflexivity|]. split.
      * apply Forall_app. split; [|apply analysed_cons, Fi].
        rewrite Forall_forall. intros i Hi. unfold new in Hi.
        apply in_map_iff in Hi. destruct Hi as (r & Er & Hr). subst i.
        unfold SimulationPipeline.compare in Hr.
        cbn [SimulationPipeline.simulations] in Hr.
        apply ArrayFacts.sort_In in Hr.
        destruct (Forall2_In_r _ _ _ _ F Hr) as (x & Hx & Hp).
        exists b. split; [left; reflexivity|].
        split; [exact R|].
        apply (costToImpact_candidate _ x r Hx Hp).
      * rewrite length_app, Li. unfold new. rewrite length_map.
        unfold SimulationPipeline.compare.
        cbn [SimulationPipeline.simulations].
        rewrite (Permutation_length (ArrayFacts.sort_perm _ rs)).
        rewrite <- (Forall2_length F). unfold Optimization.candidatesFor.
        cbn [List.length]. lia.
    + assert (R : hasRow departments b = false)
        by (unfold hasRow; rewrite D; reflexivity).
      rewrite R.
      destruct (IH acc) as (items & Ei & Fi & Li).
      exists items. split; [exact Ei|].
      split; [apply analysed_cons, Fi | exact Li].
Qed.

End CostFacts.

(** X18: getCostToImpactAnalysis always returns.  Every entry is one of the
    three fixed candidates (2 staff at 150000, 5 beds at 250000, 30 minutes of
    processing time at 300000) for one of the first five bottlenecks whose
    unit has a row, and there are exactly three entries for each such
    bottleneck, so at most 15.  No entry is ever flagged as a quick win: the
    flag needs a cost strictly below 150000, and the cheapest candidate
    costs 150000. *)
Theorem cost_to_impact_never_flags_a_quick_win
  (department : option jsstring) (flowLogs : list PatientFlow.FlowLog)
  (departments : jsstring -> option SimulationPipeline.Department)
  (bottlenecks : list BottleneckDetection.BottleneckDetection) :
  exists interventions,
    Optimization.getCostToImpactAnalysis department flowLogs departments
      bottlenecks = Simulation.Returned interventions
    /\ Forall (CostFacts.analysed departments (firstn 5 bottlenecks))
         interventions
    /\ Forall (fun i => Optimization.quickWins i = false) interventions
    /\ List.length interventions
       = (3 * List.length
                (filter (CostFacts.hasRow departments)
                   (firstn 5 bottlenecks)))%nat
    /\ (List.length interventions <= 15)%nat.
Proof.
  destruct (CostFacts.analyzeBottlenecks_returns department flowLogs
              departments (firstn 5 bottlenecks) [])
    as (items & E & F & L).
  cbn [app] in E.
  exists (JSArray.sort Optimization.byRoi items).
  unfold Optimization.getCostToImpactAnalysis. rewrite E.
  split; [reflexivity|].
  assert (Fs : Forall (CostFacts.analysed departments (firstn 5 bottlenecks))
                 (JSArray.sort Optimization.byRoi items)).
  { apply ArrayFacts.sort_Forall, F. }
  split; [exact Fs|]. split.
  - revert Fs. apply Forall_impl. intros i (b & _ & _ & _ & Q & _). exact Q.
  - rewrite (Permutation_length (ArrayFacts.sort_perm _ items)), L.
    split; [reflexivity|].
    pose proof (filter_length_le (CostFacts.hasRow departments)
                  (firstn 5 bottlenecks)) as H1.
    pose proof (firstn_le_length 5 bottlenecks) as H2. lia.
Qed.

(* ------------------------------------------------------------------ *)
(** * The order of the recommendations *)

Module PriorityFacts.

Import Optimization.

(** The order of the result: a more urgent recommendation first, and among
    equally urgent ones the better rank first. *)
Definition comesBefore (a b : OptimizationRecommendation) : Prop :=
  (urgencyScore (urgency b) < urgencyScore (urgency a))%Z
  \/ (urgency a = urgency b /\ (priority a <=? priority b)%num = true).

Lemma urgencyScore_inj (u v : Urgency) :
  urgencyScore u = urgencyScore v -> u = v.
Proof. destruct u, v; cbn; intro H; try reflexivity; discriminate. Qed.

Lemma comesBefore_trans (x y z : OptimizationRecommendation) :
  comesBefore x y -> comesBefore y z -> comesBefore x z.
Proof.
  intros [H1 | [E1 L1]] [H2 | [E2 L2]].
  - left. lia.
  - left. rewrite <- E2. exact H1.
  - left. rewrite E1. exact H2.
  - right. split; [congruence|]. apply NumFacts.leb_trans with (priority y);
      assumption.
Qed.

(** The value of the comparison function, by cases on the urgencies. *)
Lemma byUrgencyThenPriority_value (a b : OptimizationRecommendation) :
  (urgency a <> urgency b
   /\ byUrgencyThenPriority a b
      = of_Z (urgencyScore (urgency b) - urgencyScore (urgency a)))
  \/ (urgency a = urgency b
      /\ byUrgencyThenPriority a b = (priority a - priority b)%num).
Proof.
  unfold byUrgencyThenPriority.
  destruct (urgency a), (urgency b); cbn;
    first [ right; split; reflexivity
          | left; split; [discriminate | reflexivity] ].
Qed.

Lemma ordered (l : list OptimizationRecommendation) :
  Forall (fun r => is_fin (priority r)) l ->
  StronglySorted comesBefore (JSArray.sort byUrgencyThenPriority l).
Proof.
  apply ArrayFacts.sort_sorted; unfold JSArray.after.
  - apply comesBefore_trans.
  - intros x y Hx Hy.
    destruct (byUrgencyThenPriority_value x y) as [[N ->] | [E ->]].
    + change zero with (of_Z 0). rewrite NumFacts.gtb_of_Z.
      intro H. apply Z.ltb_ge in H. left.
      assert (urgencyScore (urgency x) <> urgencyScore (urgency y))
        by (intro S; apply N, urgencyScore_inj, S).
      lia.
    + apply NumFacts.is_fin_inv in Hx, Hy.
      destruct Hx as [p Ex], Hy as [q Ey]. rewrite Ex, Ey.
      rewrite NumFacts.sub_not_positive. intro H. right.
      split; [exact E | rewrite Ex, Ey; apply NumFacts.leb_fin, H].
  - intros x y Hx Hy.
    destruct (byUrgencyThenPriority_value x y) as [[N ->] | [E ->]].
    + change zero with (of_Z 0). rewrite NumFacts.gtb_of_Z.
      intro H. apply Z.ltb_lt in H. left. lia.
    + apply NumFacts.is_fin_inv in Hx, Hy.
      destruct Hx as [p Ex], Hy as [q Ey]. rewrite Ex, Ey.
      rewrite NumFacts.sub_positive. intro H. right.
      split; [symmetry; exact E|].
      rewrite Ex, Ey. apply NumFacts.leb_fin, Qlt_le_weak, H.
Qed.

(** What the loop pushes for a bottleneck. *)
Definition recommends (utilization : list Utilization)
  (b : BottleneckDetection.BottleneckDetection)
  (r : OptimizationRecommendation) : Prop :=
  departmentName r = BottleneckDetection.departmentName b
  /\ priority r = BottleneckDetection.rank b
  /\ urgency r = urgencyOf (BottleneckDetection.overallImpactScore b)
  /\ exists u,
       In u utilization
       /\ name u = BottleneckDetection.departmentName b
       /\ match recommendationType r with
          | process_improvement =>
              isInvisible (BottleneckDetection.bottleneckType b) = true
              \/ (BottleneckDetection.delayPropagationScore b >? of_Z 40)%num
                 = true
          | staff => (staffUtilization u >? of_Z 8)%num = true
          | beds => (bedUtilization u >? of_Z 85)%num = true
          end.

Lemma recommendationsOf_In (utilization : list Utilization)
  (b : BottleneckDetection.BottleneckDetection)
  (r : OptimizationRecommendation) :
  In r (recommendationsOf utilization b) -> recommends utilization b r.
Proof.
  unfold recommendationsOf.
  destruct (find _ utilization) as [u|] eqn:F; [|contradiction].
  apply find_some in F. destruct F as [Hu N]. apply MapFacts.streq_eq in N.
  intro H. apply in_app_iff in H. destruct H as [H | H].
  - destruct (isInvisible _ || _) eqn:C; [|contradiction].
    destruct H as [<- | []]. repeat split. exists u.
    repeat split; try assumption. cbn [recommendationType].
    apply orb_true_iff, C.
  - apply in_app_iff in H. destruct H as [H | H].
    + destruct (staffUtilization u >? of_Z 8)%num eqn:C; [|contradiction].
      destruct H as [<- | []]. repeat split. exists u.
      repeat split; assumption.
    + destruct (bedUtilization u >? of_Z 85)%num eqn:C; [|contradiction].
      destruct H as [<- | []]. repeat split. exists u.
      repeat split; assumption.
Qed.

Lemma recommendationsOf_length (utilization : list Utilization)
  (b : BottleneckDetection.BottleneckDetection) :
  (List.length (recommendationsOf utilization b) <= 3)%nat.
Proof.
  unfold recommendationsOf. destruct (find _ utilization); [|cbn; lia].
  rewrite !length_app.
  destruct (isInvisible _ || _); destruct (staffUtilization _ >? _)%num;
    destruct (bedUtilization _ >? _)%num; cbn; lia.
Qed.

Lemma flat_map_bound {A B : Type} (f : A -> list B) (n : nat) (l : list A) :
  (forall x, List.length (f x) <= n)%nat ->
  (List.length (flat_map f l) <= n * List.length l)%nat.
Proof.
  intro H. induction l as [|x l IH]; cbn [flat_map List.length]; [lia|].
  rewrite length_app. specialize (H x). lia.
Qed.

Lemma ranked (sqrtQ : Q -> Q) (journeys : list PatientFlow.PatientJourney)
  (b : BottleneckDetection.BottleneckDetection) :
  In b (BottleneckDetection.detectBottlenecks sqrtQ journeys) ->
  is_fin (BottleneckDetection.rank b).
Proof.
  intro H. apply DetectionFacts.detections_In in H.
  destruct H as (i & b0 & _ & ->).
  cbn [BottleneckDetection.rank BottleneckDetection.withRank].
  unfold of_nat. rewrite NumFacts.add_of_Z. apply NumFacts.is_fin_of_Z.
Qed.

End PriorityFacts.

(** X19: the recommendations that getPrioritizedOptimizations returns for
    the detected bottlenecks are in order of urgency, critical first, and
    among equally urgent ones in order of the rank of their bottleneck.
    Each one belongs to a detected bottleneck whose unit has a utilization
    entry: it carries the name and the rank of the bottleneck, its urgency
    is read off the overall impact score (above 75 critical, above 50 high,
    above 30 medium, otherwise low), and its kind answers to the test that
    produced it.  A bottleneck gives at most three recommendations. *)
Theorem recommendations_ordered_by_urgency_then_rank
  (sqrtQ : Q -> Q) (journeys : list PatientFlow.PatientJourney)
  (utilization : list Optimization.Utilization) :
  let bottlenecks := BottleneckDetection.detectBottlenecks sqrtQ journeys in
  let recommendations :=
    Optimization.getPrioritizedOptimizations utilization bottlenecks in
  StronglySorted PriorityFacts.comesBefore recommendations
  /\ Forall
       (fun r =>
          exists b,
            In b bottlenecks /\ PriorityFacts.recommends utilization b r)
       recommendations
  /\ (List.length recommendations <= 3 * List.length bottlenecks)%nat.
Proof.
  intros bottlenecks recommendations.
  assert (F : Forall
                (fun r =>
                   exists b,
                     In b bottlenecks
                     /\ PriorityFacts.recommends utilization b r)
                (flat_map (Optimization.recommendationsOf utilization)
                   bottlenecks)).
  { rewrite Forall_forall. intros r Hr. apply in_flat_map in Hr.
    destruct Hr as (b & Hb & Hr). exists b. split; [exact Hb|].
    apply PriorityFacts.recommendationsOf_In, Hr. }
  unfold recommendations, Optimization.getPrioritizedOptimizations.
  split; [|split].
  - apply PriorityFacts.ordered. revert F. apply Forall_impl.
    intros r (b & Hb & _ & P & _). rewrite P.
    apply (PriorityFacts.ranked sqrtQ journeys b Hb).
  - apply ArrayFacts.sort_Forall, F.
  - rewrite ArrayFacts.sort_length.
    apply PriorityFacts.flat_map_bound.
    apply PriorityFacts.recommendationsOf_length.
Qed.

(* ------------------------------------------------------------------ *)
(** * The prevention recommendations *)

Module AdviceFacts.

Import Records Readmission ReadmissionCohort ReadmissionSpec.

(** The factors pushed so far, by name and impact: the impacts are integers
    between 1 and 30 and the score is their sum. *)
Definition traced (l : list (string * Z)) (p : Progress) : Prop :=
  fst p = map (fun e => mkFactor (str (fst e)) (of_Z (snd e))) l
  /\ snd p = of_Z (TallyFacts.sumZ (map snd l))
  /\ Forall (fun e => (0 < snd e <= 30)%Z) l.

Lemma traced_nothing (l : list (string * Z)) (p : Progress) :
  traced l p -> traced (l ++ []) p.
Proof. rewrite app_nil_r. exact (fun H => H). Qed.

Lemma push_traced (name : string) (z : Z) (l : list (string * Z))
  (p : Progress) :
  (0 < z <= 30)%Z -> traced l p ->
  traced (l ++ [(name, z)]) (push name (of_Z z) p).
Proof.
  intros Hz (F & S & B). unfold traced, push. cbn [fst snd].
  rewrite F, S, !map_app, TallyFacts.sumZ_app. cbn [map fst snd].
  cbn [TallyFacts.sumZ fold_right]. rewrite NumFacts.add_of_Z, Z.add_0_r.
  repeat split. apply Forall_app. split; [exact B|].
  constructor; [exact Hz | constructor].
Qed.

(** What each step pushes. *)
Definition stayFactor (o : option bool) : list (string * Z) :=
  match o with
  | Some true => [("Short Length of Stay"%string, 25%Z)]
  | Some false => [("Extended Length of Stay"%string, 20%Z)]
  | None => []
  end.

Definition optional (b : bool) (name : string) (z : Z)
  : list (string * Z) :=
  if b then [(name, z)] else [].

Lemma stepLengthOfStay_traced (record : PatientRecord)
  (l : list (string * Z)) (p : Progress) :
  traced l p ->
  exists o, traced (l ++ stayFactor o) (stepLengthOfStay record p).
Proof.
  intro T. unfold stepLengthOfStay.
  destruct (_ >? zero)%num;
    [|exists None; apply traced_nothing, T].
  destruct (_ <? of_Z 2)%num;
    [exists (Some true); apply push_traced; [lia | exact T]|].
  destruct (_ >? of_Z 14)%num;
    [exists (Some false); apply push_traced; [lia | exact T]|].
  exists None. apply traced_nothing, T.
Qed.

Lemma stepOperationalDelay_traced (record : PatientRecord)
  (l : list (string * Z)) (p : Progress) :
  traced l p ->
  exists b z,
    traced (l ++ optional b "Operational Delays" z)
      (stepOperationalDelay record p).
Proof.
  intro T. unfold stepOperationalDelay.
  rewrite ReadmissionFacts.operationalDelayScore_points.
  change zero with (of_Z 0). rewrite NumFacts.gtb_of_Z.
  destruct (0 <? waitPoints record)%Z eqn:G.
  - apply Z.ltb_lt in G. exists true, (waitPoints record).
    apply push_traced; [|exact T].
    pose proof (TallyFacts.points_range record []) as R. lia.
  - exists false, 0%Z. apply traced_nothing, T.
Qed.

Lemma stepTransfers_traced (record : PatientRecord)
  (l : list (string * Z)) (p : Progress) :
  traced l p ->
  exists b,
    traced (l ++ optional b "Multiple Department Transfers" 15)
      (stepTransfers record p).
Proof.
  intro T. unfold stepTransfers.
  destruct (journeySteps record) as [steps|];
    [|exists false; apply traced_nothing, T].
  destruct (5 <? List.length steps)%nat;
    [|exists false; apply traced_nothing, T].
  exists true. apply push_traced; [lia | exact T].
Qed.

Lemma stepHistory_traced (record : PatientRecord)
  (historicalRecords : list PatientRecord) (l : list (string * Z))
  (p : Progress) :
  traced l p ->
  exists b z,
    traced (l ++ optional b "Recent Hospital Visits" z)
      (stepHistory record historicalRecords p).
Proof.
  intro T. unfold stepHistory.
  destruct (0 <? List.length (patientHistoryOf record historicalRecords))%nat;
    [|exists false, 0%Z; apply traced_nothing, T].
  destruct (recentVisitsOf record
              (patientHistoryOf record historicalRecords)) as [|v vs];
    [exists false, 0%Z; apply traced_nothing, T|].
  change (0 <? List.length (v :: vs))%nat with true. cbv iota.
  rewrite ReadmissionFacts.of_nat_mul, ReadmissionFacts.Math_min_of_Z.
  eexists true, _. apply push_traced; [|exact T]. cbn [List.length]. lia.
Qed.

Section Host.
Variable getDay : Z -> Z.

Lemma stepWeekend_traced (record : PatientRecord) (l : list (string * Z))
  (p : Progress) :
  traced l p ->
  exists b,
    traced (l ++ optional b "Weekend Discharge" 10)
      (stepWeekend getDay record p).
Proof.
  intro T. unfold stepWeekend.
  destruct (admissionDate record) as [a|];
    [|exists false; apply traced_nothing, T].
  destruct ((getDay a =? 5)%Z || (getDay a =? 6)%Z);
    [|exists false; apply traced_nothing, T].
  exists true. apply push_traced; [lia | exact T].
Qed.

Definition pushedBy (stay : option bool) (wait transfers history weekend : bool)
  (waitZ historyZ : Z) : list (string * Z) :=
  stayFactor stay
  ++ optional wait "Operational Delays" waitZ
  ++ optional transfers "Multiple Department Transfers" 15
  ++ optional history "Recent Hospital Visits" historyZ
  ++ optional weekend "Weekend Discharge" 10.

(** The progress of [predictReadmissionRisk] after the five steps. *)
Definition progressOf (record : PatientRecord)
  (historicalRecords : list PatientRecord) : Progress :=
  stepWeekend getDay record
    (stepHistory record historicalRecords
       (stepTransfers record
          (stepOperationalDelay record
             (stepLengthOfStay record ([], zero))))).

Lemma progress_traced (record : PatientRecord)
  (historicalRecords : list PatientRecord) :
  exists stay wait transfers history weekend waitZ historyZ,
    traced (pushedBy stay wait transfers history weekend waitZ historyZ)
      (progressOf record historicalRecords).
Proof.
  assert (T0 : traced [] ([], zero)).
  { repeat split. constructor. }
  destruct (stepLengthOfStay_traced record _ _ T0) as (stay & T1).
  destruct (stepOperationalDelay_traced record _ _ T1) as (wait & waitZ & T2).
  destruct (stepTransfers_traced record _ _ T2) as (transfers & T3).
  destruct (stepHistory_traced record historicalRecords _ _ T3)
    as (history & historyZ & T4).
  destruct (stepWeekend_traced record _ _ T4) as (weekend & T5).
  exists stay, wait, transfers, history, weekend, waitZ, historyZ.
  unfold pushedBy, progressOf. cbn [app] in T5.
  rewrite <- !app_assoc in T5. exact T5.
Qed.

End Host.

(** The texts before the cut, from the names of the factors. *)
Definition urgentAdvice (riskLevel : RiskLevel) : list jsstring :=
  if isHighOrCritical riskLevel then
    [ str "Schedule follow-up appointment within 48-72 hours of discharge";
      str "Arrange home health care visit within first week" ]
  else [].

Definition adviceFor (names : list jsstring) (riskLevel : RiskLevel)
  : list jsstring :=
  urgentAdvice riskLevel ++ flat_map recommendationsFor names.

Lemma fold_advice (factors : list ReadmissionFactor) (init : list jsstring) :
  fold_left (fun recommendations f =>
               recommendations ++ recommendationsFor (factor f))
    factors init
  = init ++ flat_map recommendationsFor (map factor factors).
Proof.
  revert init. induction factors as [|f factors IH]; intro init.
  - cbn. rewrite app_nil_r. reflexivity.
  - cbn [fold_left map flat_map]. rewrite IH, app_assoc. reflexivity.
Qed.

Lemma generateRecommendations_names (factors : list ReadmissionFactor)
  (riskLevel : RiskLevel) :
  generateRecommendations factors riskLevel
  = firstn 5 (distinct [] (adviceFor (map factor factors) riskLevel)).
Proof.
  unfold generateRecommendations, adviceFor, urgentAdvice.
  rewrite fold_advice. reflexivity.
Qed.

(** The texts of the factors that the steps can push are all different, and
    different from the two urgent ones. *)
Lemma advice_distinct (stay : option bool)
  (wait transfers history weekend : bool) (riskLevel : RiskLevel) :
  distinct []
    (adviceFor
       (map (fun e => str (fst e))
          (pushedBy stay wait transfers history weekend 0 0))
       riskLevel)
  = adviceFor
      (map (fun e => str (fst e))
         (pushedBy stay wait transfers history weekend 0 0))
      riskLevel
  /\ List.length
       (adviceFor
          (map (fun e => str (fst e))
             (pushedBy stay wait transfers history weekend 0 0))
          riskLevel)
     = ((if isHighOrCritical riskLevel then 2 else 0)
        + 2 * List.length
                (pushedBy stay wait transfers history weekend 0 0))%nat.
Proof.
  destruct stay as [[|]|], wait, transfers, history, weekend, riskLevel;
    vm_compute; split; reflexivity.
Qed.

Lemma names_of_pushed (l : list (string * Z)) :
  map factor (map (fun e => mkFactor (str (fst e)) (of_Z (snd e))) l)
  = map (fun e => str (fst e)) l.
Proof. rewrite map_map. reflexivity. Qed.

Lemma pushed_names (stay : option bool)
  (wait transfers history weekend : bool) (waitZ historyZ : Z) :
  map (fun e => str (fst e))
    (pushedBy stay wait transfers history weekend waitZ historyZ)
  = map (fun e => str (fst e))
      (pushedBy stay wait transfers history weekend 0 0)
  /\ List.length
       (pushedBy stay wait transfers history weekend waitZ historyZ)
     = List.length (pushedBy stay wait transfers history weekend 0 0).
Proof.
  destruct stay as [[|]|], wait, transfers, history, weekend;
    split; reflexivity.
Qed.

(** No single factor reaches 50 points. *)
Lemma two_factors (l : list (string * Z)) :
  Forall (fun e => (0 < snd e <= 30)%Z) l ->
  (50 <= TallyFacts.sumZ (map snd l))%Z -> (2 <= List.length l)%nat.
Proof.
  intros F S. destruct l as [|a [|b l]]; cbn [List.length]; [| |lia].
  - cbn in S. lia.
  - inversion F as [|? ? Ha _]; subst. cbn in S. lia.
Qed.

Lemma highOrCritical_score (n : Z) :
  isHighOrCritical (riskLevelOf (of_Z n)) = (50 <=? n)%Z.
Proof.
  unfold riskLevelOf. rewrite !NumFacts.geb_of_Z.
  destruct (70 <=? n)%Z eqn:E70.
  - apply Z.leb_le in E70. symmetry. apply Z.leb_le. lia.
  - destruct (50 <=? n)%Z; [reflexivity|].
    destruct (30 <=? n)%Z; reflexivity.
Qed.

Lemma distinct_In (seen l : list jsstring) (s : jsstring) :
  In s (distinct seen l) -> In s l /\ ~ In s seen.
Proof.
  revert seen. induction l as [|x l IH]; intros seen H; [contradiction|].
  cbn [distinct] in H. destruct (includes seen x) eqn:E.
  - destruct (IH _ H) as [I N]. split; [right; exact I | exact N].
  - destruct H as [<- | H].
    + split; [left; reflexivity|]. intro I.
      apply CohortFacts.includes_In in I. congruence.
    + destruct (IH _ H) as [I N]. split; [right; exact I|].
      intro J. apply N, in_or_app. left. exact J.
Qed.

Lemma distinct_NoDup (seen l : list jsstring) : NoDup (distinct seen l).
Proof.
  revert seen. induction l as [|x l IH]; intro seen; [constructor|].
  cbn [distinct]. destruct (includes seen x); [apply IH|].
  constructor; [|apply IH]. intro I. apply distinct_In in I.
  apply (proj2 I), in_or_app. right. left. reflexivity.
Qed.

Lemma firstn_NoDup {A : Type} (n : nat) (l : list A) :
  NoDup l -> NoDup (firstn n l).
Proof.
  revert n. induction l as [|x l IH]; intros [|n] N; cbn [firstn];
    try constructor.
  - inversion N as [|? ? Hx N']; subst. intro I. apply Hx.
    rewrite <- (firstn_skipn n l). apply in_or_app. left. exact I.
  - inversion N; subst. apply IH. assumption.
Qed.

End AdviceFacts.

(** X20: the prevention recommendations of predictReadmissionRisk are
    distinct texts, two for each contributing factor after the two urgent
    ones that a high or critical level adds, cut after the fifth.  A high or
    critical level needs at least two factors, so such a patient always gets
    exactly five recommendations, the two urgent ones first: of the advice
    for the factors only three texts are left, and none for a third
    factor. *)
Theorem prevention_recommendations_are_cut_at_five
  (getDay : Z -> Z) (record : Records.PatientRecord)
  (historicalRecords : list Records.PatientRecord) :
  let risk :=
    Readmission.predictReadmissionRisk getDay record historicalRecords in
  let advice :=
    ReadmissionCohort.preventionRecommendationsOf getDay record
      historicalRecords in
  let urgent :=
    if ReadmissionCohort.isHighOrCritical (Readmission.riskLevel risk)
    then 2%nat else 0%nat in
  NoDup advice
  /\ List.length advice
     = Nat.min 5
         (urgent + 2 * List.length (Readmission.contributingFactors risk))
  /\ (ReadmissionCohort.isHighOrCritical (Readmission.riskLevel risk) = true ->
      (2 <= List.length (Readmission.contributingFactors risk))%nat
      /\ List.length advice = 5%nat
      /\ firstn 2 advice
         = [ str "Schedule follow-up appointment within 48-72 hours of discharge";
             str "Arrange home health care visit within first week" ]).
Proof.
  intros risk advice urgent.
  destruct (AdviceFacts.progress_traced getDay record historicalRecords)
    as (stay & wait & transfers & history & weekend & waitZ & historyZ
        & F & S & B).
  set (l := AdviceFacts.pushedBy stay wait transfers history weekend
              waitZ historyZ) in *.
  assert (Ea : advice
               = firstn 5
                   (ReadmissionCohort.distinct []
                      (AdviceFacts.adviceFor (map (fun e => str (fst e)) l)
                         (Readmission.riskLevel risk)))).
  { unfold advice, ReadmissionCohort.preventionRecommendationsOf.
    fold (AdviceFacts.progressOf getDay record historicalRecords).
    rewrite AdviceFacts.generateRecommendations_names, F,
      AdviceFacts.names_of_pushed.
    reflexivity. }
  assert (Ef : List.length (Readmission.contributingFactors risk)
               = List.length l).
  { unfold risk, Readmission.predictReadmissionRisk.
    cbn [Readmission.contributingFactors].
    fold (AdviceFacts.progressOf getDay record historicalRecords).
    rewrite ArrayFacts.sort_length, F, length_map. reflexivity. }
  assert (El : Readmission.riskLevel risk
               = Readmission.riskLevelOf
                   (of_Z (TallyFacts.sumZ (map snd l)))).
  { unfold risk, Readmission.predictReadmissionRisk.
    cbn [Readmission.riskLevel].
    fold (AdviceFacts.progressOf getDay record historicalRecords).
    rewrite S. reflexivity. }
  destruct (AdviceFacts.pushed_names stay wait transfers history weekend
              waitZ historyZ) as [Pn Pl].
  fold l in Pn, Pl.
  destruct (AdviceFacts.advice_distinct stay wait transfers history weekend
              (Readmission.riskLevel risk)) as [D L].
  rewrite <- Pn in D, L. rewrite <- Pl in L.
  rewrite D in Ea.
  assert (Len : List.length advice
                = Nat.min 5 (urgent + 2 * List.length l)).
  { rewrite Ea, length_firstn, L. reflexivity. }
  split; [|split].
  - rewrite Ea. apply AdviceFacts.firstn_NoDup. rewrite <- D.
    apply AdviceFacts.distinct_NoDup.
  - rewrite Ef. exact Len.
  - intro H.
    assert (T : (2 <= List.length l)%nat).
    { apply AdviceFacts.two_factors; [exact B|].
      rewrite El, AdviceFacts.highOrCritical_score in H.
      apply Z.leb_le, H. }
    split; [rewrite Ef; exact T|]. split.
    + rewrite Len. unfold urgent. rewrite H. lia.
    + rewrite Ea. unfold AdviceFacts.adviceFor, AdviceFacts.urgentAdvice.
      rewrite H. reflexivity.
Qed.

(* ------------------------------------------------------------------ *)
(** * Utilization *)

Module UtilizationFacts.

Import Optimization FiniteFacts.

Lemma setOf_length (l : list (option jsstring)) :
  (List.length (setOf l) <= List.length l)%nat.
Proof.
  induction l as [|x l IH]; [apply Nat.le_refl|].
  cbn [setOf List.length].
  pose proof (filter_length_le (fun y => negb (sameValue x y)) (setOf l)).
  lia.
Qed.

Lemma count_nonneg (n : nat) : 0 <= inject_Z (Z.of_nat n).
Proof.
  change 0 with (inject_Z 0). rewrite <- Zle_Qle. apply Nat2Z.is_nonneg.
Qed.

(** A count divided by a positive number. *)
Lemma ratio_value (n : nat) (q : Q) :
  0 < q -> (of_nat n / Fin q)%num = fin (inject_Z (Z.of_nat n) / q).
Proof.
  intro H. unfold of_nat, of_Z. apply NumFacts.div_fin. lra.
Qed.

Lemma positive_inv (d : num) :
  (d >? zero)%num = true -> (exists q, d = Fin q /\ 0 < q) \/ d = PInf.
Proof.
  destruct d as [q| | |]; try discriminate.
  - intro H. left. exists q. split; [reflexivity|].
    apply NumFacts.gtb_fin in H. exact H.
  - intros _. right. reflexivity.
Qed.

Lemma ratio_nonneg (n : nat) (d : num) :
  (d >? zero)%num = true -> nonneg (of_nat n / d)%num.
Proof.
  intro H. destruct (positive_inv d H) as [(q & -> & Hq) | ->].
  - rewrite (ratio_value n q Hq). cbn [fin nonneg]. rewrite Qred_correct.
    apply Qle_shift_div_l; [exact Hq|]. rewrite Qmult_0_l.
    apply count_nonneg.
  - cbn. discriminate.
Qed.

Lemma ratio_of_none (d : num) :
  (d >? zero)%num = true -> (of_nat 0 / d)%num = zero.
Proof.
  intro H. destruct (positive_inv d H) as [(q & -> & Hq) | ->].
  - rewrite (ratio_value 0 q Hq). change zero with (fin 0).
    apply NumFacts.fin_eq.
    change (inject_Z (Z.of_nat 0)) with 0. unfold Qdiv. apply Qmult_0_l.
  - reflexivity.
Qed.

(** The cap at 100 of a non-negative number. *)
Lemma capped_at_100 (x : num) :
  nonneg x ->
  nonneg (Math_min (of_Z 100) x)
  /\ (Math_min (of_Z 100) x <=? of_Z 100)%num = true.
Proof.
  destruct x as [q| | |]; try contradiction. cbn [nonneg]. intro H.
  unfold Math_min, of_Z. destruct (Fin q <? Fin (inject_Z 100))%num eqn:E.
  - split; [exact H|]. apply NumFacts.leb_fin.
    apply NumFacts.ltb_fin in E. apply Qlt_le_weak, E.
  - split; [discriminate|]. apply NumFacts.leb_fin, Qle_refl.
Qed.

Lemma zero_nonneg : nonneg zero.
Proof. discriminate. Qed.

Lemma bedUtilization_nonneg (n : nat) (beds : num) :
  nonneg (if (beds >? zero)%num then (of_nat n / beds * of_Z 100)%num
          else zero).
Proof.
  destruct (beds >? zero)%num eqn:B; [|apply zero_nonneg].
  apply CapFacts.nonneg_mul; [apply ratio_nonneg, B | discriminate].
Qed.

Lemma staffUtilization_nonneg (n : nat) (staff : num) :
  nonneg (if (staff >? zero)%num then (of_nat n / staff)%num else zero).
Proof.
  destruct (staff >? zero)%num eqn:S; [|apply zero_nonneg].
  apply ratio_nonneg, S.
Qed.

End UtilizationFacts.

(** X21: getDepartmentUtilization returns one entry for each row of
    departments, in the order of the rows.  In every entry the bed
    utilization is a number between 0 and 100 and the staff utilization a
    number that is not negative, whatever the capacity and the staff count
    of the row are (zero, missing or negative ones give 0, never a division
    by zero); the patient volume counts distinct patients, so it is at most
    the number of flow logs of the unit; and a unit without flow logs has 0
    for the volume, the processing time and both utilizations. *)
Theorem utilization_stays_within_bounds
  (departments : list Optimization.DepartmentRow)
  (flowLogs : list Optimization.UtilizationLog) :
  let utilization :=
    Optimization.getDepartmentUtilization departments flowLogs in
  map Optimization.name utilization = map Optimization.d_name departments
  /\ Forall
       (fun u =>
          FiniteFacts.nonneg (Optimization.bedUtilization u)
          /\ (Optimization.bedUtilization u <=? of_Z 100)%num = true
          /\ FiniteFacts.nonneg (Optimization.staffUtilization u)
          /\ exists patients logs : nat,
               Optimization.patientVolume u = of_nat patients
               /\ Optimization.flowLogsCount u = of_nat logs
               /\ (patients <= logs)%nat
               /\ (logs = 0%nat ->
                   Optimization.avgProcessingTime u = zero
                   /\ Optimization.bedUtilization u = zero
                   /\ Optimization.staffUtilization u = zero))
       utilization.
Proof.
  intro utilization. unfold utilization, Optimization.getDepartmentUtilization.
  split; [rewrite map_map; reflexivity|].
  rewrite Forall_forall. intros u Hu. apply in_map_iff in Hu.
  destruct Hu as (dept & <- & _). unfold Optimization.utilizationOf.
  cbn [Optimization.bedUtilization Optimization.staffUtilization
       Optimization.patientVolume Optimization.flowLogsCount
       Optimization.avgProcessingTime].
  set (deptLogs := Optimization.logsOf dept flowLogs).
  set (patients :=
         List.length
           (Optimization.setOf (map Optimization.patient_id deptLogs))).
  destruct (UtilizationFacts.capped_at_100 _
              (UtilizationFacts.bedUtilization_nonneg patients
                 (Optimization.d_bed_capacity dept))) as [B1 B2].
  split; [exact B1|]. split; [exact B2|].
  split; [apply UtilizationFacts.staffUtilization_nonneg|].
  exists patients, (List.length deptLogs).
  split; [reflexivity|]. split; [reflexivity|].
  assert (L : (patients <= List.length deptLogs)%nat).
  { unfold patients.
    rewrite <- (length_map Optimization.patient_id deptLogs).
    apply UtilizationFacts.setOf_length. }
  split; [exact L|]. intro E.
  assert (P : patients = 0%nat) by lia.
  rewrite E, P. split; [reflexivity|]. split.
  - destruct (Optimization.d_bed_capacity dept >? zero)%num eqn:C;
      [|reflexivity].
    rewrite (UtilizationFacts.ratio_of_none _ C). reflexivity.
  - destruct (Optimization.d_staff_count dept >? zero)%num eqn:C;
      [|reflexivity].
    apply UtilizationFacts.ratio_of_none, C.
Qed.

(* ------------------------------------------------------------------ *)
(** * Reallocation on the computed utilization *)

Module SourceFacts.

Import Optimization.

(** At most a fifth of the staff is moved. *)
Lemma staffToReallocate_fifth (source : Utilization) (q : Q) :
  staff_count source = Fin q -> 5 < q ->
  exists k, staffToReallocateOf source = of_Z k /\ inject_Z k * 5 <= q.
Proof.
  intros E H. unfold staffToReallocateOf. rewrite E.
  change (lit 2 10) with (Fin (1 # 5)). rewrite NumFacts.mul_fin.
  unfold fin. cbn [Math_floor]. rewrite ReadmissionFacts.Math_min_of_Z.
  eexists. split; [reflexivity|].
  set (z := Qfloor (Qred (q * (1 # 5)))).
  assert (Z1 : inject_Z z <= q * (1 # 5)).
  { unfold z. rewrite <- (Qred_correct (q * (1 # 5))) at 2.
    apply Qfloor_le. }
  assert (Z2 : inject_Z (Z.min 2 z) <= inject_Z z).
  { rewrite <- Zle_Qle. apply Z.le_min_r. }
  lra.
Qed.

Lemma ratio_below (n q b : Q) : 0 < q -> n / q < b -> n < b * q.
Proof.
  intros Hq H.
  assert (E : n == n / q * q) by (field; lra).
  rewrite E. apply Qmult_lt_compat_r; assumption.
Qed.

(** With fewer than 4 patients per staff and more than 5 staff, the unit
    stays below 7 patients per staff when it gives staff away. *)
Lemma source_test (flowLogs : list UtilizationLog) (dept : DepartmentRow) :
  let source := utilizationOf flowLogs dept in
  (staffUtilization source <? of_Z 4)%num = true ->
  (staff_count source >? of_Z 5)%num = true ->
  (newSourceUtilOf source <? of_Z 7)%num = true.
Proof.
  intros source U S.
  destruct (staff_count source) as [q| | |] eqn:E; try discriminate.
  - apply NumFacts.gtb_fin in S. change (inject_Z 5) with 5 in S.
    destruct (staffToReallocate_fifth source q E S) as (k & K & B).
    unfold newSourceUtilOf. rewrite K, E.
    unfold source, utilizationOf in E, U |- *.
    cbn [staff_count staffUtilization patientVolume] in E, U |- *.
    set (n := List.length _) in *. rewrite E in U.
    assert (P : (Fin q >? zero)%num = true).
    { apply NumFacts.gtb_fin. change (inject_Z 0) with 0. lra. }
    rewrite P in U. rewrite UtilizationFacts.ratio_value in U by lra.
    unfold fin, of_Z in U. apply NumFacts.ltb_fin in U.
    rewrite Qred_correct in U. change (inject_Z 4) with 4 in U.
    apply SourceFacts.ratio_below in U; [|lra].
    unfold of_Z at 1. rewrite NumFacts.sub_fin. unfold fin at 1.
    assert (D : 0 < Qred (q - inject_Z k)) by (rewrite Qred_correct; lra).
    rewrite UtilizationFacts.ratio_value by exact D.
    unfold fin, of_Z. apply NumFacts.ltb_fin.
    rewrite Qred_correct. change (inject_Z 7) with 7.
    apply Qlt_shift_div_r; [exact D|]. rewrite Qred_correct. lra.
  - unfold newSourceUtilOf, staffToReallocateOf. rewrite E. reflexivity.
Qed.

End SourceFacts.

(** X22: on the utilization that getDepartmentUtilization computes, the
    first half of the feasibility score never fails: a unit with fewer than
    4 patients per staff and more than 5 staff stays below 7 patients per
    staff after giving away at most a fifth of its staff.  So the
    opportunities of getStaffReallocationOpportunities are exactly those,
    with score 100, of the pairs of an under-utilized and an over-utilized
    unit whose target stays above 5 patients per staff. *)
Theorem reallocation_is_decided_by_the_target
  (departments : list Optimization.DepartmentRow)
  (flowLogs : list Optimization.UtilizationLog)
  (bottlenecks : list BottleneckDetection.BottleneckDetection) :
  let utilization :=
    Optimization.getDepartmentUtilization departments flowLogs in
  Forall
    (fun source =>
       (Optimization.newSourceUtilOf source <? of_Z 7)%num = true)
    (filter (Optimization.isUnderutilized bottlenecks) utilization)
  /\ forall o,
       In o (Optimization.getStaffReallocationOpportunities utilization
               bottlenecks)
       <-> exists source target,
             In source utilization /\ In target utilization
             /\ Optimization.isUnderutilized bottlenecks source = true
             /\ Optimization.isOverutilized bottlenecks target = true
             /\ (Optimization.newTargetUtilOf source target >? of_Z 5)%num
                = true
             /\ o = Optimization.mkOpportunity (Optimization.name source)
                      (Optimization.name target)
                      (Optimization.staffToReallocateOf source) (of_Z 100).
Proof.
  intro utilization.
  assert (T : forall source,
            In source utilization ->
            Optimization.isUnderutilized bottlenecks source = true ->
            (Optimization.newSourceUtilOf source <? of_Z 7)%num = true).
  { intros source Hs U. apply in_map_iff in Hs.
    destruct Hs as (dept & <- & _).
    unfold Optimization.isUnderutilized in U.
    apply andb_true_iff in U. destruct U as [U _].
    apply andb_true_iff in U. destruct U as [U1 U2].
    apply SourceFacts.source_test; assumption. }
  split.
  - rewrite Forall_forall. intros source Hs. apply filter_In in Hs.
    apply T; apply Hs.
  - intro o. rewrite ReallocationFacts.opportunities_In. split.
    + intros (source & target & Hs & Ht & U & O & E).
      exists source, target. unfold Optimization.opportunityOf in E.
      destruct (Optimization.feasibilityScoreOf source target >? of_Z 50)%num
        eqn:F; [|discriminate].
      destruct (ReallocationFacts.feasible_both source target F)
        as (_ & F2 & F3).
      rewrite F3 in E. inversion E. repeat split; assumption.
    + intros (source & target & Hs & Ht & U & O & F2 & ->).
      exists source, target. repeat split; try assumption.
      unfold Optimization.opportunityOf, Optimization.feasibilityScoreOf.
      rewrite (T source Hs U), F2. reflexivity.
Qed.

(* ------------------------------------------------------------------ *)
(** * The admission forecast *)

Module ForecastFacts.

Import Records Forecast FiniteFacts.

(** ** The smoothed series and its trend stay finite *)

Lemma total_finite (values : list num) :
  Forall is_fin values -> is_fin (fold_left add values zero).
Proof.
  intro F. destruct (sum_value values F) as (s & E & _).
  unfold JSNum.sum in E. rewrite E. exact I.
Qed.

Lemma over_count_finite (x : num) (n : nat) :
  is_fin x -> is_fin (x / of_nat (S n))%num.
Proof.
  intro H. apply NumFacts.is_fin_div_of_Z; [lia | exact H].
Qed.

Lemma smoothFrom_finite (alpha previous : num) (values : list num) :
  is_fin alpha -> is_fin previous -> Forall is_fin values ->
  Forall is_fin (smoothFrom alpha previous values).
Proof.
  intros Ha Hp F. revert previous Hp.
  induction F as [|v rest Hv _ IH]; intros previous Hp; cbn [smoothFrom].
  - constructor.
  - assert (S : is_fin (alpha * v + (of_Z 1 - alpha) * previous)%num).
    { apply NumFacts.is_fin_add; apply NumFacts.is_fin_mul; try assumption.
      apply NumFacts.is_fin_sub; [exact I | exact Ha]. }
    constructor; [exact S | apply IH, S].
Qed.

Lemma smoothing_finite (values : list num) (alpha : num) :
  is_fin alpha -> Forall is_fin values ->
  Forall is_fin (exponentialSmoothing values alpha).
Proof.
  intros Ha F. destruct F as [|v rest Hv F]; cbn [exponentialSmoothing].
  - constructor.
  - constructor; [exact Hv | apply smoothFrom_finite; assumption].
Qed.

Lemma smoothFrom_length (alpha previous : num) (values : list num) :
  List.length (smoothFrom alpha previous values) = List.length values.
Proof.
  revert previous. induction values as [|v rest IH]; intro previous;
    cbn [smoothFrom List.length]; [reflexivity|].
  rewrite IH. reflexivity.
Qed.

Lemma smoothing_length (values : list num) (alpha : num) :
  List.length (exponentialSmoothing values alpha) = List.length values.
Proof.
  destruct values as [|v rest]; cbn [exponentialSmoothing List.length];
    [reflexivity|].
  rewrite smoothFrom_length. reflexivity.
Qed.

Lemma trendSteps_finite (xMean yMean : num) (entries : list (nat * num))
  (state : num * num) :
  is_fin xMean -> is_fin yMean ->
  Forall (fun e => is_fin (snd e)) entries ->
  is_fin (fst state) -> is_fin (snd state) ->
  is_fin (fst (fold_left (trendStep xMean yMean) entries state))
  /\ is_fin (snd (fold_left (trendStep xMean yMean) entries state)).
Proof.
  intros Hx Hy F. revert state.
  induction F as [|e entries He _ IH]; intros state H1 H2; cbn [fold_left].
  - split; assumption.
  - assert (D : is_fin (of_nat (fst e) - xMean)%num).
    { apply NumFacts.is_fin_sub; [exact I | exact Hx]. }
    apply IH; unfold trendStep; cbn [fst snd].
    + apply NumFacts.is_fin_add; [exact H1|].
      apply NumFacts.is_fin_mul; [exact D|].
      apply NumFacts.is_fin_sub; assumption.
    + apply NumFacts.is_fin_add; [exact H2|].
      apply NumFacts.is_fin_mul; exact D.
Qed.

Lemma guarded_quotient (x y : num) :
  is_fin x -> is_fin y ->
  is_fin (if (y === zero)%num then zero else (x / y)%num).
Proof.
  destruct x as [a| | |], y as [b| | |]; try contradiction. intros _ _.
  cbn [num_eqb div zero of_Z]. change (inject_Z 0) with 0.
  destruct (Qeq_bool b 0); exact I.
Qed.

(** The trend never divides by zero. *)
Lemma trend_finite (values : list num) :
  Forall is_fin values -> is_fin (calculateTrend values).
Proof.
  intro F. unfold calculateTrend.
  destruct (List.length values <? 2)%nat eqn:L; [exact I|].
  destruct values as [|v rest]; [discriminate|].
  set (values := v :: rest) in *.
  assert (Hx : is_fin ((of_nat (List.length values) - of_Z 1) / of_Z 2)%num).
  { apply NumFacts.is_fin_div_of_Z; [lia|].
    apply NumFacts.is_fin_sub; exact I. }
  assert (Hy : is_fin (fold_left add values zero
                       / of_nat (List.length values))%num).
  { apply over_count_finite, total_finite, F. }
  destruct (trendSteps_finite _ _
              (combine (seq 0 (List.length values)) values) (zero, zero)
              Hx Hy) as [N D]; try exact I.
  { rewrite Forall_forall. intros [i x] He. apply in_combine_r in He.
    rewrite Forall_forall in F. apply F, He. }
  apply guarded_quotient; assumption.
Qed.

Lemma last_finite (values : list num) :
  values <> [] -> Forall is_fin values -> is_fin (List.last values NaN).
Proof.
  intros N F. rewrite Forall_forall in F. apply F.
  destruct (exists_last N) as (l & x & ->). rewrite last_last.
  apply in_or_app. right. left. reflexivity.
Qed.

(** ** The deviation *)

Section Deviation.
Variable sqrtQ : Q -> Q.
Hypothesis sqrt_nonneg : forall q, 0 <= q -> 0 <= sqrtQ q.

Lemma sqrt_of_nonneg (x : num) : nonneg x -> nonneg (Math_sqrt sqrtQ x).
Proof.
  destruct x as [q| | |]; try contradiction. cbn [nonneg]. intro H.
  unfold Math_sqrt.
  destruct (Qltb q 0) eqn:E; [apply NumFacts.Qltb_lt in E; lra|].
  cbn [fin nonneg]. rewrite Qred_correct. apply sqrt_nonneg, H.
Qed.

Lemma deviation_nonneg (values : list num) (n : nat) (avg : num) :
  Forall is_fin values -> is_fin avg ->
  nonneg
    (Math_sqrt sqrtQ
       (fold_left (fun sum val => (sum + Math_pow (val - avg) 2)%num)
          values zero
        / of_nat (S n))%num).
Proof.
  intros F Ha. apply sqrt_of_nonneg, nonneg_div_count.
  rewrite (ReadmissionFacts.fold_left_add_map
             (fun val => Math_pow (val - avg) 2)).
  apply sum_nonneg. rewrite Forall_forall. intros x Hx.
  apply in_map_iff in Hx. destruct Hx as (v & <- & Hv).
  change (Math_pow (v - avg) 2) with ((v - avg) * (v - avg))%num.
  apply square_nonneg, NumFacts.is_fin_sub; [|exact Ha].
  rewrite Forall_forall in F. apply F, Hv.
Qed.

End Deviation.

(** ** A forecast *)

Lemma round_integer (x : num) : is_fin x -> exists z, Math_round x = of_Z z.
Proof.
  destruct x as [q| | |]; try contradiction. intros _.
  eexists. reflexivity.
Qed.

Lemma max_zero_of_Z (z : Z) : Math_max zero (of_Z z) = of_Z (Z.max 0 z).
Proof.
  unfold Math_max, zero. cbn [of_Z]. fold (of_Z 0). fold (of_Z z).
  rewrite NumFacts.ltb_of_Z.
  destruct (0 <? z)%Z eqn:E.
  - apply Z.ltb_lt in E. f_equal. lia.
  - apply Z.ltb_ge in E. f_equal. lia.
Qed.

(** Rounding what lies at or below an integer, or at or above it. *)
Lemma round_below (p : Z) (d : Q) :
  0 <= d -> exists z, Math_round (of_Z p - Fin d) = of_Z z /\ (z <= p)%Z.
Proof.
  intro H. unfold of_Z at 1. rewrite NumFacts.sub_fin. unfold fin.
  cbn [Math_round]. eexists. split; [reflexivity|].
  apply Z.lt_succ_r. rewrite Zlt_Qlt.
  apply Qle_lt_trans with (Qred (inject_Z p - d) + (1 # 2));
    [apply Qfloor_le|].
  rewrite Qred_correct. unfold Z.succ. rewrite inject_Z_plus.
  change (inject_Z 1) with 1. lra.
Qed.

Lemma round_above (p : Z) (d : Q) :
  0 <= d -> exists z, Math_round (of_Z p + Fin d) = of_Z z /\ (p <= z)%Z.
Proof.
  intro H. unfold of_Z at 1. rewrite NumFacts.add_fin. unfold fin.
  cbn [Math_round]. eexists. split; [reflexivity|].
  apply Z.le_trans with (Qfloor (inject_Z p));
    [rewrite Qfloor_Z; apply Z.le_refl|].
  apply Qfloor_resp_le. rewrite Qred_correct. lra.
Qed.

Section Host.
Variable isoDate : Z -> jsstring.
Variable sqrtQ : Q -> Q.
Variable Math_sin : num -> num.
Hypothesis sqrt_nonneg : forall q, 0 <= q -> 0 <= sqrtQ q.
Hypothesis sin_finite : forall x, is_fin x -> is_fin (Math_sin x).

(** What a forecast is: whole numbers, the lower bound not negative, and
    the prediction between the bounds. *)
Definition wellFormed (f : AdmissionForecast) : Prop :=
  exists p l u,
    predictedAdmissions f = of_Z p /\ lower f = of_Z l /\ upper f = of_Z u
    /\ (0 <= l <= p)%Z /\ (p <= u)%Z.

Lemma forecastOf_wellFormed (lastValue trend stdDev : num) (i : nat) :
  is_fin lastValue -> is_fin trend -> nonneg stdDev ->
  wellFormed (forecastOf Math_sin lastValue trend stdDev i).
Proof.
  intros Hl Ht Hs. unfold wellFormed, forecastOf.
  cbn [predictedAdmissions lower upper].
  assert (A : is_fin (of_nat i / of_Z 7 * of_Z 2 * Math_PI)%num).
  { apply NumFacts.is_fin_mul; [|exact I].
    apply NumFacts.is_fin_mul; [|exact I].
    apply NumFacts.is_fin_div_of_Z; [lia | exact I]. }
  assert (X : is_fin
                ((lastValue + trend * of_nat i)
                 * (of_Z 1 + lit 1 10 * Math_sin
                      (of_nat i / of_Z 7 * of_Z 2 * Math_PI)))%num).
  { apply NumFacts.is_fin_mul.
    - apply NumFacts.is_fin_add; [exact Hl|].
      apply NumFacts.is_fin_mul; [exact Ht | exact I].
    - apply NumFacts.is_fin_add; [exact I|].
      apply NumFacts.is_fin_mul; [exact I | apply sin_finite, A]. }
  destruct (round_integer _ X) as (z & ->). rewrite max_zero_of_Z.
  set (p := Z.max 0 z).
  destruct stdDev as [s| | |]; try contradiction. cbn [nonneg] in Hs.
  change (lit 196 100) with (Fin (49 # 25)). rewrite NumFacts.mul_fin.
  unfold fin.
  assert (D : 0 <= Qred ((49 # 25) * s)).
  { rewrite Qred_correct. apply Qmult_le_0_compat; [discriminate | exact Hs]. }
  destruct (round_below p _ D) as (l & -> & Ll).
  destruct (round_above p _ D) as (u & -> & Lu).
  rewrite max_zero_of_Z.
  exists p, (Z.max 0 l), u. repeat split; try reflexivity; unfold p; lia.
Qed.

Lemma forecastFrom_wellFormed (admissionValues : list num) (days : nat) :
  Forall is_fin admissionValues ->
  Forall wellFormed (forecastFrom sqrtQ Math_sin admissionValues days).
Proof.
  intro F. unfold forecastFrom.
  destruct admissionValues as [|v rest]; [constructor|].
  set (values := v :: rest) in *.
  assert (N : exponentialSmoothing values (lit 3 10) <> []) by discriminate.
  assert (S : Forall is_fin (exponentialSmoothing values (lit 3 10))).
  { apply smoothing_finite; [exact I | exact F]. }
  rewrite Forall_forall. intros f Hf. apply in_map_iff in Hf.
  destruct Hf as (i & <- & _).
  apply forecastOf_wellFormed.
  - apply last_finite; assumption.
  - apply trend_finite, S.
  - apply (deviation_nonneg sqrtQ sqrt_nonneg values (List.length rest));
      [exact F|].
    apply over_count_finite, total_finite, F.
Qed.

(** ** The counting *)

(** Every day of the map has a count of at least 1. *)
Definition counted (m : JSMap.t num) : Prop :=
  Forall (fun e => exists z, snd e = of_Z z /\ (1 <= z)%Z) m.

Lemma countOf_counted (m : JSMap.t num) (date : jsstring) :
  counted m -> exists z, countOf m date = of_Z z /\ (0 <= z)%Z.
Proof.
  intro C. unfold countOf. destruct (JSMap.get date m) as [count|] eqn:G.
  - apply MapFacts.get_In in G. unfold counted in C.
    rewrite Forall_forall in C. destruct (C _ G) as (z & E & L).
    cbn [snd] in E. subst count. exists z. split; [|lia].
    unfold or_default, truthy, of_Z.
    destruct (Qeq_bool (inject_Z z) 0) eqn:Q; [|reflexivity].
    apply Qeq_bool_iff in Q. unfold Qeq in Q. cbn in Q. lia.
  - exists 0%Z. split; [reflexivity | lia].
Qed.

Lemma set_counted (k : jsstring) (z : Z) (m : JSMap.t num) :
  (1 <= z)%Z -> counted m -> counted (JSMap.set k (of_Z z) m).
Proof.
  intros Hz C. induction C as [|[k' v'] m He Cm IH]; cbn [JSMap.set].
  - constructor; [|constructor]. exists z. split; [reflexivity | exact Hz].
  - destruct (streq k k').
    + constructor; [|exact Cm]. exists z. split; [reflexivity | exact Hz].
    + constructor; [exact He | exact IH].
Qed.

Lemma countAdmission_counted (m : JSMap.t num) (record : PatientRecord) :
  counted m -> counted (countAdmission isoDate m record).
Proof.
  intro C. unfold countAdmission.
  destruct (admissionDate record) as [t|]; [|exact C].
  destruct (countOf_counted m (isoDate t) C) as (z & -> & Hz).
  rewrite NumFacts.add_of_Z. apply set_counted; [lia | exact C].
Qed.

Lemma dailyAdmissions_counted (records : list PatientRecord)
  (m : JSMap.t num) :
  counted m -> counted (fold_left (countAdmission isoDate) records m).
Proof.
  revert m. induction records as [|r records IH]; intros m C;
    cbn [fold_left]; [exact C|].
  apply IH, countAdmission_counted, C.
Qed.

Lemma set_nonempty (k : jsstring) (v : num) (m : JSMap.t num) :
  JSMap.set k v m <> [].
Proof.
  destruct m as [|[k' v'] m]; cbn [JSMap.set]; [discriminate|].
  destruct (streq k k'); discriminate.
Qed.

(** The map is empty exactly when no record has an admission date. *)
Lemma dailyAdmissions_empty (records : list PatientRecord)
  (m : JSMap.t num) :
  fold_left (countAdmission isoDate) records m = []
  <-> m = [] /\ Forall (fun r => admissionDate r = None) records.
Proof.
  revert m. induction records as [|r records IH]; intro m; cbn [fold_left].
  - split; [intro H; split; [exact H | constructor] | intros [H _]; exact H].
  - rewrite IH. unfold countAdmission.
    destruct (admissionDate r) as [t|] eqn:E.
    + split.
      * intros [H _]. exfalso. exact (set_nonempty _ _ _ H).
      * intros [_ H]. inversion H; subst. congruence.
    + split.
      * intros [H F]. split; [exact H | constructor; assumption].
      * intros [H F]. split; [exact H|]. inversion F; assumption.
Qed.

End Host.

Lemma sin_approx_finite (x : num) :
  is_fin x -> is_fin (ForecastExamples.sin_approx x).
Proof. destruct x; [intros _; exact I | contradiction..]. Qed.

End ForecastFacts.

(** X23: with a square root that is never negative and a sine that is
    finite on finite numbers, forecastAdmissions returns no forecast when
    no record has an admission date, and otherwise one forecast for each of
    the days asked for.  In every forecast the predicted admissions and the
    two bounds of the interval are whole numbers, never NaN, the lower bound
    is not negative and the prediction lies between the bounds; and all
    forecasts of a call carry the same trend. *)
Theorem admission_forecast_is_well_formed
  (isoDate : Z -> jsstring) (sqrtQ : Q -> Q) (Math_sin : num -> num)
  (sqrt_nonneg : forall q, 0 <= q -> 0 <= sqrtQ q)
  (sin_finite : forall x, is_fin x -> is_fin (Math_sin x))
  (records : list Records.PatientRecord) (days : nat) :
  let forecasts :=
    Forecast.forecastAdmissions isoDate sqrtQ Math_sin records days in
  (Forall (fun r => Records.admissionDate r = None) records ->
   forecasts = [])
  /\ (~ Forall (fun r => Records.admissionDate r = None) records ->
      List.length forecasts = days)
  /\ Forall ForecastFacts.wellFormed forecasts
  /\ exists direction,
       Forall (fun f => Forecast.trend f = direction) forecasts.
Proof.
  intro forecasts. unfold forecasts, Forecast.forecastAdmissions.
  set (m := fold_left (Forecast.countAdmission isoDate) records []).
  set (dates := JSArray.sort Forecast.defaultCompare (JSMap.keys m)).
  assert (C : ForecastFacts.counted m).
  { apply ForecastFacts.dailyAdmissions_counted. constructor. }
  assert (L : List.length (map (Forecast.countOf m) dates) = List.length m).
  { unfold dates, JSMap.keys.
    rewrite length_map, ArrayFacts.sort_length, length_map. reflexivity. }
  split; [|split; [|split]].
  - intro H.
    assert (E : m = []).
    { apply (ForecastFacts.dailyAdmissions_empty isoDate). split;
        [reflexivity | exact H]. }
    assert (V : map (Forecast.countOf m) dates = []).
    { apply length_zero_iff_nil. rewrite L, E. reflexivity. }
    rewrite V. reflexivity.
  - intro H. unfold Forecast.forecastFrom.
    destruct (map (Forecast.countOf m) dates) as [|v rest] eqn:V.
    + exfalso. apply H.
      apply (ForecastFacts.dailyAdmissions_empty isoDate records []).
      fold m. apply length_zero_iff_nil. rewrite <- L. reflexivity.
    + rewrite length_map, length_seq. reflexivity.
  - apply ForecastFacts.forecastFrom_wellFormed; try assumption.
    rewrite Forall_forall. intros x Hx. apply in_map_iff in Hx.
    destruct Hx as (date & <- & _).
    destruct (ForecastFacts.countOf_counted m date C) as (z & -> & _).
    exact I.
  - unfold Forecast.forecastFrom.
    destruct (map (Forecast.countOf m) dates) as [|v rest];
      [exists Forecast.stable; constructor|].
    exists (Forecast.directionOf
              (Forecast.calculateTrend
                 (Forecast.exponentialSmoothing (v :: rest) (lit 3 10)))).
    rewrite Forall_forall. intros f Hf. apply in_map_iff in Hf.
    destruct Hf as (i & <- & _). reflexivity.
Qed.

Lemma admission_forecast_witness :
  let forecasts :=
    Forecast.forecastAdmissions ForecastExamples.isoDate sqrt_approx
      ForecastExamples.sin_approx CohortExamples.cohort 3 in
  Forall ForecastFacts.wellFormed forecasts
  /\ map (fun f => (Forecast.predictedAdmissions f, Forecast.lower f,
                    Forecast.upper f, Forecast.trend f))
       forecasts
     = [ (of_Z 2, of_Z 1, of_Z 3, Forecast.stable);
         (of_Z 1, of_Z 0, of_Z 2, Forecast.stable);
         (of_Z 1, of_Z 0, of_Z 2, Forecast.stable) ].
Proof.
  split.
  - exact (proj1 (proj2 (proj2
             (admission_forecast_is_well_formed ForecastExamples.isoDate
                sqrt_approx ForecastExamples.sin_approx
                BoundFacts.sqrt_approx_nonneg ForecastFacts.sin_approx_finite
                CohortExamples.cohort 3)))).
  - vm_compute. reflexivity.
Defined.

(* ------------------------------------------------------------------ *)
(** * The capacity risks *)

Module CapacityFacts.

Import Records Capacity MapFacts PredictiveSpec.

Definition newCapacity (unit : jsstring) : DepartmentCapacity :=
  mkCapacity zero zero zero.

Definition addRecord (capacity : DepartmentCapacity) (record : PatientRecord)
  : DepartmentCapacity :=
  mkCapacity (currentLoad capacity + of_Z 1)%num
    (Math_max (historicalPeak capacity) (currentLoad capacity + of_Z 1)%num)
    (avgLoad capacity).

Lemma collectRecord_bumps (m : JSMap.t DepartmentCapacity)
  (r : PatientRecord) :
  collectRecord m r =
  match currentDepartment r with
  | Some d => if nonempty d then bump newCapacity addRecord m d r else m
  | None => m
  end.
Proof.
  unfold collectRecord, bump, addRecord, newCapacity.
  destruct (currentDepartment r) as [d|]; [|reflexivity].
  destruct (nonempty d); reflexivity.
Qed.

Lemma capacity_group (records : list PatientRecord)
  (m : JSMap.t DepartmentCapacity) :
  fold_left collectRecord records m
  = group newCapacity addRecord (PredictiveFacts.keyed records) m.
Proof.
  revert m. induction records as [|r rest IH]; intro m; simpl;
    [reflexivity|].
  rewrite IH, collectRecord_bumps.
  destruct (currentDepartment r) as [d|]; [|reflexivity].
  destruct (nonempty d); reflexivity.
Qed.

Lemma max_of_Z (a b : Z) : Math_max (of_Z a) (of_Z b) = of_Z (Z.max a b).
Proof.
  unfold Math_max. cbn [of_Z]. fold (of_Z a). fold (of_Z b).
  rewrite NumFacts.ltb_of_Z.
  destruct (a <? b)%Z eqn:E.
  - apply Z.ltb_lt in E. f_equal. lia.
  - apply Z.ltb_ge in E. f_equal. lia.
Qed.

(** The load and the peak of an entry are the number of its records. *)
Definition loaded (n : nat) (capacity : DepartmentCapacity) : Prop :=
  currentLoad capacity = of_nat n /\ historicalPeak capacity = of_nat n.

Lemma addRecords_loaded (records : list PatientRecord) (n : nat)
  (capacity : DepartmentCapacity) :
  loaded n capacity ->
  loaded (n + List.length records) (fold_left addRecord records capacity).
Proof.
  revert n capacity.
  induction records as [|r rest IH]; intros n capacity [L P];
    cbn [fold_left List.length].
  - rewrite Nat.add_0_r. split; assumption.
  - replace (n + S (List.length rest))%nat
      with (S n + List.length rest)%nat by lia.
    apply IH. unfold loaded, addRecord. cbn [currentLoad historicalPeak].
    rewrite L, P, TrendFacts.succ_of_nat. split; [reflexivity|].
    unfold of_nat. rewrite max_of_Z. f_equal. lia.
Qed.

Lemma capacity_entry (records : list PatientRecord) (unit : jsstring)
  (capacity : DepartmentCapacity) :
  In (unit, capacity) (fold_left collectRecord records []) ->
  nonempty unit = true
  /\ recordsIn unit records <> []
  /\ loaded (List.length (recordsIn unit records)) capacity.
Proof.
  rewrite capacity_group. intro H. apply In_group in H.
  destruct H as [N ->]. rewrite PredictiveFacts.itemsOf_keyed in N |- *.
  destruct (nonempty unit); [|contradiction].
  split; [reflexivity|]. split; [exact N|].
  apply (addRecords_loaded _ 0). split; reflexivity.
Qed.

Lemma capacity_exists (records : list PatientRecord) (unit : jsstring) :
  nonempty unit = true -> recordsIn unit records <> [] ->
  exists capacity, In (unit, capacity) (fold_left collectRecord records []).
Proof.
  intros Hn Hr. eexists. rewrite capacity_group. apply In_group.
  rewrite PredictiveFacts.itemsOf_keyed, Hn. split; [exact Hr | reflexivity].
Qed.

(** The assumed capacity is a whole number, at least the load. *)
Lemma assumedCapacity_value (n : nat) :
  exists c,
    Math_round (of_nat n * lit 12 10)%num = of_Z c /\ (Z.of_nat n <= c)%Z.
Proof.
  unfold of_nat, of_Z. change (lit 12 10) with (Fin (6 # 5)).
  rewrite NumFacts.mul_fin. unfold fin. cbn [Math_round].
  eexists. split; [reflexivity|].
  apply Z.le_trans with (Qfloor (inject_Z (Z.of_nat n)));
    [rewrite Qfloor_Z; apply Z.le_refl|].
  apply Qfloor_resp_le. rewrite Qred_correct.
  pose proof (UtilizationFacts.count_nonneg n). lra.
Qed.

Section Host.
Variable Math_sin : num -> num.

Lemma riskOn_Some (unit : jsstring) (capacity : DepartmentCapacity)
  (d : nat) (r : CapacityRisk) :
  riskOn Math_sin unit capacity d = Some r ->
  day r = d /\ department r = unit
  /\ currentCapacity r = Math_round (historicalPeak capacity * lit 12 10)%num
  /\ ((d mod 7)%nat = 0%nat \/ riskLevel r = critical \/ riskLevel r = high).
Proof.
  unfold riskOn. set (level := levelOf _).
  destruct ((d mod 7 =? 0)%nat || isCriticalOrHigh level) eqn:C;
    [|discriminate].
  intro H. inversion H. cbn [day department currentCapacity riskLevel].
  repeat split. apply orb_true_iff in C. destruct C as [C | C].
  - left. apply Nat.eqb_eq, C.
  - right. destruct level; try discriminate; auto.
Qed.

Lemma riskOn_weekly (unit : jsstring) (capacity : DepartmentCapacity)
  (d : nat) :
  (d mod 7)%nat = 0%nat ->
  exists r, riskOn Math_sin unit capacity d = Some r.
Proof.
  intro H. unfold riskOn. apply Nat.eqb_eq in H. rewrite H.
  cbn [orb]. eexists. reflexivity.
Qed.

Lemma risks_In (records : list PatientRecord) (forecastDays : nat)
  (r : CapacityRisk) :
  In r (predictCapacityRisks Math_sin records forecastDays) <->
  exists unit capacity d,
    In (unit, capacity) (fold_left collectRecord records [])
    /\ (1 <= d <= forecastDays)%nat
    /\ riskOn Math_sin unit capacity d = Some r.
Proof.
  unfold predictCapacityRisks. rewrite ArrayFacts.sort_In, in_flat_map.
  split.
  - intros ([unit capacity] & He & Hr). unfold risksOf in Hr.
    apply BottleneckFacts.collectSome_In in Hr. apply in_map_iff in Hr.
    destruct Hr as (d & E & Hd). apply in_seq in Hd.
    exists unit, capacity, d. cbn [fst snd] in E.
    split; [exact He|]. split; [lia | exact E].
  - intros (unit & capacity & d & He & Hd & E).
    exists (unit, capacity). split; [exact He|]. unfold risksOf.
    apply BottleneckFacts.collectSome_In. apply in_map_iff.
    exists d. split; [exact E|]. apply in_seq. lia.
Qed.

End Host.

Lemma sorted_weaken {A : Type} (R S : A -> A -> Prop) (l : list A) :
  (forall a b, R a b -> S a b) -> StronglySorted R l -> StronglySorted S l.
Proof.
  intros H. induction 1 as [|x l _ IH F]; constructor; [exact IH|].
  revert F. apply Forall_impl. apply H.
Qed.

End CapacityFacts.

(** X24: the risks that predictCapacityRisks returns are ordered from the
    most severe level to the least.  Each one belongs to a non-empty unit
    that is the current unit of some record and to one of the days asked
    for; its capacity is the number of records of the unit times 1.2,
    rounded, a whole number that is at least that number of records, so the
    utilization never divides by zero; and it is reported because its day
    is a multiple of 7 or its level is critical or high.  Every unit with
    records has a risk for every seventh day, whatever its level. *)
Theorem capacity_risks_are_ranked_and_weekly
  (Math_sin : num -> num) (records : list Records.PatientRecord)
  (forecastDays : nat) :
  let risks :=
    Capacity.predictCapacityRisks Math_sin records forecastDays in
  StronglySorted
    (fun a b =>
       (Capacity.riskOrder (Capacity.riskLevel b)
        <= Capacity.riskOrder (Capacity.riskLevel a))%Z)
    risks
  /\ Forall
       (fun r =>
          let load :=
            List.length
              (PredictiveSpec.recordsIn (Capacity.department r) records) in
          nonempty (Capacity.department r) = true
          /\ (1 <= load)%nat
          /\ (1 <= Capacity.day r <= forecastDays)%nat
          /\ Capacity.currentCapacity r
             = Math_round (of_nat load * lit 12 10)%num
          /\ (exists c,
                Capacity.currentCapacity r = of_Z c
                /\ (Z.of_nat load <= c)%Z)
          /\ ((Capacity.day r mod 7)%nat = 0%nat
              \/ Capacity.riskLevel r = Records.critical
              \/ Capacity.riskLevel r = Records.high))
       risks
  /\ forall unit d,
       nonempty unit = true ->
       PredictiveSpec.recordsIn unit records <> [] ->
       (1 <= d <= forecastDays)%nat -> (d mod 7)%nat = 0%nat ->
       exists r,
         In r risks /\ Capacity.department r = unit /\ Capacity.day r = d.
Proof.
  intro risks. split; [|split].
  - unfold risks, Capacity.predictCapacityRisks.
    apply (CapacityFacts.sorted_weaken
             (ArrayFacts.descendingBy
                (fun r => of_Z (Capacity.riskOrder (Capacity.riskLevel r))))).
    + intros a b H. unfold ArrayFacts.descendingBy in H.
      rewrite NumFacts.geb_of_Z in H. apply Z.leb_le, H.
    + apply (@ArrayFacts.sort_descending _
               (fun r => of_Z (Capacity.riskOrder (Capacity.riskLevel r)))).
      rewrite Forall_forall. intros r _. exact I.
  - rewrite Forall_forall. intros r Hr.
    apply CapacityFacts.risks_In in Hr.
    destruct Hr as (unit & capacity & d & He & Hd & E).
    apply CapacityFacts.capacity_entry in He.
    destruct He as (Hn & Hne & _ & P).
    apply CapacityFacts.riskOn_Some in E.
    destruct E as (Ed & Eu & Ec & Ew). cbv zeta. rewrite Ed, Eu, Ec, P.
    split; [exact Hn|]. split.
    { destruct (PredictiveSpec.recordsIn unit records);
        [contradiction | cbn [List.length]; lia]. }
    split; [exact Hd|]. split; [reflexivity|].
    split; [apply CapacityFacts.assumedCapacity_value | exact Ew].
  - intros unit d Hn Hne Hd Hw.
    destruct (CapacityFacts.capacity_exists records unit Hn Hne)
      as (capacity & He).
    destruct (CapacityFacts.riskOn_weekly Math_sin unit capacity d Hw)
      as (r & E).
    exists r. split.
    + apply CapacityFacts.risks_In. exists unit, capacity, d.
      split; [exact He|]. split; [exact Hd | exact E].
    + apply CapacityFacts.riskOn_Some in E. destruct E as (Ed & Eu & _).
      split; assumption.
Qed.

(* ------------------------------------------------------------------ *)
(** * The projected length of stay *)

Module StayFacts.

Import PatientFlow Simulation SimulationPipeline FiniteFacts.

(** The processing time of the baseline is a whole number of minutes that
    is not negative. *)
Lemma baseline_processing_time (departmentName : jsstring)
  (department : option jsstring) (flowLogs : list FlowLog)
  (delays : list FlowAnalysis.DepartmentDelay) (dept : option Department) :
  exists z,
    avgProcessingTime
      (calculateBaselineMetrics departmentName
         (getPatientJourneys department flowLogs) delays dept)
    = of_Z z
    /\ (0 <= z)%Z.
Proof.
  set (journeys := getPatientJourneys department flowLogs).
  set (times := BottleneckSpec.samples journeys departmentName).
  assert (NN : Forall nonneg times).
  { apply RankingFacts.samples_nonneg, RankingFacts.reconstructed_nonneg. }
  unfold calculateBaselineMetrics. cbn [avgProcessingTime].
  rewrite BaselineFacts.departmentStages_all.
  rewrite (ReadmissionFacts.fold_left_add_map duration).
  rewrite <- (length_map duration).
  change (map duration
            (filter (fun s => streq (PatientFlow.department s) departmentName)
               (flat_map stages journeys))) with times.
  destruct times as [|x l] eqn:E.
  - exists 0%Z. split; [reflexivity | lia].
  - change (0 <? List.length (x :: l))%nat with true. cbv iota.
    pose proof (mean_nonneg (x :: l) NN) as M.
    unfold StatisticsSpec.arithmeticMean, JSNum.sum in M.
    destruct (fold_left add (x :: l) zero / of_nat (List.length (x :: l)))%num
      as [t| | |]; try (exfalso; apply M; discriminate).
    assert (Ht : 0 <= t) by (apply M; discriminate).
    cbn [Math_round]. eexists. split; [reflexivity|].
    apply Z.le_trans with (Qfloor 0); [apply Z.le_refl|].
    apply Qfloor_resp_le. lra.
Qed.

(** [x || d] for a count that is not negative and a positive default. *)
Lemma orElse_positive (field : option num) (d : Z) :
  match field with Some x => nonneg x | None => True end -> (0 < d)%Z ->
  exists c, orElse field (of_Z d) = Fin c /\ 0 < c.
Proof.
  intros H Hd.
  assert (D : exists c, of_Z d = Fin c /\ 0 < c).
  { exists (inject_Z d). split; [reflexivity|].
    change 0 with (inject_Z 0). rewrite <- Zlt_Qlt. exact Hd. }
  destruct field as [[q| | |]|]; try contradiction; [|exact D].
  cbn [nonneg] in H. unfold orElse, or_default, truthy.
  destruct (Qeq_bool q 0) eqn:E; [exact D|].
  apply NumFacts.Qeq_bool_false in E. exists q. split; [reflexivity | lra].
Qed.

(** From a length of stay of 0 nothing can be taken away: the floor of 0.1
    applies. *)
Lemma floor_applies (reduction : num) :
  nonneg reduction ->
  round1 (Math_max (lit 1 10) (zero - reduction)%num) = lit 1 10.
Proof.
  destruct reduction as [l| | |]; try contradiction. cbn [nonneg]. intro H.
  unfold zero, of_Z. rewrite NumFacts.sub_fin. unfold fin at 1.
  assert (L : (lit 1 10 <? Fin (Qred (inject_Z 0 - l)))%num = false).
  { unfold lit, fin. apply not_true_is_false. intro T.
    apply NumFacts.ltb_fin in T. rewrite !Qred_correct in T.
    change (inject_Z 0) with 0 in T.
    assert (0 < 1 # 10) by reflexivity. lra. }
  unfold Math_max. change (lit 1 10) with (Fin (1 # 10)) in *.
  rewrite L. reflexivity.
Qed.

Lemma zero_times (x : num) : is_fin x -> (zero * x)%num = zero.
Proof.
  destruct x as [q| | |]; try contradiction. intros _.
  unfold zero, of_Z. rewrite NumFacts.mul_fin. change (Fin (inject_Z 0))
    with (fin 0). apply NumFacts.fin_eq. apply Qmult_0_l.
Qed.

Lemma staff_reduction_nonneg (z : Z) (c v : Q) :
  (0 <= z)%Z -> 0 < c -> 0 <= v ->
  nonneg
    ((of_Z z - of_Z z * (Fin c / (Fin c + Fin v))) / of_Z 60 * lit 8 10)%num.
Proof.
  intros Hz Hc Hv.
  assert (Z0 : 0 <= inject_Z z).
  { change 0 with (inject_Z 0). rewrite <- Zle_Qle. exact Hz. }
  rewrite NumFacts.add_fin. unfold fin at 1.
  assert (S : 0 < Qred (c + v)) by (rewrite Qred_correct; lra).
  rewrite NumFacts.div_fin by lra.
  unfold of_Z at 2. unfold fin at 1. rewrite NumFacts.mul_fin.
  unfold of_Z at 1. unfold fin at 1. rewrite NumFacts.sub_fin.
  apply CapFacts.nonneg_mul; [|discriminate].
  unfold fin, of_Z. rewrite NumFacts.div_fin by discriminate.
  cbn [fin nonneg]. rewrite !Qred_correct.
  apply Qle_shift_div_l; [reflexivity|]. rewrite Qmult_0_l.
  assert (M : c / (c + v) <= 1).
  { apply Qle_shift_div_r; lra. }
  assert (P : inject_Z z * (c / (c + v)) <= inject_Z z * 1).
  { rewrite !(Qmult_comm (inject_Z z)).
    apply Qmult_le_compat_r; assumption. }
  lra.
Qed.

Lemma beds_wait_finite (c v : Q) :
  0 < c -> is_fin (Math_min (Fin v / Fin c * lit 3 10) (lit 5 10))%num.
Proof.
  intro Hc. rewrite NumFacts.div_fin by lra. unfold fin at 1.
  change (lit 3 10) with (Fin (3 # 10)). rewrite NumFacts.mul_fin.
  unfold fin, lit, Math_min. destruct (_ <? _)%num; exact I.
Qed.

End StayFacts.

(** X25: a simulation whose intervention adds staff or beds, or shortens
    the processing time, by an amount that is not negative, in a unit whose
    staff count and bed capacity are not negative, never reports a shorter
    length of stay.  The baseline has a length of stay of 0, the projection
    raises it to the floor of 0.1, and the reported reduction is -0.1, with
    a reduction percent of 0.  The one exception is a processing-time
    intervention on a baseline processing time of 0, where the projected
    length of stay and the reduction are NaN. *)
Theorem simulated_length_of_stay_never_improves
  (department : option jsstring) (flowLogs : list PatientFlow.FlowLog)
  (departments : jsstring -> option SimulationPipeline.Department)
  (intervention : Simulation.SimulationIntervention)
  (known :
     Simulation.type intervention = str "staff"
     \/ Simulation.type intervention = str "beds"
     \/ Simulation.type intervention = str "processing_time")
  (amount : FiniteFacts.nonneg (Simulation.value intervention))
  (row :
     match departments (Simulation.departmentName intervention) with
     | Some dept =>
         match SimulationPipeline.staff_count dept with
         | Some x => FiniteFacts.nonneg x
         | None => True
         end
         /\ match SimulationPipeline.bed_capacity dept with
            | Some x => FiniteFacts.nonneg x
            | None => True
            end
     | None => True
     end) :
  exists r,
    SimulationPipeline.simulate department flowLogs departments intervention
    = Simulation.Returned r
    /\ Simulation.averageLOS (Simulation.baseline r) = zero
    /\ Simulation.losReductionPercent (Simulation.improvements r) = zero
    /\ ((Simulation.averageLOS (Simulation.projected r) = lit 1 10
         /\ Simulation.losReduction (Simulation.improvements r)
            = lit (-1) 10)
        \/ (Simulation.type intervention = str "processing_time"
            /\ Simulation.avgProcessingTime (Simulation.baseline r) = zero
            /\ Simulation.averageLOS (Simulation.projected r) = NaN
            /\ Simulation.losReduction (Simulation.improvements r) = NaN)).
Proof.
  unfold SimulationPipeline.simulate.
  set (journeys := PatientFlow.getPatientJourneys department flowLogs).
  set (dept := departments (Simulation.departmentName intervention)) in *.
  set (base := SimulationPipeline.calculateBaselineMetrics _ journeys _ dept).
  assert (L : Simulation.averageLOS base = zero)
    by apply ComparisonFacts.baseline_averageLOS.
  destruct (StayFacts.baseline_processing_time
              (Simulation.departmentName intervention) department flowLogs
              (FlowAnalysis.getDepartmentDelays journeys) dept)
    as (z & P & Hz).
  fold journeys in P. fold base in P.
  assert (Hs : match SimulationPipeline.staffOf dept with
               | Some x => FiniteFacts.nonneg x
               | None => True
               end).
  { destruct dept as [d|]; [apply row | exact I]. }
  assert (Hb : match SimulationPipeline.bedsOf dept with
               | Some x => FiniteFacts.nonneg x
               | None => True
               end).
  { destruct dept as [d|]; [apply row | exact I]. }
  destruct (StayFacts.orElse_positive _ 10 Hs) as (cs & Es & Cs); [lia|].
  destruct (StayFacts.orElse_positive _ 20 Hb) as (cb & Eb & Cb); [lia|].
  destruct (Simulation.value intervention) as [v| | |] eqn:V;
    try contradiction.
  cbn [FiniteFacts.nonneg] in amount.
  unfold Simulation.simulateIntervention. eexists. split; [reflexivity|].
  cbn [Simulation.baseline Simulation.projected Simulation.improvements
       Simulation.losReduction Simulation.losReductionPercent].
  rewrite L. split; [reflexivity|]. split; [reflexivity|].
  rewrite V, Es, Eb.
  destruct known as [T | [T | T]]; rewrite T.
  - left. change (streq (str "staff") (str "staff")) with true. cbv iota.
    unfold Simulation.projectStaffIntervention.
    cbn [Simulation.averageLOS]. rewrite L, P.
    rewrite StayFacts.floor_applies
      by (apply StayFacts.staff_reduction_nonneg; assumption).
    split; reflexivity.
  - left. change (streq (str "beds") (str "staff")) with false.
    change (streq (str "beds") (str "beds")) with true. cbv iota.
    unfold Simulation.projectBedsIntervention.
    cbn [Simulation.averageLOS]. rewrite L.
    rewrite (StayFacts.zero_times _ (StayFacts.beds_wait_finite cb v Cb)).
    rewrite StayFacts.floor_applies by discriminate.
    split; reflexivity.
  - change (streq (str "processing_time") (str "staff")) with false.
    change (streq (str "processing_time") (str "beds")) with false.
    change (streq (str "processing_time") (str "processing_time")) with true.
    cbv iota. unfold Simulation.projectProcessingTimeIntervention.
    cbn [Simulation.averageLOS]. rewrite L, P.
    destruct (Z.eq_dec z 0) as [Z0 | Z0].
    + right. subst z. split; [reflexivity|]. split; [reflexivity|].
      assert (R : (zero * (Fin v / of_Z 0))%num = NaN).
      { unfold of_Z, div. change (Qeq_bool (inject_Z 0) 0) with true.
        cbv iota. destruct (v ?= 0); reflexivity. }
      rewrite R. split; reflexivity.
    + left.
      assert (F : is_fin (Fin v / of_Z z)%num).
      { apply NumFacts.is_fin_div_of_Z; [exact Z0 | exact I]. }
      rewrite (StayFacts.zero_times _ F).
      rewrite StayFacts.floor_applies by discriminate.
      split; reflexivity.
Qed.

Lemma simulated_length_of_stay_witness :
  exists r,
    SimulationPipeline.simulate None BottleneckExamples.wardRows
      PipelineExamples.tenAndTwenty PipelineExamples.moreTriageStaff
    = Simulation.Returned r
    /\ Simulation.averageLOS (Simulation.baseline r) = zero
    /\ Simulation.losReductionPercent (Simulation.improvements r) = zero
    /\ ((Simulation.averageLOS (Simulation.projected r) = lit 1 10
         /\ Simulation.losReduction (Simulation.improvements r)
            = lit (-1) 10)
        \/ (Simulation.type PipelineExamples.moreTriageStaff
            = str "processing_time"
            /\ Simulation.avgProcessingTime (Simulation.baseline r) = zero
            /\ Simulation.averageLOS (Simulation.projected r) = NaN
            /\ Simulation.losReduction (Simulation.improvements r) = NaN)).
Proof.
  apply (simulated_length_of_stay_never_improves None
           BottleneckExamples.wardRows PipelineExamples.tenAndTwenty
           PipelineExamples.moreTriageStaff).
  - left. reflexivity.
  - discriminate.
  - split; discriminate.
Defined.

(* ------------------------------------------------------------------ *)
(** * The share of a unit in the time of the journeys *)

Module ShareFacts.

Import PatientFlow FlowAnalysis FiniteFacts.

Lemma contributions_In (journeys : list PatientJourney)
  (c : DepartmentTimeContribution) :
  In c (getDepartmentTimeContributions journeys) <->
  exists unit stats,
    In (unit, stats) (fst (deptTimesOf journeys))
    /\ c = contributionOf (snd (deptTimesOf journeys)) (unit, stats).
Proof.
  rewrite FlowFacts.getDepartmentTimeContributions_sorted,
    ArrayFacts.sort_In, in_map_iff.
  split.
  - intros ([unit stats] & <- & H). exists unit, stats. auto.
  - intros (unit & stats & H & ->). exists (unit, stats). auto.
Qed.

(** Two numbers in lowest terms with the same value are the same. *)
Lemma canonical_equal (a b : Q) :
  NumFacts.canonical (Fin a) -> NumFacts.canonical (Fin b) -> a == b ->
  Fin a = Fin b.
Proof.
  cbn [NumFacts.canonical]. intros Ca Cb E. f_equal.
  rewrite <- Ca, <- Cb. apply Qred_complete, E.
Qed.

Lemma qsum_app (l1 l2 : list num) : qsum (l1 ++ l2) == qsum l1 + qsum l2.
Proof.
  induction l1 as [|x l1 IH].
  - cbn [app]. change (qsum []) with 0. ring.
  - cbn [app]. change (qsum (x :: l1 ++ l2)) with (qval x + qsum (l1 ++ l2)).
    change (qsum (x :: l1)) with (qval x + qsum l1). rewrite IH. ring.
Qed.

(** Adding up the totals of lists of numbers, list by list. *)
Lemma totals_value (ls : list (list num)) (a : Q) :
  Forall (Forall is_fin) ls ->
  exists s,
    fold_left (fun acc l => (acc + JSNum.sum l)%num) ls (Fin a) = Fin s
    /\ s == a + qsum (concat ls).
Proof.
  intro F. revert a. induction F as [|l ls Hl _ IH]; intro a.
  - exists a. split; [reflexivity|]. change (qsum (concat [])) with 0. ring.
  - cbn [fold_left concat].
    destruct (sum_value l Hl) as (t & -> & Et).
    rewrite NumFacts.add_fin. unfold fin.
    destruct (IH (Qred (a + t))) as (s & -> & Es).
    exists s. split; [reflexivity|].
    rewrite Es, Qred_correct, qsum_app, Et. ring.
Qed.

Lemma totals_canonical (ls : list (list num)) (acc : num) :
  NumFacts.canonical acc ->
  NumFacts.canonical
    (fold_left (fun acc l => (acc + JSNum.sum l)%num) ls acc).
Proof.
  revert acc. induction ls as [|l ls IH]; intros acc C; [exact C|].
  cbn [fold_left]. apply IH, FlowFacts.add_canonical.
Qed.

Lemma totals_flat (ls : list (list num)) :
  Forall (Forall is_fin) ls ->
  fold_left (fun acc l => (acc + JSNum.sum l)%num) ls zero
  = JSNum.sum (concat ls).
Proof.
  intro F.
  destruct (totals_value ls 0 F) as (s & E & Es).
  assert (Ff : Forall is_fin (concat ls)).
  { rewrite Forall_forall in F |- *. intros x Hx. apply in_concat in Hx.
    destruct Hx as (l & Hl & Hx). specialize (F l Hl).
    rewrite Forall_forall in F. apply F, Hx. }
  destruct (sum_value (concat ls) Ff) as (t & T & Et).
  pose proof (totals_canonical ls zero (NumFacts.of_Z_canonical 0)) as C1.
  pose proof (FlowFacts.sum_canonical (concat ls)) as C2.
  change zero with (Fin 0) in C1 |- *. rewrite E in C1 |- *.
  rewrite T in C2 |- *.
  apply canonical_equal; try assumption. rewrite Es, Et. ring.
Qed.

Lemma journey_totals (journeys : list PatientJourney) (acc : num) :
  (forall j, In j journeys ->
             totalDuration j = JSNum.sum (map duration (stages j))) ->
  fold_left (fun sum j => (sum + totalDuration j)%num) journeys acc
  = fold_left (fun acc l => (acc + JSNum.sum l)%num)
      (map (fun j => map duration (stages j)) journeys) acc.
Proof.
  revert acc. induction journeys as [|j js IH]; intros acc T; [reflexivity|].
  cbn [fold_left map]. rewrite (T j (or_introl eq_refl)).
  apply IH. intros j' Hj'. apply T. right. exact Hj'.
Qed.

Lemma durations_flat (journeys : list PatientJourney) :
  map duration (flat_map stages journeys)
  = concat (map (fun j => map duration (stages j)) journeys).
Proof.
  induction journeys as [|j js IH]; [reflexivity|].
  cbn [map concat flat_map]. rewrite map_app, IH. reflexivity.
Qed.

(** On the journeys of the reconstructor the total of the journeys is the
    total of the stages. *)
Lemma totalFlowTime_grandTotal (department : option jsstring)
  (flowLogs : list FlowLog) :
  totalFlowTimeOf (getPatientJourneys department flowLogs)
  = JSNum.sum
      (map duration
         (flat_map stages (getPatientJourneys department flowLogs))).
Proof.
  assert (NN := RankingFacts.reconstructed_nonneg department flowLogs).
  unfold totalFlowTimeOf. rewrite journey_totals, durations_flat.
  - apply totals_flat.
    rewrite Forall_forall. intros l Hl. apply in_map_iff in Hl.
    destruct Hl as (j & <- & Hj). rewrite Forall_forall. intros x Hx.
    apply in_map_iff in Hx. destruct Hx as (s & <- & Hs).
    apply nonneg_fin. rewrite Forall_forall in NN. apply NN.
    apply in_flat_map. exists j. split; assumption.
  - intros j Hj. apply JourneyFacts.journey_In in Hj.
    destruct Hj as (patient & _ & ->). cbn [totalDuration stages finishJourney].
    apply JourneyFacts.sumDurations_sum.
Qed.

Section Reconstructed.
Variable department : option jsstring.
Variable flowLogs : list FlowLog.

Let journeys := getPatientJourneys department flowLogs.
Let journeyTotal := JSNum.sum (map totalDuration journeys).
Let grandTotal := JSNum.sum (map duration (flat_map stages journeys)).

Lemma totalFlowTime_sum : totalFlowTimeOf journeys = journeyTotal.
Proof.
  unfold totalFlowTimeOf.
  apply (ReadmissionFacts.fold_left_add_map totalDuration).
Qed.

Lemma impact_value (d : DepartmentDelay) :
  In d (getDepartmentDelays journeys) ->
  impactOnLOS d
  = BottleneckDetection.round1
      (if (journeyTotal >? zero)%num
       then (JSNum.sum (BottleneckSpec.samples journeys (departmentName d))
             / journeyTotal * of_Z 100)%num
       else zero).
Proof.
  intro Hd. apply FlowFacts.delays_In in Hd.
  destruct Hd as (unit & stats & Hs & ->).
  apply FlowFacts.deptStats_In in Hs. destruct Hs as (_ & _ & _ & I).
  unfold delayOf. cbn [impactOnLOS departmentName fst snd].
  rewrite totalFlowTime_sum, I. reflexivity.
Qed.

Lemma percentage_value (c : DepartmentTimeContribution) :
  In c (getDepartmentTimeContributions journeys) ->
  percentage c
  = (Math_round
       (JSNum.sum (BottleneckSpec.samples journeys (c_department c))
        / grandTotal * of_Z 1000)
     / of_Z 10)%num.
Proof.
  intro Hc. apply contributions_In in Hc.
  destruct Hc as (unit & stats & Hs & ->).
  apply FlowFacts.deptTimes_In in Hs. destruct Hs as (_ & ->).
  rewrite FlowFacts.deptTimes_group. reflexivity.
Qed.

Lemma no_impact (d : DepartmentDelay) :
  In d (getDepartmentDelays journeys) -> grandTotal = zero ->
  impactOnLOS d = zero.
Proof.
  intros Hd Z. rewrite (impact_value d Hd).
  assert (G : journeyTotal = grandTotal).
  { rewrite <- totalFlowTime_sum. apply totalFlowTime_grandTotal. }
  rewrite G, Z. reflexivity.
Qed.

End Reconstructed.

End ShareFacts.

(** X26: on the journeys of the reconstructor, getDepartmentDelays and
    getDepartmentTimeContributions report the same units, and each relates
    the time of a unit, the sum of its stage durations, to the time of all
    units.  The impact on the length of stay of a unit is its time divided
    by the sum of the journeys' total durations, times 100 and rounded to a
    tenth, and 0 when that sum is not positive.  The percentage of the time
    contribution of a unit is its time divided by the sum of all stage
    durations, times 1000, rounded and divided by 10.  When the durations
    total 0 the impact of every unit is 0 and every percentage is NaN. *)
Theorem impact_and_percentage_of_a_unit
  (department : option jsstring) (flowLogs : list PatientFlow.FlowLog) :
  let journeys := PatientFlow.getPatientJourneys department flowLogs in
  let delays := FlowAnalysis.getDepartmentDelays journeys in
  let contributions := FlowAnalysis.getDepartmentTimeContributions journeys in
  let timeOf unit := JSNum.sum (BottleneckSpec.samples journeys unit) in
  let journeyTotal := JSNum.sum (map PatientFlow.totalDuration journeys) in
  let grandTotal :=
    JSNum.sum (map PatientFlow.duration (flat_map PatientFlow.stages journeys))
  in
  (forall unit,
     In unit (map FlowAnalysis.departmentName delays)
     <-> In unit (map FlowAnalysis.c_department contributions))
  /\ Forall
       (fun d =>
          FlowAnalysis.impactOnLOS d
          = BottleneckDetection.round1
              (if (journeyTotal >? zero)%num
               then (timeOf (FlowAnalysis.departmentName d) / journeyTotal
                     * of_Z 100)%num
               else zero))
       delays
  /\ Forall
       (fun c =>
          FlowAnalysis.percentage c
          = (Math_round
               (timeOf (FlowAnalysis.c_department c) / grandTotal * of_Z 1000)
             / of_Z 10)%num)
       contributions
  /\ (grandTotal = zero ->
      Forall (fun d => FlowAnalysis.impactOnLOS d = zero) delays
      /\ Forall (fun c => FlowAnalysis.percentage c = NaN) contributions).
Proof.
  intros journeys delays contributions timeOf journeyTotal grandTotal.
  assert (NN := RankingFacts.reconstructed_nonneg department flowLogs).
  fold journeys in NN.
  split; [|split; [|split]].
  - intro unit. split; intro H.
    + apply (Permutation_in _ (FlowFacts.delays_names journeys)) in H.
      apply FlowFacts.deptStats_keys in H.
      assert (K : exists stats,
                 In (unit, stats) (fst (FlowAnalysis.deptTimesOf journeys))).
      { rewrite FlowFacts.deptTimes_group. cbn [fst]. eexists.
        apply MapFacts.In_group. rewrite FlowFacts.itemsOf_keyedStages.
        split; [|reflexivity]. intro E. apply H.
        unfold BottleneckSpec.samples. rewrite E. reflexivity. }
      destruct K as (stats & K). apply in_map_iff.
      exists (FlowAnalysis.contributionOf
                (snd (FlowAnalysis.deptTimesOf journeys)) (unit, stats)).
      split; [reflexivity|]. apply ShareFacts.contributions_In.
      exists unit, stats. split; [exact K | reflexivity].
    + apply in_map_iff in H. destruct H as (c & <- & Hc).
      apply ShareFacts.contributions_In in Hc.
      destruct Hc as (unit' & stats & Hs & ->).
      apply FlowFacts.deptTimes_In in Hs. destruct Hs as (Hn & _).
      cbn [FlowAnalysis.c_department FlowAnalysis.contributionOf fst].
      apply (Permutation_in _
               (Permutation_sym (FlowFacts.delays_names journeys))).
      apply FlowFacts.deptStats_keys, Hn.
  - rewrite Forall_forall. intros d Hd.
    apply (ShareFacts.impact_value department flowLogs d Hd).
  - rewrite Forall_forall. intros c Hc.
    apply (ShareFacts.percentage_value department flowLogs c Hc).
  - intro Z. split.
    + rewrite Forall_forall. intros d Hd.
      apply (ShareFacts.no_impact department flowLogs); assumption.
    + rewrite Forall_forall. intros c Hc.
      rewrite (ShareFacts.percentage_value department flowLogs c Hc).
      fold journeys. fold grandTotal. rewrite Z.
      destruct (FlowFacts.zero_total journeys (FlowAnalysis.c_department c)
                  NN Z) as (t & -> & Et).
      apply FlowFacts.percentage_undefined, Et.
Qed.

(* ------------------------------------------------------------------ *)
(** * The insights *)

Module InsightFacts.

Import PatientFlow FlowInsights.

(** What the loop pushes for a delay record. *)
Definition unitInsight
  (contributions : list FlowAnalysis.DepartmentTimeContribution)
  (d : FlowAnalysis.DepartmentDelay) (i : FlowInsight) : Prop :=
  department i = FlowAnalysis.departmentName d
  /\ enoughPatients d = true
  /\ severity i <> low
  /\ match type i with
     | delayInsight =>
         metric i = FlowAnalysis.delayRatio d
         /\ (FlowAnalysis.delayRatio d >? lit 15 10)%num = true
     | impactInsight =>
         metric i = FlowAnalysis.impactOnLOS d
         /\ severity i = high
         /\ (FlowAnalysis.delayRatio d >? lit 15 10)%num = true
         /\ (FlowAnalysis.impactOnLOS d >? of_Z 10)%num = true
         /\ exists c,
              In c contributions
              /\ FlowAnalysis.c_department c = FlowAnalysis.departmentName d
              /\ (FlowAnalysis.percentage c <? of_Z 15)%num = true
     | varianceInsight =>
         metric i = FlowAnalysis.variance d
         /\ (FlowAnalysis.variance d
             >? FlowAnalysis.actualAvgTime d * lit 8 10)%num = true
     | bottleneckInsight =>
         metric i = FlowAnalysis.queueBuildup d
         /\ (FlowAnalysis.queueBuildup d >? lit 12 10)%num = true
     end.

Lemma insightsOf_In
  (contributions : list FlowAnalysis.DepartmentTimeContribution)
  (d : FlowAnalysis.DepartmentDelay) (i : FlowInsight) :
  In i (insightsOf contributions d) -> unitInsight contributions d i.
Proof.
  unfold insightsOf, unitInsight. intro H.
  apply in_app_iff in H. destruct H as [H | H].
  - destruct ((FlowAnalysis.delayRatio d >? lit 15 10)%num && enoughPatients d)
      eqn:C; [|contradiction].
    apply andb_true_iff in C. destruct C as [C1 C2].
    destruct H as [<- | H].
    + cbn [department severity type metric].
      repeat split; try assumption.
      destruct (FlowAnalysis.delayRatio d >? of_Z 2)%num; discriminate.
    + destruct (find _ contributions) as [c|] eqn:F; [|contradiction].
      apply find_some in F. destruct F as [Hc N].
      apply MapFacts.streq_eq in N.
      destruct ((FlowAnalysis.percentage c <? of_Z 15)%num
                && (FlowAnalysis.impactOnLOS d >? of_Z 10)%num) eqn:T;
        [|contradiction].
      apply andb_true_iff in T. destruct T as [T1 T2].
      destruct H as [<- | []]. cbn [department severity type metric].
      split; [reflexivity|]. split; [exact C2|]. split; [discriminate|].
      split; [reflexivity|]. split; [reflexivity|]. split; [exact C1|].
      split; [exact T2|]. exists c. repeat split; assumption.
  - apply in_app_iff in H. destruct H as [H | H].
    + destruct ((FlowAnalysis.variance d
                 >? FlowAnalysis.actualAvgTime d * lit 8 10)%num
                && enoughPatients d) eqn:C; [|contradiction].
      apply andb_true_iff in C. destruct C as [C1 C2].
      destruct H as [<- | []]. cbn [department severity type metric].
      repeat split; try assumption.
      destruct (FlowAnalysis.variance d
                >? FlowAnalysis.actualAvgTime d * lit 15 10)%num;
        discriminate.
    + destruct ((FlowAnalysis.queueBuildup d >? lit 12 10)%num
                && enoughPatients d) eqn:C; [|contradiction].
      apply andb_true_iff in C. destruct C as [C1 C2].
      destruct H as [<- | []]. cbn [department severity type metric].
      repeat split; try assumption.
      destruct (FlowAnalysis.queueBuildup d >? lit 15 10)%num; discriminate.
Qed.

(** The insight on the journeys as a whole. *)
Definition wholeInsight (journeys : list PatientJourney) (i : FlowInsight)
  : Prop :=
  type i = impactInsight /\ severity i = high
  /\ department i = str "System-wide"
  /\ exists long : nat,
       (long <= List.length journeys)%nat
       /\ metric i = (of_nat long / of_nat (List.length journeys))%num
       /\ (of_nat long >? of_nat (List.length journeys) * lit 2 10)%num
          = true.

Lemma systemWide_In (journeys : list PatientJourney) (i : FlowInsight) :
  In i (systemWide journeys) -> wholeInsight journeys i.
Proof.
  unfold systemWide, wholeInsight.
  set (long := filter _ journeys).
  destruct (_ >? _)%num eqn:C; [|contradiction].
  intros [<- | []]. cbn [type severity department metric].
  repeat split. exists (List.length long).
  split; [apply filter_length_le|]. split; [reflexivity | exact C].
Qed.

Lemma insights_In (journeys : list PatientJourney) (i : FlowInsight) :
  In i (generateFlowInsights journeys) ->
  (exists d,
     In d (FlowAnalysis.getDepartmentDelays journeys)
     /\ unitInsight (FlowAnalysis.getDepartmentTimeContributions journeys)
          d i)
  \/ wholeInsight journeys i.
Proof.
  unfold generateFlowInsights. rewrite ArrayFacts.sort_In, in_app_iff.
  intros [H | H].
  - left. apply in_flat_map in H. destruct H as (d & Hd & H).
    exists d. split; [exact Hd | apply insightsOf_In, H].
  - right. apply systemWide_In, H.
Qed.

Lemma insights_sorted (journeys : list PatientJourney) :
  StronglySorted
    (fun a b =>
       (severityOrder (severity b) <= severityOrder (severity a))%Z)
    (generateFlowInsights journeys).
Proof.
  unfold generateFlowInsights.
  apply (CapacityFacts.sorted_weaken
           (ArrayFacts.descendingBy
              (fun i => of_Z (severityOrder (severity i))))).
  - intros a b H. unfold ArrayFacts.descendingBy in H.
    rewrite NumFacts.geb_of_Z in H. apply Z.leb_le, H.
  - apply (@ArrayFacts.sort_descending _
             (fun i => of_Z (severityOrder (severity i)))).
    rewrite Forall_forall. intros i _. exact I.
Qed.

(** A record with at least five patients belongs to a unit with at least
    five stages. *)
Lemma enoughPatients_stages (journeys : list PatientJourney)
  (d : FlowAnalysis.DepartmentDelay) :
  In d (FlowAnalysis.getDepartmentDelays journeys) ->
  enoughPatients d = true ->
  (5 <= List.length
          (BottleneckSpec.samples journeys (FlowAnalysis.departmentName d)))%nat.
Proof.
  intros Hd E. apply FlowFacts.delays_In in Hd.
  destruct Hd as (unit & stats & Hs & ->).
  apply FlowFacts.deptStats_In in Hs. destruct Hs as (_ & _ & C & _).
  unfold enoughPatients, FlowAnalysis.delayOf in E.
  cbn [FlowAnalysis.patientCount snd] in E. rewrite C in E.
  unfold FlowAnalysis.delayOf. cbn [FlowAnalysis.departmentName fst].
  unfold of_nat in E. rewrite NumFacts.geb_of_Z in E.
  apply Z.leb_le in E. lia.
Qed.

End InsightFacts.

(** X27: on the journeys of the reconstructor, the insights of
    generateFlowInsights are ordered from high severity to medium, and none
    has severity low.  An insight is either the one on the journeys as a
    whole, reported when more than a fifth of the journeys are long, or it
    belongs to a delay record of a unit with at least five stages and
    carries the metric that passed its threshold.  The impact insight of a
    unit carries the unit's impact on the length of stay, which is above 10,
    and the unit has a time contribution whose percentage is below 15. *)
Theorem flow_insights_are_ranked_and_grounded
  (department : option jsstring) (flowLogs : list PatientFlow.FlowLog) :
  let journeys := PatientFlow.getPatientJourneys department flowLogs in
  let delays := FlowAnalysis.getDepartmentDelays journeys in
  let contributions := FlowAnalysis.getDepartmentTimeContributions journeys in
  let insights := FlowInsights.generateFlowInsights journeys in
  StronglySorted
    (fun a b =>
       (FlowInsights.severityOrder (FlowInsights.severity b)
        <= FlowInsights.severityOrder (FlowInsights.severity a))%Z)
    insights
  /\ Forall
       (fun i =>
          FlowInsights.severity i <> FlowInsights.low
          /\ (InsightFacts.wholeInsight journeys i
              \/ exists d,
                   In d delays
                   /\ InsightFacts.unitInsight contributions d i
                   /\ (5 <= List.length
                               (BottleneckSpec.samples journeys
                                  (FlowInsights.department i)))%nat
                   /\ (FlowInsights.type i = FlowInsights.impactInsight ->
                       FlowInsights.metric i = FlowAnalysis.impactOnLOS d
                       /\ (FlowInsights.metric i >? of_Z 10)%num = true
                       /\ exists c,
                            In c contributions
                            /\ FlowAnalysis.c_department c
                               = FlowInsights.department i
                            /\ (FlowAnalysis.percentage c <? of_Z 15)%num
                               = true)))
       insights.
Proof.
  intros journeys delays contributions insights. split.
  - apply InsightFacts.insights_sorted.
  - rewrite Forall_forall. intros i Hi.
    apply InsightFacts.insights_In in Hi. destruct Hi as [(d & Hd & U) | W].
    + pose proof U as (Ed & En & Sv & T). split; [exact Sv|]. right.
      exists d. split; [exact Hd|]. split; [exact U|]. split.
      * rewrite Ed. apply InsightFacts.enoughPatients_stages; assumption.
      * intro Ti. rewrite Ti in T.
        destruct T as (M & _ & _ & I10 & c & Hc & Ec & P15).
        split; [exact M|]. split; [rewrite M; exact I10|].
        exists c. split; [exact Hc|]. split; [|exact P15].
        rewrite Ec, Ed. reflexivity.
    + pose proof W as (_ & Sv & _). split; [|left; exact W].
      rewrite Sv. discriminate.
Qed.

(* ------------------------------------------------------------------ *)
(** * The alerts *)

Module AlertFacts.

Import Alerts.

(** What raises an alert, under the default thresholds. *)
Definition raised
  (bottlenecks : list BottleneckDetection.BottleneckDetection)
  (utilization : list Optimization.Utilization) (a : Alert) : Prop :=
  match category a with
  | bottleneck =>
      exists b,
        In b bottlenecks
        /\ departmentName a = BottleneckDetection.departmentName b
        /\ current a = BottleneckDetection.overallImpactScore b
        /\ threshold a = of_Z 60
        /\ (current a >=? threshold a)%num = true
        /\ (severity a = critical
            <-> (BottleneckDetection.overallImpactScore b >=? of_Z 80)%num
                = true)
  | discharge_delay =>
      exists b,
        In b bottlenecks
        /\ departmentName a = BottleneckDetection.departmentName b
        /\ current a = BottleneckDetection.b_actualTime b
        /\ threshold a = BottleneckDetection.b_expectedTime b
        /\ (BottleneckDetection.timeDeviation b >=? of_Z 50)%num = true
        /\ (severity a = critical
            <-> (BottleneckDetection.timeDeviation b >=? of_Z 100)%num = true)
  | readmission_risk =>
      exists b,
        In b bottlenecks
        /\ departmentName a = BottleneckDetection.departmentName b
        /\ current a
           = (Math_round (estimatedRiskOf b * of_Z 10) / of_Z 10)%num
        /\ threshold a = of_Z 25
        /\ (estimatedRiskOf b >=? of_Z 25)%num = true
        /\ (severity a = critical
            <-> (estimatedRiskOf b >=? of_Z 35)%num = true)
  | capacity =>
      exists u,
        In u utilization
        /\ departmentName a = Optimization.name u
        /\ ((current a = Optimization.bedUtilization u
             /\ (current a >=? threshold a)%num = true
             /\ ((severity a = critical /\ threshold a = of_Z 90)
                 \/ (severity a = warning /\ threshold a = of_Z 80
                     /\ (current a >=? of_Z 90)%num = false)))
            \/ (current a = Optimization.staffUtilization u
                /\ severity a = critical
                /\ threshold a = of_Z 8
                /\ (current a >? of_Z 10)%num = true))
  end.

Lemma bottleneckAlertsOf_In (b : BottleneckDetection.BottleneckDetection)
  (a : Alert) :
  In a (bottleneckAlertsOf DEFAULT_THRESHOLDS b) ->
  severity a <> info
  /\ forall bottlenecks utilization,
       In b bottlenecks -> raised bottlenecks utilization a.
Proof.
  unfold bottleneckAlertsOf. cbn [DEFAULT_THRESHOLDS bottleneckImpactScore
                                  avgProcessingTimeIncrease].
  intro H. apply in_app_iff in H. destruct H as [H | H].
  - destruct (BottleneckDetection.overallImpactScore b >=? of_Z 60)%num eqn:C;
      [|contradiction].
    destruct H as [<- | []]. cbn [severity]. split.
    + destruct (_ >=? of_Z 80)%num; discriminate.
    + intros bottlenecks utilization Hb. unfold raised.
      cbn [category departmentName current threshold severity].
      exists b. repeat split; try assumption.
      * destruct (_ >=? of_Z 80)%num; [reflexivity | discriminate].
      * intros ->. reflexivity.
  - destruct (BottleneckDetection.timeDeviation b >=? of_Z 50)%num eqn:C;
      [|contradiction].
    destruct H as [<- | []]. cbn [severity]. split.
    + destruct (_ >=? of_Z 100)%num; discriminate.
    + intros bottlenecks utilization Hb. unfold raised.
      cbn [category departmentName current threshold severity].
      exists b. repeat split; try assumption.
      * destruct (_ >=? of_Z 100)%num; [reflexivity | discriminate].
      * intros ->. reflexivity.
Qed.

Lemma capacityAlertsOf_In (u : Optimization.Utilization) (a : Alert) :
  In a (capacityAlertsOf DEFAULT_THRESHOLDS u) ->
  severity a <> info
  /\ forall bottlenecks utilization,
       In u utilization -> raised bottlenecks utilization a.
Proof.
  unfold capacityAlertsOf. cbn [DEFAULT_THRESHOLDS bedUtilizationCritical
                                bedUtilizationWarning].
  intro H. apply in_app_iff in H. destruct H as [H | H].
  - destruct (Optimization.bedUtilization u >=? of_Z 90)%num eqn:C90.
    + destruct H as [<- | []]. cbn [severity]. split; [discriminate|].
      intros bottlenecks utilization Hu. unfold raised.
      cbn [category departmentName current threshold severity].
      exists u. split; [exact Hu|]. split; [reflexivity|]. left.
      split; [reflexivity|]. split; [exact C90|]. left. split; reflexivity.
    + destruct (Optimization.bedUtilization u >=? of_Z 80)%num eqn:C80;
        [|contradiction].
      destruct H as [<- | []]. cbn [severity]. split; [discriminate|].
      intros bottlenecks utilization Hu. unfold raised.
      cbn [category departmentName current threshold severity].
      exists u. split; [exact Hu|]. split; [reflexivity|]. left.
      split; [reflexivity|]. split; [exact C80|]. right.
      repeat split. exact C90.
  - destruct (Optimization.staffUtilization u >? of_Z 10)%num eqn:C;
      [|contradiction].
    destruct H as [<- | []]. cbn [severity]. split; [discriminate|].
    intros bottlenecks utilization Hu. unfold raised.
    cbn [category departmentName current threshold severity].
    exists u. split; [exact Hu|]. split; [reflexivity|]. right.
    repeat split. exact C.
Qed.

Lemma readmissionAlertsOf_In (b : BottleneckDetection.BottleneckDetection)
  (a : Alert) :
  In a (readmissionAlertsOf DEFAULT_THRESHOLDS b) ->
  severity a <> info
  /\ forall bottlenecks utilization,
       In b bottlenecks -> raised bottlenecks utilization a.
Proof.
  unfold readmissionAlertsOf. cbn [DEFAULT_THRESHOLDS readmissionRiskHigh].
  destruct (estimatedRiskOf b >=? of_Z 25)%num eqn:C; [|contradiction].
  intros [<- | []]. cbn [severity]. split.
  - destruct (_ >=? of_Z 35)%num; discriminate.
  - intros bottlenecks utilization Hb. unfold raised.
    cbn [category departmentName current threshold severity].
    exists b. repeat split; try assumption.
    + destruct (_ >=? of_Z 35)%num; [reflexivity | discriminate].
    + intros ->. reflexivity.
Qed.

Lemma alerts_In
  (bottlenecks : list BottleneckDetection.BottleneckDetection)
  (utilization : list Optimization.Utilization) (a : Alert) :
  In a (getAllAlerts DEFAULT_THRESHOLDS bottlenecks utilization) ->
  severity a <> info /\ raised bottlenecks utilization a.
Proof.
  unfold getAllAlerts. rewrite ArrayFacts.sort_In, !in_app_iff.
  unfold detectBottleneckAlerts, detectCapacityAlerts,
    detectReadmissionRiskAlerts.
  rewrite !in_flat_map.
  intros [(b & Hb & H) | [(u & Hu & H) | (b & Hb & H)]].
  - apply bottleneckAlertsOf_In in H. destruct H as [S R]. auto.
  - apply capacityAlertsOf_In in H. destruct H as [S R]. auto.
  - apply readmissionAlertsOf_In in H. destruct H as [S R]. auto.
Qed.

Lemma sorted_filter {A : Type} (R : A -> A -> Prop) (f : A -> bool)
  (l : list A) :
  StronglySorted R l -> StronglySorted R (filter f l).
Proof.
  induction 1 as [|x l _ IH F]; cbn [filter]; [constructor|].
  destruct (f x); [|exact IH]. constructor; [exact IH|].
  rewrite Forall_forall in F |- *. intros y Hy. apply filter_In in Hy.
  apply F, Hy.
Qed.

Lemma alerts_sorted (thresholds : AlertThresholds)
  (bottlenecks : list BottleneckDetection.BottleneckDetection)
  (utilization : list Optimization.Utilization) :
  StronglySorted
    (fun a b =>
       (severityOrder (severity b) <= severityOrder (severity a))%Z)
    (getAllAlerts thresholds bottlenecks utilization).
Proof.
  unfold getAllAlerts.
  apply (CapacityFacts.sorted_weaken
           (ArrayFacts.descendingBy
              (fun a => of_Z (severityOrder (severity a))))).
  - intros a b H. unfold ArrayFacts.descendingBy in H.
    rewrite NumFacts.geb_of_Z in H. apply Z.leb_le, H.
  - apply (@ArrayFacts.sort_descending _
             (fun a => of_Z (severityOrder (severity a)))).
    rewrite Forall_forall. intros a _. exact I.
Qed.

Lemma bottleneckAlertsOf_length (thresholds : AlertThresholds)
  (b : BottleneckDetection.BottleneckDetection) :
  (List.length (bottleneckAlertsOf thresholds b) <= 2)%nat.
Proof.
  unfold bottleneckAlertsOf. rewrite length_app.
  destruct (BottleneckDetection.overallImpactScore b >=? _)%num;
    destruct (BottleneckDetection.timeDeviation b >=? _)%num; cbn; lia.
Qed.

Lemma capacityAlertsOf_length (thresholds : AlertThresholds)
  (u : Optimization.Utilization) :
  (List.length (capacityAlertsOf thresholds u) <= 2)%nat.
Proof.
  unfold capacityAlertsOf. rewrite length_app.
  destruct (Optimization.bedUtilization u >=? bedUtilizationCritical _)%num;
    [|destruct (Optimization.bedUtilization u
                >=? bedUtilizationWarning _)%num];
    destruct (Optimization.staffUtilization u >? _)%num; cbn; lia.
Qed.

Lemma readmissionAlertsOf_length (thresholds : AlertThresholds)
  (b : BottleneckDetection.BottleneckDetection) :
  (List.length (readmissionAlertsOf thresholds b) <= 1)%nat.
Proof.
  unfold readmissionAlertsOf. destruct (_ >=? _)%num; cbn; lia.
Qed.

End AlertFacts.

(** X28: the alerts of getAllAlerts are ordered from critical to warning
    to info, and so are the alerts of one unit that getAlertsByDepartment
    selects from them.  Under the default thresholds no alert has severity
    info: the branch that assigns it needs an impact score below 60, which
    the threshold of 60 excludes.  Every alert is raised by a bottleneck or
    by a utilization entry given to the call, with the metric that passed
    its threshold; the staff alert is raised above 10 patients per staff
    and reports a threshold of 8.  A bottleneck raises at most three alerts
    and a utilization entry at most two. *)
Theorem default_alerts_are_ranked_and_never_informational
  (bottlenecks : list BottleneckDetection.BottleneckDetection)
  (utilization : list Optimization.Utilization) :
  let alerts :=
    Alerts.getAllAlerts Alerts.DEFAULT_THRESHOLDS bottlenecks utilization in
  let ranked :=
    fun a b =>
      (Alerts.severityOrder (Alerts.severity b)
       <= Alerts.severityOrder (Alerts.severity a))%Z in
  StronglySorted ranked alerts
  /\ (forall unit,
        StronglySorted ranked (Alerts.getAlertsByDepartment alerts unit))
  /\ Forall
       (fun a =>
          Alerts.severity a <> Alerts.info
          /\ AlertFacts.raised bottlenecks utilization a)
       alerts
  /\ (List.length alerts
      <= 3 * List.length bottlenecks + 2 * List.length utilization)%nat.
Proof.
  intros alerts ranked.
  assert (S : StronglySorted ranked alerts) by apply AlertFacts.alerts_sorted.
  split; [exact S|]. split; [|split].
  - intro unit. apply AlertFacts.sorted_filter, S.
  - rewrite Forall_forall. intros a Ha. apply AlertFacts.alerts_In, Ha.
  - unfold alerts, Alerts.getAllAlerts.
    rewrite ArrayFacts.sort_length, !length_app.
    pose proof (PriorityFacts.flat_map_bound
                  (Alerts.bottleneckAlertsOf Alerts.DEFAULT_THRESHOLDS) 2
                  bottlenecks
                  (AlertFacts.bottleneckAlertsOf_length _)) as B.
    pose proof (PriorityFacts.flat_map_bound
                  (Alerts.capacityAlertsOf Alerts.DEFAULT_THRESHOLDS) 2
                  utilization
                  (AlertFacts.capacityAlertsOf_length _)) as C.
    pose proof (PriorityFacts.flat_map_bound
                  (Alerts.readmissionAlertsOf Alerts.DEFAULT_THRESHOLDS) 1
                  bottlenecks
                  (AlertFacts.readmissionAlertsOf_length _)) as R.
    unfold Alerts.detectBottleneckAlerts, Alerts.detectCapacityAlerts,
      Alerts.detectReadmissionRiskAlerts.
    lia.
Qed.
